(** * EROFS VLE read path (fs/erofs/unzip_vle.c): a shallow embedding

    The development follows the source file from the bottom up:
    - [Resolver]: the extent index resolver, [vle_get_logical_extent_head]
      and [z_erofs_map_blocks_iter];
    - [Claim]: [try_to_claim_workgroup], the compare-and-swap protocol on a
      workgroup's [next] field;
    - [Llen]: the compare-and-swap maximum loop of
      [z_erofs_vle_work_iter_begin] on a workgroup's [llen];
    - [Reclaim]: the two cache reclaim callbacks,
      [erofs_try_to_free_all_cached_pages] and
      [erofs_try_to_free_cached_page];
    - [Unzip]: one decompression pass, [z_erofs_vle_unzip];
    - [Read]: [z_erofs_do_read_page] and
      [z_erofs_vle_normalaccess_readpage].

    Pages and workgroups live in a store indexed by address, together with
    the log of the calls made to helpers that this file does not define.

    Machine integers are [Z] with their wrap-around written out.  Debug-only
    assertions ([DBG_BUGON]) are compiled out, as in a production build; they
    are quoted in comments where they document a precondition.  [BUG_ON] is
    kept: it is an outcome of its own. *)

From Stdlib Require Import ZArith List Lia Bool.
From Stdlib Require Import Strings.Byte.
From stdpp Require Import base tactics option list gmap.

Local Open Scope Z_scope.

(** ** Machine integers *)

Definition wrap (w x : Z) : Z := x mod 2 ^ w.
Definition u16 := wrap 16.
Definition u32 := wrap 32.
Definition u64 := wrap 64.

(** Linux errno values used by this file. *)
Definition EIO : Z := 5.
Definition ENOMEM : Z := 12.
Definition EAGAIN : Z := 11.
Definition EBUSY : Z := 16.
Definition ENOTSUPP : Z := 524.

(** ** On-disk cluster index records *)

Definition byte_unsigned (b : byte) : Z := Z.of_N (Byte.to_N b).

Definition le16_to_cpu (b0 b1 : byte) : Z :=
  byte_unsigned b0 + 256 * byte_unsigned b1.

Definition le32_to_cpu (b0 b1 b2 b3 : byte) : Z :=
  le16_to_cpu b0 b1 + 65536 * le16_to_cpu b2 b3.

(** struct z_erofs_vle_decompressed_index, fields already converted to CPU
    byte order.  The four bytes of the union [di_u] are kept as one word:
    [di_u.blkaddr] is the whole word and [di_u.delta[0]] its first
    little-endian half. *)
Record z_erofs_vle_decompressed_index := mk_di {
  di_advise : Z;
  di_clusterofs : Z;
  di_u : Z
}.

Definition di_u_blkaddr (di : z_erofs_vle_decompressed_index) : Z := di_u di.
Definition di_u_delta0 (di : z_erofs_vle_decompressed_index) : Z :=
  Z.land (di_u di) 65535.

(** sizeof(struct z_erofs_vle_decompressed_index): 2 + 2 + 4 bytes. *)
Definition sizeof_di : Z := 8.

(** A metadata page as [erofs_get_meta_page] returns it: its page index and
    the bytes seen through [kmap_atomic]. *)
Record meta_page := mk_meta_page {
  mpage_index : Z;
  mpage_kaddr : Z -> byte
}.

(** [di = kaddr + blkoff]: the record stored at byte offset [off]. *)
Definition read_di (kaddr : Z -> byte) (off : Z) : z_erofs_vle_decompressed_index :=
  {| di_advise := le16_to_cpu (kaddr off) (kaddr (off + 1));
     di_clusterofs := le16_to_cpu (kaddr (off + 2)) (kaddr (off + 3));
     di_u := le32_to_cpu (kaddr (off + 4)) (kaddr (off + 5))
                         (kaddr (off + 6)) (kaddr (off + 7)) |}.

(** The constants that unzip_vle.c takes from its headers (erofs_fs.h,
    internal.h) and from the kernel configuration. *)
Record erofs_defs := mk_defs {
  Z_EROFS_VLE_DI_CLUSTER_TYPE_BIT : Z;
  Z_EROFS_VLE_DI_CLUSTER_TYPE_BITS : Z;
  Z_EROFS_VLE_CLUSTER_TYPE_PLAIN : Z;
  Z_EROFS_VLE_CLUSTER_TYPE_HEAD : Z;
  Z_EROFS_VLE_CLUSTER_TYPE_NONHEAD : Z;
  Z_EROFS_VLE_CLUSTER_TYPE_HUAWEI_COMPAT : Z;
  EROFS_MAP_MAPPED : Z;
  EROFS_MAP_ZIPPED : Z;
  LOG_BLOCK_SIZE : Z;
  CONFIG_EROFS_FS_HUAWEI_EXTENSION : bool
}.

(** What the resolver reads of an inode: [i_size], the inode's byte address
    [iloc(sbi, vi->nid)], and the offset of its first index record,
    [Z_EROFS_VLE_EXTENT_ALIGN(inode_isize + xattr_isize) +
     sizeof(struct erofs_extent_header)]. *)
Record inode := mk_inode {
  i_size : Z;
  i_iloc : Z;
  i_extent_start : Z
}.

(** struct erofs_map_blocks *)
Record erofs_map_blocks := mk_map {
  m_pa : Z;
  m_la : Z;
  m_plen : Z;
  m_llen : Z;
  m_flags : Z
}.

(** The labels of the two [switch (cluster_type)] statements. *)
Inductive cluster_type :=
| CT_PLAIN
| CT_HEAD
| CT_NONHEAD
| CT_HUAWEI_COMPAT
| CT_DEFAULT.

(** What [vle_get_logical_extent_head] leaves behind: its return value,
    [*ctx->mpage_ret], and the three locations it writes through pointers. *)
Record extent_head := mk_extent_head {
  eh_err : Z;
  eh_mpage : option meta_page;
  eh_ofs : Z;
  eh_pblk : Z;
  eh_flags : Z
}.

Module Resolver.
Section WithSuperblock.

Variable defs : erofs_defs.
(** [EROFS_I_SB(inode)->clusterbits] *)
Variable clusterbits : Z.
(** [erofs_get_meta_page(sb, mblk, false)]: a page, or [inl err] for
    [ERR_PTR(err)]. *)
Variable erofs_get_meta_page : Z -> Z + meta_page.

Definition clustersize : Z := u32 (Z.shiftl 1 clusterbits).

(** #define __vle_cluster_advise(x, bit, bits) *)
Definition __vle_cluster_advise (x bit bits : Z) : Z :=
  Z.land (Z.shiftr x bit) (Z.shiftl 1 bits - 1).

Definition vle_cluster_type (di : z_erofs_vle_decompressed_index) : Z :=
  __vle_cluster_advise (di_advise di)
    (Z_EROFS_VLE_DI_CLUSTER_TYPE_BIT defs) (Z_EROFS_VLE_DI_CLUSTER_TYPE_BITS defs).

(** The case label a [switch] on a cluster type value selects.  The
    HUAWEI_COMPAT label exists only under CONFIG_EROFS_FS_HUAWEI_EXTENSION. *)
Definition switch_cluster_type (t : Z) : cluster_type :=
  if t =? Z_EROFS_VLE_CLUSTER_TYPE_NONHEAD defs then CT_NONHEAD
  else if t =? Z_EROFS_VLE_CLUSTER_TYPE_PLAIN defs then CT_PLAIN
  else if t =? Z_EROFS_VLE_CLUSTER_TYPE_HEAD defs then CT_HEAD
  else if CONFIG_EROFS_FS_HUAWEI_EXTENSION defs
          && (t =? Z_EROFS_VLE_CLUSTER_TYPE_HUAWEI_COMPAT defs) then CT_HUAWEI_COMPAT
  else CT_DEFAULT.

(** #define vle_huawei_compat_previous_clusters(clustersize, di) *)
Definition vle_huawei_compat_previous_clusters
    (di : z_erofs_vle_decompressed_index) : Z :=
  Z.lor (di_clusterofs di / clustersize)
        (Z.shiftl (__vle_cluster_advise (di_advise di) 4 4) 4).

(** [inr clusterofs] on return 0, [inl err] otherwise. *)
Definition vle_decompressed_index_clusterofs
    (di : z_erofs_vle_decompressed_index) : Z + Z :=
  match switch_cluster_type (vle_cluster_type di) with
  | CT_NONHEAD => inr clustersize
  | CT_HUAWEI_COMPAT =>
      if negb (vle_huawei_compat_previous_clusters di =? 0) then inr clustersize
      else inr (di_clusterofs di)
  | CT_PLAIN | CT_HEAD => inr (di_clusterofs di)
  | CT_DEFAULT => inl (- EIO)
  end.

(** The byte address of the index record of logical cluster [index]; [ofs]
    is an [unsigned]. *)
Definition vle_extent_addr (ino : inode) (index : Z) : Z :=
  u64 (i_iloc ino + u32 (i_extent_start ino + index * sizeof_di)).

Definition vle_extent_blkaddr (ino : inode) (index : Z) : Z :=
  u32 (Z.shiftr (vle_extent_addr ino index) (LOG_BLOCK_SIZE defs)).

Definition vle_extent_blkoff (ino : inode) (index : Z) : Z :=
  Z.land (vle_extent_addr ino index) (Z.shiftl 1 (LOG_BLOCK_SIZE defs) - 1).

(** The head of [vle_get_logical_extent_head]: keep the mapped metadata page
    when it is the block of [lcn], fetch the block otherwise. *)
Definition switch_meta_page (ino : inode) (mpage : meta_page) (lcn : Z)
    : Z + meta_page :=
  let mblk := vle_extent_blkaddr ino lcn in
  if mpage_index mpage =? mblk then inr mpage else erofs_get_meta_page mblk.

(** [vle_get_logical_extent_head(ctx, lcn, &ofs, &pblk, &flags)].  [fuel]
    bounds the depth of the recursion; [None] is "out of fuel". *)
Fixpoint vle_get_logical_extent_head (fuel : nat) (ino : inode)
    (mpage : meta_page) (lcn ofs pblk flags : Z) : option extent_head :=
  match fuel with
  | O => None
  | S fuel' =>
    match switch_meta_page ino mpage lcn with
    | inl err => Some (mk_extent_head err None ofs pblk flags)
    | inr mpage =>
      let di := read_di (mpage_kaddr mpage) (vle_extent_blkoff ino lcn) in
      let head (lcn flags : Z) :=
        Some (mk_extent_head 0 (Some mpage)
                (u64 (Z.shiftl lcn clusterbits
                      + Z.land (di_clusterofs di) (clustersize - 1)))
                (di_u_blkaddr di) flags) in
      let compat (lcn flags : Z) :=
        if CONFIG_EROFS_FS_HUAWEI_EXTENSION defs
        then head (u32 (lcn - vle_huawei_compat_previous_clusters di)) flags
        else head lcn flags in
      match switch_cluster_type (vle_cluster_type di) with
      | CT_NONHEAD =>
          let delta0 := di_u_delta0 di in
          if (delta0 =? 0) || (lcn <? delta0)
          then Some (mk_extent_head (- EIO) (Some mpage) ofs pblk flags)
          else vle_get_logical_extent_head fuel' ino mpage (lcn - delta0)
                 ofs pblk flags
      | CT_PLAIN => compat lcn (Z.lxor flags (EROFS_MAP_ZIPPED defs))
      | CT_HUAWEI_COMPAT => compat lcn flags
      | CT_HEAD => head lcn flags
      | CT_DEFAULT => Some (mk_extent_head (- EIO) (Some mpage) ofs pblk flags)
      end
    end
  end.

(** The record the walk decodes at [lcn] once [mpage] is the mapped page. *)
Definition walk_record (ino : inode) (mpage : meta_page) (lcn : Z)
    : z_erofs_vle_decompressed_index :=
  read_di (mpage_kaddr mpage) (vle_extent_blkoff ino lcn).

(** The condition of the NONHEAD case: [!delta0 || delta0 > lcn]. *)
Definition nonhead_delta_invalid (lcn : Z)
    (di : z_erofs_vle_decompressed_index) : Prop :=
  switch_cluster_type (vle_cluster_type di) = CT_NONHEAD /\
  (di_u_delta0 di = 0 \/ lcn < di_u_delta0 di).

Definition nonhead_delta_valid (lcn : Z)
    (di : z_erofs_vle_decompressed_index) : Prop :=
  switch_cluster_type (vle_cluster_type di) = CT_NONHEAD /\
  di_u_delta0 di <> 0 /\ di_u_delta0 di <= lcn.

(** [walk_visits ino mpage lcn mpage' lcn']: a call entered at [lcn] with
    [mpage] mapped decodes, itself or in one of its recursive calls, the
    record of [lcn'], with [mpage'] mapped at that point. *)
Inductive walk_visits (ino : inode)
    : meta_page -> Z -> meta_page -> Z -> Prop :=
| visits_here mpage lcn mpage' :
    switch_meta_page ino mpage lcn = inr mpage' ->
    walk_visits ino mpage lcn mpage' lcn
| visits_next mpage lcn mpage1 mpage' lcn' :
    switch_meta_page ino mpage lcn = inr mpage1 ->
    nonhead_delta_valid lcn (walk_record ino mpage1 lcn) ->
    walk_visits ino mpage1
      (lcn - di_u_delta0 (walk_record ino mpage1 lcn)) mpage' lcn' ->
    walk_visits ino mpage lcn mpage' lcn'.

(** The recursion depth [z_erofs_map_blocks_iter] allows the walk: one call
    for each logical cluster number from [lcn] down to 0. *)
Definition walk_fuel (lcn : Z) : nat := S (Z.to_nat lcn).

(** #define blknr_to_addr(nr) ((erofs_off_t)(nr) * EROFS_BLKSIZ) *)
Definition blknr_to_addr (nr : Z) : Z := u64 (Z.shiftl nr (LOG_BLOCK_SIZE defs)).

(** What [z_erofs_map_blocks_iter] leaves behind: its return value, [*map]
    and [*mpage_ret]. *)
Record map_result := mk_map_result {
  mr_err : Z;
  mr_map : erofs_map_blocks;
  mr_mpage : option meta_page
}.

(** From label [exact_hitted] to the return. *)
Definition exact_hitted (map : erofs_map_blocks) (mpage : option meta_page)
    (la ofs end_ pblk flags : Z) : map_result :=
  mk_map_result 0
    {| m_pa := blknr_to_addr pblk;
       m_la := la;
       m_plen := clustersize;
       m_llen := u64 (end_ - ofs);
       m_flags := Z.lor flags (EROFS_MAP_MAPPED defs) |}
    mpage.

(** An error return that leaves [map] as it is but for [m_flags]. *)
Definition map_failed (err : Z) (map : erofs_map_blocks)
    (mpage : option meta_page) (flags : Z) : map_result :=
  mk_map_result err
    {| m_pa := m_pa map; m_la := m_la map; m_plen := m_plen map;
       m_llen := m_llen map; m_flags := flags |}
    mpage.

(** From label [nonhead] to the return. *)
Definition nonhead (ino : inode) (map : erofs_map_blocks) (mpage : meta_page)
    (lcn ofs end_ flags : Z) : option map_result :=
  match vle_get_logical_extent_head (walk_fuel lcn) ino mpage lcn ofs 0 flags with
  | None => None
  | Some eh =>
      if negb (eh_err eh =? 0)
      then Some (map_failed (eh_err eh) map (eh_mpage eh) (eh_flags eh))
      else
        Some (exact_hitted map (eh_mpage eh) (eh_ofs eh) (eh_ofs eh) end_
                (eh_pblk eh) (eh_flags eh))
  end.

(** [case Z_EROFS_VLE_CLUSTER_TYPE_HEAD] of the initial switch. *)
Definition head_case (ino : inode) (map : erofs_map_blocks) (mpage : meta_page)
    (di : z_erofs_vle_decompressed_index)
    (lcn ofs ofs_rem logical_cluster_ofs end_ flags : Z) : option map_result :=
  if ofs_rem =? logical_cluster_ofs then
    Some (exact_hitted map (Some mpage) (m_la map) ofs end_ (di_u_blkaddr di) flags)
  else if logical_cluster_ofs <? ofs_rem then
    let ofs := Z.lor (u64 (lcn * clustersize)) logical_cluster_ofs in
    Some (exact_hitted map (Some mpage) ofs ofs end_ (di_u_blkaddr di) flags)
  else if lcn =? 0 then
    Some (map_failed (- EIO) map (Some mpage) flags)
  else
    nonhead ino map mpage (u32 (lcn - 1)) ofs
      (Z.lor (u64 (lcn * clustersize)) logical_cluster_ofs) flags.

(** [case Z_EROFS_VLE_CLUSTER_TYPE_HUAWEI_COMPAT] of the initial switch, which
    PLAIN falls through to; without the extension only the fall-through to
    HEAD is left. *)
Definition compat_case (ino : inode) (map : erofs_map_blocks) (mpage : meta_page)
    (di : z_erofs_vle_decompressed_index)
    (lcn ofs ofs_rem logical_cluster_ofs end_ flags : Z) : option map_result :=
  if CONFIG_EROFS_FS_HUAWEI_EXTENSION defs
     && negb (vle_huawei_compat_previous_clusters di =? 0)
  then nonhead ino map mpage (u32 (lcn - 1)) ofs (u64 ((lcn + 1) * clustersize)) flags
  else head_case ino map mpage di lcn ofs ofs_rem logical_cluster_ofs end_ flags.

(** The initial-mode part of [z_erofs_map_blocks_iter], from
    [map->m_flags |= EROFS_MAP_ZIPPED] on, for the record [di] found at
    [lcn]. *)
Definition map_blocks_decode (ino : inode) (map : erofs_map_blocks)
    (mpage : meta_page) (di : z_erofs_vle_decompressed_index)
    (lcn ofs ofs_rem logical_cluster_ofs : Z) : option map_result :=
  let flags := Z.lor (m_flags map) (EROFS_MAP_ZIPPED defs) in
  let end_ := u64 ((lcn + 1) * clustersize) in
  match switch_cluster_type (vle_cluster_type di) with
  | CT_PLAIN =>
      let flags :=
        if logical_cluster_ofs <=? ofs_rem
        then Z.lxor flags (EROFS_MAP_ZIPPED defs) else flags in
      compat_case ino map mpage di lcn ofs ofs_rem logical_cluster_ofs end_ flags
  | CT_HUAWEI_COMPAT =>
      compat_case ino map mpage di lcn ofs ofs_rem logical_cluster_ofs end_ flags
  | CT_HEAD =>
      head_case ino map mpage di lcn ofs ofs_rem logical_cluster_ofs end_ flags
  | CT_NONHEAD => nonhead ino map mpage lcn ofs end_ flags
  | CT_DEFAULT => Some (map_failed (- EIO) map (Some mpage) flags)
  end.

(** [ofs = map->m_la + map->m_llen; lcn = ofs >> ctx.clusterbits]. *)
Definition map_blocks_ofs (map : erofs_map_blocks) : Z :=
  u64 (m_la map + m_llen map).

Definition map_blocks_lcn (map : erofs_map_blocks) : Z :=
  u32 (Z.shiftr (map_blocks_ofs map) clusterbits).

Definition map_blocks_ofs_rem (map : erofs_map_blocks) : Z :=
  u32 (Z.land (map_blocks_ofs map) (clustersize - 1)).

(** The metadata page [z_erofs_map_blocks_iter] decodes from: the page the
    caller holds when it is the block of [lcn], a fetched one otherwise. *)
Definition map_blocks_meta_page (ino : inode) (mpage_ret : option meta_page)
    (lcn : Z) : Z + meta_page :=
  let mblk := vle_extent_blkaddr ino lcn in
  match mpage_ret with
  | Some mpage =>
      if mpage_index mpage =? mblk then inr mpage
      else erofs_get_meta_page mblk
  | None => erofs_get_meta_page mblk
  end.

(** [z_erofs_map_blocks_iter(inode, map, mpage_ret, flags)]. *)
Definition z_erofs_map_blocks_iter (ino : inode) (map : erofs_map_blocks)
    (mpage_ret : option meta_page) : option map_result :=
  let initial := m_llen map =? 0 in
  if u64 (i_size ino) <=? m_la map then
    (* DBG_BUGON(!initial) *)
    Some (mk_map_result 0
            {| m_pa := m_pa map;
               m_la := u64 (i_size ino);
               m_plen := m_plen map;
               m_llen := u64 (m_la map + 1 - u64 (i_size ino));
               m_flags := 0 |}
            mpage_ret)
  else
    let ofs := map_blocks_ofs map in
    let lcn := map_blocks_lcn map in
    let ofs_rem := map_blocks_ofs_rem map in
    match map_blocks_meta_page ino mpage_ret lcn with
    | inl err => Some (mk_map_result err map mpage_ret)
    | inr mpage =>
      let di := read_di (mpage_kaddr mpage) (vle_extent_blkoff ino lcn) in
      match vle_decompressed_index_clusterofs di with
      | inl err => Some (mk_map_result err map (Some mpage))
      | inr logical_cluster_ofs =>
        if negb initial then
          (* [walking mode] 'map' has been already initialized *)
          Some (mk_map_result 0
                  {| m_pa := m_pa map; m_la := m_la map; m_plen := m_plen map;
                     m_llen := u64 (m_llen map + logical_cluster_ofs);
                     m_flags := m_flags map |}
                  (Some mpage))
        else
          map_blocks_decode ino map mpage di lcn ofs ofs_rem logical_cluster_ofs
      end
    end.

End WithSuperblock.
End Resolver.

(** ** Workgroups: the owned chain *)

(** z_erofs_vle_owned_workgrp_t: the three sentinels, or the address of a
    workgroup. *)
Inductive z_erofs_vle_owned_workgrp_t :=
| Z_EROFS_VLE_WORKGRP_NIL
| Z_EROFS_VLE_WORKGRP_TAIL
| Z_EROFS_VLE_WORKGRP_TAIL_CLOSED
| WORKGRP (grp : positive).

#[global] Instance z_erofs_vle_owned_workgrp_t_eq_dec :
  EqDecision z_erofs_vle_owned_workgrp_t.
Proof. solve_decision. Defined.

(** enum z_erofs_vle_work_role, in the order of the enumeration. *)
Inductive z_erofs_vle_work_role :=
| Z_EROFS_VLE_WORK_SECONDARY
| Z_EROFS_VLE_WORK_PRIMARY
| Z_EROFS_VLE_WORK_PRIMARY_TERMINAL
| Z_EROFS_VLE_WORK_PRIMARY_FOLLOWED.

#[global] Instance z_erofs_vle_work_role_eq_dec : EqDecision z_erofs_vle_work_role.
Proof. solve_decision. Defined.

Definition role_rank (r : z_erofs_vle_work_role) : nat :=
  match r with
  | Z_EROFS_VLE_WORK_SECONDARY => 0
  | Z_EROFS_VLE_WORK_PRIMARY => 1
  | Z_EROFS_VLE_WORK_PRIMARY_TERMINAL => 2
  | Z_EROFS_VLE_WORK_PRIMARY_FOLLOWED => 3
  end.

Module Claim.

(** What [try_to_claim_workgroup] reads and writes: the shared [grp->next],
    and the caller's own [*owned_head] and [*hosted]. *)
Record claim_state := mk_claim {
  next : z_erofs_vle_owned_workgrp_t;
  owned_head : z_erofs_vle_owned_workgrp_t;
  hosted : bool
}.

(** What the other threads do to [grp->next] between two accesses of the
    caller. *)
Definition interference : Type :=
  z_erofs_vle_owned_workgrp_t -> z_erofs_vle_owned_workgrp_t.

(** The value of [grp->next] once the interferences [env] have happened, in
    order. *)
Definition interfere (env : list interference)
    (v : z_erofs_vle_owned_workgrp_t) : z_erofs_vle_owned_workgrp_t :=
  fold_left (fun v e => e v) env v.

(** The caller's next access to [grp->next]: the value it finds, and the
    interferences still to come. *)
Definition access (env : list interference) (v : z_erofs_vle_owned_workgrp_t)
    : z_erofs_vle_owned_workgrp_t * list interference :=
  match env with
  | [] => (v, [])
  | e :: env' => (e v, env')
  end.

(** [cmpxchg(ptr, old, new)] on a cell holding [cur]: the value returned and
    the value left in the cell. *)
Definition cmpxchg (cur old new : z_erofs_vle_owned_workgrp_t)
    : z_erofs_vle_owned_workgrp_t * z_erofs_vle_owned_workgrp_t :=
  if decide (cur = old) then (cur, new) else (cur, cur).

(** [try_to_claim_workgroup(grp, owned_head, hosted)] for the workgroup at
    address [grp].  [fuel] bounds the number of passes through [retry];
    the result carries the interferences not yet consumed. *)
Fixpoint try_to_claim_workgroup (fuel : nat) (grp : positive)
    (env : list interference) (st : claim_state)
    : option (z_erofs_vle_work_role * claim_state * list interference) :=
  (* DBG_BUGON( *hosted == true) *)
  match fuel with
  | O => None
  | S fuel' =>
    let '(v1, env1) := access env (next st) in
    if decide (v1 = Z_EROFS_VLE_WORKGRP_NIL) then
      (* type 1, nil workgroup *)
      let '(v2, env2) := access env1 v1 in
      let '(old, cell) := cmpxchg v2 Z_EROFS_VLE_WORKGRP_NIL (owned_head st) in
      if decide (Z_EROFS_VLE_WORKGRP_NIL <> old) then
        try_to_claim_workgroup fuel' grp env2
          (mk_claim cell (owned_head st) (hosted st))
      else
        Some (Z_EROFS_VLE_WORK_PRIMARY_FOLLOWED,
              mk_claim cell (WORKGRP grp) true, env2)
    else
      let '(v2, env2) := access env1 v1 in
      if decide (v2 = Z_EROFS_VLE_WORKGRP_TAIL) then
        (* type 2, link to the end of a existing open chain *)
        let '(v3, env3) := access env2 v2 in
        let '(old, cell) := cmpxchg v3 Z_EROFS_VLE_WORKGRP_TAIL (owned_head st) in
        if decide (Z_EROFS_VLE_WORKGRP_TAIL <> old) then
          try_to_claim_workgroup fuel' grp env3
            (mk_claim cell (owned_head st) (hosted st))
        else
          Some (Z_EROFS_VLE_WORK_PRIMARY_TERMINAL,
                mk_claim cell Z_EROFS_VLE_WORKGRP_TAIL (hosted st), env3)
      else
        Some (Z_EROFS_VLE_WORK_PRIMARY,
              mk_claim v2 (owned_head st) (hosted st), env2)
  end.

(** The postcondition of a claim: [v] is the value of [grp->next] the
    caller's last access found. *)
Definition claimed (grp : positive) (st : claim_state)
    (v : z_erofs_vle_owned_workgrp_t) (role : z_erofs_vle_work_role)
    (st' : claim_state) : Prop :=
  match role with
  | Z_EROFS_VLE_WORK_PRIMARY_FOLLOWED =>
      v = Z_EROFS_VLE_WORKGRP_NIL /\
      st' = mk_claim (owned_head st) (WORKGRP grp) true
  | Z_EROFS_VLE_WORK_PRIMARY_TERMINAL =>
      v = Z_EROFS_VLE_WORKGRP_TAIL /\
      st' = mk_claim (owned_head st) Z_EROFS_VLE_WORKGRP_TAIL (hosted st)
  | Z_EROFS_VLE_WORK_PRIMARY =>
      v <> Z_EROFS_VLE_WORKGRP_TAIL /\
      st' = mk_claim v (owned_head st) (hosted st)
  | Z_EROFS_VLE_WORK_SECONDARY => False
  end.

End Claim.

(** ** Workgroups: the decompressed length *)

Module Llen.

(** Where a caller of [z_erofs_vle_work_iter_begin] stands in the loop
    [while ((orig_llen = READ_ONCE(grp->llen)) < map->m_llen &&
            orig_llen != cmpxchg_relaxed(&grp->llen, orig_llen, map->m_llen))
       cpu_relax();] *)
Inductive loop_pc :=
| AtRead
| AtCmpxchg (orig_llen : Z)
| AtGotIt.

(** A caller that found the workgroup: its [map->m_llen] (64 bits) and its
    place in the loop. *)
Record joiner := mk_joiner {
  j_m_llen : Z;
  j_pc : loop_pc
}.

(** The shared [grp->llen], an [unsigned int] as the [orig_llen] it is read
    into, and the callers at work on it, by thread. *)
Record llen_state := mk_llen_state {
  llen : Z;
  joiners : list joiner
}.

(** One atomic step of one caller: the new [grp->llen] and the caller's new
    place. *)
Definition joiner_step (cur : Z) (j : joiner) : Z * joiner :=
  match j_pc j with
  | AtRead =>
      let orig_llen := cur in
      if orig_llen <? j_m_llen j
      then (cur, mk_joiner (j_m_llen j) (AtCmpxchg orig_llen))
      else (cur, mk_joiner (j_m_llen j) AtGotIt)
  | AtCmpxchg orig_llen =>
      if cur =? orig_llen
      then (u32 (j_m_llen j), mk_joiner (j_m_llen j) AtGotIt)
      else (cur, mk_joiner (j_m_llen j) AtRead)
  | AtGotIt => (cur, j)
  end.

(** Any thread may take the next step. *)
Inductive llen_step : llen_state -> llen_state -> Prop :=
| llen_step_thread s tid j :
    joiners s !! tid = Some j ->
    llen_step s
      (mk_llen_state (joiner_step (llen s) j).1
                     (<[tid := (joiner_step (llen s) j).2]> (joiners s))).

(** [grp->llen = map->m_llen] in [z_erofs_vle_work_register]. *)
Definition work_register_llen (map : erofs_map_blocks) : Z := u32 (m_llen map).

(** The loop run by one caller with nobody else at work: read, then compare
    and swap. *)
Definition join_alone (cur : Z) (map : erofs_map_blocks) : Z :=
  let '(cur1, j1) := joiner_step cur (mk_joiner (m_llen map) AtRead) in
  (joiner_step cur1 j1).1.

(** What the loop keeps true of a caller while [grp->llen] is [cur]: its
    mapping length fits the 32-bit [llen]; between its read and its
    compare-and-swap the value it read is below its own length; once out of
    the loop, [llen] is at least its own length. *)
Definition joiner_ok (cur : Z) (j : joiner) : Prop :=
  0 <= j_m_llen j < 2 ^ 32 /\
  match j_pc j with
  | AtRead => True
  | AtCmpxchg orig_llen => orig_llen < j_m_llen j
  | AtGotIt => j_m_llen j <= cur
  end.

Definition llen_inv (s : llen_state) : Prop :=
  Forall (joiner_ok (llen s)) (joiners s).

(** Callers at the head of the loop, with lengths that fit [llen]. *)
Definition joiner_enters (j : joiner) : Prop :=
  j_pc j = AtRead /\ 0 <= j_m_llen j < 2 ^ 32.

End Llen.

(** ** Pages, workgroups and what a call can end in *)

(** How a call ends: it returns; it runs into [BUG()] or a failed [BUG_ON];
    it dereferences a pointer that is no page and no workgroup, or indexes an
    array out of bounds; it goes to sleep on a lock held by someone else; or
    the model's bound on loop passes is reached. *)
Inductive outcome (A : Type) : Type :=
| Ok (a : A)
| Bug
| Fault
| Sleeps
| OutOfFuel.
Arguments Ok {A} a.
Arguments Bug {A}.
Arguments Fault {A}.
Arguments Sleeps {A}.
Arguments OutOfFuel {A}.

#[global] Instance outcome_ret : MRet outcome := @Ok.
#[global] Instance outcome_bind : MBind outcome := fun A B f x =>
  match x with
  | Ok a => f a
  | Bug => Bug
  | Fault => Fault
  | Sleeps => Sleeps
  | OutOfFuel => OutOfFuel
  end.

(** [page->mapping]: NULL, one of the two marker values of unzip_vle.h, the
    managed cache [MNGD_MAPPING(sbi)], or the page cache of a file. *)
Inductive address_space :=
| MAPPING_NULL
| Z_EROFS_MAPPING_STAGING
| Z_EROFS_MAPPING_PREALLOCATED
| MNGD_MAPPING
| FILE_MAPPING (host : Z).

#[global] Instance address_space_eq_dec : EqDecision address_space.
Proof. solve_decision. Defined.

(** struct page, as far as this file reads and writes it. *)
Record struct_page := mk_page {
  pg_mapping : address_space;
  pg_index : Z;
  PG_locked : bool;
  PG_uptodate : bool;
  PG_error : bool;
  PG_private : bool;
  pg_private : Z;
  pg_refcount : Z
}.

(** enum z_erofs_page_type *)
Inductive z_erofs_page_type :=
| Z_EROFS_PAGE_TYPE_EXCLUSIVE
| Z_EROFS_VLE_PAGE_TYPE_TAIL_SHARED
| Z_EROFS_VLE_PAGE_TYPE_HEAD.

#[global] Instance z_erofs_page_type_eq_dec : EqDecision z_erofs_page_type.
Proof. solve_decision. Defined.

Inductive z_erofs_vle_workgrp_fmt :=
| Z_EROFS_VLE_WORKGRP_FMT_PLAIN
| Z_EROFS_VLE_WORKGRP_FMT_LZ4.

(** struct z_erofs_vle_work.  [work_lock] is true while the mutex is held.
    [work_pagevec] holds the [vcnt] entries of the page vector, in the order
    they were enqueued. *)
Record z_erofs_vle_work := mk_work {
  work_lock : bool;
  work_pageofs : Z;
  work_nr_pages : Z;
  work_pagevec : list (Z * z_erofs_page_type)
}.

(** struct z_erofs_vle_workgroup.  A slot of [compressed_pages] holds a
    pointer: 0 is NULL. *)
Record z_erofs_vle_workgroup := mk_workgroup {
  grp_index : Z;
  grp_refcount : Z;
  grp_work : z_erofs_vle_work;
  grp_next : z_erofs_vle_owned_workgrp_t;
  grp_compressed_pages : list Z;
  grp_llen : Z;
  grp_fmt : z_erofs_vle_workgrp_fmt
}.

(** #define PAGE_MIGRATE_LOCKED ((void * )0x5F10C10C) *)
Definition PAGE_MIGRATE_LOCKED : Z := 0x5F10C10C.

(** The calls into the decompressors and the online-page helpers of
    unzip_vle.h, in the order they are made. *)
Inductive event :=
| z_erofs_onlinepage_init (page : Z)
| z_erofs_onlinepage_fixup (page index : Z) (down : bool)
| z_erofs_onlinepage_endio (page : Z)
| zero_user_segment (page from to : Z)
| z_erofs_vle_plain_copy
| z_erofs_vle_unzip_fast_percpu
| z_erofs_vle_unzip_vmap
| z_erofs_submit_and_unzip (owned_head : z_erofs_vle_owned_workgrp_t) (force_fg : bool).

(** The memory the calls work on: pages and workgroups by address, and the
    calls made so far. *)
Record mm := mk_mm {
  pages : gmap Z struct_page;
  grps : gmap Z z_erofs_vle_workgroup;
  log : list event
}.

Definition deref_page (m : mm) (p : Z) : outcome struct_page :=
  match pages m !! p with
  | Some pg => Ok pg
  | None => Fault
  end.

Definition deref_grp (m : mm) (g : Z) : outcome z_erofs_vle_workgroup :=
  match grps m !! g with
  | Some grp => Ok grp
  | None => Fault
  end.

Definition store_page (m : mm) (p : Z) (pg : struct_page) : mm :=
  mk_mm (<[p := pg]> (pages m)) (grps m) (log m).

Definition store_grp (m : mm) (g : Z) (grp : z_erofs_vle_workgroup) : mm :=
  mk_mm (pages m) (<[g := grp]> (grps m)) (log m).

Definition emit (m : mm) (ev : event) : mm :=
  mk_mm (pages m) (grps m) (log m ++ [ev]).

Definition with_refcount (grp : z_erofs_vle_workgroup) (v : Z)
    : z_erofs_vle_workgroup :=
  mk_workgroup (grp_index grp) v (grp_work grp) (grp_next grp)
    (grp_compressed_pages grp) (grp_llen grp) (grp_fmt grp).

Definition with_compressed_pages (grp : z_erofs_vle_workgroup) (slots : list Z)
    : z_erofs_vle_workgroup :=
  mk_workgroup (grp_index grp) (grp_refcount grp) (grp_work grp) (grp_next grp)
    slots (grp_llen grp) (grp_fmt grp).

Definition with_work (grp : z_erofs_vle_workgroup) (w : z_erofs_vle_work)
    : z_erofs_vle_workgroup :=
  mk_workgroup (grp_index grp) (grp_refcount grp) w (grp_next grp)
    (grp_compressed_pages grp) (grp_llen grp) (grp_fmt grp).

Definition with_next (grp : z_erofs_vle_workgroup)
    (v : z_erofs_vle_owned_workgrp_t) : z_erofs_vle_workgroup :=
  mk_workgroup (grp_index grp) (grp_refcount grp) (grp_work grp) v
    (grp_compressed_pages grp) (grp_llen grp) (grp_fmt grp).

Definition with_lock (w : z_erofs_vle_work) (held : bool) : z_erofs_vle_work :=
  mk_work held (work_pageofs w) (work_nr_pages w) (work_pagevec w).

(** [set_page_private(page, 0); ClearPagePrivate(page); put_page(page)] on a
    page whose lock the caller took and drops again. *)
Definition detach_cached_page (pg : struct_page) : struct_page :=
  mk_page (pg_mapping pg) (pg_index pg) false (PG_uptodate pg) (PG_error pg)
    false 0 (pg_refcount pg - 1).

(** [ClearPagePrivate(page); put_page(page)] *)
Definition release_cached_page (pg : struct_page) : struct_page :=
  mk_page (pg_mapping pg) (pg_index pg) (PG_locked pg) (PG_uptodate pg)
    (PG_error pg) false (pg_private pg) (pg_refcount pg - 1).

(** [SetPageError(page)] *)
Definition SetPageError (pg : struct_page) : struct_page :=
  mk_page (pg_mapping pg) (pg_index pg) (PG_locked pg) (PG_uptodate pg)
    true (PG_private pg) (pg_private pg) (pg_refcount pg).

(** ** Reclaim of cached compressed pages *)

Module Reclaim.
Section WithSuperblock.

(** [erofs_clusterpages(sbi)] *)
Variable clusterpages : nat.
(** The value a frozen reference count holds (internal.h). *)
Variable EROFS_LOCKED_MAGIC : Z.

(** Modelled from the spec: [erofs_workgroup_try_to_freeze] (internal.h is
    not part of the sources): "freeze succeeds only by CAS-ing the refcount
    to a sentinel locked value from the expected value, and fails (signaling
    busy) otherwise". *)
Definition erofs_workgroup_try_to_freeze (grp : z_erofs_vle_workgroup) (val : Z)
    : bool * z_erofs_vle_workgroup :=
  if grp_refcount grp =? val
  then (true, with_refcount grp EROFS_LOCKED_MAGIC)
  else (false, grp).

(** Modelled from the spec: [erofs_workgroup_unfreeze], the way back from
    the locked value to the original count. *)
Definition erofs_workgroup_unfreeze (grp : z_erofs_vle_workgroup) (orig_val : Z)
    : z_erofs_vle_workgroup :=
  with_refcount grp orig_val.

(** The loop of [erofs_try_to_free_cached_page] over the slots [todo]: the
    slot that holds [page] is cleared, and the loop left. *)
Fixpoint free_cached_page_loop (todo : list nat) (slots : list Z) (page : Z)
    : outcome (Z * list Z) :=
  match todo with
  | [] => Ok (0, slots)
  | i :: todo' =>
      match slots !! i with
      | None => Fault
      | Some v =>
          if v =? page then Ok (1, <[i := 0]> slots)
          else free_cached_page_loop todo' slots page
      end
  end.

(** [erofs_try_to_free_cached_page(mapping, page)] *)
Definition erofs_try_to_free_cached_page (m : mm) (page : Z) : outcome (Z * mm) :=
  pg ← deref_page m page;
  let g := pg_private pg in
  grp ← deref_grp m g;
  let '(frozen, grp) := erofs_workgroup_try_to_freeze grp 1 in
  if frozen then
    '(ret, slots) ← free_cached_page_loop (seq 0 clusterpages)
                      (grp_compressed_pages grp) page;
    let m := store_grp m g
               (erofs_workgroup_unfreeze (with_compressed_pages grp slots) 1) in
    if negb (ret =? 0)
    then Ok (ret, store_page m page (release_cached_page pg))
    else Ok (ret, m)
  else
    (* ret = 0: busy *)
    Ok (0, m).

Definition mutex_unlock (m : mm) (g : Z) : outcome mm :=
  grp ← deref_grp m g;
  Ok (store_grp m g (with_work grp (with_lock (grp_work grp) false))).

(** The loop of [erofs_try_to_free_all_cached_pages] over the slots [todo],
    entered with the work's mutex held, up to the return. *)
Fixpoint free_all_cached_pages_loop (todo : list nat) (g : Z) (m : mm)
    : outcome (Z * mm) :=
  match todo with
  | [] =>
      m ← mutex_unlock m g;
      Ok (0, m)
  | i :: todo' =>
      grp ← deref_grp m g;
      match grp_compressed_pages grp !! i with
      | None => Fault
      | Some page =>
          if page =? 0 then free_all_cached_pages_loop todo' g m
          else
            pg ← deref_page m page;
            (* block other users from reclaiming or migrating the page *)
            if PG_locked pg then
              m ← mutex_unlock m g;
              Ok (- EBUSY, m)
            else
              let m := store_grp m g
                         (with_compressed_pages grp
                            (<[i := 0]> (grp_compressed_pages grp))) in
              let m := store_page m page (detach_cached_page pg) in
              free_all_cached_pages_loop todo' g m
      end
  end.

(** [erofs_try_to_free_all_cached_pages(sbi, egrp)] for the workgroup at
    address [g]. *)
Definition erofs_try_to_free_all_cached_pages (m : mm) (g : Z)
    : outcome (Z * mm) :=
  grp ← deref_grp m g;
  if work_lock (grp_work grp) then
    (* !mutex_trylock(&primary_work->lock) *)
    Ok (- EBUSY, m)
  else
    let m := store_grp m g (with_work grp (with_lock (grp_work grp) true)) in
    free_all_cached_pages_loop (seq 0 clusterpages) g m.

End WithSuperblock.

(** Every slot of [todo] exists and holds NULL or a page. *)
Definition slots_valid (todo : list nat) (m : mm) (grp : z_erofs_vle_workgroup)
    : Prop :=
  forall i, i ∈ todo ->
    exists p, grp_compressed_pages grp !! i = Some p /\
              (p = 0 \/ is_Some (pages m !! p)).

(** Some slot of [todo] holds a page that is locked. *)
Definition slot_page_locked (todo : list nat) (m : mm)
    (grp : z_erofs_vle_workgroup) : Prop :=
  exists i p pg, i ∈ todo /\ grp_compressed_pages grp !! i = Some p /\
                 p <> 0 /\ pages m !! p = Some pg /\ PG_locked pg = true.

End Reclaim.

(** ** Decompression of a workgroup *)

Module Unzip.
Section WithSuperblock.

(** [erofs_clusterpages(sbi)] *)
Variable clusterpages : nat.
(** Whether EROFS_FS_HAS_MANAGED_CACHE is defined. *)
Variable EROFS_FS_HAS_MANAGED_CACHE : bool.
Variable PAGE_SHIFT : Z.
(** [z_erofs_onlinepage_index] and [z_erofs_onlinepage_index2] (unzip_vle.h):
    the destination index kept in the page's private word. *)
Variable z_erofs_onlinepage_index : struct_page -> Z.
Variable z_erofs_onlinepage_index2 : struct_page -> Z.
(** The return values of the decompressors (unzip_vle_lz4.c), of the
    compressed pages, the destination pages, the output length and the page
    offset; [erofs_vmap] succeeds or not. *)
Variable plain_copy : list Z -> list Z -> Z -> Z.
Variable unzip_fast_percpu : list Z -> list Z -> Z -> Z -> Z.
Variable unzip_vmap : list Z -> list Z -> Z -> Z -> bool -> Z.
Variable erofs_vmap : list Z -> bool.
(** [erofs_allocpage(pool, gfp)] (utils.c): the page or NULL, what is left of
    the pool, and the memory with the page in it. *)
Variable erofs_allocpage : list Z -> mm -> Z * list Z * mm.

(** Modelled from the spec: [z_erofs_is_stagingpage] (unzip_vle.h): a
    staging page is "unmanaged, pool-owned", marked by its mapping. *)
Definition z_erofs_is_stagingpage (pg : struct_page) : bool :=
  bool_decide (pg_mapping pg = Z_EROFS_MAPPING_STAGING).

(** Modelled from the spec: [z_erofs_gather_if_stagingpage] (unzip_vle.h):
    "staging pages returned to the pool".  The result is the pool. *)
Definition z_erofs_gather_if_stagingpage (page_pool : list Z) (page : Z)
    (pg : struct_page) : list Z :=
  if z_erofs_is_stagingpage pg then page :: page_pool else page_pool.

(** [page->mapping == mngda], a test compiled in with the managed cache. *)
Definition is_cache_managed (pg : struct_page) : bool :=
  EROFS_FS_HAS_MANAGED_CACHE && bool_decide (pg_mapping pg = MNGD_MAPPING).

(** [BUG_ON(pagenr >= nr_pages); BUG_ON(pages[pagenr] != NULL);
    pages[pagenr] = page;] with [pagenr] an [unsigned]. *)
Definition place_page (pages_ : list Z) (nr_pages pagenr page : Z)
    : outcome (list Z) :=
  if nr_pages <=? pagenr then Bug
  else
    match pages_ !! Z.to_nat pagenr with
    | None => Fault
    | Some v =>
        if negb (v =? 0) then Bug
        else Ok (<[Z.to_nat pagenr := page]> pages_)
    end.

(** The loop over the page vector: the entries that are not staging pages
    go to their destination index. *)
Fixpoint gather_pagevec (pagevec : list (Z * z_erofs_page_type)) (m : mm)
    (nr_pages : Z) (pages_ : list Z) (page_pool : list Z)
    : outcome (list Z * list Z) :=
  match pagevec with
  | [] => Ok (pages_, page_pool)
  | (page, page_type) :: pagevec' =>
      pg ← deref_page m page;
      if z_erofs_is_stagingpage pg
      then gather_pagevec pagevec' m nr_pages pages_ (page :: page_pool)
      else
        let pagenr :=
          if decide (page_type = Z_EROFS_VLE_PAGE_TYPE_HEAD) then 0
          else u32 (z_erofs_onlinepage_index pg) in
        pages_ ← place_page pages_ nr_pages pagenr page;
        gather_pagevec pagevec' m nr_pages pages_ page_pool
  end.

(** What the first loop over the compressed slots computes. *)
Record gathered := mk_gathered {
  g_pages : list Z;
  g_err : Z;
  g_overlapped : bool;
  g_sparsemem_pages : Z
}.

(** The first loop over the compressed slots [todo]: pages reused in place
    go to their destination index; a cache-managed page that is not up to
    date sets [err]. *)
Fixpoint gather_compressed (todo : list nat) (compressed_pages : list Z)
    (m : mm) (nr_pages : Z) (acc : gathered) : outcome gathered :=
  match todo with
  | [] => Ok acc
  | i :: todo' =>
      match compressed_pages !! i with
      | None => Fault
      | Some page =>
          pg ← deref_page m page;
          if z_erofs_is_stagingpage pg
          then gather_compressed todo' compressed_pages m nr_pages acc
          else if is_cache_managed pg then
            gather_compressed todo' compressed_pages m nr_pages
              (mk_gathered (g_pages acc)
                 (if negb (PG_uptodate pg) then - EIO else g_err acc)
                 (g_overlapped acc) (g_sparsemem_pages acc))
          else
            pages_ ← place_page (g_pages acc) nr_pages
                       (u32 (z_erofs_onlinepage_index2 pg)) page;
            gather_compressed todo' compressed_pages m nr_pages
              (mk_gathered pages_ (g_err acc) true
                 (u32 (g_sparsemem_pages acc + 1)))
      end
  end.

(** Every pointer of the array is NULL or a page. *)
Definition dest_valid (m : mm) (pages_ : list Z) : Prop :=
  Forall (fun p => p = 0 \/ is_Some (pages m !! p)) pages_.

(** Some slot of [todo] holds a cache-managed page that is not up to date. *)
Definition failed_input (todo : list nat) (m : mm) (compressed_pages : list Z)
    : Prop :=
  exists i p pg, i ∈ todo /\ compressed_pages !! i = Some p /\
                 pages m !! p = Some pg /\
                 is_cache_managed pg = true /\ PG_uptodate pg = false.

(** From [m] to [m']: every page is still there, with the mapping it had,
    and with its error flag still set if it was. *)
Definition pages_evolve (m m' : mm) : Prop :=
  forall p pg, pages m !! p = Some pg ->
    exists pg', pages m' !! p = Some pg' /\
                pg_mapping pg' = pg_mapping pg /\
                (PG_error pg = true -> PG_error pg' = true).

(** From the top of [z_erofs_vle_unzip] to [if (err) goto out]: the work's
    mutex is taken and the destination pages are gathered.  The array
    [pages] is [nr_pages] pointers, wherever the source finds room for
    them. *)
Definition unzip_gather (m : mm) (g : Z) (page_pool : list Z)
    : outcome (mm * gathered * list Z) :=
  grp ← deref_grp m g;
  let work := grp_work grp in
  if work_nr_pages work =? 0 then Bug
  else if work_lock work then Sleeps
  else
    let m := store_grp m g (with_work grp (with_lock work true)) in
    let nr_pages := work_nr_pages work in
    '(pages_, page_pool) ←
      gather_pagevec (work_pagevec work) m nr_pages
        (replicate (Z.to_nat nr_pages) 0) page_pool;
    acc ← gather_compressed (seq 0 clusterpages) (grp_compressed_pages grp)
            m nr_pages
            (mk_gathered pages_ 0 false
               (u32 (Z.of_nat (length (work_pagevec work)))));
    Ok (m, acc, page_pool).

(** [__stagingpage_alloc(pagepool, gfp)] *)
Definition __stagingpage_alloc (page_pool : list Z) (m : mm)
    : outcome (Z * list Z * mm) :=
  let '(page, page_pool, m) := erofs_allocpage page_pool m in
  if page =? 0 then Ok (0, page_pool, m)
  else
    pg ← deref_page m page;
    Ok (page, page_pool,
        store_page m page
          (mk_page Z_EROFS_MAPPING_STAGING (pg_index pg) (PG_locked pg)
             (PG_uptodate pg) (PG_error pg) (PG_private pg) (pg_private pg)
             (pg_refcount pg))).

(** The loop that fills the holes of [pages] with staging pages. *)
Fixpoint fill_holes (todo : list nat) (pages_ : list Z) (page_pool : list Z)
    (m : mm) : outcome (list Z * list Z * mm) :=
  match todo with
  | [] => Ok (pages_, page_pool, m)
  | i :: todo' =>
      match pages_ !! i with
      | None => Fault
      | Some v =>
          if negb (v =? 0) then fill_holes todo' pages_ page_pool m
          else
            '(page, page_pool, m) ← __stagingpage_alloc page_pool m;
            fill_holes todo' (<[i := page]> pages_) page_pool m
      end
  end.

(** From [llen = (nr_pages << PAGE_SHIFT) - work->pageofs] to label [out],
    entered with [err == 0]: the plain copy or one of the decompressors. *)
Definition unzip_decompress (m : mm) (grp : z_erofs_vle_workgroup)
    (acc : gathered) (page_pool : list Z)
    : outcome (Z * list Z * list Z * mm) :=
  let work := grp_work grp in
  let nr_pages := work_nr_pages work in
  let compressed_pages := grp_compressed_pages grp in
  let llen := u32 (Z.shiftl nr_pages PAGE_SHIFT - work_pageofs work) in
  match grp_fmt grp with
  | Z_EROFS_VLE_WORKGRP_FMT_PLAIN =>
      if negb (grp_llen grp =? llen) then Bug
      else
        Ok (plain_copy compressed_pages (g_pages acc) (work_pageofs work),
            g_pages acc, page_pool, emit m z_erofs_vle_plain_copy)
  | Z_EROFS_VLE_WORKGRP_FMT_LZ4 =>
      let llen := if grp_llen grp <? llen then grp_llen grp else llen in
      let err := unzip_fast_percpu compressed_pages (g_pages acc) llen
                   (work_pageofs work) in
      let m := emit m z_erofs_vle_unzip_fast_percpu in
      if negb (err =? - ENOTSUPP) then Ok (err, g_pages acc, page_pool, m)
      else
        '(pages_, page_pool, m) ←
          (if nr_pages <=? g_sparsemem_pages acc then
             if nr_pages <? g_sparsemem_pages acc then Bug
             else Ok (g_pages acc, page_pool, m)
           else
             fill_holes (seq 0 (Z.to_nat nr_pages)) (g_pages acc) page_pool m);
        if negb (erofs_vmap pages_) then Ok (- ENOMEM, pages_, page_pool, m)
        else
          Ok (unzip_vmap compressed_pages pages_ llen (work_pageofs work)
                (g_overlapped acc),
              pages_, page_pool, emit m z_erofs_vle_unzip_vmap)
  end.

(** The first loop after label [out]: a slot that does not hold a
    cache-managed page is cleared, its staging page gathered. *)
Fixpoint release_compressed (todo : list nat) (m : mm)
    (compressed_pages : list Z) (page_pool : list Z)
    : outcome (list Z * list Z) :=
  match todo with
  | [] => Ok (compressed_pages, page_pool)
  | i :: todo' =>
      match compressed_pages !! i with
      | None => Fault
      | Some page =>
          pg ← deref_page m page;
          if is_cache_managed pg
          then release_compressed todo' m compressed_pages page_pool
          else
            release_compressed todo' m (<[i := 0]> compressed_pages)
              (z_erofs_gather_if_stagingpage page_pool page pg)
      end
  end.

(** The second loop after label [out]: every destination page that is not a
    staging page is ended, with its error flag set first when [err < 0]. *)
Fixpoint end_pages (pages_ : list Z) (err : Z) (m : mm) (page_pool : list Z)
    : outcome (mm * list Z) :=
  match pages_ with
  | [] => Ok (m, page_pool)
  | page :: pages' =>
      if page =? 0 then end_pages pages' err m page_pool
      else
        pg ← deref_page m page;
        if z_erofs_is_stagingpage pg
        then end_pages pages' err m (page :: page_pool)
        else
          let m := if err <? 0 then store_page m page (SetPageError pg) else m in
          end_pages pages' err (emit m (z_erofs_onlinepage_endio page)) page_pool
  end.

(** Modelled from the spec: [erofs_workgroup_put] (internal.h), under
    [z_erofs_vle_work_release]: "release(Workgroup) decrements refcount". *)
Definition erofs_workgroup_put (grp : z_erofs_vle_workgroup)
    : z_erofs_vle_workgroup :=
  with_refcount grp (grp_refcount grp - 1).

(** From label [out] to the return. *)
Definition unzip_out (m : mm) (g : Z) (pages_ : list Z) (err : Z)
    (page_pool : list Z) : outcome (Z * mm * list Z) :=
  grp ← deref_grp m g;
  '(compressed_pages, page_pool) ←
    release_compressed (seq 0 clusterpages) m (grp_compressed_pages grp) page_pool;
  '(m, page_pool) ← end_pages pages_ err m page_pool;
  let work := mk_work false (work_pageofs (grp_work grp)) 0 [] in
  let grp :=
    mk_workgroup (grp_index grp) (grp_refcount grp) work
      Z_EROFS_VLE_WORKGRP_NIL compressed_pages (grp_llen grp) (grp_fmt grp) in
  Ok (err, store_grp m g (erofs_workgroup_put grp), page_pool).

(** [z_erofs_vle_unzip(sb, grp, page_pool)] for the workgroup at address
    [g]. *)
Definition z_erofs_vle_unzip (m : mm) (g : Z) (page_pool : list Z)
    : outcome (Z * mm * list Z) :=
  '(m, acc, page_pool) ← unzip_gather m g page_pool;
  if negb (g_err acc =? 0) then unzip_out m g (g_pages acc) (g_err acc) page_pool
  else
    grp ← deref_grp m g;
    '(err, pages_, page_pool, m) ← unzip_decompress m grp acc page_pool;
    unzip_out m g pages_ err page_pool.

End WithSuperblock.
End Unzip.

(** ** The read operation *)

Module Read.

(** struct z_erofs_vle_frontend over a work builder of type [B]: the
    builder, the map iterator ([m_iter.map] and [m_iter.mpage]), the head of
    the owned chain, [initial], and [cachedzone_la]. *)
Record z_erofs_vle_frontend (B : Type) := mk_frontend {
  fe_inode : inode;
  fe_builder : B;
  fe_map : erofs_map_blocks;
  fe_mpage : option meta_page;
  fe_owned_head : z_erofs_vle_owned_workgrp_t;
  fe_initial : bool;
  fe_cachedzone_la : Z
}.
Arguments mk_frontend {B}.
Arguments fe_inode {B}.
Arguments fe_builder {B}.
Arguments fe_map {B}.
Arguments fe_mpage {B}.
Arguments fe_owned_head {B}.
Arguments fe_initial {B}.
Arguments fe_cachedzone_la {B}.

(** Where the loop of [z_erofs_do_read_page] leaves: at label [out] after
    the last part of the page, or at label [err_out] with an error. *)
Inductive loop_exit :=
| AtOut
| AtErrOut (err : Z).

Section WithBuilder.

Variable defs : erofs_defs.
Variable PAGE_SHIFT : Z.
Variable EROFS_FS_HAS_MANAGED_CACHE : bool.
Variable EROFS_FS_ZIP_CACHE_LVL : Z.

(** [erofs_map_blocks_iter] (data.c), which for a compressed inode is
    [z_erofs_map_blocks_iter]; [None] when the model of the walk has run out
    of depth, which it never does. *)
Variable erofs_map_blocks_iter :
  inode -> erofs_map_blocks -> option meta_page -> option Resolver.map_result.

(** The work builder and the workgroups it reaches are taken as given, as a
    state of some type [B] with the operations [z_erofs_do_read_page] calls:
    VLE_WORK_BUILDER_INIT; [builder->role]; [builder->work != NULL];
    [z_erofs_vle_work_iter_end]; [z_erofs_vle_work_iter_begin], which also
    updates [*owned_head]; [z_erofs_vle_scan_cachepages];
    [z_erofs_vle_work_add_page]; and the update of [work->nr_pages]. *)
Variable B : Type.
Variable VLE_WORK_BUILDER_INIT : B.
Variable builder_role : B -> z_erofs_vle_work_role.
Variable builder_work : B -> bool.
Variable z_erofs_vle_work_iter_end : B -> bool * B.
Variable z_erofs_vle_work_iter_begin :
  B -> erofs_map_blocks -> z_erofs_vle_owned_workgrp_t ->
  Z * B * z_erofs_vle_owned_workgrp_t.
Variable z_erofs_vle_scan_cachepages :
  B -> erofs_map_blocks -> bool -> list Z -> mm -> B * list Z * mm.
Variable z_erofs_vle_work_add_page : B -> Z -> z_erofs_page_type -> Z * B.
Variable work_max_nr_pages : B -> Z -> B.
(** [__stagingpage_alloc(page_pool, GFP_NOFS)]: the page, what is left of
    the pool, and the memory with the page in it. *)
Variable __stagingpage_alloc : list Z -> mm -> Z * list Z * mm.
(** What [z_erofs_submit_and_unzip] does to the builder's state, the pool
    and the memory: block I/O and the passes of [z_erofs_vle_unzip]. *)
Variable submit_and_unzip_effect :
  B -> z_erofs_vle_owned_workgrp_t -> list Z -> bool -> mm -> B * list Z * mm.

Definition PAGE_SIZE : Z := Z.shiftl 1 PAGE_SHIFT.

(** #define builder_is_weak_followed(builder) *)
Definition builder_is_weak_followed (b : B) : bool :=
  bool_decide (role_rank Z_EROFS_VLE_WORK_PRIMARY_TERMINAL
               <= role_rank (builder_role b))%nat.

(** #define builder_is_followed(builder) *)
Definition builder_is_followed (b : B) : bool :=
  bool_decide (role_rank Z_EROFS_VLE_WORK_PRIMARY_FOLLOWED
               <= role_rank (builder_role b))%nat.

(** From label [retry] to [if (unlikely(err)) goto err_out]: the page is
    added to the work, with a new staging page for the page vector each time
    the vector is full. *)
Fixpoint add_page_retry (fuel : nat) (b : B) (page : Z)
    (page_type : z_erofs_page_type) (page_pool : list Z) (m : mm)
    : outcome (Z * B * list Z * mm) :=
  match fuel with
  | O => OutOfFuel
  | S fuel' =>
      let '(err, b) := z_erofs_vle_work_add_page b page page_type in
      if err =? - EAGAIN then
        let '(newpage, page_pool, m) := __stagingpage_alloc page_pool m in
        let '(err, b) :=
          z_erofs_vle_work_add_page b newpage Z_EROFS_PAGE_TYPE_EXCLUSIVE in
        if err =? 0 then add_page_retry fuel' b page page_type page_pool m
        else Ok (err, b, page_pool, m)
      else Ok (err, b, page_pool, m)
  end.

Definition with_map {B' : Type} (fe : z_erofs_vle_frontend B')
    (map : erofs_map_blocks) (mpage : option meta_page)
    : z_erofs_vle_frontend B' :=
  mk_frontend (fe_inode fe) (fe_builder fe) map mpage (fe_owned_head fe)
    (fe_initial fe) (fe_cachedzone_la fe).

Definition with_builder {B' : Type} (fe : z_erofs_vle_frontend B') (b : B')
    : z_erofs_vle_frontend B' :=
  mk_frontend (fe_inode fe) b (fe_map fe) (fe_mpage fe) (fe_owned_head fe)
    (fe_initial fe) (fe_cachedzone_la fe).

Definition with_m_llen (map : erofs_map_blocks) (v : Z) : erofs_map_blocks :=
  mk_map (m_pa map) (m_la map) (m_plen map) v (m_flags map).

Definition is_mapped (map : erofs_map_blocks) : bool :=
  negb (Z.land (m_flags map) (EROFS_MAP_MAPPED defs) =? 0).

(** From label [hitted] to label [next_part] for a mapped part: the page is
    typed and added to the work.  The result is [tight], [spiltted] and what
    was updated, or the error to leave with. *)
Definition hitted_mapped (fuel : nat) (fe : z_erofs_vle_frontend B)
    (page index_ : Z) (page_pool : list Z) (m : mm)
    (tight : bool) (spiltted cur : Z)
    : outcome (loop_exit * z_erofs_vle_frontend B * list Z * mm * bool * Z) :=
  let b := fe_builder fe in
  let page_type :=
    if negb (cur =? 0) then Z_EROFS_VLE_PAGE_TYPE_HEAD
    else if spiltted =? 0 then Z_EROFS_PAGE_TYPE_EXCLUSIVE
    else if tight then Z_EROFS_PAGE_TYPE_EXCLUSIVE
    else Z_EROFS_VLE_PAGE_TYPE_TAIL_SHARED in
  let tight :=
    if negb (cur =? 0) then tight && builder_is_followed b else tight in
  '(err, b, page_pool, m) ← add_page_retry fuel b page page_type page_pool m;
  if negb (err =? 0) then
    Ok (AtErrOut err, with_builder fe b, page_pool, m, tight, spiltted)
  else
    let index := u32 (index_ - m_la (fe_map fe) / PAGE_SIZE) in
    let m := emit m (z_erofs_onlinepage_fixup page index true) in
    let spiltted := u32 (spiltted + 1) in
    if 2 <? spiltted then Bug
    else
      Ok (AtOut, with_builder fe (work_max_nr_pages b (index + 1)),
          page_pool, m, tight, spiltted).

(** The loop of [z_erofs_do_read_page] from label [repeat], over the parts
    of the page from its end to its start.  [index_] is [page->index] and
    [offset] is [page_offset(page)]. *)
Fixpoint do_read_page_loop (fuel : nat) (fe : z_erofs_vle_frontend B)
    (page index_ : Z) (page_pool : list Z) (m : mm)
    (tight : bool) (spiltted end_ : Z)
    : outcome (loop_exit * z_erofs_vle_frontend B * list Z * mm) :=
  match fuel with
  | O => OutOfFuel
  | S fuel' =>
    let offset := Z.shiftl index_ PAGE_SHIFT in
    let cur := u32 (end_ - 1) in
    let map := fe_map fe in
    (* up to label hitted: the frontend, the pool, the memory and [tight],
       or the error to leave with *)
    let rebegin_work (fe : z_erofs_vle_frontend B)
        : loop_exit * z_erofs_vle_frontend B * list Z * mm * bool :=
      if negb (is_mapped (fe_map fe)) then (AtOut, fe, page_pool, m, tight)
      else
        let '(err, b, owned_head) :=
          z_erofs_vle_work_iter_begin (fe_builder fe) (fe_map fe)
            (fe_owned_head fe) in
        let fe := mk_frontend (fe_inode fe) b (fe_map fe) (fe_mpage fe)
                    owned_head (fe_initial fe) (fe_cachedzone_la fe) in
        if negb (err =? 0) then (AtErrOut err, fe, page_pool, m, tight)
        else
          let '(b, page_pool, m) :=
            if EROFS_FS_HAS_MANAGED_CACHE then
              z_erofs_vle_scan_cachepages b (fe_map fe)
                (fe_initial fe
                 || ((2 <=? EROFS_FS_ZIP_CACHE_LVL)
                     && (m_la (fe_map fe) <? fe_cachedzone_la fe)))
                page_pool m
            else (b, page_pool, m) in
          (AtOut, with_builder fe b, page_pool, m,
           tight && builder_is_weak_followed b) in
    let before_hitted
        : outcome (loop_exit * z_erofs_vle_frontend B * list Z * mm * bool) :=
      if (m_la map <=? u64 (offset + cur))
         && (u64 (offset + cur) <? u64 (m_la map + m_llen map)) then
        (* lucky, within the range of the current map_blocks *)
        if negb (builder_work (fe_builder fe)) then Ok (rebegin_work fe)
        else Ok (AtOut, fe, page_pool, m, tight)
      else
        let '(ended, b) := z_erofs_vle_work_iter_end (fe_builder fe) in
        let fe := mk_frontend (fe_inode fe) b (fe_map fe) (fe_mpage fe)
                    (fe_owned_head fe)
                    (if ended then false else fe_initial fe)
                    (fe_cachedzone_la fe) in
        let map := mk_map (m_pa map) (u64 (offset + cur)) (m_plen map) 0
                     (m_flags map) in
        match erofs_map_blocks_iter (fe_inode fe) map (fe_mpage fe) with
        | None => OutOfFuel
        | Some r =>
            let fe := with_map fe (Resolver.mr_map r) (Resolver.mr_mpage r) in
            if negb (Resolver.mr_err r =? 0)
            then Ok (AtErrOut (Resolver.mr_err r), fe, page_pool, m, tight)
            else Ok (rebegin_work fe)
        end in
    reached ← before_hitted;
    match reached with
    | (AtErrOut err, fe, page_pool, m, _) => Ok (AtErrOut err, fe, page_pool, m)
    | (AtOut, fe, page_pool, m, tight) =>
        let map := fe_map fe in
        let cur :=
          u32 (end_ - Z.min (u32 (offset + end_ - m_la map)) end_) in
        '(exit_, fe, page_pool, m, tight, spiltted) ←
          (if negb (is_mapped map)
           then Ok (AtOut, fe, page_pool,
                    emit m (zero_user_segment page cur end_), tight, spiltted)
           else hitted_mapped fuel' fe page index_ page_pool m tight spiltted cur);
        match exit_ with
        | AtErrOut err => Ok (AtErrOut err, fe, page_pool, m)
        | AtOut =>
            (* next_part *)
            let map := fe_map fe in
            let fe := with_map fe
                        (with_m_llen map (u64 (offset + cur - m_la map)))
                        (fe_mpage fe) in
            if 0 <? cur
            then do_read_page_loop fuel' fe page index_ page_pool m
                   tight spiltted cur
            else Ok (AtOut, fe, page_pool, m)
        end
    end
  end.

(** [z_erofs_do_read_page(fe, page, page_pool)] *)
Definition z_erofs_do_read_page (fuel : nat) (fe : z_erofs_vle_frontend B)
    (page : Z) (page_pool : list Z) (m : mm)
    : outcome (Z * z_erofs_vle_frontend B * list Z * mm) :=
  pg ← deref_page m page;
  let tight := builder_is_weak_followed (fe_builder fe) in
  let m := emit m (z_erofs_onlinepage_init page) in
  '(exit_, fe, page_pool, m) ←
    do_read_page_loop fuel fe page (pg_index pg) page_pool m tight 0 PAGE_SIZE;
  match exit_ with
  | AtOut =>
      Ok (0, fe, page_pool, emit m (z_erofs_onlinepage_endio page))
  | AtErrOut err =>
      (* if some error occurred while processing this page *)
      pg ← deref_page m page;
      let m := store_page m page (SetPageError pg) in
      Ok (err, fe, page_pool, emit m (z_erofs_onlinepage_endio page))
  end.

(** [put_pages_list(&pagepool)]: the pages left in the pool are put. *)
Fixpoint put_pages_list (page_pool : list Z) (m : mm) : outcome mm :=
  match page_pool with
  | [] => Ok m
  | page :: page_pool' =>
      pg ← deref_page m page;
      put_pages_list page_pool'
        (store_page m page
           (mk_page (pg_mapping pg) (pg_index pg) (PG_locked pg)
              (PG_uptodate pg) (PG_error pg) (PG_private pg) (pg_private pg)
              (pg_refcount pg - 1)))
  end.

(** #define VLE_FRONTEND_INIT(__i) *)
Definition VLE_FRONTEND_INIT (ino : inode) : z_erofs_vle_frontend B :=
  mk_frontend ino VLE_WORK_BUILDER_INIT (mk_map 0 0 0 0 0) None
    Z_EROFS_VLE_WORKGRP_TAIL true 0.

(** The frontend of [z_erofs_vle_normalaccess_readpage] when it calls
    [z_erofs_do_read_page]: initialized, with
    [f.cachedzone_la = page->index << PAGE_SHIFT] if the cache level asks for
    it. *)
Definition readpage_frontend (ino : inode) (pg : struct_page)
    : z_erofs_vle_frontend B :=
  let f := VLE_FRONTEND_INIT ino in
  if 2 <=? EROFS_FS_ZIP_CACHE_LVL
  then mk_frontend (fe_inode f) (fe_builder f) (fe_map f) (fe_mpage f)
         (fe_owned_head f) (fe_initial f) (Z.shiftl (pg_index pg) PAGE_SHIFT)
  else f.

(** [z_erofs_vle_normalaccess_readpage(file, page)] on the page at address
    [page] of the inode [ino]. *)
Definition z_erofs_vle_normalaccess_readpage (fuel : nat) (ino : inode)
    (page : Z) (m : mm) : outcome (Z * mm) :=
  pg ← deref_page m page;
  let f := readpage_frontend ino pg in
  '(err, f, pagepool, m) ← z_erofs_do_read_page fuel f page [] m;
  let '(_, b) := z_erofs_vle_work_iter_end (fe_builder f) in
  '(pagepool, m) ←
    (if negb (err =? 0) then Ok (pagepool, m)
     else
       let m := emit m (z_erofs_submit_and_unzip (fe_owned_head f) true) in
       let '(_, pagepool, m) :=
         submit_and_unzip_effect b (fe_owned_head f) pagepool true m in
       Ok (pagepool, m));
  (* [put_page(f.m_iter.mpage)]: metadata pages are not kept in [mm] *)
  (* clean up the remaining free pages *)
  m ← put_pages_list pagepool m;
  Ok (0, m).

End WithBuilder.
End Read.

(** ** The work builder

    [z_erofs_pagevec_ctor] and its operations come from unzip_pagevec.h and
    the tagged pointers from tagptr.h, neither of which is part of the
    sources: the collector is a parameter, and so is [tagptr_fold].  The
    entries a collector has taken are kept in [work_pagevec], whose length
    is [work->vcnt].  The functions are run without interference from other
    threads, except where a compare-and-swap can fail: there the value
    another thread has stored in the meantime is an argument. *)

Module Builder.

(** struct z_erofs_vle_work_builder over a collector of type [V].  [b_grp]
    and [b_work] are the address of the workgroup (the primary work lives
    inside its workgroup), 0 for NULL.  [b_compressed_pages] is the index of
    the slot the pointer stands at in that workgroup's [compressed_pages];
    [None] is NULL. *)
Record z_erofs_vle_work_builder (V : Type) := mk_builder {
  b_role : z_erofs_vle_work_role;
  b_hosted : bool;
  b_grp : Z;
  b_work : Z;
  b_vector : V;
  b_compressed_pages : option nat;
  b_compressed_deficit : nat
}.
Arguments mk_builder {V}.
Arguments b_role {V}.
Arguments b_hosted {V}.
Arguments b_grp {V}.
Arguments b_work {V}.
Arguments b_vector {V}.
Arguments b_compressed_pages {V}.
Arguments b_compressed_deficit {V}.

Section WithCollector.

Variable V : Type.
(** [z_erofs_pagevec_ctor_enqueue(ctor, page, type, &occupied)]: whether the
    page was taken, and the collector afterwards. *)
Variable z_erofs_pagevec_ctor_enqueue :
  V -> Z -> z_erofs_page_type -> bool * V.
(** [tagptr_fold(z_erofs_ctptr_t, ptr, tags)] *)
Variable tagptr_fold : Z -> Z -> Z.
(** [find_get_page(mapping, index)] on the managed cache: the page found,
    with a reference taken, or NULL. *)
Variable find_get_page : Z -> mm -> Z * mm.
(** [alloc_pages(gfp, 0)]: a new page or NULL. *)
Variable alloc_pages : mm -> Z * mm.

Local Abbreviation builder := (z_erofs_vle_work_builder V).

Definition with_window (b : builder) (compressed_pages : option nat)
    (compressed_deficit : nat) : builder :=
  mk_builder (b_role b) (b_hosted b) (b_grp b) (b_work b) (b_vector b)
    compressed_pages compressed_deficit.

Definition with_vector (b : builder) (vector : V) : builder :=
  mk_builder (b_role b) (b_hosted b) (b_grp b) (b_work b) vector
    (b_compressed_pages b) (b_compressed_deficit b).

Definition with_role (b : builder) (role : z_erofs_vle_work_role) : builder :=
  mk_builder role (b_hosted b) (b_grp b) (b_work b) (b_vector b)
    (b_compressed_pages b) (b_compressed_deficit b).

(** The loop of [try_to_reuse_as_compressed_page], with [deficit] passes
    left and the pointer at slot [cursor]:
    [while (b->compressed_deficit) { --b->compressed_deficit;
       if (NULL == cmpxchg(b->compressed_pages++, NULL, page)) return true; }
     return false;]
    The result is the return value, what is left of the deficit, the slot
    the pointer stands at, and the slots. *)
Fixpoint try_to_reuse_loop (deficit cursor : nat) (slots : list Z) (page : Z)
    : outcome (bool * nat * nat * list Z) :=
  match deficit with
  | O => Ok (false, O, cursor, slots)
  | S deficit' =>
      match slots !! cursor with
      | None => Fault
      | Some v =>
          if v =? 0
          then Ok (true, deficit', S cursor, <[cursor := page]> slots)
          else try_to_reuse_loop deficit' (S cursor) slots page
      end
  end.

(** [try_to_reuse_as_compressed_page(b, page)] *)
Definition try_to_reuse_as_compressed_page (b : builder) (page : Z) (m : mm)
    : outcome (bool * builder * mm) :=
  match b_compressed_deficit b with
  | O => Ok (false, b, m)
  | S _ =>
      match b_compressed_pages b with
      | None => Fault
      | Some cursor =>
          grp ← deref_grp m (b_grp b);
          '(reused, deficit, cursor, slots) ←
            try_to_reuse_loop (b_compressed_deficit b) cursor
              (grp_compressed_pages grp) page;
          Ok (reused, with_window b (Some cursor) deficit,
              store_grp m (b_grp b) (with_compressed_pages grp slots))
      end
  end.

(** [z_erofs_vle_work_add_page(builder, page, type)] *)
Definition z_erofs_vle_work_add_page (b : builder) (page : Z)
    (type : z_erofs_page_type) (m : mm) : outcome (Z * builder * mm) :=
  (* give priority for the compressed data storage *)
  '(reused, b, m) ←
    (if (1 <=? role_rank (b_role b))%nat
        && bool_decide (type = Z_EROFS_PAGE_TYPE_EXCLUSIVE)
     then try_to_reuse_as_compressed_page b page m
     else Ok (false, b, m));
  if (reused : bool) then Ok (0, b, m)
  else
    let '(ret, vector) := z_erofs_pagevec_ctor_enqueue (b_vector b) page type in
    (* builder->work->vcnt += (unsigned)ret *)
    grp ← deref_grp m (b_work b);
    let work := grp_work grp in
    let work :=
      if ret
      then mk_work (work_lock work) (work_pageofs work) (work_nr_pages work)
             (work_pagevec work ++ [(page, type)])
      else work in
    Ok (if ret then 0 else - EAGAIN, with_vector b vector,
        store_grp m (b_work b) (with_work grp work)).

(** [newpage = lru_to_page(pagepool); list_del(&newpage->lru)] on a pool
    that is not empty, else [alloc_pages]. *)
Definition scan_newpage (pagepool : list Z) (m : mm) : Z * list Z * mm :=
  match pagepool with
  | [] => let '(newpage, m) := alloc_pages m in (newpage, pagepool, m)
  | _ :: _ => (List.last pagepool 0, removelast pagepool, m)
  end.

Definition with_mapping (pg : struct_page) (mapping : address_space)
    : struct_page :=
  mk_page mapping (pg_index pg) (PG_locked pg) (PG_uptodate pg) (PG_error pg)
    (PG_private pg) (pg_private pg) (pg_refcount pg).

Definition put_page (pg : struct_page) : struct_page :=
  mk_page (pg_mapping pg) (pg_index pg) (PG_locked pg) (PG_uptodate pg)
    (PG_error pg) (PG_private pg) (pg_private pg) (pg_refcount pg - 1).

(** One pass of the loop of [z_erofs_vle_scan_cachepages] from the
    compare-and-swap on, for the slot [slot] of the workgroup at [g]:
    [if (cmpxchg(&compressed_pages[i], NULL, tagptr_cast_ptr(v)) == NULL)
       continue;
     if (page != NULL) put_page(page);
     else if (newpage) { newpage->mapping = NULL;
                         list_add(&newpage->lru, pagepool); }]
    [raced] is what another thread has stored in the slot since the pass
    read it as NULL, 0 if nothing. *)
Definition scan_install (raced page newpage v : Z) (slot : nat) (g : Z)
    (pagepool : list Z) (m : mm) : outcome (list Z * mm) :=
  grp ← deref_grp m g;
  if raced =? 0 then
    Ok (pagepool,
        store_grp m g
          (with_compressed_pages grp
             (<[slot := v]> (grp_compressed_pages grp))))
  else
    let m := store_grp m g
               (with_compressed_pages grp
                  (<[slot := raced]> (grp_compressed_pages grp))) in
    if negb (page =? 0) then
      pg ← deref_page m page;
      Ok (pagepool, store_page m page (put_page pg))
    else if negb (newpage =? 0) then
      pg ← deref_page m newpage;
      (* someone just allocated this page, drop our attempt *)
      Ok (newpage :: pagepool,
          store_page m newpage (with_mapping pg MAPPING_NULL))
    else Ok (pagepool, m).

(** The pass [i] of the loop of [z_erofs_vle_scan_cachepages] over the
    window that starts at slot [base] of the workgroup at [g].  [racing i]
    is what another thread has stored in the slot at offset [i] between the
    read of the slot and the compare-and-swap, 0 if nothing.  The state is
    [standalone], [j], the pool and the memory. *)
Definition scan_cachepages_pass (i base : nat) (index : Z)
    (reserve_allocation : bool) (racing : nat -> Z) (g : Z)
    (standalone : bool) (j : nat) (pagepool : list Z) (m : mm)
    : outcome (bool * nat * list Z * mm) :=
  (* rrr: *)
  let rrr pagepool m :=
    Ok (false, if standalone then i else j, pagepool, m) in
  grp ← deref_grp m g;
  match grp_compressed_pages grp !! (base + i)%nat with
  | None => Fault
  | Some cur =>
      if negb (cur =? 0) then Ok (standalone, j, pagepool, m)
      else
        let '(page, m) := find_get_page (u64 (index + Z.of_nat i)) m in
        if negb (page =? 0) then
          '(pagepool, m) ←
            scan_install (racing i) page 0 (tagptr_fold page 1)
              (base + i)%nat g pagepool m;
          Ok (standalone, j, pagepool, m)
        else if reserve_allocation then
          let '(newpage, pagepool, m) := scan_newpage pagepool m in
          if newpage =? 0 then rrr pagepool m
          else
            pg ← deref_page m newpage;
            let m := store_page m newpage
                       (with_mapping pg Z_EROFS_MAPPING_PREALLOCATED) in
            '(pagepool, m) ←
              scan_install (racing i) 0 newpage (tagptr_fold newpage 1)
                (base + i)%nat g pagepool m;
            Ok (standalone, j, pagepool, m)
        else rrr pagepool m
  end.

(** [for (i = 0; i < compressed_deficit; ++i)] over the offsets [todo] *)
Fixpoint scan_cachepages_loop (todo : list nat) (base : nat) (index : Z)
    (reserve_allocation : bool) (racing : nat -> Z) (g : Z)
    (standalone : bool) (j : nat) (pagepool : list Z) (m : mm)
    : outcome (bool * nat * list Z * mm) :=
  match todo with
  | [] => Ok (standalone, j, pagepool, m)
  | i :: todo' =>
      '(standalone, j, pagepool, m) ←
        scan_cachepages_pass i base index reserve_allocation racing g
          standalone j pagepool m;
      scan_cachepages_loop todo' base index reserve_allocation racing g
        standalone j pagepool m
  end.

(** [z_erofs_vle_scan_cachepages(bl, mapping, index, clusterpages,
    reserve_allocation, pagepool)] *)
Definition z_erofs_vle_scan_cachepages (bl : builder) (index : Z)
    (clusterpages : Z) (reserve_allocation : bool) (racing : nat -> Z)
    (pagepool : list Z) (m : mm) : outcome (builder * list Z * mm) :=
  let compressed_deficit := b_compressed_deficit bl in
  if (role_rank (b_role bl) <? 2)%nat then Ok (bl, pagepool, m)
  else
    let index := u64 (index + u32 (clusterpages - Z.of_nat compressed_deficit)) in
    match compressed_deficit with
    | O =>
        (* the loop is not entered *)
        Ok (with_role bl Z_EROFS_VLE_WORK_PRIMARY, pagepool, m)
    | S _ =>
        match b_compressed_pages bl with
        | None => Fault
        | Some base =>
            '(standalone, j, pagepool, m) ←
              scan_cachepages_loop (seq 0 compressed_deficit) base index
                reserve_allocation racing (b_grp bl) true 0 pagepool m;
            let bl := with_window bl (Some (base + j)%nat)
                        (compressed_deficit - j) in
            Ok (if (standalone : bool)
                then with_role bl Z_EROFS_VLE_WORK_PRIMARY else bl,
                pagepool, m)
        end
    end.

End WithCollector.

(** No page of [m] is missing from [m']. *)
Definition pages_kept (m m' : mm) : Prop :=
  forall q, is_Some (pages m !! q) -> is_Some (pages m' !! q).

(** The pages of the pool are pages of [m]. *)
Definition pool_real (m : mm) (pagepool : list Z) : Prop :=
  forall p, p ∈ pagepool -> p <> 0 -> is_Some (pages m !! p).

End Builder.

(** ** Completion of the reads

    An io descriptor ([struct z_erofs_vle_unzip_io]) counts in
    [pending_bios] the bios still in flight.  A kickoff adds to the counter
    and, when that gives zero, sets the decompression going. *)

Module Io.

(** What a kickoff sets going: [wake_up_locked(&io->u.wait)],
    [queue_work(z_erofs_workqueue, &io->u.work)], or a call of
    [z_erofs_vle_unzip_wq(&io->u.work)] by the caller itself. *)
Inductive kick :=
| wake_up_locked
| queue_work
| call_unzip_wq.

(** A 32-bit [int]. *)
Definition s32 (x : Z) : Z := wrap 32 (x + 2 ^ 31) - 2 ^ 31.

(** [atomic_add_return(i, v)] on an [atomic_t] that holds [v] *)
Definition atomic_add_return (i v : Z) : Z := s32 (v + i).

(** [SetPageUptodate(page)] *)
Definition SetPageUptodate (pg : struct_page) : struct_page :=
  mk_page (pg_mapping pg) (pg_index pg) (PG_locked pg) true (PG_error pg)
    (PG_private pg) (pg_private pg) (pg_refcount pg).

(** [unlock_page(page)] *)
Definition unlock_page (pg : struct_page) : struct_page :=
  mk_page (pg_mapping pg) (pg_index pg) false (PG_uptodate pg) (PG_error pg)
    (PG_private pg) (pg_private pg) (pg_refcount pg).

Section WithConfig.

(** Whether CONFIG_PREEMPT_COUNT and EROFS_FS_HAS_MANAGED_CACHE are
    defined. *)
Variable CONFIG_PREEMPT_COUNT : bool.
Variable EROFS_FS_HAS_MANAGED_CACHE : bool.

(** [z_erofs_vle_unzip_kickoff(ptr, bios)], where [ptr] is the pointer to
    an io descriptor with the tag [background] folded in, and the
    descriptor's [pending_bios] is [pending].  [atomic] is
    [in_atomic() || irqs_disabled()] where the call is made.  The result is
    [pending_bios] after the call, and what the call has set going. *)
Definition z_erofs_vle_unzip_kickoff (background atomic : bool)
    (pending bios : Z) : Z * list kick :=
  let v := atomic_add_return bios pending in
  if negb background then
    (v, if v =? 0 then [wake_up_locked] else [])
  else
    (v, if v =? 0 then
          if CONFIG_PREEMPT_COUNT then
            if atomic then [queue_work] else [call_unzip_wq]
          else [queue_work]
        else []).

(** The kickoffs [calls], each with its [bios] and its [atomic], in the
    order their additions to [pending_bios] take place. *)
Fixpoint kickoffs (background : bool) (calls : list (Z * bool)) (pending : Z)
    : Z * list kick :=
  match calls with
  | [] => (pending, [])
  | (bios, atomic) :: calls' =>
      let '(pending, kicks) :=
        z_erofs_vle_unzip_kickoff background atomic pending bios in
      let '(pending, kicks') := kickoffs background calls' pending in
      (pending, kicks ++ kicks')
  end.

(** What a pass of the loop of [z_erofs_vle_read_endio] does to the page:
    [if (unlikely(err)) SetPageError(page);
     else if (cachemngd) SetPageUptodate(page);
     if (cachemngd) unlock_page(page);] *)
Definition read_endio_page (err : Z) (cachemngd : bool) (pg : struct_page)
    : struct_page :=
  let pg :=
    if negb (err =? 0) then SetPageError pg
    else if cachemngd then SetPageUptodate pg
    else pg in
  if cachemngd then unlock_page pg else pg.

(** The loop [bio_for_each_segment_all(bvec, bio, i)] of
    [z_erofs_vle_read_endio] over the pages of the bio.  [mngda] is
    [MAPPING_NULL] until the managed cache's mapping has been fetched. *)
Fixpoint read_endio_loop (bvecs : list Z) (err : Z) (mngda : address_space)
    (m : mm) : outcome mm :=
  match bvecs with
  | [] => Ok m
  | page :: bvecs' =>
      pg ← deref_page m page;
      (* DBG_BUGON(PageUptodate(page)) *)
      if bool_decide (pg_mapping pg = MAPPING_NULL) then Bug
      else
        mngda ←
          (if EROFS_FS_HAS_MANAGED_CACHE
              && bool_decide (mngda = MAPPING_NULL)
              && negb (Unzip.z_erofs_is_stagingpage pg)
           then
             (* mngda = MNGD_MAPPING(EROFS_I_SB(page->mapping->host)) *)
             match pg_mapping pg with
             | MNGD_MAPPING | FILE_MAPPING _ => Ok MNGD_MAPPING
             | _ => Fault
             end
           else Ok mngda);
        let cachemngd :=
          EROFS_FS_HAS_MANAGED_CACHE && bool_decide (pg_mapping pg = mngda) in
        read_endio_loop bvecs' err mngda
          (store_page m page (read_endio_page err cachemngd pg))
  end.

(** [z_erofs_vle_read_endio(bio)] for a bio with the pages [bvecs] and the
    status [err], whose [bi_private] is the pointer to an io descriptor
    with the tag [background] folded in. *)
Definition z_erofs_vle_read_endio (bvecs : list Z) (err : Z)
    (background atomic : bool) (pending : Z) (m : mm)
    : outcome (mm * Z * list kick) :=
  m ← read_endio_loop bvecs err MAPPING_NULL m;
  let '(pending, kicks) :=
    z_erofs_vle_unzip_kickoff background atomic pending (-1) in
  (* bio_put(bio) *)
  Ok (m, pending, kicks).

End WithConfig.
End Io.

(** ** Migration of a cached compressed page

    [migrate_page], [migrate_page_move_mapping] and [migrate_page_copy] are
    the kernel's (mm/migrate.c): their return value and what they do to the
    memory are parameters. *)

Module Migrate.

(** enum migrate_mode (linux/migrate_mode.h) *)
Inductive migrate_mode :=
| MIGRATE_ASYNC
| MIGRATE_SYNC_LIGHT
| MIGRATE_SYNC.

#[global] Instance migrate_mode_eq_dec : EqDecision migrate_mode.
Proof. solve_decision. Defined.

(** [get_page(newpage); set_page_private(newpage, (unsigned long)grp);
    __SetPagePrivate(newpage)] *)
Definition attach_cached_page (pg : struct_page) (g : Z) : struct_page :=
  mk_page (pg_mapping pg) (pg_index pg) (PG_locked pg) (PG_uptodate pg)
    (PG_error pg) true g (pg_refcount pg + 1).

(** [ClearPagePrivate(page); set_page_private(page, 0)] *)
Definition clear_cached_page (pg : struct_page) : struct_page :=
  mk_page (pg_mapping pg) (pg_index pg) (PG_locked pg) (PG_uptodate pg)
    (PG_error pg) false 0 (pg_refcount pg).

Section WithSuperblock.

(** [erofs_clusterpages(sbi)] *)
Variable clusterpages : nat.
(** The value a frozen reference count holds (internal.h). *)
Variable EROFS_LOCKED_MAGIC : Z.
Variable MIGRATEPAGE_SUCCESS : Z.
(** [migrate_page(mapping, newpage, page, mode)] *)
Variable migrate_page : address_space -> Z -> Z -> migrate_mode -> mm -> Z * mm.
(** [migrate_page_move_mapping(mapping, newpage, page, NULL, mode, 0)] *)
Variable migrate_page_move_mapping :
  address_space -> Z -> Z -> migrate_mode -> mm -> Z * mm.
(** [migrate_page_copy(newpage, page)] *)
Variable migrate_page_copy : Z -> Z -> mm -> mm.

(** The loop of [erofs_migrate_cached_page] over the slots [todo]:
    [victim = cmpxchg(&grp->compressed_pages[i], page, newpage);
     if (victim == page) { ...; break; }
     if (victim == PAGE_MIGRATE_LOCKED) locking = true;]
    The result tells whether the loop was left by [break], and gives
    [locking] and the slots. *)
Fixpoint migrate_loop (todo : list nat) (slots : list Z) (page newpage : Z)
    (locking : bool) : outcome (bool * bool * list Z) :=
  match todo with
  | [] => Ok (false, locking, slots)
  | i :: todo' =>
      match slots !! i with
      | None => Fault
      | Some victim =>
          if victim =? page then Ok (true, locking, <[i := newpage]> slots)
          else
            migrate_loop todo' slots page newpage
              (if victim =? PAGE_MIGRATE_LOCKED then true else locking)
      end
  end.

(** [erofs_migrate_cached_page(mapping, newpage, page, mode)] *)
Definition erofs_migrate_cached_page (mapping : address_space)
    (newpage page : Z) (mode : migrate_mode) (m : mm) : outcome (Z * mm) :=
  pg ← deref_page m page;
  if negb (PG_private pg) then Ok (migrate_page mapping newpage page mode m)
  else
    (* the workgroup will not be freed with compressed page locked *)
    let g := pg_private pg in
    (* DBG_BUGON(!grp) *)
    grp ← deref_grp m g;
    if work_lock (grp_work grp) then
      (* !mutex_trylock(&primary_work->lock) *)
      if decide (mode = MIGRATE_ASYNC) then Ok (- EAGAIN, m)
      else (* mutex_lock(&primary_work->lock) *) Sleeps
    else
      let m := store_grp m g (with_work grp (with_lock (grp_work grp) true)) in
      (* drop this migration attempt if freezed to 1 (reclaiming) *)
      if grp_refcount grp =? EROFS_LOCKED_MAGIC then
        m ← Reclaim.mutex_unlock m g;
        Ok (- EBUSY, m)
      else
        let '(rc, m) := migrate_page_move_mapping mapping newpage page mode m in
        if negb (rc =? MIGRATEPAGE_SUCCESS) then
          m ← Reclaim.mutex_unlock m g;
          Ok (rc, m)
        else
          grp ← deref_grp m g;
          '(found, locking, slots) ←
            migrate_loop (seq 0 clusterpages) (grp_compressed_pages grp)
              page newpage false;
          let m := store_grp m g (with_compressed_pages grp slots) in
          m ← (if (found : bool) then
                 npg ← deref_page m newpage;
                 Ok (store_page m newpage (attach_cached_page npg g))
               else Ok m);
          (* if (i >= clusterpages) DBG_BUGON(!locking);
             else locking = false; *)
          let locking := if (found : bool) then false else (locking : bool) in
          pg ← deref_page m page;
          let m := store_page m page (clear_cached_page pg) in
          let m := migrate_page_copy newpage page m in
          m ← Reclaim.mutex_unlock m g;
          m ← (if negb locking then
                 pg ← deref_page m page;
                 Ok (store_page m page (Builder.put_page pg))
               else Ok m);
          Ok (MIGRATEPAGE_SUCCESS, m).

End WithSuperblock.
End Migrate.

(** ** Beginning and ending the work on a cluster

    [erofs_find_workgroup] and [erofs_register_workgroup] live in utils.c
    and [kmem_cache_zalloc] in the kernel: what they return and what they do
    to the memory are parameters.  The functions are run with no other
    thread at work on the workgroup, so that a compare-and-swap finds the
    value that was just read. *)

Module WorkIter.
Import Builder.

Definition with_llen (grp : z_erofs_vle_workgroup) (llen : Z)
    : z_erofs_vle_workgroup :=
  mk_workgroup (grp_index grp) (grp_refcount grp) (grp_work grp) (grp_next grp)
    (grp_compressed_pages grp) llen (grp_fmt grp).

(** [kmem_cache_free(z_erofs_workgroup_cachep, grp)] *)
Definition kmem_cache_free (m : mm) (g : Z) : mm :=
  mk_mm (pages m) (delete g (grps m)) (log m).

Section WithSuperblock.

Variable defs : erofs_defs.
Variable PAGE_SHIFT : Z.
(** [erofs_clusterpages(EROFS_SB(sb))] *)
Variable clusterpages : nat.
(** The number of slots of [compressed_pages] (unzip_vle.h). *)
Variable Z_EROFS_CLUSTER_MAX_PAGES : nat.
Variable V : Type.
(** [z_erofs_pagevec_ctor_init(&builder->vector,
    Z_EROFS_VLE_INLINE_PAGEVECS, work->pagevec, work->vcnt)], of the
    entries of the page vector, and
    [z_erofs_pagevec_ctor_exit(&builder->vector, false)] (unzip_pagevec.h). *)
Variable z_erofs_pagevec_ctor_init : list (Z * z_erofs_page_type) -> V.
Variable z_erofs_pagevec_ctor_exit : V -> V.
(** [erofs_find_workgroup(sb, index, &tag)]: the workgroup or NULL. *)
Variable erofs_find_workgroup : Z -> mm -> Z * mm.
(** [kmem_cache_zalloc(z_erofs_workgroup_cachep, GFP_NOFS)]: the address of
    the new workgroup or NULL. *)
Variable kmem_cache_zalloc : mm -> Z.
(** [erofs_register_workgroup(sb, &grp->obj, 0)] *)
Variable erofs_register_workgroup : Z -> mm -> Z * mm.

Local Abbreviation builder := (z_erofs_vle_work_builder V).

(** #define VLE_WORK_BUILDER_INIT()
      { .work = NULL, .role = Z_EROFS_VLE_WORK_PRIMARY_FOLLOWED },
    with a collector that is all zeros. *)
Definition VLE_WORK_BUILDER_INIT (vector : V) : builder :=
  mk_builder Z_EROFS_VLE_WORK_PRIMARY_FOLLOWED false 0 0 vector None 0.

(** #define erofs_blknr(addr) ((addr) / EROFS_BLKSIZ) *)
Definition erofs_blknr (addr : Z) : Z := Z.shiftr addr (LOG_BLOCK_SIZE defs).

(** [z_erofs_vle_work_lookup(f)] for a finder with the given [idx] and
    [pageofs], whose [role] and [hosted] point into the builder [b].  The
    result is the work (0 for NULL), [*f->grp_ret], the builder,
    [*f->owned_head] and the memory. *)
Definition z_erofs_vle_work_lookup (idx pageofs : Z) (b : builder)
    (owned_head : z_erofs_vle_owned_workgrp_t) (m : mm)
    : outcome (Z * Z * builder * z_erofs_vle_owned_workgrp_t * mm) :=
  let '(egrp, m) := erofs_find_workgroup idx m in
  if egrp =? 0 then Ok (0, 0, b, owned_head, m)
  else
    grp ← deref_grp m egrp;
    (* work = z_erofs_vle_grab_work(grp, f->pageofs); primary = true;
       DBG_BUGON(work->pageofs != f->pageofs) *)
    if work_lock (grp_work grp) then (* mutex_lock(&work->lock) *) Sleeps
    else
      let grp := with_work grp (with_lock (grp_work grp) true) in
      (* *f->hosted = false; claim the workgroup if possible *)
      match Claim.try_to_claim_workgroup 1 (Z.to_pos egrp) []
              (Claim.mk_claim (grp_next grp) owned_head false) with
      | None => OutOfFuel
      | Some (role, st, _) =>
          Ok (egrp, egrp,
              mk_builder role (Claim.hosted st) (b_grp b) (b_work b)
                (b_vector b) (b_compressed_pages b) (b_compressed_deficit b),
              Claim.owned_head st,
              store_grp m egrp (with_next grp (Claim.next st)))
      end.

(** [z_erofs_vle_work_register(f, map)].  The result is the work, or 0
    with the error of the [ERR_PTR]; then [*f->grp_ret], the builder,
    [*f->owned_head] and the memory. *)
Definition z_erofs_vle_work_register (idx pageofs grp_ret : Z)
    (map : erofs_map_blocks) (b : builder)
    (owned_head : z_erofs_vle_owned_workgrp_t) (m : mm)
    : outcome (Z * Z * Z * builder * z_erofs_vle_owned_workgrp_t * mm) :=
  (* if multiref is disabled, grp should never be nullptr *)
  if negb (grp_ret =? 0) then Bug
  else
    (* no available workgroup, let's allocate one *)
    let grp := kmem_cache_zalloc m in
    if grp =? 0 then Ok (0, - ENOMEM, grp_ret, b, owned_head, m)
    else
      let fresh :=
        {| grp_index := idx;
           grp_refcount := 1;
           (* lock all primary followed works before visible to others *)
           grp_work := mk_work true pageofs 0 [];
           (* new workgrps have been claimed as type 1 *)
           grp_next := owned_head;
           grp_compressed_pages := replicate Z_EROFS_CLUSTER_MAX_PAGES 0;
           grp_llen := Llen.work_register_llen map;
           grp_fmt :=
             if negb (Z.land (m_flags map) (EROFS_MAP_ZIPPED defs) =? 0)
             then Z_EROFS_VLE_WORKGRP_FMT_LZ4
             else Z_EROFS_VLE_WORKGRP_FMT_PLAIN |} in
      (* primary and followed work for all new workgrps; it should be
         submitted by ourselves *)
      let b := mk_builder Z_EROFS_VLE_WORK_PRIMARY_FOLLOWED true (b_grp b)
                 (b_work b) (b_vector b) (b_compressed_pages b)
                 (b_compressed_deficit b) in
      let '(err, m) := erofs_register_workgroup grp (store_grp m grp fresh) in
      if negb (err =? 0) then
        (* mutex_unlock(&work->lock) *)
        Ok (0, - EAGAIN, grp_ret, b, owned_head, kmem_cache_free m grp)
      else
        Ok (grp, 0, grp, b, WORKGRP (Z.to_pos grp), m).

(** From label [got_it] of [z_erofs_vle_work_iter_begin] to the return. *)
Definition iter_begin_got_it (work grp : Z) (b : builder)
    (owned_head : z_erofs_vle_owned_workgrp_t) (m : mm)
    : outcome (Z * builder * z_erofs_vle_owned_workgrp_t * mm) :=
  w ← deref_grp m work;
  let vector := z_erofs_pagevec_ctor_init (work_pagevec (grp_work w)) in
  Ok (0,
      (if (1 <=? role_rank (b_role b))%nat then
         (* enable possibly in-place decompression *)
         mk_builder (b_role b) (b_hosted b) grp work vector (Some 0%nat)
           clusterpages
       else
         mk_builder (b_role b) (b_hosted b) grp work vector None 0),
      owned_head, m).

(** [z_erofs_vle_work_iter_begin(builder, sb, map, owned_head)]; [fuel]
    bounds the number of passes through [repeat]. *)
Fixpoint z_erofs_vle_work_iter_begin (fuel : nat) (b : builder)
    (map : erofs_map_blocks) (owned_head : z_erofs_vle_owned_workgrp_t)
    (m : mm) : outcome (Z * builder * z_erofs_vle_owned_workgrp_t * mm) :=
  match fuel with
  | O => OutOfFuel
  | S fuel' =>
      let idx := erofs_blknr (m_pa map) in
      let pageofs := Z.land (m_la map) (2 ^ PAGE_SHIFT - 1) in
      '(work, grp, b, owned_head, m) ←
        z_erofs_vle_work_lookup idx pageofs b owned_head m;
      if negb (work =? 0) then
        (* increase workgroup `llen' if needed *)
        g ← deref_grp m grp;
        let m := store_grp m grp
                   (with_llen g (Llen.join_alone (grp_llen g) map)) in
        iter_begin_got_it work grp b owned_head m
      else
        '(work, err, grp, b, owned_head, m) ←
          z_erofs_vle_work_register idx pageofs grp map b owned_head m;
        if negb (work =? 0) then iter_begin_got_it work grp b owned_head m
        else if err =? - EAGAIN then
          z_erofs_vle_work_iter_begin fuel' b map owned_head m
        else Ok (err, b, owned_head, m)
  end.

(** [z_erofs_vle_work_iter_end(builder)] *)
Definition z_erofs_vle_work_iter_end (b : builder) (m : mm)
    : outcome (bool * builder * mm) :=
  if b_work b =? 0 then Ok (false, b, m)
  else
    let vector := z_erofs_pagevec_ctor_exit (b_vector b) in
    m ← Reclaim.mutex_unlock m (b_work b);
    (* if all pending pages are added, don't hold work reference any longer
       if the current work isn't hosted by ourselves *)
    m ← (if negb (b_hosted b) then
           grp ← deref_grp m (b_grp b);
           Ok (store_grp m (b_grp b) (Unzip.erofs_workgroup_put grp))
         else Ok m);
    Ok (true,
        mk_builder (b_role b) (b_hosted b) 0 0 vector (b_compressed_pages b)
          (b_compressed_deficit b),
        m).

End WithSuperblock.
End WorkIter.

(** ** Decompression of an owned chain *)

Module UnzipAll.

(** The workgroups of the chain that starts at [owned], linked by [next] up
    to TAIL_CLOSED. *)
Inductive owned_chain (m : mm)
    : z_erofs_vle_owned_workgrp_t -> list Z -> Prop :=
| owned_chain_closed : owned_chain m Z_EROFS_VLE_WORKGRP_TAIL_CLOSED []
| owned_chain_next g grp gs :
    grps m !! Z.pos g = Some grp ->
    owned_chain m (grp_next grp) gs ->
    owned_chain m (WORKGRP g) (Z.pos g :: gs).

Section WithSuperblock.

Variable clusterpages : nat.
Variable EROFS_FS_HAS_MANAGED_CACHE : bool.
Variable PAGE_SHIFT : Z.
Variable z_erofs_onlinepage_index : struct_page -> Z.
Variable z_erofs_onlinepage_index2 : struct_page -> Z.
Variable plain_copy : list Z -> list Z -> Z -> Z.
Variable unzip_fast_percpu : list Z -> list Z -> Z -> Z -> Z.
Variable unzip_vmap : list Z -> list Z -> Z -> Z -> bool -> Z.
Variable erofs_vmap : list Z -> bool.
Variable erofs_allocpage : list Z -> mm -> Z * list Z * mm.

Local Abbreviation z_erofs_vle_unzip :=
  (Unzip.z_erofs_vle_unzip clusterpages EROFS_FS_HAS_MANAGED_CACHE PAGE_SHIFT
     z_erofs_onlinepage_index z_erofs_onlinepage_index2 plain_copy
     unzip_fast_percpu unzip_vmap erofs_vmap erofs_allocpage).

(** [z_erofs_vle_unzip_all(sb, io, page_pool)] for an io descriptor whose
    [head] is [owned]; [fuel] bounds the number of passes through the
    loop. *)
Fixpoint z_erofs_vle_unzip_all (fuel : nat)
    (owned : z_erofs_vle_owned_workgrp_t) (page_pool : list Z) (m : mm)
    : outcome (list Z * mm) :=
  match owned with
  | Z_EROFS_VLE_WORKGRP_TAIL_CLOSED => Ok (page_pool, m)
  | WORKGRP g =>
      match fuel with
      | O => OutOfFuel
      | S fuel' =>
          grp ← deref_grp m (Z.pos g);
          let owned := grp_next grp in
          '(_, m, page_pool) ← z_erofs_vle_unzip m (Z.pos g) page_pool;
          z_erofs_vle_unzip_all fuel' owned page_pool m
      end
  | Z_EROFS_VLE_WORKGRP_TAIL | Z_EROFS_VLE_WORKGRP_NIL =>
      (* DBG_BUGON(owned == Z_EROFS_VLE_WORKGRP_TAIL);
         DBG_BUGON(owned == Z_EROFS_VLE_WORKGRP_NIL);
         grp = owned; owned = READ_ONCE(grp->next) *)
      Fault
  end.

(** [z_erofs_vle_unzip_wq(work)] for the io descriptor whose [head] is
    [head]. *)
Definition z_erofs_vle_unzip_wq (fuel : nat)
    (head : z_erofs_vle_owned_workgrp_t) (m : mm) : outcome mm :=
  if decide (head = Z_EROFS_VLE_WORKGRP_TAIL_CLOSED) then Bug
  else
    '(page_pool, m) ← z_erofs_vle_unzip_all fuel head [] m;
    (* kvfree(iosb) *)
    Read.put_pages_list page_pool m.

End WithSuperblock.
End UnzipAll.

(** ** Picking the pages to read

    Tagged pointers come from tagptr.h, [EROFS_UNALLOCATED_CACHED_PAGE] from
    unzip_vle.h and [add_to_page_cache_lru] from the kernel: they are
    parameters.  The function is run with no other thread at work on the
    slot, so that the compare-and-swap at [out_allocpage] finds the
    [PAGE_MIGRATE_LOCKED] that was just stored. *)

Module Submit.

(** [lock_page(page)] on a page whose lock is free *)
Definition lock_page (pg : struct_page) : struct_page :=
  mk_page (pg_mapping pg) (pg_index pg) true (PG_uptodate pg) (PG_error pg)
    (PG_private pg) (pg_private pg) (pg_refcount pg).

(** [get_page(page)] *)
Definition get_page (pg : struct_page) : struct_page :=
  mk_page (pg_mapping pg) (pg_index pg) (PG_locked pg) (PG_uptodate pg)
    (PG_error pg) (PG_private pg) (pg_private pg) (pg_refcount pg + 1).

(** [set_page_private(page, (unsigned long)grp); SetPagePrivate(page)] *)
Definition set_cached_page (pg : struct_page) (g : Z) : struct_page :=
  mk_page (pg_mapping pg) (pg_index pg) (PG_locked pg) (PG_uptodate pg)
    (PG_error pg) true g (pg_refcount pg).

Definition store_slot (m : mm) (g : Z) (grp : z_erofs_vle_workgroup)
    (nr : nat) (v : Z) : mm :=
  store_grp m g
    (with_compressed_pages grp (<[nr := v]> (grp_compressed_pages grp))).

Section WithSuperblock.

Variable EROFS_UNALLOCATED_CACHED_PAGE : Z.
(** [tagptr_unfold_tags] and [tagptr_unfold_ptr] on a [z_erofs_ctptr_t] *)
Variable tagptr_unfold_tags : Z -> Z.
Variable tagptr_unfold_ptr : Z -> Z.
Variable erofs_allocpage : list Z -> mm -> Z * list Z * mm.
(** [add_to_page_cache_lru(page, mc, index, gfp)] *)
Variable add_to_page_cache_lru : Z -> Z -> mm -> Z * mm.

(** From label [out_add_to_managed_cache] to the return. *)
Definition grab_add_to_managed_cache (g : Z) (first_index : Z) (nr : nat)
    (page : Z) (pagepool : list Z) (m : mm) : outcome (Z * list Z * mm) :=
  let '(err, m) :=
    add_to_page_cache_lru page (u64 (first_index + Z.of_nat nr)) m in
  pg ← deref_page m page;
  if negb (err =? 0) then
    Ok (page, pagepool,
        store_page m page
          (mk_page Z_EROFS_MAPPING_STAGING (pg_index pg) (PG_locked pg)
             (PG_uptodate pg) (PG_error pg) (PG_private pg) (pg_private pg)
             (pg_refcount pg)))
  else Ok (page, pagepool, store_page m page (set_cached_page pg g)).

(** From label [out_allocpage] to the return; the slot holds
    [PAGE_MIGRATE_LOCKED]. *)
Definition grab_allocpage (g : Z) (first_index : Z) (nr : nat)
    (tocache : bool) (pagepool : list Z) (m : mm)
    : outcome (Z * list Z * mm) :=
  '(page, pagepool, m) ← Unzip.__stagingpage_alloc erofs_allocpage pagepool m;
  (* oldpage == cmpxchg(&grp->compressed_pages[nr], oldpage, page) *)
  grp ← deref_grp m g;
  let m := store_slot m g grp nr page in
  if negb tocache then Ok (page, pagepool, m)
  else grab_add_to_managed_cache g first_index nr page pagepool m.

(** [z_erofs_workgrp_grab_page_for_submission(grp, first_index, nr,
    pagepool, gfp, mc)] with the managed cache compiled in, for the
    workgroup at address [g]. *)
Definition z_erofs_workgrp_grab_page_for_submission (g : Z) (first_index : Z)
    (nr : nat) (pagepool : list Z) (m : mm) : outcome (Z * list Z * mm) :=
  grp ← deref_grp m g;
  match grp_compressed_pages grp !! nr with
  | None => Fault
  | Some v =>
      (* page = xchg(&grp->compressed_pages[nr], PAGE_MIGRATE_LOCKED) *)
      let m := store_slot m g grp nr PAGE_MIGRATE_LOCKED in
      let grp := with_compressed_pages grp
                   (<[nr := PAGE_MIGRATE_LOCKED]> (grp_compressed_pages grp)) in
      if v =? 0 then grab_allocpage g first_index nr false pagepool m
      else if v =? EROFS_UNALLOCATED_CACHED_PAGE then
        grab_allocpage g first_index nr true pagepool m
      else
        (* parse the compressed tagged pointer *)
        let justfound := tagptr_unfold_tags v in
        let page := tagptr_unfold_ptr v in
        pg ← deref_page m page;
        let mapping := pg_mapping pg in
        if bool_decide (mapping = Z_EROFS_MAPPING_PREALLOCATED) then
          grab_add_to_managed_cache g first_index nr page pagepool
            (store_slot m g grp nr page)
        else if bool_decide (mapping <> MAPPING_NULL)
                && bool_decide (mapping <> MNGD_MAPPING) then
          (* ought to be unmanaged pages *)
          Ok (page, pagepool, store_slot m g grp nr page)
        else if PG_locked pg then (* lock_page(page) *) Sleeps
        else
          let pg := lock_page pg in
          if bool_decide (pg_mapping pg = MNGD_MAPPING) then
            let m := store_slot m g grp nr page in
            let pg :=
              if negb (PG_private pg) then
                set_cached_page
                  (if justfound =? 0 then get_page pg else pg) g
              else pg in
            if PG_uptodate pg then
              Ok (0, pagepool, store_page m page (Io.unlock_page pg))
            else Ok (page, pagepool, store_page m page pg)
          else
            (* for the truncation case (page locked) *)
            let m := store_page m page
                       (Builder.put_page (Io.unlock_page pg)) in
            grab_allocpage g first_index nr true pagepool m
  end.

End WithSuperblock.
End Submit.

(** ** Submitting an owned chain

    Bios are the kernel's: a bio is kept as the block address it was
    grabbed for ([erofs_grab_bio], internal.h) and the pages added to it;
    whether [bio_add_page] takes a page is a parameter.  The chain is
    walked with no other thread at work on it. *)

Module SubmitAll.

Record bio := mk_bio {
  bi_blkaddr : Z;
  bi_pages : list Z
}.

(** struct z_erofs_vle_unzip_io, without its wait queue and work. *)
Record z_erofs_vle_unzip_io := mk_io {
  io_pending_bios : Z;
  io_head : z_erofs_vle_owned_workgrp_t
}.

(** The locals of [z_erofs_vle_submit_all] that the bios are built with.
    [s_submitted] are the bios handed to [__submit_bio], in order. *)
Record submit_state := mk_submit {
  s_bio : option bio;
  s_submitted : list bio;
  s_nr_bios : Z;
  s_force_submit : bool;
  s_last_index : Z;
  s_pagepool : list Z
}.

(** [ios[0]->head], [ios[1]->head], [lstgrp_noio] and [lstgrp_io] *)
Record submit_chains := mk_chains {
  c_head0 : z_erofs_vle_owned_workgrp_t;
  c_head1 : z_erofs_vle_owned_workgrp_t;
  c_lstgrp_noio : Z;
  c_lstgrp_io : Z
}.

(** What [z_erofs_vle_submit_all] leaves behind: its return value, the two
    io descriptors, the bios it submitted, [*io_submitted], what its
    kickoff has set going, the pool and the memory. *)
Record submitted := mk_submitted {
  r_ret : bool;
  r_io0 : z_erofs_vle_unzip_io;
  r_io1 : z_erofs_vle_unzip_io;
  r_bios : list bio;
  r_io_submitted : Z;
  r_kicks : list Io.kick;
  r_pagepool : list Z;
  r_mm : mm
}.

(** The workgroups from [owned] along [next] up to [stop]. *)
Inductive chain_seg (m : mm) (stop : z_erofs_vle_owned_workgrp_t)
    : z_erofs_vle_owned_workgrp_t -> list Z -> Prop :=
| chain_seg_nil : chain_seg m stop stop []
| chain_seg_cons g grp gs :
    grps m !! Z.pos g = Some grp ->
    chain_seg m stop (grp_next grp) gs ->
    chain_seg m stop (WORKGRP g) (Z.pos g :: gs).

(** [prepare_io_handler(sb, io, background)]; [io] is [None] for NULL.  A
    descriptor for background io is allocated, and is all zeros. *)
Definition prepare_io_handler (io : option z_erofs_vle_unzip_io)
    (background : bool) : outcome z_erofs_vle_unzip_io :=
  if negb background then
    match io with
    | None => Bug
    | Some _ =>
        (* init_waitqueue_head(&io->u.wait);
           atomic_set(&io->pending_bios, 0) *)
        Ok (mk_io 0 Z_EROFS_VLE_WORKGRP_TAIL_CLOSED)
    end
  else
    match io with
    | Some _ => Bug
    | None => Ok (mk_io 0 Z_EROFS_VLE_WORKGRP_TAIL_CLOSED)
    end.

(** [__submit_bio(bio, REQ_OP_READ, 0); bio = NULL] *)
Definition submit_bio (st : submit_state) : submit_state :=
  match s_bio st with
  | None => st
  | Some b =>
      mk_submit None (s_submitted st ++ [b]) (s_nr_bios st)
        (s_force_submit st) (s_last_index st) (s_pagepool st)
  end.

Section WithSuperblock.

(** [erofs_clusterpages(sbi)] *)
Variable clusterpages : nat.
Variable CONFIG_PREEMPT_COUNT : bool.
Variable EROFS_UNALLOCATED_CACHED_PAGE : Z.
Variable tagptr_unfold_tags : Z -> Z.
Variable tagptr_unfold_ptr : Z -> Z.
Variable erofs_allocpage : list Z -> mm -> Z * list Z * mm.
Variable add_to_page_cache_lru : Z -> Z -> mm -> Z * mm.
(** Whether [bio_add_page(bio, page, PAGE_SIZE, 0)] takes the page, that
    is, returns [PAGE_SIZE], for a bio with the pages given. *)
Variable bio_add_page : list Z -> Z -> bool.

Local Abbreviation grab_page :=
  (Submit.z_erofs_workgrp_grab_page_for_submission
     EROFS_UNALLOCATED_CACHED_PAGE tagptr_unfold_tags tagptr_unfold_ptr
     erofs_allocpage add_to_page_cache_lru).

(** From [if (bio == NULL)] to [last_index = first_index + i]; [fuel]
    bounds the number of jumps to [submit_bio_retry]. *)
Fixpoint bio_add (fuel : nat) (first_index : Z) (i : nat) (page : Z)
    (st : submit_state) : outcome submit_state :=
  let st :=
    match s_bio st with
    | Some _ => st
    | None =>
        (* bio = erofs_grab_bio(sb, first_index + i, BIO_MAX_PAGES,
                                z_erofs_vle_read_endio, true); ++nr_bios *)
        mk_submit (Some (mk_bio (u64 (first_index + Z.of_nat i)) []))
          (s_submitted st) (u32 (s_nr_bios st + 1)) (s_force_submit st)
          (s_last_index st) (s_pagepool st)
    end in
  match s_bio st with
  | None => Fault
  | Some b =>
      if bio_add_page (bi_pages b) page then
        Ok (mk_submit (Some (mk_bio (bi_blkaddr b) (bi_pages b ++ [page])))
              (s_submitted st) (s_nr_bios st) false
              (u64 (first_index + Z.of_nat i)) (s_pagepool st))
      else
        (* goto submit_bio_retry *)
        match fuel with
        | O => OutOfFuel
        | S fuel' => bio_add fuel' first_index i page (submit_bio st)
        end
  end.

(** The passes [todo] of the loop from label [repeat] to
    [if (++i < clusterpages) goto repeat] for the workgroup at [g]. *)
Fixpoint submit_pages (fuel : nat) (todo : list nat) (g first_index : Z)
    (noio : Z) (st : submit_state) (m : mm)
    : outcome (Z * submit_state * mm) :=
  match todo with
  | [] => Ok (noio, st, m)
  | i :: todo' =>
      '(page, pagepool, m) ← grab_page g first_index i (s_pagepool st) m;
      let st := mk_submit (s_bio st) (s_submitted st) (s_nr_bios st)
                  (s_force_submit st) (s_last_index st) pagepool in
      if page =? 0 then
        submit_pages fuel todo' g first_index (u32 (noio + 1))
          (mk_submit (s_bio st) (s_submitted st) (s_nr_bios st) true
             (s_last_index st) (s_pagepool st)) m
      else
        st ← bio_add fuel first_index i page
               (if s_force_submit st then submit_bio st else st);
        submit_pages fuel todo' g first_index noio st m
  end.

(** What the loop of [z_erofs_vle_submit_all] does to the two chains once
    the pages of the workgroup at [g] are dealt with; [owned_head] is what
    [grp->next] was. *)
Definition submit_link (g : positive) (noio : Z)
    (owned_head : z_erofs_vle_owned_workgrp_t) (ch : submit_chains) (m : mm)
    : outcome (submit_chains * mm) :=
  if noio <? Z.of_nat clusterpages then
    Ok (mk_chains (c_head0 ch) (c_head1 ch) (c_lstgrp_noio ch) (Z.pos g), m)
  else
    let iogrp_next :=
      if decide (owned_head = Z_EROFS_VLE_WORKGRP_TAIL)
      then Z_EROFS_VLE_WORKGRP_TAIL_CLOSED else owned_head in
    '(ch, m) ←
      (if c_lstgrp_io ch =? 0 then
         Ok (mk_chains (c_head0 ch) iogrp_next (c_lstgrp_noio ch)
               (c_lstgrp_io ch), m)
       else
         l ← deref_grp m (c_lstgrp_io ch);
         Ok (ch, store_grp m (c_lstgrp_io ch) (with_next l iogrp_next)));
    '(ch, m) ←
      (if c_lstgrp_noio ch =? 0 then
         Ok (mk_chains (WORKGRP g) (c_head1 ch) (c_lstgrp_noio ch)
               (c_lstgrp_io ch), m)
       else
         l ← deref_grp m (c_lstgrp_noio ch);
         Ok (ch, store_grp m (c_lstgrp_noio ch) (with_next l (WORKGRP g))));
    Ok (mk_chains (c_head0 ch) (c_head1 ch) (Z.pos g) (c_lstgrp_io ch), m).

(** The [do ... while (owned_head != Z_EROFS_VLE_WORKGRP_TAIL)] loop;
    [fuel] bounds the number of its passes, and the jumps to
    [submit_bio_retry] within one. *)
Fixpoint submit_all_loop (fuel : nat)
    (owned_head : z_erofs_vle_owned_workgrp_t) (ch : submit_chains)
    (st : submit_state) (m : mm)
    : outcome (submit_chains * submit_state * mm) :=
  match fuel with
  | O => OutOfFuel
  | S fuel' =>
      match owned_head with
      | WORKGRP g =>
          grp ← deref_grp m (Z.pos g);
          (* close the main owned chain at first *)
          let owned_head := grp_next grp in
          let m :=
            if decide (grp_next grp = Z_EROFS_VLE_WORKGRP_TAIL)
            then store_grp m (Z.pos g)
                   (with_next grp Z_EROFS_VLE_WORKGRP_TAIL_CLOSED)
            else m in
          let first_index := grp_index grp in
          let st :=
            mk_submit (s_bio st) (s_submitted st) (s_nr_bios st)
              (s_force_submit st
               || negb (first_index =? u64 (s_last_index st + 1)))
              (s_last_index st) (s_pagepool st) in
          (* fulfill all compressed pages *)
          '(noio, st, m) ←
            submit_pages fuel (0%nat :: seq 1 (clusterpages - 1))
              (Z.pos g) first_index 0 st m;
          '(ch, m) ← submit_link g noio owned_head ch m;
          if decide (owned_head = Z_EROFS_VLE_WORKGRP_TAIL)
          then Ok (ch, st, m)
          else submit_all_loop fuel' owned_head ch st m
      | _ =>
          (* no possible 'owned_head' equals the following:
             DBG_BUGON(owned_head == Z_EROFS_VLE_WORKGRP_TAIL_CLOSED);
             DBG_BUGON(owned_head == Z_EROFS_VLE_WORKGRP_NIL) *)
          Fault
      end
  end.

(** [z_erofs_vle_submit_all(sb, owned_head, pagepool, fg_io, force_fg,
    io_submitted)] with the managed cache compiled in.  [last_index] is what
    the uninitialised local happens to hold, and [atomic] is
    [in_atomic() || irqs_disabled()] at the kickoff. *)
Definition z_erofs_vle_submit_all (fuel : nat)
    (owned_head : z_erofs_vle_owned_workgrp_t) (pagepool : list Z)
    (fg_io0 fg_io1 : z_erofs_vle_unzip_io) (force_fg atomic : bool)
    (last_index : Z) (m : mm) : outcome submitted :=
  if decide (owned_head = Z_EROFS_VLE_WORKGRP_TAIL) then
    Ok (mk_submitted false fg_io0 fg_io1 [] 0 [] pagepool m)
  else
    io0 ← prepare_io_handler (Some fg_io0) false;
    io1 ← (if force_fg then prepare_io_handler (Some fg_io1) false
           else prepare_io_handler None true);
    (* by default, all need io submission: ios[1]->head = owned_head *)
    '(ch, st, m) ←
      submit_all_loop fuel owned_head
        (mk_chains (io_head io0) owned_head 0 0)
        (mk_submit None [] 0 false last_index pagepool) m;
    let st := submit_bio st in
    m ← (if negb (c_lstgrp_noio ch =? 0) then
           l ← deref_grp m (c_lstgrp_noio ch);
           Ok (store_grp m (c_lstgrp_noio ch)
                 (with_next l Z_EROFS_VLE_WORKGRP_TAIL_CLOSED))
         else Ok m);
    let io0 := mk_io (io_pending_bios io0) (c_head0 ch) in
    let io1 := mk_io (io_pending_bios io1) (c_head1 ch) in
    if negb force_fg && (s_nr_bios st =? 0) then
      (* kvfree(container_of(ios[1], struct z_erofs_vle_unzip_io_sb, io)) *)
      Ok (mk_submitted true io0 io1 (s_submitted st) (s_nr_bios st) []
            (s_pagepool st) m)
    else
      let '(pending, kicks) :=
        Io.z_erofs_vle_unzip_kickoff CONFIG_PREEMPT_COUNT (negb force_fg)
          atomic (io_pending_bios io1) (s_nr_bios st) in
      Ok (mk_submitted true io0 (mk_io pending (io_head io1))
            (s_submitted st) (s_nr_bios st) kicks (s_pagepool st) m).

End WithSuperblock.
End SubmitAll.

(** ** Setting the subsystem up and tearing it down

    The slab cache and the workqueue are the kernel's.  What is kept of them
    is which caches and workqueues exist; the addresses the kernel hands out
    are parameters, NULL when it has no memory. *)

Module Subsystem.

(** The two globals of the file, and the caches and workqueues that
    exist. *)
Record kernel := mk_kernel {
  z_erofs_workqueue : Z;
  z_erofs_workgroup_cachep : Z;
  caches : gset Z;
  workqueues : gset Z
}.

Section WithKernel.

(** [kmem_cache_create("erofs_compress", Z_EROFS_WORKGROUP_SIZE, 0,
    SLAB_RECLAIM_ACCOUNT, NULL)] *)
Variable kmem_cache_create : kernel -> Z.
(** [alloc_workqueue("erofs_unzipd", WQ_UNBOUND | WQ_HIGHPRI |
    WQ_CPU_INTENSIVE, max_active)] *)
Variable alloc_workqueue : Z -> kernel -> Z.
Variable num_possible_cpus : Z.

(** [z_erofs_exit_zip_subsystem()] *)
Definition z_erofs_exit_zip_subsystem (k : kernel) : outcome kernel :=
  if z_erofs_workqueue k =? 0 then Bug
  else if z_erofs_workgroup_cachep k =? 0 then Bug
  else
    (* destroy_workqueue(z_erofs_workqueue);
       kmem_cache_destroy(z_erofs_workgroup_cachep) *)
    Ok (mk_kernel (z_erofs_workqueue k) (z_erofs_workgroup_cachep k)
          (caches k ∖ {[ z_erofs_workgroup_cachep k ]})
          (workqueues k ∖ {[ z_erofs_workqueue k ]})).

(** [init_unzip_workqueue()] *)
Definition init_unzip_workqueue (k : kernel) : Z * kernel :=
  let onlinecpus := u32 num_possible_cpus in
  (* we don't need too many threads, limiting threads could improve
     scheduling performance *)
  let wq := alloc_workqueue (u32 (onlinecpus + onlinecpus / 4)) k in
  let k := mk_kernel wq (z_erofs_workgroup_cachep k) (caches k)
             (if wq =? 0 then workqueues k else {[ wq ]} ∪ workqueues k) in
  (if negb (z_erofs_workqueue k =? 0) then 0 else - ENOMEM, k).

(** [z_erofs_init_zip_subsystem()] *)
Definition z_erofs_init_zip_subsystem (k : kernel) : Z * kernel :=
  let cachep := kmem_cache_create k in
  let k := mk_kernel (z_erofs_workqueue k) cachep
             (if cachep =? 0 then caches k else {[ cachep ]} ∪ caches k)
             (workqueues k) in
  if negb (z_erofs_workgroup_cachep k =? 0) then
    let '(err, k) := init_unzip_workqueue k in
    if err =? 0 then (0, k)
    else
      (* kmem_cache_destroy(z_erofs_workgroup_cachep) *)
      (- ENOMEM,
       mk_kernel (z_erofs_workqueue k) (z_erofs_workgroup_cachep k)
         (caches k ∖ {[ z_erofs_workgroup_cachep k ]}) (workqueues k))
  else (- ENOMEM, k).

End WithKernel.
End Subsystem.

(** ** Submitting an owned chain and decompressing it

    The caller is the only thread at work.  While it waits in
    [io_wait_event], the bios it has submitted end, in the order they were
    submitted; the status of each is a parameter. *)

Module SubmitUnzip.

Section WithSuperblock.

Variable clusterpages : nat.
Variable CONFIG_PREEMPT_COUNT : bool.
Variable PAGE_SHIFT : Z.
Variable z_erofs_onlinepage_index : struct_page -> Z.
Variable z_erofs_onlinepage_index2 : struct_page -> Z.
Variable plain_copy : list Z -> list Z -> Z -> Z.
Variable unzip_fast_percpu : list Z -> list Z -> Z -> Z -> Z.
Variable unzip_vmap : list Z -> list Z -> Z -> Z -> bool -> Z.
Variable erofs_vmap : list Z -> bool.
Variable erofs_allocpage : list Z -> mm -> Z * list Z * mm.
Variable EROFS_UNALLOCATED_CACHED_PAGE : Z.
Variable tagptr_unfold_tags : Z -> Z.
Variable tagptr_unfold_ptr : Z -> Z.
Variable add_to_page_cache_lru : Z -> Z -> mm -> Z * mm.
Variable bio_add_page : list Z -> Z -> bool.
(** [blk_status_to_errno(bio->bi_status)] of a bio that has ended *)
Variable bi_status : SubmitAll.bio -> Z.

Local Abbreviation z_erofs_vle_submit_all :=
  (SubmitAll.z_erofs_vle_submit_all clusterpages CONFIG_PREEMPT_COUNT
     EROFS_UNALLOCATED_CACHED_PAGE tagptr_unfold_tags tagptr_unfold_ptr
     erofs_allocpage add_to_page_cache_lru bio_add_page).

Local Abbreviation z_erofs_vle_unzip_all :=
  (UnzipAll.z_erofs_vle_unzip_all clusterpages true PAGE_SHIFT
     z_erofs_onlinepage_index z_erofs_onlinepage_index2 plain_copy
     unzip_fast_percpu unzip_vmap erofs_vmap erofs_allocpage).

(** The bios [bios] end: [z_erofs_vle_read_endio] runs for each, on an io
    descriptor whose pointer carries the tag [background].  The result is
    [pending_bios] at the end, and what the kickoffs have set going. *)
Fixpoint bios_end (bios : list SubmitAll.bio) (background : bool)
    (pending : Z) (m : mm) : outcome (Z * list Io.kick * mm) :=
  match bios with
  | [] => Ok (pending, [], m)
  | b :: bios' =>
      '(m, pending, kicks) ←
        Io.z_erofs_vle_read_endio CONFIG_PREEMPT_COUNT true
          (SubmitAll.bi_pages b) (bi_status b) background true pending m;
      '(pending, kicks', m) ← bios_end bios' background pending m;
      Ok (pending, kicks ++ kicks', m)
  end.

(** [z_erofs_submit_and_unzip(f, pagepool, force_fg, io_submitted)] with the
    managed cache compiled in, for a frontend whose [owned_head] is
    [owned_head].  [io0] and [io1] are what the two uninitialised
    descriptors on the stack happen to hold.  The result is the pool,
    [*io_submitted] and the memory. *)
Definition z_erofs_submit_and_unzip (fuel : nat)
    (owned_head : z_erofs_vle_owned_workgrp_t) (pagepool : list Z)
    (io0 io1 : SubmitAll.z_erofs_vle_unzip_io) (force_fg atomic : bool)
    (last_index : Z) (m : mm) : outcome (list Z * Z * mm) :=
  r ← z_erofs_vle_submit_all fuel owned_head pagepool io0 io1 force_fg atomic
        last_index m;
  if negb (SubmitAll.r_ret r) then
    Ok (SubmitAll.r_pagepool r, SubmitAll.r_io_submitted r, SubmitAll.r_mm r)
  else
    '(pagepool, m) ←
      z_erofs_vle_unzip_all fuel (SubmitAll.io_head (SubmitAll.r_io0 r))
        (SubmitAll.r_pagepool r) (SubmitAll.r_mm r);
    if negb force_fg then Ok (pagepool, SubmitAll.r_io_submitted r, m)
    else
      (* wait until all bios are completed *)
      '(pending, _, m) ←
        bios_end (SubmitAll.r_bios r) false
          (SubmitAll.io_pending_bios (SubmitAll.r_io1 r)) m;
      if negb (pending =? 0) then Sleeps
      else
        (* let's synchronous decompression *)
        '(pagepool, m) ←
          z_erofs_vle_unzip_all fuel (SubmitAll.io_head (SubmitAll.r_io1 r))
            pagepool m;
        Ok (pagepool, SubmitAll.r_io_submitted r, m).

End WithSuperblock.
End SubmitUnzip.

(** ** Reading a list of pages ahead

    A list of pages is kept from its head to its tail: [lru_to_page] gives
    the last page of the list and [list_add] puts a page in front of the
    first.  [__should_decompress_synchronously] is from unzip_vle.h, the
    page flag PG_readahead and [add_to_page_cache_lru] are the kernel's:
    they are parameters.  The throttling quotas are not kept. *)

Module Readpages.

(** [set_page_private(page, (unsigned long)head)] *)
Definition set_page_private (pg : struct_page) (v : Z) : struct_page :=
  mk_page (pg_mapping pg) (pg_index pg) (PG_locked pg) (PG_uptodate pg)
    (PG_error pg) (PG_private pg) v (pg_refcount pg).

(** The pages from [head] along [page_private] up to NULL. *)
Inductive page_chain (m : mm) : Z -> list Z -> Prop :=
| page_chain_null : page_chain m 0 []
| page_chain_page p pg l :
    p <> 0 ->
    pages m !! p = Some pg ->
    page_chain m (pg_private pg) l ->
    page_chain m p (p :: l).

(** The pages of a memory stay where they are and keep their
    [page_private]. *)
Definition private_kept (m m' : mm) : Prop :=
  forall p pg, pages m !! p = Some pg ->
    exists pg', pages m' !! p = Some pg' /\ pg_private pg' = pg_private pg.

(** The calls of the online-page helpers and of [zero_user_segment] for
    the page [page]. *)
Definition about (page : Z) (ev : event) : Prop :=
  match ev with
  | z_erofs_onlinepage_fixup p _ _ => p = page
  | zero_user_segment p _ _ => p = page
  | _ => False
  end.

Section WithBuilder.

Variable defs : erofs_defs.
Variable PAGE_SHIFT : Z.
Variable EROFS_FS_HAS_MANAGED_CACHE : bool.
Variable EROFS_FS_ZIP_CACHE_LVL : Z.
Variable erofs_map_blocks_iter :
  inode -> erofs_map_blocks -> option meta_page -> option Resolver.map_result.
Variable B : Type.
Variable VLE_WORK_BUILDER_INIT : B.
Variable builder_role : B -> z_erofs_vle_work_role.
Variable builder_work : B -> bool.
Variable z_erofs_vle_work_iter_end : B -> bool * B.
Variable z_erofs_vle_work_iter_begin :
  B -> erofs_map_blocks -> z_erofs_vle_owned_workgrp_t ->
  Z * B * z_erofs_vle_owned_workgrp_t.
Variable z_erofs_vle_scan_cachepages :
  B -> erofs_map_blocks -> bool -> list Z -> mm -> B * list Z * mm.
Variable z_erofs_vle_work_add_page : B -> Z -> z_erofs_page_type -> Z * B.
Variable work_max_nr_pages : B -> Z -> B.
Variable __stagingpage_alloc : list Z -> mm -> Z * list Z * mm.
Variable submit_and_unzip_effect :
  B -> z_erofs_vle_owned_workgrp_t -> list Z -> bool -> mm -> B * list Z * mm.
(** [__should_decompress_synchronously(sbi, nr)] *)
Variable __should_decompress_synchronously : nat -> bool.
(** [PageReadahead(page)] of the page at an address *)
Variable PageReadahead : Z -> bool.
(** [add_to_page_cache_lru(page, mapping, index, gfp)] *)
Variable add_to_page_cache_lru : Z -> address_space -> Z -> mm -> Z * mm.

Local Abbreviation z_erofs_do_read_page :=
  (Read.z_erofs_do_read_page defs PAGE_SHIFT EROFS_FS_HAS_MANAGED_CACHE
     EROFS_FS_ZIP_CACHE_LVL erofs_map_blocks_iter B builder_role builder_work
     z_erofs_vle_work_iter_end z_erofs_vle_work_iter_begin
     z_erofs_vle_scan_cachepages z_erofs_vle_work_add_page work_max_nr_pages
     __stagingpage_alloc).

(** The loop [for (; nr_pages; --nr_pages)] of
    [z_erofs_vle_normalaccess_readpages]: the pages are taken off the list
    and added to the page cache; those that are added are linked through
    [page_private], the others are put in the pool. *)
Fixpoint readpages_collect (nr_pages : nat) (pages_ : list Z)
    (mapping : address_space) (sync : bool) (head : Z) (pagepool : list Z)
    (m : mm) : outcome (bool * Z * list Z * mm) :=
  match nr_pages with
  | O => Ok (sync, head, pagepool, m)
  | S nr_pages' =>
      match pages_ with
      | [] => Fault
      | _ :: _ =>
          let page := List.last pages_ 0 in
          (* list_del(&page->lru) *)
          let pages_ := removelast pages_ in
          pg ← deref_page m page;
          (* A pure asynchronous readahead is indicated if a PG_readahead
             marked page is hitted at first. *)
          let sync := sync && negb (PageReadahead page && (head =? 0)) in
          let '(err, m) :=
            add_to_page_cache_lru page mapping (pg_index pg) m in
          if negb (err =? 0) then
            (* list_add(&page->lru, &pagepool); continue *)
            readpages_collect nr_pages' pages_ mapping sync head
              (page :: pagepool) m
          else
            pg ← deref_page m page;
            if PG_private pg then Bug
            else
              let m := store_page m page (set_page_private pg head) in
              readpages_collect nr_pages' pages_ mapping sync page pagepool m
      end
  end.

(** The loop [while (head != NULL)]; [fuel] bounds the number of its
    passes, and [fuel_page] the passes of the loop of
    [z_erofs_do_read_page]. *)
Fixpoint readpages_read (fuel_page fuel : nat) (head : Z)
    (f : Read.z_erofs_vle_frontend B) (pagepool : list Z) (m : mm)
    : outcome (Read.z_erofs_vle_frontend B * list Z * mm) :=
  if head =? 0 then Ok (f, pagepool, m)
  else
    match fuel with
    | O => OutOfFuel
    | S fuel' =>
        let page := head in
        pg ← deref_page m page;
        (* traversal in reverse order *)
        let head := pg_private pg in
        '(_, f, pagepool, m) ← z_erofs_do_read_page fuel_page f page pagepool m;
        pg ← deref_page m page;
        let m := store_page m page (Builder.put_page pg) in
        readpages_read fuel_page fuel' head f pagepool m
    end.

(** [z_erofs_vle_normalaccess_readpages(filp, mapping, pages, nr_pages)]
    for the pages [pages_] of the inode [ino]. *)
Definition z_erofs_vle_normalaccess_readpages (fuel : nat) (ino : inode)
    (mapping : address_space) (pages_ : list Z) (nr_pages : nat) (m : mm)
    : outcome (Z * mm) :=
  let sync := __should_decompress_synchronously nr_pages in
  let f := Read.VLE_FRONTEND_INIT B VLE_WORK_BUILDER_INIT ino in
  f ←
    (if 2 <=? EROFS_FS_ZIP_CACHE_LVL then
       (* f.cachedzone_la = lru_to_page(pages)->index << PAGE_SHIFT *)
       match pages_ with
       | [] => Fault
       | _ :: _ =>
           pg ← deref_page m (List.last pages_ 0);
           Ok (Read.mk_frontend (Read.fe_inode f) (Read.fe_builder f)
                 (Read.fe_map f) (Read.fe_mpage f) (Read.fe_owned_head f)
                 (Read.fe_initial f) (Z.shiftl (pg_index pg) PAGE_SHIFT))
       end
     else Ok f);
  '(sync, head, pagepool, m) ←
    readpages_collect nr_pages pages_ mapping sync 0 [] m;
  '(f, pagepool, m) ← readpages_read fuel fuel head f pagepool m;
  let '(_, b) := z_erofs_vle_work_iter_end (Read.fe_builder f) in
  let m := emit m (z_erofs_submit_and_unzip (Read.fe_owned_head f) sync) in
  let '(_, pagepool, m) :=
    submit_and_unzip_effect b (Read.fe_owned_head f) pagepool sync m in
  (* [put_page(f.m_iter.mpage)]: metadata pages are not kept in [mm] *)
  (* clean up the remaining free pages *)
  m ← Read.put_pages_list pagepool m;
  Ok (0, m).

End WithBuilder.
End Readpages.

(** ** A concrete image

    Cluster size 4096, block size 4096; the cluster type is the low two bits
    of [di_advise], numbered as the labels are listed in the source.  The
    index of the inode starts at byte 64 of block 2. *)

Definition demo_defs (huawei : bool) : erofs_defs :=
  {| Z_EROFS_VLE_DI_CLUSTER_TYPE_BIT := 0;
     Z_EROFS_VLE_DI_CLUSTER_TYPE_BITS := 2;
     Z_EROFS_VLE_CLUSTER_TYPE_PLAIN := 0;
     Z_EROFS_VLE_CLUSTER_TYPE_HEAD := 1;
     Z_EROFS_VLE_CLUSTER_TYPE_NONHEAD := 2;
     Z_EROFS_VLE_CLUSTER_TYPE_HUAWEI_COMPAT := 3;
     EROFS_MAP_MAPPED := 32;
     EROFS_MAP_ZIPPED := 65536;
     LOG_BLOCK_SIZE := 12;
     CONFIG_EROFS_FS_HUAWEI_EXTENSION := huawei |}.

Definition byte_of_Z (z : Z) : byte :=
  match Byte.of_N (Z.to_N (z mod 256)) with
  | Some b => b
  | None => x00
  end.

(** The eight bytes of an index record. *)
Definition encode_di (advise clusterofs u : Z) : list byte :=
  [ byte_of_Z advise; byte_of_Z (advise / 256);
    byte_of_Z clusterofs; byte_of_Z (clusterofs / 256);
    byte_of_Z u; byte_of_Z (u / 256);
    byte_of_Z (u / 65536); byte_of_Z (u / 16777216) ].

(** Block 2 of an image whose index records are [records], in order. *)
Definition demo_block (records : list (list byte)) : meta_page :=
  {| mpage_index := 2;
     mpage_kaddr := fun off =>
       if off <? 64 then x00
       else nth (Z.to_nat (off - 64)) (concat records) x00 |}.

(** Every block but block 2 fails to read. *)
Definition demo_get_meta_page (records : list (list byte)) (mblk : Z)
    : Z + meta_page :=
  if mblk =? 2 then inr (demo_block records) else inl (- EIO).

Definition demo_inode (size : Z) : inode :=
  {| i_size := size; i_iloc := 8192; i_extent_start := 64 |}.

(** A request for offset [la], not resolved yet. *)
Definition demo_map (la : Z) : erofs_map_blocks :=
  {| m_pa := 0; m_la := la; m_plen := 0; m_llen := 0; m_flags := 0 |}.

(** HEAD at cluster 0 (block 7), NONHEAD with delta 1 at cluster 1, NONHEAD
    with delta 2 at cluster 2, PLAIN at cluster 3 (block 9). *)
Definition demo_chain : list (list byte) :=
  [ encode_di 1 0 7; encode_di 2 0 1; encode_di 2 0 2; encode_di 0 0 9 ].

(** A corrupt image: NONHEAD at cluster 0; NONHEAD with delta 0 at cluster
    1; NONHEAD with the forward delta 5 at cluster 2; NONHEAD with delta 1
    at cluster 3. *)
Definition demo_corrupt : list (list byte) :=
  [ encode_di 2 0 1; encode_di 2 0 0; encode_di 2 0 5; encode_di 2 0 1 ].

(** Two images that differ in the type of the record at cluster 1 only, PLAIN
    in the first and HEAD in the second; the record carries the packed
    previous-cluster count 16 in bits 4..7 of [di_advise].  Cluster 0 is
    PLAIN. *)
Definition demo_compat_plain : list (list byte) :=
  [ encode_di 0 0 7; encode_di 16 0 9 ].

Definition demo_compat_head : list (list byte) :=
  [ encode_di 0 0 7; encode_di 17 0 9 ].

(** ** A workgroup with one cached compressed page

    One page per cluster.  The workgroup lives at address 1000, its cached
    page, which belongs to the managed cache and points back to it, at
    address 500. *)

Definition demo_cached_page (locked uptodate : bool) : struct_page :=
  {| pg_mapping := MNGD_MAPPING; pg_index := 5; PG_locked := locked;
     PG_uptodate := uptodate; PG_error := negb uptodate; PG_private := true;
     pg_private := 1000; pg_refcount := 2 |}.

Definition demo_workgroup (refcount : Z) (mutex_held : bool)
    (pagevec : list (Z * z_erofs_page_type)) (nr_pages : Z)
    : z_erofs_vle_workgroup :=
  {| grp_index := 5; grp_refcount := refcount;
     grp_work := mk_work mutex_held 0 nr_pages pagevec;
     grp_next := Z_EROFS_VLE_WORKGRP_TAIL_CLOSED;
     grp_compressed_pages := [500];
     grp_llen := 4096; grp_fmt := Z_EROFS_VLE_WORKGRP_FMT_LZ4 |}.

Definition demo_mm (refcount : Z) (mutex_held page_locked : bool) : mm :=
  {| pages := {[ 500 := demo_cached_page page_locked true ]};
     grps := {[ 1000 := demo_workgroup refcount mutex_held [] 0 ]};
     log := [] |}.

(** ** A decompression pass over that workgroup

    The destination page, at address 700, is page 3 of the file with inode
    77; it was enqueued as an EXCLUSIVE page and is the work's page 0.  The
    read of the cached compressed page failed: the page is not up to date.
    The decompressors, never reached here, all report success; no page can be
    allocated. *)

Definition demo_file_page : struct_page :=
  {| pg_mapping := FILE_MAPPING 77; pg_index := 3; PG_locked := true;
     PG_uptodate := false; PG_error := false; PG_private := true;
     pg_private := 0; pg_refcount := 2 |}.

Definition demo_unzip_mm : mm :=
  {| pages := {[ 500 := demo_cached_page false false; 700 := demo_file_page ]};
     grps := {[ 1000 := demo_workgroup 2 false
                          [(700, Z_EROFS_PAGE_TYPE_EXCLUSIVE)] 1 ]};
     log := [] |}.

Definition demo_unzip (m : mm) (g : Z) (page_pool : list Z)
    : outcome (Z * mm * list Z) :=
  Unzip.z_erofs_vle_unzip 1 true 12 pg_private pg_private
    (fun _ _ _ => 0) (fun _ _ _ _ => 0) (fun _ _ _ _ _ => 0) (fun _ => true)
    (fun pool m => (0, pool, m)) m g page_pool.

(** ** A read of that page

    The read operation over the resolver of the concrete image, with a work
    builder that never gets a work: it starts without one, and every begin
    fails for want of memory. *)

Definition demo_read_mm : mm :=
  {| pages := {[ 700 := demo_file_page ]}; grps := ∅; log := [] |}.

Definition demo_do_read_page (records : list (list byte)) (fuel : nat) (m : mm)
    : outcome (Z * Read.z_erofs_vle_frontend unit * list Z * mm) :=
  Read.z_erofs_do_read_page (demo_defs false) 12 false 0
    (Resolver.z_erofs_map_blocks_iter (demo_defs false) 12
       (demo_get_meta_page records))
    unit (fun _ => Z_EROFS_VLE_WORK_PRIMARY_FOLLOWED) (fun _ => false)
    (fun b => (false, b)) (fun b _ owned_head => (- ENOMEM, b, owned_head))
    (fun b _ _ pool m => (b, pool, m)) (fun b _ _ => (- ENOMEM, b))
    (fun b _ => b) (fun pool m => (0, pool, m))
    fuel
    (Read.mk_frontend (demo_inode 16384) tt (mk_map 0 0 0 0 0) None
       Z_EROFS_VLE_WORKGRP_TAIL true 0)
    700 [] m.

Definition demo_readpage (records : list (list byte)) (fuel : nat) (m : mm)
    : outcome (Z * mm) :=
  Read.z_erofs_vle_normalaccess_readpage (demo_defs false) 12 false 0
    (Resolver.z_erofs_map_blocks_iter (demo_defs false) 12
       (demo_get_meta_page records))
    unit tt (fun _ => Z_EROFS_VLE_WORK_PRIMARY_FOLLOWED) (fun _ => false)
    (fun b => (false, b)) (fun b _ owned_head => (- ENOMEM, b, owned_head))
    (fun b _ _ pool m => (b, pool, m)) (fun b _ _ => (- ENOMEM, b))
    (fun b _ => b) (fun pool m => (0, pool, m))
    (fun b _ pool _ m => (b, pool, m))
    fuel (demo_inode 16384) 700 m.

(** ** A decompression pass whose input was read

    The same workgroup with its cached compressed page up to date. *)

Definition demo_unzip_ok_mm : mm :=
  {| pages := {[ 500 := demo_cached_page false true; 700 := demo_file_page ]};
     grps := {[ 1000 := demo_workgroup 2 false
                          [(700, Z_EROFS_PAGE_TYPE_EXCLUSIVE)] 1 ]};
     log := [] |}.

(** ** A work builder over a four-page cluster

    The workgroup lives at address 2000 and its work is locked by the
    builder.  The first slot holds the page at address 510, the other three
    are NULL.  The collector keeps its entries in a list and takes two.  The
    managed cache has one more page of the cluster, at address 520 for block
    9; no page can be allocated. *)

Definition demo_builder_workgroup : z_erofs_vle_workgroup :=
  {| grp_index := 8; grp_refcount := 2;
     grp_work := mk_work true 0 0 [];
     grp_next := Z_EROFS_VLE_WORKGRP_TAIL;
     grp_compressed_pages := [510; 0; 0; 0];
     grp_llen := 16384; grp_fmt := Z_EROFS_VLE_WORKGRP_FMT_LZ4 |}.

Definition demo_managed_page (index : Z) (attached : bool) : struct_page :=
  {| pg_mapping := MNGD_MAPPING; pg_index := index; PG_locked := false;
     PG_uptodate := true; PG_error := false; PG_private := attached;
     pg_private := if attached then 2000 else 0;
     pg_refcount := if attached then 2 else 1 |}.

Definition demo_builder_mm : mm :=
  {| pages := {[ 510 := demo_managed_page 8 true;
                 520 := demo_managed_page 9 false;
                 700 := demo_file_page ]};
     grps := {[ 2000 := demo_builder_workgroup ]};
     log := [] |}.

Definition demo_collector : Type := list (Z * z_erofs_page_type).

Definition demo_enqueue (v : demo_collector) (page : Z)
    (type : z_erofs_page_type) : bool * demo_collector :=
  if (length v <? 2)%nat then (true, v ++ [(page, type)]) else (false, v).

Definition demo_builder (role : z_erofs_vle_work_role) (vector : demo_collector)
    (cursor deficit : nat) : Builder.z_erofs_vle_work_builder demo_collector :=
  Builder.mk_builder role true 2000 2000 vector (Some cursor) deficit.

Definition demo_tagptr_fold (ptr tags : Z) : Z := Z.lor ptr tags.

Definition demo_find_get_page (index : Z) (m : mm) : Z * mm :=
  match pages m !! 520 with
  | Some pg =>
      if index =? 9
      then (520, store_page m 520
                   (mk_page (pg_mapping pg) (pg_index pg) (PG_locked pg)
                      (PG_uptodate pg) (PG_error pg) (PG_private pg)
                      (pg_private pg) (pg_refcount pg + 1)))
      else (0, m)
  | None => (0, m)
  end.

Definition demo_alloc_pages (m : mm) : Z * mm := (0, m).

(** ** A bio in flight

    Its three pages are a staging page at address 540, a locked page of the
    managed cache at address 530 that is not yet up to date, and the locked
    file page at address 700, which is read into in place. *)

Definition demo_bio_mm : mm :=
  {| pages :=
       {[ 530 := {| pg_mapping := MNGD_MAPPING; pg_index := 8;
                    PG_locked := true; PG_uptodate := false;
                    PG_error := false; PG_private := true;
                    pg_private := 2000; pg_refcount := 2 |};
          540 := {| pg_mapping := Z_EROFS_MAPPING_STAGING; pg_index := 0;
                    PG_locked := false; PG_uptodate := false;
                    PG_error := false; PG_private := false;
                    pg_private := 0; pg_refcount := 1 |};
          700 := demo_file_page ]};
     grps := {[ 2000 := demo_builder_workgroup ]};
     log := [] |}.

Definition demo_bio : list Z := [540; 530; 700].

(** ** A migration of the cached page

    The workgroup at address 1000 with its cached page at address 500, and
    a locked new page at address 900 for the page to move to.  The kernel's
    helpers succeed and leave the memory alone. *)

Definition demo_migrate_mm (mutex_held : bool) : mm :=
  {| pages := {[ 500 := demo_cached_page true true;
                 900 := {| pg_mapping := MAPPING_NULL; pg_index := 0;
                           PG_locked := true; PG_uptodate := false;
                           PG_error := false; PG_private := false;
                           pg_private := 0; pg_refcount := 1 |} ]};
     grps := {[ 1000 := demo_workgroup 2 mutex_held [] 0 ]};
     log := [] |}.

Definition demo_migrate (mode : Migrate.migrate_mode) (m : mm)
    : outcome (Z * mm) :=
  Migrate.erofs_migrate_cached_page 1 (-1) 0
    (fun _ _ _ _ m => (0, m)) (fun _ _ _ _ m => (0, m)) (fun _ _ m => m)
    MNGD_MAPPING 900 500 mode m.

(** ** An owned chain of two workgroups

    The workgroup at address 1000 is followed by the one at address 1100,
    which closes the chain.  Each has one cached compressed page that is up
    to date and one locked file page to decompress into. *)

Definition demo_chain_mm : mm :=
  {| pages :=
       {[ 500 := demo_cached_page false true;
          700 := demo_file_page;
          501 := {| pg_mapping := MNGD_MAPPING; pg_index := 6;
                    PG_locked := false; PG_uptodate := true;
                    PG_error := false; PG_private := true;
                    pg_private := 1100; pg_refcount := 2 |};
          701 := {| pg_mapping := FILE_MAPPING 77; pg_index := 4;
                    PG_locked := true; PG_uptodate := false;
                    PG_error := false; PG_private := true;
                    pg_private := 0; pg_refcount := 2 |} ]};
     grps :=
       {[ 1000 := with_next
                    (demo_workgroup 2 false
                       [(700, Z_EROFS_PAGE_TYPE_EXCLUSIVE)] 1)
                    (WORKGRP 1100);
          1100 := {| grp_index := 6; grp_refcount := 2;
                     grp_work :=
                       mk_work false 0 1 [(701, Z_EROFS_PAGE_TYPE_EXCLUSIVE)];
                     grp_next := Z_EROFS_VLE_WORKGRP_TAIL_CLOSED;
                     grp_compressed_pages := [501];
                     grp_llen := 4096;
                     grp_fmt := Z_EROFS_VLE_WORKGRP_FMT_LZ4 |} ]};
     log := [] |}.

Definition demo_unzip_all (fuel : nat) (head : z_erofs_vle_owned_workgrp_t)
    (page_pool : list Z) (m : mm) : outcome (list Z * mm) :=
  UnzipAll.z_erofs_vle_unzip_all 1 true 12 pg_private pg_private
    (fun _ _ _ => 0) (fun _ _ _ _ => 0) (fun _ _ _ _ _ => 0) (fun _ => true)
    (fun pool m => (0, pool, m)) fuel head page_pool m.

(** ** Picking the page of the workgroup with one cached page

    A tagged pointer keeps its tag in bit 0.  No page can be allocated, and
    no page can be added to the managed cache. *)

Definition demo_grab (m : mm) : outcome (Z * list Z * mm) :=
  Submit.z_erofs_workgrp_grab_page_for_submission 0x5F0EF00D
    (fun v => Z.land v 1) (fun v => Z.land v (-2))
    (fun pool m => (0, pool, m)) (fun _ _ m => (- ENOMEM, m))
    1000 5 0 [] m.

(** ** Submitting a chain of two workgroups

    The workgroup at address 1000 has its one compressed page in the managed
    cache, up to date; the one at address 1100, which ends the open chain,
    has an empty slot, for which the allocator hands out the page at
    address 910.  A bio takes any number of pages. *)

Definition demo_submit_mm : mm :=
  {| pages :=
       {[ 500 := demo_cached_page false true;
          910 := {| pg_mapping := MAPPING_NULL; pg_index := 0;
                    PG_locked := false; PG_uptodate := false;
                    PG_error := false; PG_private := false;
                    pg_private := 0; pg_refcount := 1 |} ]};
     grps :=
       {[ 1000 := with_next
                    (demo_workgroup 2 false
                       [(700, Z_EROFS_PAGE_TYPE_EXCLUSIVE)] 1)
                    (WORKGRP 1100);
          1100 := {| grp_index := 6; grp_refcount := 2;
                     grp_work :=
                       mk_work false 0 1 [(701, Z_EROFS_PAGE_TYPE_EXCLUSIVE)];
                     grp_next := Z_EROFS_VLE_WORKGRP_TAIL;
                     grp_compressed_pages := [0];
                     grp_llen := 4096;
                     grp_fmt := Z_EROFS_VLE_WORKGRP_FMT_LZ4 |} ]};
     log := [] |}.

Definition demo_allocpage (pool : list Z) (m : mm) : Z * list Z * mm :=
  match pages m !! 910 with
  | Some _ => (910, pool, m)
  | None => (0, pool, m)
  end.

Definition demo_submit_all (force_fg : bool) (m : mm)
    : outcome SubmitAll.submitted :=
  SubmitAll.z_erofs_vle_submit_all 1 true 0x5F0EF00D
    (fun v => Z.land v 1) (fun v => Z.land v (-2))
    demo_allocpage (fun _ _ m => (- ENOMEM, m)) (fun _ _ => true)
    2 (WORKGRP 1000) []
    (SubmitAll.mk_io 7 Z_EROFS_VLE_WORKGRP_NIL)
    (SubmitAll.mk_io 7 Z_EROFS_VLE_WORKGRP_NIL)
    force_fg false 0 m.

(** A kernel with nothing set up yet. *)
Definition demo_kernel : Subsystem.kernel :=
  Subsystem.mk_kernel 0 0 ∅ ∅.

(** ** Reading a chain of two workgroups in the foreground

    The memory of the submission above, with the two file pages the
    workgroups decompress into.  Every bio ends without an error. *)

Definition demo_foreground_mm : mm :=
  {| pages :=
       <[ 700 := demo_file_page ]>
       (<[ 701 := {| pg_mapping := FILE_MAPPING 77; pg_index := 4;
                     PG_locked := true; PG_uptodate := false;
                     PG_error := false; PG_private := true;
                     pg_private := 0; pg_refcount := 2 |} ]>
        (pages demo_submit_mm));
     grps := grps demo_submit_mm;
     log := [] |}.

Definition demo_submit_and_unzip (force_fg : bool) (m : mm)
    : outcome (list Z * Z * mm) :=
  SubmitUnzip.z_erofs_submit_and_unzip 1 true 12 pg_private pg_private
    (fun _ _ _ => 0) (fun _ _ _ _ => 0) (fun _ _ _ _ _ => 0) (fun _ => true)
    demo_allocpage 0x5F0EF00D (fun v => Z.land v 1) (fun v => Z.land v (-2))
    (fun _ _ m => (- ENOMEM, m)) (fun _ _ => true) (fun _ => 0)
    2 (WORKGRP 1000) []
    (SubmitAll.mk_io 7 Z_EROFS_VLE_WORKGRP_NIL)
    (SubmitAll.mk_io 7 Z_EROFS_VLE_WORKGRP_NIL)
    force_fg false 0 m.

(** ** Reading three pages ahead

    The pages at the addresses 801, 802 and 803 are the pages 3, 4 and 5 of
    a file of 10000 bytes, so that all of them lie beyond its end.  The
    page at 802 is in the page cache already: it cannot be added.  The
    builder is the one of the read above. *)

Definition demo_readahead_page (index : Z) : struct_page :=
  {| pg_mapping := MAPPING_NULL; pg_index := index;
     PG_locked := false; PG_uptodate := false; PG_error := false;
     PG_private := false; pg_private := 0; pg_refcount := 1 |}.

Definition demo_readahead_mm : mm :=
  {| pages := {[ 801 := demo_readahead_page 3;
                 802 := demo_readahead_page 4;
                 803 := demo_readahead_page 5 ]};
     grps := ∅; log := [] |}.

Definition demo_add_to_page_cache_lru (page : Z) (mapping : address_space)
    (index : Z) (m : mm) : Z * mm :=
  if page =? 802 then (- ENOMEM, m)
  else
    match pages m !! page with
    | Some pg =>
        (0, store_page m page
              (mk_page mapping index true (PG_uptodate pg) (PG_error pg)
                 (PG_private pg) (pg_private pg) (pg_refcount pg + 1)))
    | None => (- ENOMEM, m)
    end.

Definition demo_readpages (fuel : nat) (pages_ : list Z) (nr_pages : nat)
    (m : mm) : outcome (Z * mm) :=
  Readpages.z_erofs_vle_normalaccess_readpages (demo_defs false) 12 false 0
    (Resolver.z_erofs_map_blocks_iter (demo_defs false) 12
       (demo_get_meta_page demo_chain))
    unit tt (fun _ => Z_EROFS_VLE_WORK_PRIMARY_FOLLOWED) (fun _ => false)
    (fun b => (false, b)) (fun b _ owned_head => (- ENOMEM, b, owned_head))
    (fun b _ _ pool m => (b, pool, m)) (fun b _ _ => (- ENOMEM, b))
    (fun b _ => b) (fun pool m => (0, pool, m))
    (fun b _ pool _ m => (b, pool, m))
    (fun nr => (nr <=? 3)%nat) (fun p => p =? 803)
    demo_add_to_page_cache_lru
    fuel (demo_inode 10000) (FILE_MAPPING 77) pages_ nr_pages m.

(** ** An extent of more than 4 GiB

    An image of the same geometry whose one extent starts at cluster 0 and
    goes on through the whole file of 8 GiB: HEAD at cluster 0 (block 7),
    and every later cluster [k] NONHEAD with delta [min k 65535].  Every
    block reads; the index runs on from byte 64 of block 2.  The registry is
    empty at first, and the one workgroup that is registered lives at
    address 1000. *)

Definition demo_long_record (k : Z) : list byte :=
  if k =? 0 then encode_di 1 0 7 else encode_di 2 0 (Z.min k 65535).

Definition demo_long_get_meta_page (mblk : Z) : Z + meta_page :=
  inr {| mpage_index := mblk;
         mpage_kaddr := fun off =>
           let rel := mblk * 4096 + off - (8192 + 64) in
           if rel <? 0 then x00
           else nth (Z.to_nat (rel mod 8)) (demo_long_record (rel / 8)) x00 |}.

(** The return value and the mapping of an initial resolve at offset [la]. *)
Definition demo_long_resolve (la : Z) : option (Z * erofs_map_blocks) :=
  (fun r => (Resolver.mr_err r, Resolver.mr_map r))
    <$> Resolver.z_erofs_map_blocks_iter (demo_defs false) 12
          demo_long_get_meta_page (demo_inode (2 ^ 33)) (demo_map la) None.

Definition demo_long_find (idx : Z) (m : mm) : Z * mm :=
  match grps m !! 1000 with
  | Some grp => if grp_index grp =? idx then (1000, m) else (0, m)
  | None => (0, m)
  end.

Definition demo_long_mm : mm := {| pages := ∅; grps := ∅; log := [] |}.

(** A read operation of its own begins the work on the cluster of [map]. *)
Definition demo_long_begin (map : erofs_map_blocks) (m : mm)
    : outcome (Z * Builder.z_erofs_vle_work_builder demo_collector
               * z_erofs_vle_owned_workgrp_t * mm) :=
  WorkIter.z_erofs_vle_work_iter_begin (demo_defs false) 12 1 1
    demo_collector (fun pagevec => pagevec) demo_long_find
    (fun _ => 1000) (fun _ m => (0, m)) 1
    (WorkIter.VLE_WORK_BUILDER_INIT demo_collector [])
    map Z_EROFS_VLE_WORKGRP_TAIL m.

(** * Theorems *)

(** ** Machine integers and record fields *)

Lemma wrap_range (w x : Z) : 0 <= w -> 0 <= wrap w x < 2 ^ w.
Proof. intros Hw. unfold wrap. apply Z.mod_pos_bound. apply Z.pow_pos_nonneg; lia. Qed.

Lemma wrap_small (w x : Z) : 0 <= x < 2 ^ w -> wrap w x = x.
Proof. intros Hx. unfold wrap. apply Z.mod_small. exact Hx. Qed.

Lemma di_u_delta0_nonneg (di : z_erofs_vle_decompressed_index) :
  0 <= di_u_delta0 di.
Proof. unfold di_u_delta0. apply Z.land_nonneg. right. lia. Qed.

Lemma di_u_delta0_u16 (di : z_erofs_vle_decompressed_index) :
  di_u_delta0 di < 65536.
Proof.
  unfold di_u_delta0. change 65535 with (Z.ones 16).
  rewrite Z.land_ones by lia. apply Z.mod_pos_bound. lia.
Qed.

(** The two flag words the initial switch can hand on: with the ZIPPED bit
    toggled off (PLAIN, at or after clusterofs) and with it left set. *)
Lemma flags_zipped_toggled_off (f zipped mapped : Z) :
  Z.land mapped zipped = 0 ->
  Z.land (Z.lor (Z.lxor (Z.lor f zipped) zipped) mapped) zipped = 0.
Proof.
  intros Hdisj. apply Z.bits_inj'. intros n Hn.
  apply (f_equal (fun x => Z.testbit x n)) in Hdisj.
  rewrite Z.land_spec, Z.bits_0 in Hdisj.
  rewrite Z.land_spec, Z.lor_spec, Z.lxor_spec, Z.lor_spec, Z.bits_0.
  destruct (Z.testbit f n), (Z.testbit zipped n), (Z.testbit mapped n);
    cbn in *; congruence.
Qed.

Lemma flags_zipped_left_set (f zipped mapped : Z) :
  Z.land (Z.lor (Z.lor f zipped) mapped) zipped = zipped.
Proof.
  apply Z.bits_inj'. intros n Hn.
  rewrite Z.land_spec, !Z.lor_spec.
  destruct (Z.testbit f n), (Z.testbit zipped n), (Z.testbit mapped n);
    reflexivity.
Qed.

Lemma flags_zipped_toggle (f zipped mapped : Z) :
  Z.land mapped zipped = 0 ->
  Z.lor (Z.lxor (Z.lor f zipped) zipped) mapped
  = Z.lxor (Z.lor (Z.lor f zipped) mapped) zipped.
Proof.
  intros Hdisj. apply Z.bits_inj'. intros n Hn.
  apply (f_equal (fun x => Z.testbit x n)) in Hdisj.
  rewrite Z.land_spec, Z.bits_0 in Hdisj.
  rewrite Z.lor_spec, !Z.lxor_spec, !Z.lor_spec.
  destruct (Z.testbit f n), (Z.testbit zipped n), (Z.testbit mapped n);
    cbn in *; congruence.
Qed.

Module ResolverFacts.
Import Resolver.
Section WithSuperblock.

Variable defs : erofs_defs.
Variable clusterbits : Z.
Variable erofs_get_meta_page : Z -> Z + meta_page.

Local Abbreviation walk := (vle_get_logical_extent_head defs clusterbits erofs_get_meta_page).
Local Abbreviation visits := (walk_visits defs erofs_get_meta_page).
Local Abbreviation invalid := (nonhead_delta_invalid defs).
Local Abbreviation valid := (nonhead_delta_valid defs).
Local Abbreviation record := (walk_record defs).
Local Abbreviation switch_page := (switch_meta_page defs erofs_get_meta_page).

(** One unfolding of the walk at a NONHEAD record with a valid delta. *)
Lemma walk_nonhead_valid fuel ino mpage mpage1 lcn ofs pblk flags :
  switch_page ino mpage lcn = inr mpage1 ->
  valid lcn (record ino mpage1 lcn) ->
  walk (S fuel) ino mpage lcn ofs pblk flags =
  walk fuel ino mpage1 (lcn - di_u_delta0 (record ino mpage1 lcn)) ofs pblk flags.
Proof.
  intros Hsw (Hty & Hnz & Hle). cbn [vle_get_logical_extent_head].
  rewrite Hsw. unfold walk_record in *. rewrite Hty.
  destruct (Z.eqb_spec (di_u_delta0 (read_di (mpage_kaddr mpage1)
                          (vle_extent_blkoff defs ino lcn))) 0); [lia|].
  destruct (Z.ltb_spec lcn (di_u_delta0 (read_di (mpage_kaddr mpage1)
                          (vle_extent_blkoff defs ino lcn)))); [lia|].
  reflexivity.
Qed.

(** One unfolding of the walk at a NONHEAD record with an invalid delta. *)
Lemma walk_nonhead_invalid fuel ino mpage mpage1 lcn ofs pblk flags :
  switch_page ino mpage lcn = inr mpage1 ->
  invalid lcn (record ino mpage1 lcn) ->
  walk (S fuel) ino mpage lcn ofs pblk flags =
  Some (mk_extent_head (- EIO) (Some mpage1) ofs pblk flags).
Proof.
  intros Hsw (Hty & Hbad). cbn [vle_get_logical_extent_head].
  rewrite Hsw. unfold walk_record in *. rewrite Hty.
  destruct Hbad as [H0|Hlt].
  - rewrite H0. reflexivity.
  - apply Z.ltb_lt in Hlt. rewrite Hlt, orb_true_r. reflexivity.
Qed.

(** A recursive call is made on a strictly smaller, non-negative logical
    cluster number. *)
Lemma valid_delta_decreases lcn di :
  valid lcn di -> 0 <= lcn - di_u_delta0 di < lcn.
Proof.
  intros (_ & Hnz & Hle). pose proof (di_u_delta0_nonneg di). lia.
Qed.

(** Every visited record lies at or below the starting cluster number. *)
Lemma walk_visits_le ino mpage lcn mpage' lcn' :
  visits ino mpage lcn mpage' lcn' -> lcn' <= lcn.
Proof.
  induction 1 as [|mpage lcn mpage1 mpage' lcn' Hsw Hv _ IH]; [lia|].
  apply valid_delta_decreases in Hv. lia.
Qed.

(** Enough fuel: one unit per cluster number from [lcn] down to 0. *)
Lemma walk_enough_fuel fuel : forall ino mpage lcn ofs pblk flags,
  (Z.to_nat lcn < fuel)%nat ->
  exists eh, walk fuel ino mpage lcn ofs pblk flags = Some eh.
Proof.
  induction fuel as [|fuel IH]; intros ino mpage lcn ofs pblk flags Hfuel; [lia|].
  cbn [vle_get_logical_extent_head].
  destruct (switch_page ino mpage lcn) as [err|mpage1]; [eauto|].
  destruct (switch_cluster_type defs _); eauto.
  - destruct (CONFIG_EROFS_FS_HUAWEI_EXTENSION defs); eauto.
  - destruct (Z.eqb_spec (di_u_delta0 (read_di (mpage_kaddr mpage1)
                            (vle_extent_blkoff defs ino lcn))) 0) as [|Hnz];
      [eauto|].
    destruct (Z.ltb_spec lcn (di_u_delta0 (read_di (mpage_kaddr mpage1)
                            (vle_extent_blkoff defs ino lcn)))) as [|Hle];
      [eauto|].
    cbn [orb]. apply IH.
    pose proof (di_u_delta0_nonneg (read_di (mpage_kaddr mpage1)
                  (vle_extent_blkoff defs ino lcn))). lia.
  - destruct (CONFIG_EROFS_FS_HUAWEI_EXTENSION defs); eauto.
Qed.

(** A result does not depend on the fuel left over. *)
Lemma walk_fuel_mono fuel : forall fuel' ino mpage lcn ofs pblk flags eh,
  walk fuel ino mpage lcn ofs pblk flags = Some eh ->
  (fuel <= fuel')%nat ->
  walk fuel' ino mpage lcn ofs pblk flags = Some eh.
Proof.
  induction fuel as [|fuel IH]; intros fuel' ino mpage lcn ofs pblk flags eh H Hle;
    [discriminate|].
  destruct fuel' as [|fuel']; [lia|].
  cbn [vle_get_logical_extent_head] in *.
  destruct (switch_page ino mpage lcn) as [err|mpage1]; [exact H|].
  destruct (switch_cluster_type defs _); try exact H.
  destruct (_ || _); [exact H|].
  apply IH; [exact H|lia].
Qed.

(** A walk that visits a NONHEAD record with an invalid delta stops there
    with -EIO, the three output locations untouched. *)
Lemma walk_visits_invalid ino mpage lcn mpage' lcn' :
  visits ino mpage lcn mpage' lcn' ->
  invalid lcn' (record ino mpage' lcn') ->
  forall fuel ofs pblk flags, (Z.to_nat lcn < fuel)%nat ->
  walk fuel ino mpage lcn ofs pblk flags =
  Some (mk_extent_head (- EIO) (Some mpage') ofs pblk flags).
Proof.
  induction 1 as [mpage lcn mpage' Hsw
                 |mpage lcn mpage1 mpage' lcn' Hsw Hv Hvis IH];
    intros Hbad fuel ofs pblk flags Hfuel;
    (destruct fuel as [|fuel]; [lia|]).
  - apply walk_nonhead_invalid; assumption.
  - rewrite (walk_nonhead_valid _ _ _ mpage1) by assumption.
    apply IH; [assumption|].
    apply valid_delta_decreases in Hv. lia.
Qed.

(** The page [z_erofs_map_blocks_iter] decodes from is the page the walk
    keeps when it is entered at the same cluster. *)
Lemma map_blocks_meta_page_switch ino mpage_ret lcn mpage :
  map_blocks_meta_page defs erofs_get_meta_page ino mpage_ret lcn = inr mpage ->
  switch_page ino mpage lcn = inr mpage.
Proof.
  unfold map_blocks_meta_page, switch_meta_page. intros H.
  destruct (Z.eqb_spec (mpage_index mpage) (vle_extent_blkaddr defs ino lcn))
    as [Heq|Hne]; [reflexivity|].
  destruct mpage_ret as [mp|]; [|exact H].
  destruct (Z.eqb_spec (mpage_index mp) (vle_extent_blkaddr defs ino lcn))
    as [Heq'|_]; [|exact H].
  injection H as ->. contradiction.
Qed.

(** A NONHEAD record at logical cluster 0 has no valid delta. *)
Lemma nonhead_at_zero_invalid di :
  switch_cluster_type defs (vle_cluster_type defs di) = CT_NONHEAD ->
  invalid 0 di.
Proof.
  intros Hty. split; [exact Hty|].
  pose proof (di_u_delta0_nonneg di). lia.
Qed.

(** From label [nonhead]: a walk that visits an invalid NONHEAD record fails
    the resolve with -EIO. *)
Lemma nonhead_visits_invalid ino map mpage lcn mpage' lcn' ofs end_ flags :
  visits ino mpage lcn mpage' lcn' ->
  invalid lcn' (record ino mpage' lcn') ->
  nonhead defs clusterbits erofs_get_meta_page ino map mpage lcn ofs end_ flags
  = Some (map_failed (- EIO) map (Some mpage') flags).
Proof.
  intros Hvis Hbad. unfold nonhead.
  rewrite (walk_visits_invalid _ _ _ _ _ Hvis Hbad)
    by (unfold walk_fuel; lia).
  reflexivity.
Qed.

(** The clusterofs decoded for a NONHEAD record is the cluster size. *)
Lemma clusterofs_nonhead di :
  switch_cluster_type defs (vle_cluster_type defs di) = CT_NONHEAD ->
  vle_decompressed_index_clusterofs defs clusterbits di = inr (clustersize clusterbits).
Proof. intros Hty. unfold vle_decompressed_index_clusterofs. rewrite Hty. reflexivity. Qed.

(** An initial resolve that is not past the end of the file and finds its
    metadata page runs the initial switch on the record of its cluster. *)
Lemma map_blocks_iter_initial ino map mpage_ret mpage c :
  m_llen map = 0 ->
  m_la map < u64 (i_size ino) ->
  map_blocks_meta_page defs erofs_get_meta_page ino mpage_ret
    (map_blocks_lcn clusterbits map) = inr mpage ->
  vle_decompressed_index_clusterofs defs clusterbits
    (record ino mpage (map_blocks_lcn clusterbits map)) = inr c ->
  z_erofs_map_blocks_iter defs clusterbits erofs_get_meta_page ino map mpage_ret =
  map_blocks_decode defs clusterbits erofs_get_meta_page ino map mpage
    (record ino mpage (map_blocks_lcn clusterbits map))
    (map_blocks_lcn clusterbits map) (map_blocks_ofs map)
    (map_blocks_ofs_rem clusterbits map) c.
Proof.
  intros Hinit Heof Hpage Hc. unfold z_erofs_map_blocks_iter.
  destruct (Z.leb_spec (u64 (i_size ino)) (m_la map)); [lia|].
  rewrite Hpage. unfold walk_record in Hc. rewrite Hc.
  rewrite Hinit. reflexivity.
Qed.


(** The clusterofs decoded for a PLAIN or a HEAD record is its own field. *)
Lemma clusterofs_plain_or_head di :
  switch_cluster_type defs (vle_cluster_type defs di) = CT_PLAIN \/
  switch_cluster_type defs (vle_cluster_type defs di) = CT_HEAD ->
  vle_decompressed_index_clusterofs defs clusterbits di = inr (di_clusterofs di).
Proof.
  unfold vle_decompressed_index_clusterofs. intros [-> | ->]; reflexivity.
Qed.

(** Without a packed previous-cluster count the HUAWEI_COMPAT label falls
    through to HEAD. *)
Lemma compat_case_falls_through ino map mpage di lcn ofs ofs_rem c end_ flags :
  CONFIG_EROFS_FS_HUAWEI_EXTENSION defs = false \/
  vle_huawei_compat_previous_clusters clusterbits di = 0 ->
  compat_case defs clusterbits erofs_get_meta_page ino map mpage di
    lcn ofs ofs_rem c end_ flags
  = head_case defs clusterbits erofs_get_meta_page ino map mpage di
      lcn ofs ofs_rem c end_ flags.
Proof.
  unfold compat_case. intros [-> | ->]; [reflexivity|].
  rewrite andb_false_r. reflexivity.
Qed.

(** The HEAD case reads nothing of the record but its block address. *)
Lemma head_case_ext ino map mpage di di' lcn ofs ofs_rem c end_ flags :
  di_u di = di_u di' ->
  head_case defs clusterbits erofs_get_meta_page ino map mpage di
    lcn ofs ofs_rem c end_ flags
  = head_case defs clusterbits erofs_get_meta_page ino map mpage di'
      lcn ofs ofs_rem c end_ flags.
Proof. unfold head_case, di_u_blkaddr. intros ->. reflexivity. Qed.


(** The resolver always returns: the walk is entered with enough depth. *)
Lemma nonhead_total ino map mpage lcn ofs end_ flags :
  exists r, nonhead defs clusterbits erofs_get_meta_page ino map mpage
              lcn ofs end_ flags = Some r.
Proof.
  unfold nonhead.
  destruct (walk_enough_fuel (walk_fuel lcn) ino mpage lcn ofs 0 flags)
    as [eh ->]; [unfold walk_fuel; lia|].
  destruct (negb (eh_err eh =? 0)); eauto.
Qed.

Lemma z_erofs_map_blocks_iter_total ino map mpage_ret :
  exists r, z_erofs_map_blocks_iter defs clusterbits erofs_get_meta_page
              ino map mpage_ret = Some r.
Proof.
  unfold z_erofs_map_blocks_iter.
  destruct (_ <=? _); [eauto|].
  destruct (map_blocks_meta_page _ _ _ _ _) as [err|mpage]; [eauto|].
  destruct (vle_decompressed_index_clusterofs _ _ _) as [err|c]; [eauto|].
  destruct (negb _); [eauto|].
  unfold map_blocks_decode, compat_case, head_case.
  destruct (switch_cluster_type defs _); eauto using nonhead_total;
    repeat match goal with
           | |- context [if ?b then _ else _] => destruct b
           end; eauto using nonhead_total.
Qed.


End WithSuperblock.
End ResolverFacts.

(** C1.  The backward head-resolution walk terminates on every chain and
    from every starting logical cluster number: a recursive call is made only
    at a NONHEAD record whose delta is nonzero and at most [lcn], on the
    strictly smaller number [lcn - delta0], so [lcn + 1] nested calls always
    reach a result, and the result is the same however much more depth is
    allowed.  A chain that violates the condition at a record the walk visits
    makes the walk stop there with -EIO. *)
Theorem vle_get_logical_extent_head_terminates :
  forall (defs : erofs_defs) (clusterbits : Z)
         (erofs_get_meta_page : Z -> Z + meta_page)
         (ino : inode) (mpage : meta_page) (lcn ofs pblk flags : Z),
    (exists eh : extent_head,
        (forall fuel : nat, (Z.to_nat lcn < fuel)%nat ->
           Resolver.vle_get_logical_extent_head defs clusterbits
             erofs_get_meta_page fuel ino mpage lcn ofs pblk flags = Some eh) /\
        (forall mpage' lcn',
           Resolver.walk_visits defs erofs_get_meta_page ino mpage lcn mpage' lcn' ->
           Resolver.nonhead_delta_invalid defs lcn'
             (Resolver.walk_record defs ino mpage' lcn') ->
           eh_err eh = - EIO)) /\
    (forall mpage1 fuel,
        Resolver.switch_meta_page defs erofs_get_meta_page ino mpage lcn
          = inr mpage1 ->
        Resolver.nonhead_delta_valid defs lcn (Resolver.walk_record defs ino mpage1 lcn) ->
        let lcn1 := lcn - di_u_delta0 (Resolver.walk_record defs ino mpage1 lcn) in
        0 <= lcn1 < lcn /\
        Resolver.vle_get_logical_extent_head defs clusterbits
          erofs_get_meta_page (S fuel) ino mpage lcn ofs pblk flags =
        Resolver.vle_get_logical_extent_head defs clusterbits
          erofs_get_meta_page fuel ino mpage1 lcn1 ofs pblk flags).
Proof.
  intros defs clusterbits gmp ino mpage lcn ofs pblk flags. split.
  - destruct (ResolverFacts.walk_enough_fuel defs clusterbits gmp
                (Resolver.walk_fuel lcn) ino mpage lcn ofs pblk flags)
      as [eh Heh]; [unfold Resolver.walk_fuel; lia|].
    exists eh. split.
    + intros fuel Hfuel.
      apply (ResolverFacts.walk_fuel_mono defs clusterbits gmp
               (Resolver.walk_fuel lcn)); [exact Heh|].
      unfold Resolver.walk_fuel. lia.
    + intros mpage' lcn' Hvis Hbad.
      rewrite (ResolverFacts.walk_visits_invalid defs clusterbits gmp
                 ino mpage lcn mpage' lcn' Hvis Hbad) in Heh
        by (unfold Resolver.walk_fuel; lia).
      injection Heh as <-. reflexivity.
  - intros mpage1 fuel Hsw Hv. split.
    + apply (ResolverFacts.valid_delta_decreases defs). exact Hv.
    + apply ResolverFacts.walk_nonhead_valid; assumption.
Qed.

(** C2.  A NONHEAD record whose delta is zero or greater than its own
    logical cluster number fails the resolution with -EIO, and no mapping is
    produced.  (1) The walk that visits such a record returns -EIO there and
    writes none of its outputs.  (2) From label [nonhead], whatever the
    initial switch entered the walk from, the resolve returns -EIO with [map]
    as it was but for [m_flags], to which MAPPED is not added.  (3) An initial
    resolve whose own record is NONHEAD returns -EIO as soon as the walk
    visits such a record, [map] unchanged but for the ZIPPED bit set before
    the switch.  (4) A NONHEAD record at logical cluster 0 is such a record
    whatever its delta, so (5) an initial resolve at cluster 0 that finds a
    NONHEAD record always returns -EIO. *)
Theorem nonhead_invalid_delta_is_EIO :
  forall (defs : erofs_defs) (clusterbits : Z)
         (erofs_get_meta_page : Z -> Z + meta_page) (ino : inode),
    (forall mpage lcn mpage' lcn' fuel ofs pblk flags,
        Resolver.walk_visits defs erofs_get_meta_page ino mpage lcn mpage' lcn' ->
        Resolver.nonhead_delta_invalid defs lcn'
          (Resolver.walk_record defs ino mpage' lcn') ->
        (Z.to_nat lcn < fuel)%nat ->
        Resolver.vle_get_logical_extent_head defs clusterbits
          erofs_get_meta_page fuel ino mpage lcn ofs pblk flags
        = Some (mk_extent_head (- EIO) (Some mpage') ofs pblk flags)) /\
    (forall map mpage lcn mpage' lcn' ofs end_ flags,
        Resolver.walk_visits defs erofs_get_meta_page ino mpage lcn mpage' lcn' ->
        Resolver.nonhead_delta_invalid defs lcn'
          (Resolver.walk_record defs ino mpage' lcn') ->
        Resolver.nonhead defs clusterbits erofs_get_meta_page ino map mpage
          lcn ofs end_ flags
        = Some (Resolver.mk_map_result (- EIO)
                  {| m_pa := m_pa map; m_la := m_la map; m_plen := m_plen map;
                     m_llen := m_llen map; m_flags := flags |}
                  (Some mpage'))) /\
    (forall map mpage_ret mpage mpage' lcn',
        m_llen map = 0 ->
        m_la map < u64 (i_size ino) ->
        Resolver.map_blocks_meta_page defs erofs_get_meta_page ino mpage_ret
          (Resolver.map_blocks_lcn clusterbits map) = inr mpage ->
        Resolver.switch_cluster_type defs
          (Resolver.vle_cluster_type defs
             (Resolver.walk_record defs ino mpage
                (Resolver.map_blocks_lcn clusterbits map))) = CT_NONHEAD ->
        Resolver.walk_visits defs erofs_get_meta_page ino mpage
          (Resolver.map_blocks_lcn clusterbits map) mpage' lcn' ->
        Resolver.nonhead_delta_invalid defs lcn'
          (Resolver.walk_record defs ino mpage' lcn') ->
        Resolver.z_erofs_map_blocks_iter defs clusterbits erofs_get_meta_page
          ino map mpage_ret
        = Some (Resolver.mk_map_result (- EIO)
                  {| m_pa := m_pa map; m_la := m_la map; m_plen := m_plen map;
                     m_llen := m_llen map;
                     m_flags := Z.lor (m_flags map) (EROFS_MAP_ZIPPED defs) |}
                  (Some mpage'))) /\
    (forall di,
        Resolver.switch_cluster_type defs (Resolver.vle_cluster_type defs di)
          = CT_NONHEAD ->
        Resolver.nonhead_delta_invalid defs 0 di) /\
    (forall map mpage_ret mpage,
        m_llen map = 0 ->
        m_la map < u64 (i_size ino) ->
        Resolver.map_blocks_lcn clusterbits map = 0 ->
        Resolver.map_blocks_meta_page defs erofs_get_meta_page ino mpage_ret 0
          = inr mpage ->
        Resolver.switch_cluster_type defs
          (Resolver.vle_cluster_type defs (Resolver.walk_record defs ino mpage 0))
          = CT_NONHEAD ->
        Resolver.z_erofs_map_blocks_iter defs clusterbits erofs_get_meta_page
          ino map mpage_ret
        = Some (Resolver.mk_map_result (- EIO)
                  {| m_pa := m_pa map; m_la := m_la map; m_plen := m_plen map;
                     m_llen := m_llen map;
                     m_flags := Z.lor (m_flags map) (EROFS_MAP_ZIPPED defs) |}
                  (Some mpage))).
Proof.
  intros defs clusterbits gmp ino.
  assert (Hresolve : forall map mpage_ret mpage mpage' lcn',
    m_llen map = 0 ->
    m_la map < u64 (i_size ino) ->
    Resolver.map_blocks_meta_page defs gmp ino mpage_ret
      (Resolver.map_blocks_lcn clusterbits map) = inr mpage ->
    Resolver.switch_cluster_type defs
      (Resolver.vle_cluster_type defs
         (Resolver.walk_record defs ino mpage
            (Resolver.map_blocks_lcn clusterbits map))) = CT_NONHEAD ->
    Resolver.walk_visits defs gmp ino mpage
      (Resolver.map_blocks_lcn clusterbits map) mpage' lcn' ->
    Resolver.nonhead_delta_invalid defs lcn'
      (Resolver.walk_record defs ino mpage' lcn') ->
    Resolver.z_erofs_map_blocks_iter defs clusterbits gmp ino map mpage_ret
    = Some (Resolver.map_failed (- EIO) map (Some mpage')
              (Z.lor (m_flags map) (EROFS_MAP_ZIPPED defs)))).
  { intros map mpage_ret mpage mpage' lcn' Hinit Heof Hpage Hty Hvis Hbad.
    rewrite (ResolverFacts.map_blocks_iter_initial defs clusterbits gmp
               ino map mpage_ret mpage (Resolver.clustersize clusterbits))
      by (auto using ResolverFacts.clusterofs_nonhead).
    unfold Resolver.map_blocks_decode. rewrite Hty.
    apply ResolverFacts.nonhead_visits_invalid with (lcn' := lcn'); assumption. }
  split; [|split; [|split; [|split]]].
  - intros mpage lcn mpage' lcn' fuel ofs pblk flags Hvis Hbad Hfuel.
    apply ResolverFacts.walk_visits_invalid with (lcn' := lcn'); assumption.
  - intros map mpage lcn mpage' lcn' ofs end_ flags Hvis Hbad.
    apply (ResolverFacts.nonhead_visits_invalid defs clusterbits gmp
             ino map mpage lcn mpage' lcn'); assumption.
  - exact Hresolve.
  - apply ResolverFacts.nonhead_at_zero_invalid.
  - intros map mpage_ret mpage Hinit Heof Hlcn Hpage Hty.
    apply (Hresolve map mpage_ret mpage mpage 0); rewrite ?Hlcn; try assumption.
    + apply Resolver.visits_here.
      apply ResolverFacts.map_blocks_meta_page_switch with (mpage_ret := mpage_ret).
      exact Hpage.
    + apply ResolverFacts.nonhead_at_zero_invalid. exact Hty.
Qed.

Lemma nonhead_invalid_delta_is_EIO_witness :
  Resolver.z_erofs_map_blocks_iter (demo_defs false) 12
    (demo_get_meta_page demo_corrupt) (demo_inode 16384) (demo_map 12293) None
  = Some (Resolver.mk_map_result (- EIO)
            {| m_pa := 0; m_la := 12293; m_plen := 0; m_llen := 0;
               m_flags := 65536 |}
            (Some (demo_block demo_corrupt))).
Proof.
  apply (proj1 (proj2 (proj2
           (nonhead_invalid_delta_is_EIO (demo_defs false) 12
              (demo_get_meta_page demo_corrupt) (demo_inode 16384))))
           (demo_map 12293) None (demo_block demo_corrupt)
           (demo_block demo_corrupt) 2).
  - reflexivity.
  - vm_compute. reflexivity.
  - vm_compute. reflexivity.
  - vm_compute. reflexivity.
  - apply Resolver.visits_next with (mpage1 := demo_block demo_corrupt).
    + vm_compute. reflexivity.
    + split; [vm_compute; reflexivity|].
      split; vm_compute; discriminate.
    + apply Resolver.visits_here. vm_compute. reflexivity.
  - split; [vm_compute; reflexivity|].
    right. vm_compute. reflexivity.
Defined.

(** C3.  A resolve call whose requested offset [m_la] is at or beyond the
    inode size returns 0 with the mapping left unmapped: [m_flags] is cleared
    (so MAPPED is not set), [m_la] becomes the file size and [m_llen] becomes
    [m_la + 1 - i_size], computed in 64 bits; the value is exactly
    [m_la + 1 - i_size] whenever that fits 64 bits, that is unless [m_la] is
    the largest 64-bit offset of an empty file.  The physical fields and
    the caller's metadata page are untouched.  The check comes first, so this
    holds for an initial call in particular. *)
Theorem map_blocks_iter_beyond_eof :
  forall (defs : erofs_defs) (clusterbits : Z)
         (erofs_get_meta_page : Z -> Z + meta_page)
         (ino : inode) (map : erofs_map_blocks) (mpage_ret : option meta_page),
    0 <= i_size ino < 2 ^ 63 ->
    0 <= m_la map < 2 ^ 64 ->
    i_size ino <= m_la map ->
    exists map',
      Resolver.z_erofs_map_blocks_iter defs clusterbits erofs_get_meta_page
        ino map mpage_ret = Some (Resolver.mk_map_result 0 map' mpage_ret) /\
      m_flags map' = 0 /\
      Z.land (m_flags map') (EROFS_MAP_MAPPED defs) = 0 /\
      m_la map' = i_size ino /\
      m_llen map' = u64 (m_la map + 1 - i_size ino) /\
      (m_la map + 1 - i_size ino < 2 ^ 64 ->
       m_llen map' = m_la map + 1 - i_size ino) /\
      m_pa map' = m_pa map /\
      m_plen map' = m_plen map.
Proof.
  intros defs clusterbits gmp ino map mpage_ret Hsize Hla Hge.
  assert (Hu : u64 (i_size ino) = i_size ino)
    by (apply wrap_small; lia).
  unfold Resolver.z_erofs_map_blocks_iter. rewrite Hu.
  destruct (Z.leb_spec (i_size ino) (m_la map)) as [_|]; [|lia].
  eexists. split; [reflexivity|]. cbn.
  repeat split; try reflexivity.
  intros Hfit. apply wrap_small. lia.
Qed.

Lemma map_blocks_iter_beyond_eof_witness :
  exists map',
    Resolver.z_erofs_map_blocks_iter (demo_defs false) 12
      (demo_get_meta_page demo_chain) (demo_inode 16384) (demo_map 20000) None
    = Some (Resolver.mk_map_result 0 map' None) /\
    m_flags map' = 0 /\
    Z.land (m_flags map') 32 = 0 /\
    m_la map' = 16384 /\
    m_llen map' = u64 (20000 + 1 - 16384) /\
    (20000 + 1 - 16384 < 2 ^ 64 -> m_llen map' = 20000 + 1 - 16384) /\
    m_pa map' = 0 /\
    m_plen map' = 0.
Proof.
  apply (map_blocks_iter_beyond_eof (demo_defs false) 12
           (demo_get_meta_page demo_chain) (demo_inode 16384) (demo_map 20000) None);
    cbn; lia.
Defined.

(** C9 (as amended).  A resolve call entered in walking mode ([m_llen]
    nonzero) for an offset inside the file leaves [m_la], [m_pa], [m_plen]
    and [m_flags] as they were.  When the metadata page of the next record is
    obtained and the record's cluster offset decodes, the call returns 0 and
    has added that decoded offset to [m_llen] in place (in 64 bits);
    otherwise it returns the error and [m_llen] too is as it was. *)
Theorem map_blocks_iter_walking_mode :
  forall (defs : erofs_defs) (clusterbits : Z)
         (erofs_get_meta_page : Z -> Z + meta_page)
         (ino : inode) (map : erofs_map_blocks) (mpage_ret : option meta_page),
    m_llen map <> 0 ->
    m_la map < u64 (i_size ino) ->
    exists r,
      Resolver.z_erofs_map_blocks_iter defs clusterbits erofs_get_meta_page
        ino map mpage_ret = Some r /\
      m_la (Resolver.mr_map r) = m_la map /\
      m_pa (Resolver.mr_map r) = m_pa map /\
      m_plen (Resolver.mr_map r) = m_plen map /\
      m_flags (Resolver.mr_map r) = m_flags map /\
      match Resolver.map_blocks_meta_page defs erofs_get_meta_page ino mpage_ret
              (Resolver.map_blocks_lcn clusterbits map) with
      | inl err =>
          Resolver.mr_err r = err /\ m_llen (Resolver.mr_map r) = m_llen map
      | inr mpage =>
          match Resolver.vle_decompressed_index_clusterofs defs clusterbits
                  (Resolver.walk_record defs ino mpage
                     (Resolver.map_blocks_lcn clusterbits map)) with
          | inl err =>
              Resolver.mr_err r = err /\ m_llen (Resolver.mr_map r) = m_llen map
          | inr logical_cluster_ofs =>
              Resolver.mr_err r = 0 /\
              m_llen (Resolver.mr_map r) = u64 (m_llen map + logical_cluster_ofs)
          end
      end.
Proof.
  intros defs clusterbits gmp ino map mpage_ret Hwalk Heof.
  unfold Resolver.z_erofs_map_blocks_iter, Resolver.walk_record.
  destruct (Z.leb_spec (u64 (i_size ino)) (m_la map)); [lia|].
  destruct (Resolver.map_blocks_meta_page defs gmp ino mpage_ret _)
    as [err|mpage].
  { eexists. split; [reflexivity|]. cbn. repeat split; reflexivity. }
  destruct (Resolver.vle_decompressed_index_clusterofs defs clusterbits _)
    as [err|c].
  { eexists. split; [reflexivity|]. cbn. repeat split; reflexivity. }
  destruct (Z.eqb_spec (m_llen map) 0); [contradiction|].
  eexists. split; [reflexivity|]. cbn. repeat split; reflexivity.
Qed.

Lemma map_blocks_iter_walking_mode_witness :
  exists r,
    Resolver.z_erofs_map_blocks_iter (demo_defs false) 12
      (demo_get_meta_page demo_chain) (demo_inode 16384)
      {| m_pa := 28672; m_la := 0; m_plen := 4096; m_llen := 4096;
         m_flags := 65568 |} None = Some r /\
    m_la (Resolver.mr_map r) = 0 /\
    m_pa (Resolver.mr_map r) = 28672 /\
    m_plen (Resolver.mr_map r) = 4096 /\
    m_flags (Resolver.mr_map r) = 65568 /\
    Resolver.mr_err r = 0 /\
    m_llen (Resolver.mr_map r) = 8192.
Proof.
  exact (map_blocks_iter_walking_mode (demo_defs false) 12
           (demo_get_meta_page demo_chain) (demo_inode 16384)
           {| m_pa := 28672; m_la := 0; m_plen := 4096; m_llen := 4096;
              m_flags := 65568 |} None
           ltac:(discriminate) ltac:(vm_compute; reflexivity)).
Defined.

(** C9 as stated fails for a walking-mode call at or beyond the end of the
    file.  The test for the end of the file comes before the two modes part:
    with [m_llen] at 4096 and [m_la] at 20000 in a file of 16384 bytes, the
    call returns 0 with [m_la] moved to the end of the file, [m_flags]
    cleared and [m_llen] lowered to 3617. *)
Lemma map_blocks_iter_walking_mode_counterexample :
  let map := {| m_pa := 28672; m_la := 20000; m_plen := 4096; m_llen := 4096;
                m_flags := 65568 |} in
  m_llen map <> 0 /\
  exists r,
    Resolver.z_erofs_map_blocks_iter (demo_defs false) 12
      (demo_get_meta_page demo_chain) (demo_inode 16384) map None = Some r /\
    Resolver.mr_err r = 0 /\
    m_la (Resolver.mr_map r) = 16384 /\
    m_la (Resolver.mr_map r) <> m_la map /\
    m_flags (Resolver.mr_map r) = 0 /\
    m_flags (Resolver.mr_map r) <> m_flags map /\
    m_llen (Resolver.mr_map r) = 3617 /\
    m_llen (Resolver.mr_map r) < m_llen map.
Proof.
  cbn zeta. split; [discriminate|].
  eexists. split; [vm_compute; reflexivity|]. cbn.
  repeat split; try reflexivity; try discriminate.
Qed.

(** C7 (as amended).  Take an initial resolve that decodes a PLAIN record
    carrying no packed previous-cluster count (always so when the
    compatibility extension is compiled out), and compare it with the same
    resolve on a HEAD record of the same clusterofs and block address.  The
    clusterofs decoded for both is the record's own.  When the remainder of
    the requested offset is at or after clusterofs, both succeed with the
    same mapping except for the compressed flag, which the HEAD case leaves
    set and the PLAIN case has toggled off.  When the remainder is before
    clusterofs the PLAIN case is the HEAD case: the same backward walk, or
    the same -EIO at cluster 0. *)
Theorem plain_toggles_zipped :
  forall (defs : erofs_defs) (clusterbits : Z)
         (erofs_get_meta_page : Z -> Z + meta_page)
         (ino : inode) (map : erofs_map_blocks) (mpage : meta_page)
         (di_plain di_head : z_erofs_vle_decompressed_index)
         (lcn ofs ofs_rem : Z),
    Resolver.switch_cluster_type defs (Resolver.vle_cluster_type defs di_plain)
      = CT_PLAIN ->
    Resolver.switch_cluster_type defs (Resolver.vle_cluster_type defs di_head)
      = CT_HEAD ->
    di_clusterofs di_head = di_clusterofs di_plain ->
    di_u di_head = di_u di_plain ->
    CONFIG_EROFS_FS_HUAWEI_EXTENSION defs = false \/
      Resolver.vle_huawei_compat_previous_clusters clusterbits di_plain = 0 ->
    Z.land (EROFS_MAP_MAPPED defs) (EROFS_MAP_ZIPPED defs) = 0 ->
    let c := di_clusterofs di_plain in
    let decode di :=
      Resolver.map_blocks_decode defs clusterbits erofs_get_meta_page
        ino map mpage di lcn ofs ofs_rem c in
    Resolver.vle_decompressed_index_clusterofs defs clusterbits di_plain = inr c /\
    Resolver.vle_decompressed_index_clusterofs defs clusterbits di_head = inr c /\
    (c <= ofs_rem ->
     exists map_plain map_head,
       decode di_plain = Some (Resolver.mk_map_result 0 map_plain (Some mpage)) /\
       decode di_head = Some (Resolver.mk_map_result 0 map_head (Some mpage)) /\
       Z.land (m_flags map_plain) (EROFS_MAP_ZIPPED defs) = 0 /\
       Z.land (m_flags map_head) (EROFS_MAP_ZIPPED defs) = EROFS_MAP_ZIPPED defs /\
       m_flags map_plain = Z.lxor (m_flags map_head) (EROFS_MAP_ZIPPED defs) /\
       m_la map_plain = m_la map_head /\
       m_llen map_plain = m_llen map_head /\
       m_pa map_plain = m_pa map_head /\
       m_plen map_plain = m_plen map_head) /\
    (ofs_rem < c -> decode di_plain = decode di_head) /\
    (forall mpage_ret,
       m_llen map = 0 ->
       m_la map < u64 (i_size ino) ->
       Resolver.map_blocks_meta_page defs erofs_get_meta_page ino mpage_ret
         (Resolver.map_blocks_lcn clusterbits map) = inr mpage ->
       Resolver.walk_record defs ino mpage (Resolver.map_blocks_lcn clusterbits map)
         = di_plain ->
       lcn = Resolver.map_blocks_lcn clusterbits map ->
       ofs = Resolver.map_blocks_ofs map ->
       ofs_rem = Resolver.map_blocks_ofs_rem clusterbits map ->
       Resolver.z_erofs_map_blocks_iter defs clusterbits erofs_get_meta_page
         ino map mpage_ret = decode di_plain).
Proof.
  intros defs clusterbits gmp ino map mpage di_plain di_head lcn ofs ofs_rem
    Hplain Hhead Hc Hu Hcompat Hdisj c decode.
  split; [apply ResolverFacts.clusterofs_plain_or_head; auto|].
  split; [subst c; rewrite <- Hc;
          apply ResolverFacts.clusterofs_plain_or_head; auto|].
  assert (Hlink : forall mpage_ret,
    m_llen map = 0 ->
    m_la map < u64 (i_size ino) ->
    Resolver.map_blocks_meta_page defs gmp ino mpage_ret
      (Resolver.map_blocks_lcn clusterbits map) = inr mpage ->
    Resolver.walk_record defs ino mpage (Resolver.map_blocks_lcn clusterbits map)
      = di_plain ->
    lcn = Resolver.map_blocks_lcn clusterbits map ->
    ofs = Resolver.map_blocks_ofs map ->
    ofs_rem = Resolver.map_blocks_ofs_rem clusterbits map ->
    Resolver.z_erofs_map_blocks_iter defs clusterbits gmp ino map mpage_ret
    = decode di_plain).
  { intros mpage_ret Hinit Heof Hpage Hrec -> -> ->. subst decode c. cbv beta.
    rewrite <- Hrec.
    apply ResolverFacts.map_blocks_iter_initial; try assumption.
    apply ResolverFacts.clusterofs_plain_or_head. left.
    rewrite Hrec. exact Hplain. }
  split; [|split; [|exact Hlink]]; clear Hlink; subst decode;
    unfold Resolver.map_blocks_decode; rewrite Hplain, Hhead;
    rewrite ResolverFacts.compat_case_falls_through by exact Hcompat;
    rewrite (ResolverFacts.head_case_ext defs clusterbits gmp ino map mpage
               di_head di_plain) by exact Hu.
  - intros Hle. destruct (Z.leb_spec c ofs_rem) as [_|]; [|lia].
    unfold Resolver.head_case.
    destruct (Z.eqb_spec ofs_rem c) as [Heq|Hne].
    + do 2 eexists. split; [reflexivity|]. split; [reflexivity|]. cbn.
      split; [apply flags_zipped_toggled_off; exact Hdisj|].
      split; [apply flags_zipped_left_set|].
      split; [apply flags_zipped_toggle; exact Hdisj|].
      repeat split; reflexivity.
    + destruct (Z.ltb_spec c ofs_rem) as [_|]; [|lia].
      do 2 eexists. split; [reflexivity|]. split; [reflexivity|]. cbn.
      split; [apply flags_zipped_toggled_off; exact Hdisj|].
      split; [apply flags_zipped_left_set|].
      split; [apply flags_zipped_toggle; exact Hdisj|].
      repeat split; reflexivity.
  - intros Hlt. destruct (Z.leb_spec c ofs_rem) as [|_]; [lia|]. reflexivity.
Qed.

Lemma plain_toggles_zipped_witness :
  exists map_plain map_head,
    Resolver.map_blocks_decode (demo_defs false) 12 (demo_get_meta_page demo_chain)
      (demo_inode 16384) (demo_map 12388) (demo_block demo_chain)
      (mk_di 0 0 9) 3 12388 100 0
    = Some (Resolver.mk_map_result 0 map_plain (Some (demo_block demo_chain))) /\
    Resolver.map_blocks_decode (demo_defs false) 12 (demo_get_meta_page demo_chain)
      (demo_inode 16384) (demo_map 12388) (demo_block demo_chain)
      (mk_di 1 0 9) 3 12388 100 0
    = Some (Resolver.mk_map_result 0 map_head (Some (demo_block demo_chain))) /\
    Z.land (m_flags map_plain) 65536 = 0 /\
    Z.land (m_flags map_head) 65536 = 65536 /\
    m_flags map_plain = Z.lxor (m_flags map_head) 65536 /\
    m_la map_plain = m_la map_head /\
    m_llen map_plain = m_llen map_head /\
    m_pa map_plain = m_pa map_head /\
    m_plen map_plain = m_plen map_head.
Proof.
  refine (proj1 (proj2 (proj2
            (plain_toggles_zipped (demo_defs false) 12
               (demo_get_meta_page demo_chain) (demo_inode 16384)
               (demo_map 12388) (demo_block demo_chain)
               (mk_di 0 0 9) (mk_di 1 0 9) 3 12388 100
               _ _ _ _ _ _))) _).
  - reflexivity.
  - reflexivity.
  - reflexivity.
  - reflexivity.
  - left. reflexivity.
  - reflexivity.
  - cbn. lia.
Defined.

(** C7 as stated fails when the compatibility extension is compiled in and
    the PLAIN record carries a previous-cluster count: the resolve of offset
    4196 finds the PLAIN record of cluster 1, the remainder 100 is at or
    after its clusterofs 0, and yet the mapping comes back with the compressed
    flag set, as it does for the HEAD record with the same fields: the toggle
    is undone by the backward walk the count sends the resolve on, which ends
    at the PLAIN record of cluster 0. *)
Lemma plain_toggles_zipped_counterexample :
  Resolver.switch_cluster_type (demo_defs true)
    (Resolver.vle_cluster_type (demo_defs true)
       (Resolver.walk_record (demo_defs true) (demo_inode 8192)
          (demo_block demo_compat_plain) 1)) = CT_PLAIN /\
  Resolver.map_blocks_lcn 12 (demo_map 4196) = 1 /\
  di_clusterofs (Resolver.walk_record (demo_defs true) (demo_inode 8192)
                   (demo_block demo_compat_plain) 1)
    <= Resolver.map_blocks_ofs_rem 12 (demo_map 4196) /\
  Resolver.z_erofs_map_blocks_iter (demo_defs true) 12
    (demo_get_meta_page demo_compat_plain) (demo_inode 8192) (demo_map 4196) None
  = Some (Resolver.mk_map_result 0
            {| m_pa := 28672; m_la := 0; m_plen := 4096; m_llen := 8192;
               m_flags := 65568 |}
            (Some (demo_block demo_compat_plain))) /\
  Resolver.z_erofs_map_blocks_iter (demo_defs true) 12
    (demo_get_meta_page demo_compat_head) (demo_inode 8192) (demo_map 4196) None
  = Some (Resolver.mk_map_result 0
            {| m_pa := 36864; m_la := 4096; m_plen := 4096; m_llen := 4096;
               m_flags := 65568 |}
            (Some (demo_block demo_compat_head))) /\
  Z.land 65568 (EROFS_MAP_ZIPPED (demo_defs true))
  = EROFS_MAP_ZIPPED (demo_defs true) /\
  EROFS_MAP_ZIPPED (demo_defs true) <> 0.
Proof.
  split; [vm_compute; reflexivity|].
  split; [vm_compute; reflexivity|].
  split; [vm_compute; discriminate|].
  split; [vm_compute; reflexivity|].
  split; [vm_compute; reflexivity|].
  split; [vm_compute; reflexivity|].
  vm_compute. discriminate.
Qed.

(** ** Claiming a workgroup *)

Module ClaimFacts.
Import Claim.

Lemma interfere_app env1 env2 v :
  interfere (env1 ++ env2) v = interfere env2 (interfere env1 v).
Proof. unfold interfere. apply fold_left_app. Qed.

(** An access consumes at most the first pending interference. *)
Lemma access_take_drop env v :
  access env v = (interfere (take 1 env) v, drop 1 env).
Proof. destruct env as [|e env]; reflexivity. Qed.

(** A pending interference is consumed by the access that finds it. *)
Lemma pending_consumed (env : list interference) (fuel : nat) :
  drop 1 env <> [] ->
  (length env < S fuel)%nat ->
  (length (drop 1 (drop 1 env)) < fuel)%nat.
Proof.
  intros Hpending Hfuel.
  assert (length (drop 1 env) <> 0%nat)
    by (destruct (drop 1 env); [congruence|cbn; lia]).
  rewrite !length_drop in *. lia.
Qed.

Lemma claimed_shift grp st used v role st' :
  claimed grp (mk_claim (interfere used (next st)) (owned_head st) (hosted st))
    v role st' ->
  claimed grp st v role st'.
Proof. destruct role; exact id. Qed.

(** Under any finite interference the claim returns, after at most one pass
    per interference, and what it returns is one of the three outcomes. *)
Lemma try_to_claim_interfered fuel : forall grp env st,
  (length env < fuel)%nat ->
  exists role st' used rest,
    try_to_claim_workgroup fuel grp env st = Some (role, st', rest) /\
    env = used ++ rest /\
    claimed grp st (interfere used (next st)) role st'.
Proof.
  induction fuel as [|fuel IH]; intros grp env st Hfuel; [lia|].
  cbn [try_to_claim_workgroup].
  rewrite (access_take_drop env). rewrite (access_take_drop (drop 1 env)).
  set (v1 := interfere (take 1 env) (next st)).
  set (v2 := interfere (take 1 (drop 1 env)) v1).
  assert (Hv2 : v2 = interfere (take 1 env ++ take 1 (drop 1 env)) (next st))
    by (rewrite interfere_app; reflexivity).
  assert (Hsplit2 : env = (take 1 env ++ take 1 (drop 1 env)) ++ drop 1 (drop 1 env))
    by (rewrite <- app_assoc, !take_drop; reflexivity).
  destruct (decide (v1 = Z_EROFS_VLE_WORKGRP_NIL)) as [Hnil|Hnonnil].
  - unfold cmpxchg.
    destruct (decide (v2 = Z_EROFS_VLE_WORKGRP_NIL)) as [Hnil2|Hlost].
    + (* the compare-and-swap wins *)
      destruct (decide (Z_EROFS_VLE_WORKGRP_NIL <> v2)) as [Hne|_]; [congruence|].
      exists Z_EROFS_VLE_WORK_PRIMARY_FOLLOWED. eexists.
      exists (take 1 env ++ take 1 (drop 1 env)), (drop 1 (drop 1 env)).
      split; [reflexivity|]. split; [exact Hsplit2|].
      cbn. rewrite <- Hv2. auto.
    + (* another thread got there first: retry *)
      destruct (decide (Z_EROFS_VLE_WORKGRP_NIL <> v2)) as [_|Heq];
        [|exfalso; apply Heq; congruence].
      assert (Hpending : drop 1 env <> []).
      { intros Hnone. apply Hlost. subst v2. rewrite Hnone. cbn. exact Hnil. }
      destruct (IH grp (drop 1 (drop 1 env))
                  (mk_claim v2 (owned_head st) (hosted st)))
        as (role & st' & used & rest & Hrun & Hsplit & Hpost).
      { apply pending_consumed; assumption. }
      exists role, st', ((take 1 env ++ take 1 (drop 1 env)) ++ used), rest.
      split; [exact Hrun|]. split.
      * rewrite <- app_assoc, <- Hsplit. exact Hsplit2.
      * rewrite interfere_app, <- Hv2.
        apply claimed_shift with (used := take 1 env ++ take 1 (drop 1 env)).
        rewrite <- Hv2. exact Hpost.
  - destruct (decide (v2 = Z_EROFS_VLE_WORKGRP_TAIL)) as [Htail|Hother].
    + rewrite (access_take_drop (drop 1 (drop 1 env))).
      set (v3 := interfere (take 1 (drop 1 (drop 1 env))) v2).
      assert (Hv3 : v3 = interfere ((take 1 env ++ take 1 (drop 1 env))
                                    ++ take 1 (drop 1 (drop 1 env))) (next st))
        by (rewrite interfere_app, <- Hv2; reflexivity).
      assert (Hsplit3 : env = ((take 1 env ++ take 1 (drop 1 env))
                               ++ take 1 (drop 1 (drop 1 env)))
                              ++ drop 1 (drop 1 (drop 1 env))).
      { rewrite <- (app_assoc _ _ (drop 1 (drop 1 (drop 1 env)))), take_drop.
        exact Hsplit2. }
      unfold cmpxchg.
      destruct (decide (v3 = Z_EROFS_VLE_WORKGRP_TAIL)) as [Htail3|Hlost].
      * destruct (decide (Z_EROFS_VLE_WORKGRP_TAIL <> v3)) as [Hne|_]; [congruence|].
        exists Z_EROFS_VLE_WORK_PRIMARY_TERMINAL. eexists.
        eexists _, (drop 1 (drop 1 (drop 1 env))).
        split; [reflexivity|]. split; [exact Hsplit3|].
        cbn. rewrite <- Hv3. auto.
      * destruct (decide (Z_EROFS_VLE_WORKGRP_TAIL <> v3)) as [_|Heq];
          [|exfalso; apply Heq; congruence].
        assert (Hpending : drop 1 (drop 1 env) <> []).
        { intros Hnone. apply Hlost. subst v3. rewrite Hnone. cbn. exact Htail. }
        destruct (IH grp (drop 1 (drop 1 (drop 1 env)))
                    (mk_claim v3 (owned_head st) (hosted st)))
          as (role & st' & used & rest & Hrun & Hsplit & Hpost).
        { apply pending_consumed; [assumption|]. rewrite length_drop. lia. }
        eexists role, st', (_ ++ used), rest.
        split; [exact Hrun|]. split.
        { rewrite <- app_assoc, <- Hsplit. exact Hsplit3. }
        rewrite interfere_app, <- Hv3.
        apply claimed_shift with
          (used := (take 1 env ++ take 1 (drop 1 env))
                   ++ take 1 (drop 1 (drop 1 env))).
        rewrite <- Hv3. exact Hpost.
    + exists Z_EROFS_VLE_WORK_PRIMARY. eexists.
      exists (take 1 env ++ take 1 (drop 1 env)), (drop 1 (drop 1 env)).
      split; [reflexivity|]. split; [exact Hsplit2|].
      cbn. rewrite <- Hv2. auto.
Qed.

End ClaimFacts.

(** C4.  A claim attempt on the workgroup at address [grp].  With no other
    thread at work: when [grp->next] is NIL the compare-and-swap installs the
    caller's [owned_head] in it, [owned_head] becomes this workgroup, [hosted]
    becomes true and the role is PRIMARY_FOLLOWED; when it is TAIL the
    compare-and-swap installs [owned_head], [owned_head] becomes TAIL,
    [hosted] is left alone and the role is PRIMARY_TERMINAL; otherwise the
    role is PRIMARY and nothing is modified.  With other threads writing
    [grp->next] between the caller's accesses, in any finite way: the
    attempt returns; the role is PRIMARY_FOLLOWED only through a
    compare-and-swap that found NIL, PRIMARY_TERMINAL only through one that
    found TAIL, each with the same three writes; and it is PRIMARY otherwise,
    with [owned_head] and [hosted] as they were and [grp->next] as the other
    threads left it. *)
Theorem try_to_claim_workgroup_roles :
  forall (grp : positive) (st : Claim.claim_state),
    (forall fuel : nat,
        (Claim.next st = Z_EROFS_VLE_WORKGRP_NIL ->
         Claim.try_to_claim_workgroup (S fuel) grp [] st
         = Some (Z_EROFS_VLE_WORK_PRIMARY_FOLLOWED,
                 Claim.mk_claim (Claim.owned_head st) (WORKGRP grp) true, [])) /\
        (Claim.next st = Z_EROFS_VLE_WORKGRP_TAIL ->
         Claim.try_to_claim_workgroup (S fuel) grp [] st
         = Some (Z_EROFS_VLE_WORK_PRIMARY_TERMINAL,
                 Claim.mk_claim (Claim.owned_head st) Z_EROFS_VLE_WORKGRP_TAIL
                   (Claim.hosted st), [])) /\
        (Claim.next st <> Z_EROFS_VLE_WORKGRP_NIL ->
         Claim.next st <> Z_EROFS_VLE_WORKGRP_TAIL ->
         Claim.try_to_claim_workgroup (S fuel) grp [] st
         = Some (Z_EROFS_VLE_WORK_PRIMARY, st, []))) /\
    (forall (env : list Claim.interference) (fuel : nat),
        (length env < fuel)%nat ->
        exists role st' used rest,
          Claim.try_to_claim_workgroup fuel grp env st = Some (role, st', rest) /\
          env = used ++ rest /\
          let found := Claim.interfere used (Claim.next st) in
          match role with
          | Z_EROFS_VLE_WORK_PRIMARY_FOLLOWED =>
              found = Z_EROFS_VLE_WORKGRP_NIL /\
              st' = Claim.mk_claim (Claim.owned_head st) (WORKGRP grp) true
          | Z_EROFS_VLE_WORK_PRIMARY_TERMINAL =>
              found = Z_EROFS_VLE_WORKGRP_TAIL /\
              st' = Claim.mk_claim (Claim.owned_head st)
                      Z_EROFS_VLE_WORKGRP_TAIL (Claim.hosted st)
          | Z_EROFS_VLE_WORK_PRIMARY =>
              found <> Z_EROFS_VLE_WORKGRP_TAIL /\
              st' = Claim.mk_claim found (Claim.owned_head st) (Claim.hosted st)
          | Z_EROFS_VLE_WORK_SECONDARY => False
          end).
Proof.
  intros grp [next owned_head hosted]. split.
  - intros fuel. cbn [Claim.next Claim.owned_head Claim.hosted].
    split; [|split].
    + intros ->. reflexivity.
    + intros ->. reflexivity.
    + intros Hnil Htail. cbn.
      destruct (decide (next = Z_EROFS_VLE_WORKGRP_NIL)); [contradiction|].
      destruct (decide (next = Z_EROFS_VLE_WORKGRP_TAIL)); [contradiction|].
      reflexivity.
  - intros env fuel Hfuel.
    destruct (ClaimFacts.try_to_claim_interfered fuel grp env
                (Claim.mk_claim next owned_head hosted) Hfuel)
      as (role & st' & used & rest & Hrun & Hsplit & Hpost).
    exists role, st', used, rest.
    split; [exact Hrun|]. split; [exact Hsplit|].
    destruct role; exact Hpost.
Qed.

(** A lost race: the caller reads NIL, another thread links the workgroup
    into its own chain before the compare-and-swap, and the caller, on its
    second pass, is left with the role PRIMARY and its own state untouched. *)
Example try_to_claim_workgroup_lost_race :
  Claim.try_to_claim_workgroup 2 5 [id; fun _ => WORKGRP 9]
    (Claim.mk_claim Z_EROFS_VLE_WORKGRP_NIL Z_EROFS_VLE_WORKGRP_TAIL false)
  = Some (Z_EROFS_VLE_WORK_PRIMARY,
          Claim.mk_claim (WORKGRP 9) Z_EROFS_VLE_WORKGRP_TAIL false, []).
Proof. reflexivity. Qed.

(** ** Raising a workgroup's length *)

Module LlenFacts.
Import Llen.

Lemma joiner_ok_mono cur cur' j :
  cur <= cur' -> joiner_ok cur j -> joiner_ok cur' j.
Proof.
  unfold joiner_ok. intros Hle [Hfit Hpc]. split; [exact Hfit|].
  destruct (j_pc j); [exact I|exact Hpc|lia].
Qed.

(** One step of a caller: [llen] stays or is raised to the caller's own
    length, and the caller is again as the loop keeps it. *)
Lemma joiner_step_ok cur j :
  joiner_ok cur j ->
  let '(cur', j') := joiner_step cur j in
  (cur' = cur \/ (cur < cur' /\ cur' = j_m_llen j)) /\
  j_m_llen j' = j_m_llen j /\
  joiner_ok cur' j'.
Proof.
  unfold joiner_ok, joiner_step. intros [Hfit Hpc].
  destruct (j_pc j) as [|orig_llen|] eqn:Epc.
  - destruct (Z.ltb_spec cur (j_m_llen j)); cbn; rewrite ?Epc; auto with lia.
  - destruct (Z.eqb_spec cur orig_llen) as [->|Hne]; cbn.
    + rewrite (wrap_small 32) by exact Hfit. split; [right|]; auto with lia.
    + auto.
  - rewrite Epc. auto with lia.
Qed.

Lemma llen_step_inv s s' :
  llen_inv s -> llen_step s s' ->
  llen_inv s' /\
  (llen s' = llen s \/
   exists j, j ∈ joiners s /\ llen s < llen s' /\ llen s' = j_m_llen j).
Proof.
  unfold llen_inv. intros Hinv Hstep.
  destruct Hstep as [s tid j Hj].
  assert (Hok : joiner_ok (llen s) j)
    by (rewrite Forall_forall in Hinv; apply Hinv;
        eapply list_elem_of_lookup_2; exact Hj).
  pose proof (joiner_step_ok (llen s) j Hok) as Hstep.
  destruct (joiner_step (llen s) j) as [cur' j']. cbn.
  destruct Hstep as (Hcur & _ & Hok').
  split.
  - apply Forall_insert; [|exact Hok'].
    eapply Forall_impl; [exact Hinv|].
    intros j2. apply joiner_ok_mono. lia.
  - destruct Hcur as [->|[Hlt ->]]; [left; reflexivity|].
    right. exists j. split; [|auto].
    eapply list_elem_of_lookup_2. exact Hj.
Qed.

Lemma llen_steps_inv s s' :
  rtc llen_step s s' -> llen_inv s -> llen_inv s' /\ llen s <= llen s'.
Proof.
  induction 1 as [s|s1 s2 s3 Hstep _ IH]; intros Hinv; [split; [exact Hinv|lia]|].
  destruct (llen_step_inv _ _ Hinv Hstep) as [Hinv2 Hraise].
  destruct (IH Hinv2) as [Hinv3 Hle]. split; [exact Hinv3|].
  destruct Hraise as [Heq|(j & _ & Hlt & _)]; lia.
Qed.

Lemma joiner_enters_inv s :
  Forall joiner_enters (joiners s) -> llen_inv s.
Proof.
  unfold llen_inv. intros Henter.
  eapply Forall_impl; [exact Henter|].
  intros j [Hpc Hfit]. unfold joiner_ok. rewrite Hpc. auto.
Qed.

End LlenFacts.

(** As long as the mapping lengths fit the 32-bit [llen], a workgroup's
    [llen] never goes down while callers join it.  It starts as the creating
    mapping's [m_llen].  From any state in which the callers stand at the
    head of the loop of [z_erofs_vle_work_iter_begin], with mapping lengths
    below 2^32, and along any interleaving of their reads and
    compare-and-swaps: [llen] at a later state is at least [llen] at an
    earlier one; a step that changes [llen] raises it to the stepping
    caller's own mapping length, which was larger; and every caller that has
    left the loop finds [llen] at least its own length.  A caller joining
    alone leaves the maximum of the old [llen] and its own length. *)
Theorem workgroup_llen_monotone :
  (forall map : erofs_map_blocks,
      0 <= m_llen map < 2 ^ 32 -> Llen.work_register_llen map = m_llen map) /\
  (forall s s' s'' : Llen.llen_state,
      Forall Llen.joiner_enters (Llen.joiners s) ->
      rtc Llen.llen_step s s' ->
      rtc Llen.llen_step s' s'' ->
      Llen.llen s <= Llen.llen s' <= Llen.llen s'' /\
      Forall (fun j => Llen.j_pc j = Llen.AtGotIt ->
                       Llen.j_m_llen j <= Llen.llen s'') (Llen.joiners s'')) /\
  (forall s s' s'' : Llen.llen_state,
      Forall Llen.joiner_enters (Llen.joiners s) ->
      rtc Llen.llen_step s s' ->
      Llen.llen_step s' s'' ->
      Llen.llen s'' = Llen.llen s' \/
      exists j, j ∈ Llen.joiners s' /\
                Llen.llen s' < Llen.llen s'' /\
                Llen.llen s'' = Llen.j_m_llen j) /\
  (forall (cur : Z) (map : erofs_map_blocks),
      0 <= m_llen map < 2 ^ 32 ->
      Llen.join_alone cur map = Z.max cur (m_llen map)).
Proof.
  split; [|split; [|split]].
  - intros map Hfit. apply wrap_small. exact Hfit.
  - intros s s' s'' Henter Hsteps Hsteps'.
    apply LlenFacts.joiner_enters_inv in Henter.
    destruct (LlenFacts.llen_steps_inv _ _ Hsteps Henter) as [Hinv' Hle].
    destruct (LlenFacts.llen_steps_inv _ _ Hsteps' Hinv') as [Hinv'' Hle'].
    split; [lia|].
    eapply Forall_impl; [exact Hinv''|].
    intros j [_ Hpc] Hdone. rewrite Hdone in Hpc. exact Hpc.
  - intros s s' s'' Henter Hsteps Hstep.
    apply LlenFacts.joiner_enters_inv in Henter.
    destruct (LlenFacts.llen_steps_inv _ _ Hsteps Henter) as [Hinv' _].
    apply (LlenFacts.llen_step_inv _ _ Hinv' Hstep).
  - intros cur map Hfit. unfold Llen.join_alone, Llen.joiner_step. cbn.
    destruct (Z.ltb_spec cur (m_llen map)); cbn.
    + rewrite Z.eqb_refl. cbn. rewrite (wrap_small 32) by exact Hfit. lia.
    + lia.
Qed.

(** C10.  The code at an extent that is longer than the 32-bit [llen]
    holds.  [z_erofs_vle_work_register] stores the 64-bit [m_llen] cut to 32
    bits, and the loop of [z_erofs_vle_work_iter_begin] compares [llen] with
    the 64-bit [m_llen] and swaps in [m_llen] cut to 32 bits.  On the image
    with one extent of 8 GiB, a read at cluster 2^20 - 2 resolves to a
    mapping of 2^32 - 4096 bytes and a read at cluster 2^20 to a mapping of
    2^32 + 4096 bytes of the same extent.  The first read registers the
    workgroup with [llen] at 2^32 - 4096 and ends its work.  The second
    read joins the workgroup: [llen] is below its length, so it swaps its
    length in, and [llen] is 4096 afterwards, lower than before and below
    the caller's length. *)
Theorem workgroup_llen_lowered_by_long_mapping :
  let map1 := mk_map 28672 0 4096 (2 ^ 32 - 4096) 65568 in
  let map2 := mk_map 28672 0 4096 (2 ^ 32 + 4096) 65568 in
  demo_long_resolve ((2 ^ 20 - 2) * 4096) = Some (0, map1) /\
  demo_long_resolve (2 ^ 20 * 4096) = Some (0, map2) /\
  Llen.work_register_llen map2 = 4096 /\
  Llen.join_alone (2 ^ 32 - 4096) map2 = 4096 /\
  rtc Llen.llen_step
    (Llen.mk_llen_state (2 ^ 32 - 4096)
       [Llen.mk_joiner (2 ^ 32 + 4096) Llen.AtRead])
    (Llen.mk_llen_state 4096 [Llen.mk_joiner (2 ^ 32 + 4096) Llen.AtGotIt]) /\
  exists b1 head1 m1 b2 m2 grp2 b3 head3 m3 grp3,
    demo_long_begin map1 demo_long_mm = Ok (0, b1, head1, m1) /\
    WorkIter.z_erofs_vle_work_iter_end demo_collector (fun v => v) b1 m1
    = Ok (true, b2, m2) /\
    grps m2 !! 1000 = Some grp2 /\
    grp_llen grp2 = 2 ^ 32 - 4096 /\
    demo_long_begin map2 m2 = Ok (0, b3, head3, m3) /\
    grps m3 !! 1000 = Some grp3 /\
    grp_llen grp3 = 4096 /\
    grp_llen grp3 < grp_llen grp2 /\
    grp_llen grp3 < m_llen map2.
Proof.
  cbn zeta. split; [vm_compute; reflexivity|]. split; [vm_compute; reflexivity|].
  split; [reflexivity|]. split; [reflexivity|]. split.
  { eapply rtc_l.
    { exact (Llen.llen_step_thread
               (Llen.mk_llen_state (2 ^ 32 - 4096)
                  [Llen.mk_joiner (2 ^ 32 + 4096) Llen.AtRead])
               0 _ eq_refl). }
    eapply rtc_l.
    { exact (Llen.llen_step_thread
               (Llen.mk_llen_state (2 ^ 32 - 4096)
                  [Llen.mk_joiner (2 ^ 32 + 4096)
                     (Llen.AtCmpxchg (2 ^ 32 - 4096))])
               0 _ eq_refl). }
    apply rtc_refl. }
  eexists _, _, _, _, _, _, _, _, _, _.
  split; [vm_compute; reflexivity|]. split; [vm_compute; reflexivity|].
  split; [vm_compute; reflexivity|]. split; [reflexivity|].
  split; [vm_compute; reflexivity|]. split; [vm_compute; reflexivity|].
  split; [reflexivity|]. split; reflexivity.
Qed.

(** ** Reclaim *)

Module ReclaimFacts.
Import Reclaim.
Section WithSuperblock.

Variable clusterpages : nat.
Variable EROFS_LOCKED_MAGIC : Z.

Lemma deref_grp_Some m g grp : grps m !! g = Some grp -> deref_grp m g = Ok grp.
Proof. unfold deref_grp. intros ->. reflexivity. Qed.

Lemma deref_page_Some m p pg : pages m !! p = Some pg -> deref_page m p = Ok pg.
Proof. unfold deref_page. intros ->. reflexivity. Qed.

(** A failed freeze leaves the workgroup alone. *)
Lemma try_to_freeze_busy grp val :
  grp_refcount grp <> val ->
  erofs_workgroup_try_to_freeze EROFS_LOCKED_MAGIC grp val = (false, grp).
Proof.
  intros Hne. unfold erofs_workgroup_try_to_freeze.
  destruct (Z.eqb_spec (grp_refcount grp) val); [contradiction|reflexivity].
Qed.

(** The loop of [erofs_try_to_free_all_cached_pages], entered with valid
    slots: it returns, the mutex released, with -EBUSY when a slot still to
    be visited holds a locked page and 0 otherwise. *)
Lemma free_all_cached_pages_loop_spec g todo : forall m grp,
  grps m !! g = Some grp ->
  slots_valid todo m grp ->
  exists r m' grp',
    free_all_cached_pages_loop todo g m = Ok (r, m') /\
    grps m' !! g = Some grp' /\
    work_lock (grp_work grp') = false /\
    ((r = 0 /\ ~ slot_page_locked todo m grp) \/
     (r = - EBUSY /\ slot_page_locked todo m grp)).
Proof.
  induction todo as [|i todo IH]; intros m grp Hgrp Hvalid;
    cbn [free_all_cached_pages_loop].
  - unfold mutex_unlock. rewrite (deref_grp_Some _ _ _ Hgrp). cbn.
    eexists 0, _, _. split; [reflexivity|]. cbn.
    rewrite lookup_insert_eq. split; [reflexivity|]. split; [reflexivity|].
    left. split; [reflexivity|].
    intros (j & p & pg & Hj & _). apply elem_of_nil in Hj. exact Hj.
  - rewrite (deref_grp_Some _ _ _ Hgrp). cbn.
    destruct (Hvalid i) as (p & Hslot & Hp); [apply elem_of_cons; auto|].
    rewrite Hslot.
    assert (Hrest : slots_valid todo m grp)
      by (intros j Hj; apply Hvalid, elem_of_cons; auto).
    destruct (Z.eqb_spec p 0) as [->|Hnz].
    + (* an empty slot *)
      destruct (IH m grp Hgrp Hrest) as (r & m' & grp' & Hrun & Hgrp' & Hlock & Hr).
      exists r, m', grp'. repeat (split; [assumption|]).
      destruct Hr as [[-> Hfree]|[-> Hbusy]]; [left|right]; (split; [reflexivity|]).
      * intros (j & q & pg & Hj & Hq & Hqnz & Hpg & Hlocked).
        apply elem_of_cons in Hj as [->|Hj]; [congruence|].
        apply Hfree. exists j, q, pg. auto.
      * destruct Hbusy as (j & q & pg & Hj & Hrest').
        exists j, q, pg. split; [apply elem_of_cons; auto|exact Hrest'].
    + destruct Hp as [|[pg Hpg]]; [contradiction|].
      rewrite (deref_page_Some _ _ _ Hpg). cbn.
      destruct (PG_locked pg) eqn:Hlocked.
      * (* the page is locked by someone else *)
        unfold mutex_unlock. rewrite (deref_grp_Some _ _ _ Hgrp). cbn.
        eexists (- EBUSY), _, _. split; [reflexivity|]. cbn.
        rewrite lookup_insert_eq. split; [reflexivity|]. split; [reflexivity|].
        right. split; [reflexivity|].
        exists i, p, pg. split; [apply elem_of_cons; auto|auto].
      * (* the page is ours: detach it and go on *)
        set (grp1 := with_compressed_pages grp (<[i := 0]> (grp_compressed_pages grp))).
        set (m1 := store_page (store_grp m g grp1) p (detach_cached_page pg)).
        assert (Hgrp1 : grps m1 !! g = Some grp1)
          by (cbn; apply lookup_insert_eq).
        assert (Hi : (i < length (grp_compressed_pages grp))%nat)
          by (apply lookup_lt_is_Some; eauto).
        assert (Hvalid1 : slots_valid todo m1 grp1).
        { intros j Hj. destruct (Hrest j Hj) as (q & Hq & Hq').
          destruct (decide (i = j)) as [<-|Hij].
          - exists 0. split; [cbn; apply list_lookup_insert_eq; exact Hi|auto].
          - exists q. split; [cbn; rewrite list_lookup_insert_ne by exact Hij;
                              exact Hq|].
            destruct Hq' as [|Hsome]; [auto|right]. cbn.
            apply lookup_insert_is_Some. destruct (decide (p = q)); auto. }
        destruct (IH m1 grp1 Hgrp1 Hvalid1)
          as (r & m' & grp' & Hrun & Hgrp' & Hlock & Hr).
        exists r, m', grp'. repeat (split; [assumption|]).
        assert (Hiff : slot_page_locked todo m1 grp1 <->
                       slot_page_locked (i :: todo) m grp).
        { split.
          - intros (j & q & pg' & Hj & Hq & Hqnz & Hpg' & Hlocked').
            assert (Hij : i <> j).
            { intros <-. cbn in Hq. rewrite list_lookup_insert_eq in Hq by exact Hi.
              congruence. }
            assert (Hpq : p <> q).
            { intros <-. cbn in Hpg'. rewrite lookup_insert_eq in Hpg'.
              injection Hpg' as <-. cbn in Hlocked'. discriminate. }
            exists j, q, pg'. split; [apply elem_of_cons; auto|].
            cbn in Hq, Hpg'.
            rewrite list_lookup_insert_ne in Hq by exact Hij.
            rewrite lookup_insert_ne in Hpg' by exact Hpq. auto.
          - intros (j & q & pg' & Hj & Hq & Hqnz & Hpg' & Hlocked').
            assert (Hpq : p <> q) by (intros <-; congruence).
            assert (Hij : i <> j) by (intros <-; congruence).
            apply elem_of_cons in Hj as [->|Hj]; [contradiction|].
            exists j, q, pg'. split; [exact Hj|]. cbn.
            rewrite list_lookup_insert_ne by exact Hij.
            rewrite lookup_insert_ne by exact Hpq. auto. }
        destruct Hr as [[-> Hfree]|[-> Hbusy]]; [left|right];
          (split; [reflexivity|]); rewrite <- Hiff; assumption.
Qed.

End WithSuperblock.
End ReclaimFacts.

(** C6.  (1) A reclaim attempt on a cached page whose workgroup has a
    reference count other than 1: the freeze fails, the callback returns 0
    (busy), and nothing is mutated, neither the workgroup (its slots, its
    count) nor the page (its private tag, its reference count).  (2) Reclaim
    of all cached pages of a workgroup whose work mutex is held by someone
    else returns -EBUSY at once, nothing mutated.  (3) With the mutex free
    and every slot holding NULL or a page, it always returns, never sleeps,
    leaves the mutex released, and returns -EBUSY exactly when one of the
    slots holds a page that is locked, 0 otherwise. *)
Theorem reclaim_busy_without_blocking :
  forall (clusterpages : nat) (EROFS_LOCKED_MAGIC : Z),
    (forall (m : mm) (p : Z) (pg : struct_page) (grp : z_erofs_vle_workgroup),
        pages m !! p = Some pg ->
        grps m !! pg_private pg = Some grp ->
        grp_refcount grp <> 1 ->
        Reclaim.erofs_workgroup_try_to_freeze EROFS_LOCKED_MAGIC grp 1
          = (false, grp) /\
        Reclaim.erofs_try_to_free_cached_page clusterpages EROFS_LOCKED_MAGIC
          m p = Ok (0, m)) /\
    (forall (m : mm) (g : Z) (grp : z_erofs_vle_workgroup),
        grps m !! g = Some grp ->
        work_lock (grp_work grp) = true ->
        Reclaim.erofs_try_to_free_all_cached_pages clusterpages m g
          = Ok (- EBUSY, m)) /\
    (forall (m : mm) (g : Z) (grp : z_erofs_vle_workgroup),
        grps m !! g = Some grp ->
        work_lock (grp_work grp) = false ->
        Reclaim.slots_valid (seq 0 clusterpages) m grp ->
        exists r m' grp',
          Reclaim.erofs_try_to_free_all_cached_pages clusterpages m g
            = Ok (r, m') /\
          grps m' !! g = Some grp' /\
          work_lock (grp_work grp') = false /\
          ((r = 0 /\ ~ Reclaim.slot_page_locked (seq 0 clusterpages) m grp) \/
           (r = - EBUSY /\ Reclaim.slot_page_locked (seq 0 clusterpages) m grp))).
Proof.
  intros clusterpages magic. split; [|split].
  - intros m page pg grp Hpg Hgrp Hcount.
    pose proof (ReclaimFacts.try_to_freeze_busy magic grp 1 Hcount) as Hfreeze.
    split; [exact Hfreeze|].
    unfold Reclaim.erofs_try_to_free_cached_page.
    rewrite (ReclaimFacts.deref_page_Some _ _ _ Hpg). cbn.
    rewrite (ReclaimFacts.deref_grp_Some _ _ _ Hgrp). cbn.
    rewrite Hfreeze. reflexivity.
  - intros m g grp Hgrp Hheld.
    unfold Reclaim.erofs_try_to_free_all_cached_pages.
    rewrite (ReclaimFacts.deref_grp_Some _ _ _ Hgrp). cbn.
    rewrite Hheld. reflexivity.
  - intros m g grp Hgrp Hfree Hvalid.
    unfold Reclaim.erofs_try_to_free_all_cached_pages.
    rewrite (ReclaimFacts.deref_grp_Some _ _ _ Hgrp). cbn.
    rewrite Hfree.
    apply (ReclaimFacts.free_all_cached_pages_loop_spec g (seq 0 clusterpages)
             (store_grp m g (with_work grp (with_lock (grp_work grp) true)))
             (with_work grp (with_lock (grp_work grp) true))).
    + cbn. apply lookup_insert_eq.
    + exact Hvalid.
Qed.

Lemma reclaim_busy_without_blocking_witness :
  Reclaim.erofs_workgroup_try_to_freeze (-1) (demo_workgroup 2 false [] 0) 1
    = (false, demo_workgroup 2 false [] 0) /\
  Reclaim.erofs_try_to_free_cached_page 1 (-1) (demo_mm 2 false false) 500
    = Ok (0, demo_mm 2 false false).
Proof.
  apply (proj1 (reclaim_busy_without_blocking 1 (-1))
           (demo_mm 2 false false) 500 (demo_cached_page false true)
           (demo_workgroup 2 false [] 0)).
  - vm_compute. reflexivity.
  - vm_compute. reflexivity.
  - discriminate.
Defined.

(** The same page locked by someone else while the workgroup is frozen at
    1: reclaim of all cached pages returns -EBUSY and releases the mutex. *)
Example free_all_cached_pages_page_locked :
  Reclaim.erofs_try_to_free_all_cached_pages 1 (demo_mm 1 false true) 1000
  = Ok (- EBUSY, demo_mm 1 false true).
Proof. vm_compute. reflexivity. Qed.

(** With nothing locked the page is detached from the workgroup. *)
Example free_all_cached_pages_done :
  Reclaim.erofs_try_to_free_all_cached_pages 1 (demo_mm 1 false false) 1000
  = Ok (0,
        {| pages := {[ 500 := mk_page MNGD_MAPPING 5 false true false false 0 1 ]};
           grps := {[ 1000 := mk_workgroup 5 1 (mk_work false 0 0 [])
                                Z_EROFS_VLE_WORKGRP_TAIL_CLOSED [0] 4096
                                Z_EROFS_VLE_WORKGRP_FMT_LZ4 ]};
           log := [] |}).
Proof. vm_compute. reflexivity. Qed.

(** ** Decompression *)

Module UnzipFacts.
Import Unzip.
Section WithSuperblock.

Variable clusterpages : nat.
Variable EROFS_FS_HAS_MANAGED_CACHE : bool.
Variable z_erofs_onlinepage_index : struct_page -> Z.
Variable z_erofs_onlinepage_index2 : struct_page -> Z.

Local Abbreviation managed := (is_cache_managed EROFS_FS_HAS_MANAGED_CACHE).
Local Abbreviation failed_input := (Unzip.failed_input EROFS_FS_HAS_MANAGED_CACHE).

Lemma deref_page_inv m p pg : deref_page m p = Ok pg -> pages m !! p = Some pg.
Proof. unfold deref_page. destruct (pages m !! p); congruence. Qed.

Lemma place_page_valid m pages_ nr_pages pagenr page pages' :
  dest_valid m pages_ ->
  is_Some (pages m !! page) ->
  place_page pages_ nr_pages pagenr page = Ok pages' ->
  dest_valid m pages'.
Proof.
  unfold place_page, dest_valid. intros Hvalid Hpage Hplace.
  destruct (nr_pages <=? pagenr); [discriminate|].
  destruct (pages_ !! Z.to_nat pagenr); [|discriminate].
  destruct (negb _); [discriminate|].
  injection Hplace as <-. apply Forall_insert; auto.
Qed.

Lemma gather_pagevec_valid pagevec : forall m nr_pages pages_ pool pages' pool',
  dest_valid m pages_ ->
  gather_pagevec z_erofs_onlinepage_index pagevec m nr_pages pages_ pool
    = Ok (pages', pool') ->
  dest_valid m pages'.
Proof.
  induction pagevec as [|[page page_type] pagevec IH];
    intros m nr_pages pages_ pool pages' pool' Hvalid Hrun;
    cbn [gather_pagevec] in Hrun.
  - injection Hrun as <- <-. exact Hvalid.
  - destruct (deref_page m page) as [pg| | | |] eqn:Hpg; try discriminate.
    cbn in Hrun. apply deref_page_inv in Hpg.
    destruct (z_erofs_is_stagingpage pg); [eauto|].
    destruct (place_page pages_ nr_pages _ page) as [pages1| | | |] eqn:Hplace;
      try discriminate.
    cbn in Hrun. eapply IH; [|exact Hrun].
    eapply place_page_valid; [exact Hvalid| |exact Hplace]. eauto.
Qed.

(** The first loop over the slots: what it returns is an array of valid
    pointers; every slot it visited holds a page; and [err] is -EIO when it
    was already, or when a visited slot holds a failed cached page. *)
Lemma gather_compressed_spec todo : forall compressed_pages m nr_pages acc acc',
  dest_valid m (g_pages acc) ->
  gather_compressed EROFS_FS_HAS_MANAGED_CACHE z_erofs_onlinepage_index2
    todo compressed_pages m nr_pages acc = Ok acc' ->
  dest_valid m (g_pages acc') /\
  (forall i, i ∈ todo ->
     exists p, compressed_pages !! i = Some p /\ is_Some (pages m !! p)) /\
  (g_err acc = - EIO \/ failed_input todo m compressed_pages ->
   g_err acc' = - EIO).
Proof.
  induction todo as [|i todo IH];
    intros compressed_pages m nr_pages acc acc' Hvalid Hrun;
    cbn [gather_compressed] in Hrun.
  - injection Hrun as <-. split; [exact Hvalid|]. split.
    + intros i Hi. apply elem_of_nil in Hi. contradiction.
    + intros [Herr|(i & p & pg & Hi & _)]; [exact Herr|].
      apply elem_of_nil in Hi. contradiction.
  - destruct (compressed_pages !! i) as [page|] eqn:Hslot; [|discriminate].
    destruct (deref_page m page) as [pg| | | |] eqn:Hpg; try discriminate.
    cbn in Hrun. apply deref_page_inv in Hpg.
    assert (Hhere : forall acc1,
      dest_valid m (g_pages acc1) ->
      gather_compressed EROFS_FS_HAS_MANAGED_CACHE z_erofs_onlinepage_index2
        todo compressed_pages m nr_pages acc1 = Ok acc' ->
      (g_err acc = - EIO \/
       (managed pg = true /\ PG_uptodate pg = false) -> g_err acc1 = - EIO) ->
      dest_valid m (g_pages acc') /\
      (forall j, j ∈ i :: todo ->
         exists p, compressed_pages !! j = Some p /\ is_Some (pages m !! p)) /\
      (g_err acc = - EIO \/ failed_input (i :: todo) m compressed_pages ->
       g_err acc' = - EIO)).
    { intros acc1 Hvalid1 Hrun1 Herr1.
      destruct (IH _ _ _ _ _ Hvalid1 Hrun1) as (Hv & Hslots & Herr).
      split; [exact Hv|]. split.
      - intros j Hj. apply elem_of_cons in Hj as [->|Hj]; [eauto|auto].
      - intros [Hacc|(j & p & pg' & Hj & Hp & Hpg' & Hm & Hu)].
        + apply Herr. left. apply Herr1. left. exact Hacc.
        + apply elem_of_cons in Hj as [->|Hj].
          * apply Herr. left. apply Herr1. right.
            rewrite Hslot in Hp. injection Hp as <-.
            rewrite Hpg in Hpg'. injection Hpg' as <-. auto.
          * apply Herr. right. exists j, p, pg'. auto. }
    destruct (z_erofs_is_stagingpage pg) eqn:Hstaging.
    + apply (Hhere acc Hvalid Hrun).
      intros [Hacc|[Hm _]]; [exact Hacc|].
      unfold z_erofs_is_stagingpage, is_cache_managed in *.
      apply bool_decide_eq_true in Hstaging.
      apply andb_true_iff in Hm as [_ Hm]. apply bool_decide_eq_true in Hm.
      congruence.
    + destruct (managed pg) eqn:Hmanaged.
      * refine (Hhere _ _ Hrun _); [exact Hvalid|]. cbn.
        intros [Hacc|[_ Hu]]; [rewrite Hacc|rewrite Hu]; cbn;
          destruct (PG_uptodate pg); reflexivity.
      * destruct (place_page (g_pages acc) nr_pages _ page)
          as [pages1| | | |] eqn:Hplace; try discriminate.
        cbn in Hrun. refine (Hhere _ _ Hrun _); cbn.
        { eapply place_page_valid; [exact Hvalid| |exact Hplace]. eauto. }
        intros [Hacc|[Hm _]]; [exact Hacc|discriminate].
Qed.

Lemma pages_evolve_refl m : pages_evolve m m.
Proof. intros p pg Hpg. eauto. Qed.

Lemma pages_evolve_trans m1 m2 m3 :
  pages_evolve m1 m2 -> pages_evolve m2 m3 -> pages_evolve m1 m3.
Proof.
  intros H12 H23 p pg Hpg.
  destruct (H12 p pg Hpg) as (pg2 & Hpg2 & Hmap2 & Herr2).
  destruct (H23 p pg2 Hpg2) as (pg3 & Hpg3 & Hmap3 & Herr3).
  exists pg3. split; [exact Hpg3|]. split; [congruence|auto].
Qed.

Lemma dest_valid_evolve m m' pages_ :
  pages_evolve m m' -> dest_valid m pages_ -> dest_valid m' pages_.
Proof.
  unfold dest_valid. intros Hev Hvalid.
  eapply Forall_impl; [exact Hvalid|].
  intros p [->|[pg Hpg]]; [auto|right].
  destruct (Hev p pg Hpg) as (pg' & Hpg' & _). eauto.
Qed.

(** The first loop after [out]: it returns; a slot holding a cache-managed
    page is left as it is; any other slot is cleared, and its page is in the
    pool if it is a staging page. *)
Lemma release_compressed_spec todo : forall m slots pool,
  NoDup todo ->
  (forall i, i ∈ todo ->
     exists p, slots !! i = Some p /\ is_Some (pages m !! p)) ->
  exists slots' pool',
    release_compressed EROFS_FS_HAS_MANAGED_CACHE todo m slots pool
      = Ok (slots', pool') /\
    (forall i, i ∉ todo -> slots' !! i = slots !! i) /\
    (forall i p pg, i ∈ todo -> slots !! i = Some p -> pages m !! p = Some pg ->
       if managed pg then slots' !! i = Some p
       else slots' !! i = Some 0 /\
            (z_erofs_is_stagingpage pg = true -> p ∈ pool')) /\
    (forall p, p ∈ pool -> p ∈ pool').
Proof.
  induction todo as [|i todo IH]; intros m slots pool Hnodup Hvalid;
    cbn [release_compressed].
  - exists slots, pool. split; [reflexivity|]. split; [auto|]. split; [|auto].
    intros i p pg Hi. apply elem_of_nil in Hi. contradiction.
  - apply NoDup_cons in Hnodup as [Hi Hnodup].
    destruct (Hvalid i) as (p & Hslot & [pg Hpg]); [apply elem_of_cons; auto|].
    rewrite Hslot. unfold deref_page. rewrite Hpg. cbn.
    assert (Hlen : (i < length slots)%nat) by (apply lookup_lt_is_Some; eauto).
    destruct (managed pg) eqn:Hmanaged.
    + destruct (IH m slots pool Hnodup) as (slots' & pool' & Hrun & Hout & Hin & Hpool).
      { intros j Hj. apply Hvalid, elem_of_cons. auto. }
      exists slots', pool'. split; [exact Hrun|]. split; [|split; [|exact Hpool]].
      * intros j Hj. apply Hout. intros Hj'. apply Hj, elem_of_cons. auto.
      * intros j q pgq Hj Hq Hpgq.
        apply elem_of_cons in Hj as [->|Hj];
          [|exact (Hin j q pgq Hj Hq Hpgq)].
        rewrite Hslot in Hq. injection Hq as <-.
        rewrite Hpg in Hpgq. injection Hpgq as <-.
        rewrite Hmanaged, (Hout i Hi). exact Hslot.
    + destruct (IH m (<[i := 0]> slots)
                  (z_erofs_gather_if_stagingpage pool p pg) Hnodup)
        as (slots' & pool' & Hrun & Hout & Hin & Hpool).
      { intros j Hj. destruct (Hvalid j) as (q & Hq & Hq');
          [apply elem_of_cons; auto|].
        exists q. split; [|exact Hq'].
        rewrite list_lookup_insert_ne by (intros ->; contradiction). exact Hq. }
      exists slots', pool'. split; [exact Hrun|]. split; [|split].
      * intros j Hj. rewrite Hout by (intros Hj'; apply Hj, elem_of_cons; auto).
        apply list_lookup_insert_ne. intros ->. apply Hj, elem_of_cons. auto.
      * intros j q pgq Hj Hq Hpgq.
        apply elem_of_cons in Hj as [->|Hj].
        -- rewrite Hslot in Hq. injection Hq as <-.
           rewrite Hpg in Hpgq. injection Hpgq as <-.
           rewrite Hmanaged, (Hout i Hi). split.
           ++ apply list_lookup_insert_eq. exact Hlen.
           ++ intros Hstaging. apply Hpool.
              unfold z_erofs_gather_if_stagingpage. rewrite Hstaging.
              apply elem_of_cons. auto.
        -- apply (Hin j q pgq Hj); [|exact Hpgq].
           rewrite list_lookup_insert_ne by (intros ->; contradiction). exact Hq.
      * intros q Hq. apply Hpool.
        unfold z_erofs_gather_if_stagingpage.
        destruct (z_erofs_is_stagingpage pg); [apply elem_of_cons|]; auto.
Qed.

(** The second loop after [out]: it returns; it touches no workgroup; it
    makes no call but [z_erofs_onlinepage_endio], on pages of the array; and
    every page of the array that is not a staging page is ended, with its
    error flag set when [err < 0]. *)
Lemma end_pages_spec pages_ : forall err m pool,
  dest_valid m pages_ ->
  exists m' pool' evs,
    end_pages pages_ err m pool = Ok (m', pool') /\
    grps m' = grps m /\
    log m' = log m ++ evs /\
    Forall (fun ev => exists p, ev = z_erofs_onlinepage_endio p /\ p ∈ pages_) evs /\
    pages_evolve m m' /\
    (forall p pg, p ∈ pages_ -> p <> 0 -> pages m !! p = Some pg ->
       z_erofs_is_stagingpage pg = false ->
       z_erofs_onlinepage_endio p ∈ evs /\
       (err < 0 -> exists pg', pages m' !! p = Some pg' /\ PG_error pg' = true)) /\
    (forall p, p ∈ pool -> p ∈ pool').
Proof.
  induction pages_ as [|page pages_ IH]; intros err m pool Hvalid;
    cbn [end_pages].
  - exists m, pool, []. split; [reflexivity|]. split; [reflexivity|].
    split; [rewrite app_nil_r; reflexivity|]. split; [constructor|].
    split; [apply pages_evolve_refl|]. split; [|auto].
    intros p pg Hp. apply elem_of_nil in Hp. contradiction.
  - apply Forall_cons in Hvalid as [Hpage Hvalid].
    assert (Hlift : forall evs0 m1 pool1 m' pool' evs,
      end_pages pages_ err m1 pool1 = Ok (m', pool') ->
      Forall (fun ev => exists p, ev = z_erofs_onlinepage_endio p /\ p ∈ pages_) evs ->
      Forall (fun ev => exists p, ev = z_erofs_onlinepage_endio p
                                  /\ p ∈ page :: pages_) evs0 ->
      Forall (fun ev => exists p, ev = z_erofs_onlinepage_endio p
                                  /\ p ∈ page :: pages_) (evs0 ++ evs)).
    { intros evs0 m1 pool1 m' pool' evs _ Hevs Hevs0.
      apply Forall_app. split; [exact Hevs0|].
      eapply Forall_impl; [exact Hevs|].
      intros ev (p & -> & Hp). exists p. split; [reflexivity|].
      apply elem_of_cons. auto. }
    destruct (Z.eqb_spec page 0) as [->|Hnz].
    + destruct (IH err m pool Hvalid)
        as (m' & pool' & evs & Hrun & Hgrps & Hlog & Hevs & Hev & Hend & Hpool).
      exists m', pool', evs. split; [exact Hrun|]. split; [exact Hgrps|].
      split; [exact Hlog|].
      split; [apply (Hlift [] m pool m' pool' evs Hrun Hevs); constructor|].
      split; [exact Hev|]. split; [|exact Hpool].
      intros p pg Hp Hpnz. apply elem_of_cons in Hp as [->|Hp]; [contradiction|].
      apply Hend; assumption.
    + destruct Hpage as [|[pg Hpg]]; [contradiction|].
      unfold deref_page. rewrite Hpg. cbn.
      destruct (z_erofs_is_stagingpage pg) eqn:Hstaging.
      * destruct (IH err m (page :: pool) Hvalid)
          as (m' & pool' & evs & Hrun & Hgrps & Hlog & Hevs & Hev & Hend & Hpool).
        exists m', pool', evs. split; [exact Hrun|]. split; [exact Hgrps|].
        split; [exact Hlog|].
        split; [apply (Hlift [] m (page :: pool) m' pool' evs Hrun Hevs);
                constructor|].
        split; [exact Hev|]. split.
        -- intros p pgp Hp Hpnz Hpgp Hns.
           apply elem_of_cons in Hp as [->|Hp]; [congruence|].
           apply (Hend p pgp); assumption.
        -- intros p Hp. apply Hpool, elem_of_cons. auto.
      * set (m0 := if err <? 0 then store_page m page (SetPageError pg) else m).
        set (m1 := emit m0 (z_erofs_onlinepage_endio page)).
        assert (Hev1 : pages_evolve m m1).
        { intros q pgq Hq. subst m1 m0.
          destruct (err <? 0); cbn; [|eauto].
          destruct (decide (page = q)) as [<-|Hne].
          - rewrite lookup_insert_eq. rewrite Hpg in Hq. injection Hq as <-.
            eexists. split; [reflexivity|]. cbn. auto.
          - rewrite lookup_insert_ne by exact Hne. eauto. }
        assert (Herr1 : err < 0 ->
                        exists pg1, pages m1 !! page = Some pg1
                                    /\ PG_error pg1 = true).
        { intros Hneg. subst m1 m0.
          destruct (Z.ltb_spec err 0); [|lia]. cbn.
          rewrite lookup_insert_eq. eauto. }
        destruct (IH err m1 pool (dest_valid_evolve _ _ _ Hev1 Hvalid))
          as (m' & pool' & evs & Hrun & Hgrps & Hlog & Hevs & Hev & Hend & Hpool).
        exists m', pool', (z_erofs_onlinepage_endio page :: evs).
        split; [exact Hrun|].
        split; [rewrite Hgrps; subst m1 m0; destruct (err <? 0); reflexivity|].
        split.
        { rewrite Hlog. subst m1 m0. cbn.
          rewrite <- app_assoc. destruct (err <? 0); reflexivity. }
        split.
        { apply (Hlift [z_erofs_onlinepage_endio page] m1 pool m' pool' evs
                   Hrun Hevs).
          constructor; [|constructor].
          exists page. split; [reflexivity|]. apply elem_of_cons. auto. }
        split; [eapply pages_evolve_trans; eassumption|].
        split; [|exact Hpool].
        intros p pgp Hp Hpnz Hpgp Hns.
        apply elem_of_cons in Hp as [->|Hp].
        -- split; [apply elem_of_cons; auto|].
           intros Hneg. destruct (Herr1 Hneg) as (pg1 & Hpg1 & Hset).
           destruct (Hev page pg1 Hpg1) as (pg' & Hpg' & _ & Hkeep). eauto.
        -- destruct (Hev1 p pgp Hpgp) as (pgp1 & Hpgp1 & Hmap & _).
           destruct (Hend p pgp1 Hp Hpnz Hpgp1) as [Hin Herr].
           { unfold z_erofs_is_stagingpage in *. rewrite Hmap. exact Hns. }
           split; [apply elem_of_cons; auto|exact Herr].
Qed.


(** From label [out] to the return, entered with valid slots and a valid
    array: the pass returns [err]; it makes no call but
    [z_erofs_onlinepage_endio]; the workgroup is reset, unlocked and put;
    slots and destination pages are as the two loops leave them. *)
Lemma unzip_out_spec m g grp pages_ err pool :
  grps m !! g = Some grp ->
  (forall i, i ∈ seq 0 clusterpages ->
     exists p, grp_compressed_pages grp !! i = Some p /\ is_Some (pages m !! p)) ->
  dest_valid m pages_ ->
  exists m' pool' evs grp',
    unzip_out clusterpages EROFS_FS_HAS_MANAGED_CACHE m g pages_ err pool
      = Ok (err, m', pool') /\
    log m' = log m ++ evs /\
    Forall (fun ev => exists p, ev = z_erofs_onlinepage_endio p /\ p ∈ pages_) evs /\
    pages_evolve m m' /\
    grps m' !! g = Some grp' /\
    (grp_next grp' = Z_EROFS_VLE_WORKGRP_NIL /\
     grp_work grp' = mk_work false (work_pageofs (grp_work grp)) 0 [] /\
     grp_refcount grp' = grp_refcount grp - 1) /\
    (forall i p pg, (i < clusterpages)%nat ->
       grp_compressed_pages grp !! i = Some p -> pages m !! p = Some pg ->
       if managed pg then grp_compressed_pages grp' !! i = Some p
       else grp_compressed_pages grp' !! i = Some 0 /\
            (z_erofs_is_stagingpage pg = true -> p ∈ pool')) /\
    (forall p pg, p ∈ pages_ -> p <> 0 -> pages m !! p = Some pg ->
       z_erofs_is_stagingpage pg = false ->
       z_erofs_onlinepage_endio p ∈ evs /\
       (err < 0 -> exists pg', pages m' !! p = Some pg' /\ PG_error pg' = true)).
Proof.
  intros Hgrp Hslots Hvalid. unfold unzip_out, deref_grp. rewrite Hgrp. cbn.
  destruct (release_compressed_spec (seq 0 clusterpages) m
              (grp_compressed_pages grp) pool (NoDup_seq 0 clusterpages) Hslots)
    as (slots' & pool1 & Hrel & _ & Hin & Hpool1).
  rewrite Hrel. cbn.
  destruct (end_pages_spec pages_ err m pool1 Hvalid)
    as (m' & pool' & evs & Hend & Hgrps & Hlog & Hevs & Hev & Hdest & Hpool').
  rewrite Hend. cbn.
  eexists _, pool', evs, _. split; [reflexivity|]. cbn.
  split; [exact Hlog|]. split; [exact Hevs|]. split; [exact Hev|].
  split; [apply lookup_insert_eq|]. cbn.
  split; [auto|]. split; [|exact Hdest].
  intros i p pg Hi Hp Hpg.
  assert (Hi' : i ∈ seq 0 clusterpages) by (apply elem_of_seq; lia).
  pose proof (Hin i p pg Hi' Hp Hpg) as Hslot.
  destruct (managed pg); [exact Hslot|].
  destruct Hslot as [Hslot Hstaging]. split; [exact Hslot|].
  intros Hs. apply Hpool', Hstaging, Hs.
Qed.


Lemma dest_valid_replicate m n : dest_valid m (replicate n 0).
Proof. unfold dest_valid. apply Forall_replicate. auto. Qed.

(** What a gathering that returns has established. *)
Lemma unzip_gather_inv m g pool m1 acc pool1 :
  unzip_gather clusterpages EROFS_FS_HAS_MANAGED_CACHE z_erofs_onlinepage_index
    z_erofs_onlinepage_index2 m g pool = Ok (m1, acc, pool1) ->
  exists grp,
    grps m !! g = Some grp /\
    work_nr_pages (grp_work grp) <> 0 /\
    work_lock (grp_work grp) = false /\
    m1 = store_grp m g (with_work grp (with_lock (grp_work grp) true)) /\
    dest_valid m1 (g_pages acc) /\
    (forall i, i ∈ seq 0 clusterpages ->
       exists p, grp_compressed_pages grp !! i = Some p
                 /\ is_Some (pages m1 !! p)) /\
    (failed_input (seq 0 clusterpages) m (grp_compressed_pages grp) ->
     g_err acc = - EIO).
Proof.
  unfold unzip_gather, deref_grp. intros Hrun.
  destruct (grps m !! g) as [grp|] eqn:Hgrp; [|discriminate]. cbn in Hrun.
  destruct (Z.eqb_spec (work_nr_pages (grp_work grp)) 0) as [|Hnr];
    [discriminate|].
  destruct (work_lock (grp_work grp)) eqn:Hlock; [discriminate|].
  set (m0 := store_grp m g (with_work grp (with_lock (grp_work grp) true))) in *.
  destruct (gather_pagevec z_erofs_onlinepage_index (work_pagevec (grp_work grp))
              m0 (work_nr_pages (grp_work grp)) _ pool)
    as [[pages0 pool0]| | | |] eqn:Hvec; try discriminate.
  cbn in Hrun.
  destruct (gather_compressed EROFS_FS_HAS_MANAGED_CACHE z_erofs_onlinepage_index2
              (seq 0 clusterpages) (grp_compressed_pages grp) m0
              (work_nr_pages (grp_work grp)) _)
    as [acc0| | | |] eqn:Hcomp; try discriminate.
  cbn in Hrun. injection Hrun as <- <- <-.
  apply gather_pagevec_valid in Hvec; [|apply dest_valid_replicate].
  apply gather_compressed_spec in Hcomp as (Hvalid & Hslots & Herr);
    [|exact Hvec].
  exists grp. repeat (split; [first [reflexivity|assumption]|]).
  intros Hfailed. apply Herr. right. exact Hfailed.
Qed.


End WithSuperblock.
End UnzipFacts.

(** C8 (as amended).  Built with the managed cache, a decompression pass
    that has gathered its destination pages and found a compressed slot
    holding a cache-managed page that is not up to date returns -EIO and
    calls neither the plain copy nor a decompressor: the only calls it makes
    are [z_erofs_onlinepage_endio] on pages of the destination array.  Every
    compressed slot that does not hold a cache-managed page is cleared, its
    page returned to the pool if it is a staging page; a slot that holds a
    cache-managed page, the failed one among them, is left as it is.  Every
    destination page that is not a staging page has its error flag set and
    is ended.  The workgroup ends up with [next] NIL, its work emptied and
    unlocked, and one reference dropped. *)
Theorem unzip_failed_input_short_circuits :
  forall (clusterpages : nat) (PAGE_SHIFT : Z)
         (z_erofs_onlinepage_index z_erofs_onlinepage_index2 : struct_page -> Z)
         (plain_copy : list Z -> list Z -> Z -> Z)
         (unzip_fast_percpu : list Z -> list Z -> Z -> Z -> Z)
         (unzip_vmap : list Z -> list Z -> Z -> Z -> bool -> Z)
         (erofs_vmap : list Z -> bool)
         (erofs_allocpage : list Z -> mm -> Z * list Z * mm)
         (m : mm) (g : Z) (page_pool : list Z) (grp : z_erofs_vle_workgroup)
         (m1 : mm) (acc : Unzip.gathered) (pool1 : list Z),
    grps m !! g = Some grp ->
    Unzip.unzip_gather clusterpages true z_erofs_onlinepage_index
      z_erofs_onlinepage_index2 m g page_pool = Ok (m1, acc, pool1) ->
    Unzip.failed_input true (seq 0 clusterpages) m (grp_compressed_pages grp) ->
    exists m' pool' evs grp',
      Unzip.z_erofs_vle_unzip clusterpages true PAGE_SHIFT
        z_erofs_onlinepage_index z_erofs_onlinepage_index2
        plain_copy unzip_fast_percpu unzip_vmap erofs_vmap erofs_allocpage
        m g page_pool = Ok (- EIO, m', pool') /\
      log m' = log m ++ evs /\
      Forall (fun ev => exists p, ev = z_erofs_onlinepage_endio p
                                  /\ p ∈ Unzip.g_pages acc) evs /\
      grps m' !! g = Some grp' /\
      (forall i p pg, (i < clusterpages)%nat ->
         grp_compressed_pages grp !! i = Some p -> pages m !! p = Some pg ->
         if Unzip.is_cache_managed true pg
         then grp_compressed_pages grp' !! i = Some p
         else grp_compressed_pages grp' !! i = Some 0 /\
              (Unzip.z_erofs_is_stagingpage pg = true -> p ∈ pool')) /\
      (forall p pg, p ∈ Unzip.g_pages acc -> p <> 0 -> pages m !! p = Some pg ->
         Unzip.z_erofs_is_stagingpage pg = false ->
         z_erofs_onlinepage_endio p ∈ evs /\
         exists pg', pages m' !! p = Some pg' /\ PG_error pg' = true) /\
      grp_next grp' = Z_EROFS_VLE_WORKGRP_NIL /\
      grp_work grp' = mk_work false (work_pageofs (grp_work grp)) 0 [] /\
      grp_refcount grp' = grp_refcount grp - 1.
Proof.
  intros clusterpages PAGE_SHIFT idx idx2 plain fast vmapf vmap alloc
    m g pool grp m1 acc pool1 Hgrp Hgather Hfailed.
  destruct (UnzipFacts.unzip_gather_inv _ _ _ _ _ _ _ _ _ _ Hgather)
    as (grp0 & Hgrp0 & Hnr & Hlock & -> & Hvalid & Hslots & Herr).
  rewrite Hgrp in Hgrp0. injection Hgrp0 as <-.
  specialize (Herr Hfailed).
  set (grp1 := with_work grp (with_lock (grp_work grp) true)) in *.
  destruct (UnzipFacts.unzip_out_spec clusterpages true
              (store_grp m g grp1) g grp1 (Unzip.g_pages acc) (- EIO) pool1)
    as (m' & pool' & evs & grp' & Hout & Hlog & Hevs & _ & Hgrp'
        & (Hnext & Hwork & Hcount) & Hslots' & Hdest);
    [apply lookup_insert_eq|exact Hslots|exact Hvalid|].
  exists m', pool', evs, grp'.
  split.
  { unfold Unzip.z_erofs_vle_unzip. rewrite Hgather. cbn.
    rewrite Herr. cbn. exact Hout. }
  split; [exact Hlog|]. split; [exact Hevs|]. split; [exact Hgrp'|].
  split; [exact Hslots'|].
  split; [|auto].
  intros p pg Hp Hnz Hpg Hns.
  destruct (Hdest p pg Hp Hnz Hpg Hns) as [Hin Hset].
  split; [exact Hin|]. apply Hset. unfold EIO. lia.
Qed.

Lemma unzip_failed_input_short_circuits_witness :
  exists m' pool' evs grp',
    demo_unzip demo_unzip_mm 1000 [] = Ok (- EIO, m', pool') /\
    log m' = [] ++ evs /\
    Forall (fun ev => exists p, ev = z_erofs_onlinepage_endio p /\ p ∈ [700]) evs /\
    grps m' !! 1000 = Some grp' /\
    (forall i p pg, (i < 1)%nat ->
       [500] !! i = Some p -> pages demo_unzip_mm !! p = Some pg ->
       if Unzip.is_cache_managed true pg
       then grp_compressed_pages grp' !! i = Some p
       else grp_compressed_pages grp' !! i = Some 0 /\
            (Unzip.z_erofs_is_stagingpage pg = true -> p ∈ pool')) /\
    (forall p pg, p ∈ [700] -> p <> 0 -> pages demo_unzip_mm !! p = Some pg ->
       Unzip.z_erofs_is_stagingpage pg = false ->
       z_erofs_onlinepage_endio p ∈ evs /\
       exists pg', pages m' !! p = Some pg' /\ PG_error pg' = true) /\
    grp_next grp' = Z_EROFS_VLE_WORKGRP_NIL /\
    grp_work grp' = mk_work false 0 0 [] /\
    grp_refcount grp' = 2 - 1.
Proof.
  apply (unzip_failed_input_short_circuits 1 12 pg_private pg_private
           (fun _ _ _ => 0) (fun _ _ _ _ => 0) (fun _ _ _ _ _ => 0)
           (fun _ => true) (fun pool m => (0, pool, m))
           demo_unzip_mm 1000 []
           (demo_workgroup 2 false [(700, Z_EROFS_PAGE_TYPE_EXCLUSIVE)] 1)
           (store_grp demo_unzip_mm 1000
              (demo_workgroup 2 true [(700, Z_EROFS_PAGE_TYPE_EXCLUSIVE)] 1))
           (Unzip.mk_gathered [700] (- EIO) false 1) []).
  - vm_compute. reflexivity.
  - vm_compute. reflexivity.
  - exists 0%nat, 500, (demo_cached_page false false).
    split; [apply elem_of_cons; auto|].
    repeat split; vm_compute; reflexivity.
Defined.

(** C8 as stated fails on the slot of the failed page itself: after the
    pass the workgroup's only compressed slot still holds the cache-managed
    page 500 and is not cleared, while the pass did return -EIO and did end
    the destination page 700 with its error flag set. *)
Lemma unzip_failed_input_counterexample :
  exists m' grp' pg',
    demo_unzip demo_unzip_mm 1000 [] = Ok (- EIO, m', []) /\
    Unzip.failed_input true (seq 0 1) demo_unzip_mm [500] /\
    grps m' !! 1000 = Some grp' /\
    grp_compressed_pages grp' !! 0%nat = Some 500 /\
    grp_compressed_pages grp' !! 0%nat <> Some 0 /\
    log m' = [z_erofs_onlinepage_endio 700] /\
    pages m' !! 700 = Some pg' /\ PG_error pg' = true.
Proof.
  eexists _, _, _. split; [vm_compute; reflexivity|].
  split.
  { exists 0%nat, 500, (demo_cached_page false false).
    split; [apply elem_of_cons; auto|].
    repeat split; vm_compute; reflexivity. }
  split; [vm_compute; reflexivity|].
  split; [vm_compute; reflexivity|].
  split; [vm_compute; discriminate|].
  split; [vm_compute; reflexivity|].
  split; [vm_compute; reflexivity|].
  reflexivity.
Qed.

(** ** The read operation *)

Module ReadFacts.
Section WithBuilder.

Variable defs : erofs_defs.
Variable PAGE_SHIFT : Z.
Variable EROFS_FS_HAS_MANAGED_CACHE : bool.
Variable EROFS_FS_ZIP_CACHE_LVL : Z.
Variable erofs_map_blocks_iter :
  inode -> erofs_map_blocks -> option meta_page -> option Resolver.map_result.
Variable B : Type.
Variable VLE_WORK_BUILDER_INIT : B.
Variable builder_role : B -> z_erofs_vle_work_role.
Variable builder_work : B -> bool.
Variable z_erofs_vle_work_iter_end : B -> bool * B.
Variable z_erofs_vle_work_iter_begin :
  B -> erofs_map_blocks -> z_erofs_vle_owned_workgrp_t ->
  Z * B * z_erofs_vle_owned_workgrp_t.
Variable z_erofs_vle_scan_cachepages :
  B -> erofs_map_blocks -> bool -> list Z -> mm -> B * list Z * mm.
Variable z_erofs_vle_work_add_page : B -> Z -> z_erofs_page_type -> Z * B.
Variable work_max_nr_pages : B -> Z -> B.
Variable __stagingpage_alloc : list Z -> mm -> Z * list Z * mm.
Variable submit_and_unzip_effect :
  B -> z_erofs_vle_owned_workgrp_t -> list Z -> bool -> mm -> B * list Z * mm.

Local Abbreviation do_read_page :=
  (Read.z_erofs_do_read_page defs PAGE_SHIFT EROFS_FS_HAS_MANAGED_CACHE
     EROFS_FS_ZIP_CACHE_LVL erofs_map_blocks_iter B builder_role builder_work
     z_erofs_vle_work_iter_end z_erofs_vle_work_iter_begin
     z_erofs_vle_scan_cachepages z_erofs_vle_work_add_page work_max_nr_pages
     __stagingpage_alloc).

Local Abbreviation readpage :=
  (Read.z_erofs_vle_normalaccess_readpage defs PAGE_SHIFT
     EROFS_FS_HAS_MANAGED_CACHE EROFS_FS_ZIP_CACHE_LVL erofs_map_blocks_iter
     B VLE_WORK_BUILDER_INIT builder_role builder_work
     z_erofs_vle_work_iter_end z_erofs_vle_work_iter_begin
     z_erofs_vle_scan_cachepages z_erofs_vle_work_add_page work_max_nr_pages
     __stagingpage_alloc submit_and_unzip_effect).

(** Putting the pool's pages makes no call and clears no error flag. *)
Lemma put_pages_list_frame pool : forall m m',
  Read.put_pages_list pool m = Ok m' ->
  log m' = log m /\
  forall p pg, pages m !! p = Some pg ->
    exists pg', pages m' !! p = Some pg' /\ PG_error pg' = PG_error pg.
Proof.
  induction pool as [|page pool IH]; intros m m' Hput;
    cbn [Read.put_pages_list] in Hput.
  - injection Hput as <-. eauto.
  - unfold deref_page in Hput.
    destruct (pages m !! page) as [pg0|] eqn:Hpg0; [|discriminate].
    cbn in Hput. apply IH in Hput as [Hlog Hpages].
    split; [exact Hlog|].
    intros p pg Hpg. cbn in Hpages.
    destruct (decide (page = p)) as [<-|Hne].
    + rewrite Hpg0 in Hpg. injection Hpg as <-.
      destruct (Hpages page _ (lookup_insert_eq _ _ _)) as (pg' & Hpg' & Herr).
      eauto.
    + apply Hpages. rewrite lookup_insert_ne by exact Hne. exact Hpg.
Qed.

(** Whatever the read operation returns, it returns 0. *)
Lemma readpage_returns_zero fuel ino page m r m' :
  readpage fuel ino page m = Ok (r, m') -> r = 0.
Proof.
  unfold Read.z_erofs_vle_normalaccess_readpage. intros Hrun.
  destruct (deref_page m page) as [pg| | | |]; try discriminate. cbn in Hrun.
  destruct (do_read_page fuel _ page [] m)
    as [[[[err f] pagepool] m1]| | | |]; try discriminate. cbn in Hrun.
  destruct (z_erofs_vle_work_iter_end (Read.fe_builder f)) as [ended b].
  destruct (negb (err =? 0)); cbn in Hrun.
  - destruct (Read.put_pages_list pagepool m1); try discriminate.
    cbn in Hrun. congruence.
  - destruct (submit_and_unzip_effect b _ pagepool true _) as [[b' pool'] m2].
    cbn in Hrun.
    destruct (Read.put_pages_list pool' m2); try discriminate.
    cbn in Hrun. congruence.
Qed.

(** The last thing [z_erofs_do_read_page] does is to end the page, and when
    it returns an error the page's error flag is set by then. *)
Lemma do_read_page_ends_page fuel fe page pool m err fe' pool' m' :
  do_read_page fuel fe page pool m = Ok (err, fe', pool', m') ->
  exists m0,
    m' = emit m0 (z_erofs_onlinepage_endio page) /\
    (err <> 0 ->
     exists pg, pages m0 !! page = Some pg /\ PG_error pg = true).
Proof.
  unfold Read.z_erofs_do_read_page. intros Hrun.
  destruct (deref_page m page) as [pg| | | |]; try discriminate. cbn in Hrun.
  destruct (Read.do_read_page_loop _ _ _ _ _ _ _ _ _ _ _ _ _ _ _ _ _ _ _ _ _ _)
    as [[[[exit_ f] pagepool] m1]| | | |]; try discriminate. cbn in Hrun.
  destruct exit_ as [|err1].
  - injection Hrun as <- <- <- <-. eexists. split; [reflexivity|].
    intros Hne. contradiction.
  - unfold deref_page in Hrun.
    destruct (pages m1 !! page) as [pg1|]; [|discriminate]. cbn in Hrun.
    injection Hrun as <- <- <- <-. eexists. split; [reflexivity|].
    intros _. cbn. rewrite lookup_insert_eq. eauto.
Qed.

(** When the lookup of the extent of the page's last byte fails, the page is
    initialized, flagged and ended, and the lookup's error is returned. *)
Lemma do_read_page_lookup_fails fuel ino page m pg r :
  pages m !! page = Some pg ->
  erofs_map_blocks_iter ino
    (mk_map 0 (u64 (Z.shiftl (pg_index pg) PAGE_SHIFT
                    + u32 (Read.PAGE_SIZE PAGE_SHIFT - 1))) 0 0 0) None
    = Some r ->
  Resolver.mr_err r <> 0 ->
  exists fe',
    do_read_page (S fuel)
      (Read.readpage_frontend PAGE_SHIFT EROFS_FS_ZIP_CACHE_LVL B
         VLE_WORK_BUILDER_INIT ino pg) page [] m
    = Ok (Resolver.mr_err r, fe', [],
          emit (store_page (emit m (z_erofs_onlinepage_init page)) page
                  (SetPageError pg))
            (z_erofs_onlinepage_endio page)).
Proof.
  intros Hpg Hmap Herr.
  assert (Hrange : forall x, (u64 x <? u64 (0 + 0)) = false).
  { intros x. apply Z.ltb_ge.
    change (u64 (0 + 0)) with 0. apply (wrap_range 64 x). lia. }
  unfold Read.z_erofs_do_read_page, deref_page. rewrite Hpg.
  unfold Read.readpage_frontend, Read.VLE_FRONTEND_INIT.
  destruct (2 <=? EROFS_FS_ZIP_CACHE_LVL); cbn;
    rewrite Hrange, andb_false_r;
    destruct (z_erofs_vle_work_iter_end VLE_WORK_BUILDER_INIT) as [ended b];
    cbn; rewrite Hmap; cbn;
    (destruct (Z.eqb_spec (Resolver.mr_err r) 0); [contradiction|]); cbn;
    rewrite Hpg; cbn; eexists; reflexivity.
Qed.

End WithBuilder.
End ReadFacts.




(** * Further properties *)

(** ** Offsets and bit operations *)

Lemma lor_shifted_low (a b n : Z) :
  0 <= n -> 0 <= b < 2 ^ n -> Z.lor (a * 2 ^ n) b = a * 2 ^ n + b.
Proof.
  intros Hn Hb.
  assert (Hdisj : Z.land (a * 2 ^ n) b = 0).
  { apply Z.bits_inj'. intros i Hi. rewrite Z.land_spec, Z.bits_0.
    destruct (Z.lt_ge_cases i n) as [Hlt|Hge].
    - rewrite Z.mul_pow2_bits_low by lia. reflexivity.
    - rewrite <- (Z.mod_small b (2 ^ n)) by lia.
      rewrite Z.mod_pow2_bits_high by lia. apply andb_false_r. }
  rewrite <- Z.lxor_lor by exact Hdisj.
  symmetry. apply Z.add_nocarry_lxor. exact Hdisj.
Qed.

Lemma land_low_mask (a n : Z) :
  0 <= n -> Z.land a (2 ^ n - 1) = a mod 2 ^ n.
Proof.
  intros Hn. rewrite <- Z.land_ones by exact Hn.
  rewrite Z.ones_equiv. reflexivity.
Qed.

Lemma shifted_block_aligned (nr n : Z) :
  0 <= n -> Z.land (u64 (Z.shiftl nr n)) (Z.shiftl 1 n - 1) = 0.
Proof.
  intros Hn. rewrite (Z.shiftl_mul_pow2 1), Z.mul_1_l by exact Hn.
  rewrite land_low_mask by exact Hn.
  rewrite Z.shiftl_mul_pow2 by exact Hn. unfold u64, wrap.
  destruct (Z.le_gt_cases n 64) as [Hle|Hgt].
  - rewrite Z.mod_mod_divide;
      [apply Z.mod_mul; apply Z.pow_nonzero; lia|].
    exists (2 ^ (64 - n)). rewrite <- Z.pow_add_r by lia. f_equal. lia.
  - replace (nr * 2 ^ n) with (nr * 2 ^ (n - 64) * 2 ^ 64)
      by (rewrite <- Z.mul_assoc, <- Z.pow_add_r by lia; do 2 f_equal; lia).
    rewrite Z.mod_mul by (apply Z.pow_nonzero; lia).
    apply Z.mod_0_l. apply Z.pow_nonzero; lia.
Qed.

Lemma land_lor_same (f b : Z) : Z.land (Z.lor f b) b = b.
Proof.
  apply Z.bits_inj'. intros i Hi. rewrite Z.land_spec, Z.lor_spec.
  destruct (Z.testbit f i), (Z.testbit b i); reflexivity.
Qed.

Lemma byte_unsigned_range (b : byte) : 0 <= byte_unsigned b < 256.
Proof. destruct b; vm_compute; split; congruence. Qed.

Lemma le16_to_cpu_range (b0 b1 : byte) : 0 <= le16_to_cpu b0 b1 < 65536.
Proof.
  unfold le16_to_cpu.
  pose proof (byte_unsigned_range b0). pose proof (byte_unsigned_range b1). lia.
Qed.

(** ** The resolver: what a result looks like *)

Module ResolverBounds.
Import Resolver.
Section WithSuperblock.

Variable defs : erofs_defs.
Variable clusterbits : Z.
Variable erofs_get_meta_page : Z -> Z + meta_page.

Local Abbreviation walk :=
  (vle_get_logical_extent_head defs clusterbits erofs_get_meta_page).
Local Abbreviation record := (walk_record defs).
Local Abbreviation switch_page := (switch_meta_page defs erofs_get_meta_page).
Local Abbreviation type_of di := (switch_cluster_type defs (vle_cluster_type defs di)).

Lemma clustersize_pow2 :
  0 <= clusterbits <= 30 -> clustersize clusterbits = 2 ^ clusterbits.
Proof.
  intros Hcb. unfold clustersize.
  rewrite Z.shiftl_mul_pow2, Z.mul_1_l by lia.
  apply wrap_small. split; [apply Z.pow_nonneg; lia|].
  apply Z.pow_lt_mono_r; lia.
Qed.

(** Without the extension no record selects the HUAWEI_COMPAT label. *)
Lemma no_compat_label t :
  CONFIG_EROFS_FS_HUAWEI_EXTENSION defs = false ->
  switch_cluster_type defs t <> CT_HUAWEI_COMPAT.
Proof.
  intros Hext. unfold switch_cluster_type. rewrite Hext. cbn [andb].
  repeat match goal with |- context [if ?b then _ else _] => destruct b end;
    discriminate.
Qed.

Lemma switch_page_error ino mpage lcn err :
  (forall mblk e, erofs_get_meta_page mblk = inl e -> e <> 0) ->
  switch_page ino mpage lcn = inl err -> err <> 0.
Proof.
  intros Hget. unfold switch_meta_page.
  destruct (_ =? _); [discriminate|]. apply Hget.
Qed.

Lemma map_blocks_meta_page_error ino mpage_ret lcn err :
  (forall mblk e, erofs_get_meta_page mblk = inl e -> e <> 0) ->
  map_blocks_meta_page defs erofs_get_meta_page ino mpage_ret lcn = inl err ->
  err <> 0.
Proof.
  intros Hget. unfold map_blocks_meta_page.
  destruct mpage_ret as [mp|]; [|apply Hget].
  destruct (_ =? _); [discriminate|]. apply Hget.
Qed.

(** The logical offset of a head lies inside the head's own cluster. *)
Lemma head_ofs_in_cluster lcn (di : z_erofs_vle_decompressed_index) :
  0 <= clusterbits <= 30 -> 0 <= lcn < 2 ^ 32 ->
  lcn * 2 ^ clusterbits <=
    u64 (Z.shiftl lcn clusterbits
         + Z.land (di_clusterofs di) (clustersize clusterbits - 1))
    < (lcn + 1) * 2 ^ clusterbits.
Proof.
  intros Hcb Hlcn. rewrite clustersize_pow2 by exact Hcb.
  rewrite Z.shiftl_mul_pow2, land_low_mask by lia.
  pose proof (Z.mod_pos_bound (di_clusterofs di) (2 ^ clusterbits)
                ltac:(apply Z.pow_pos_nonneg; lia)) as Hrem.
  assert (Hcs : 0 < 2 ^ clusterbits <= 2 ^ 30).
  { split; [apply Z.pow_pos_nonneg; lia|apply Z.pow_le_mono_r; lia]. }
  unfold u64. rewrite wrap_small; [nia|].
  change (2 ^ 30) with 1073741824 in Hcs.
  change (2 ^ 32) with 4294967296 in Hlcn.
  change (2 ^ 64) with 18446744073709551616. nia.
Qed.

(** A walk that succeeds ends at a head at or below its starting cluster:
    the offset it returns lies below the end of that cluster. *)
Lemma walk_head_below fuel : forall ino mpage lcn ofs pblk flags eh,
  CONFIG_EROFS_FS_HUAWEI_EXTENSION defs = false ->
  0 <= clusterbits <= 30 ->
  (forall mblk e, erofs_get_meta_page mblk = inl e -> e <> 0) ->
  0 <= lcn < 2 ^ 32 ->
  walk fuel ino mpage lcn ofs pblk flags = Some eh ->
  eh_err eh = 0 ->
  0 <= eh_ofs eh < (lcn + 1) * 2 ^ clusterbits.
Proof.
  induction fuel as [|fuel IH];
    intros ino mpage lcn ofs pblk flags eh Hext Hcb Hget Hlcn Hwalk Herr;
    [discriminate|].
  cbn [vle_get_logical_extent_head] in Hwalk.
  destruct (switch_page ino mpage lcn) as [err|mpage1] eqn:Hsw.
  { injection Hwalk as <-. cbn in Herr.
    apply (switch_page_error _ _ _ _ Hget) in Hsw. contradiction. }
  rewrite Hext in Hwalk.
  assert (Hcs : 0 < 2 ^ clusterbits) by (apply Z.pow_pos_nonneg; lia).
  destruct (switch_cluster_type defs _) eqn:Hty.
  - injection Hwalk as <-. cbn [eh_ofs].
    pose proof (head_ofs_in_cluster lcn
                  (read_di (mpage_kaddr mpage1) (vle_extent_blkoff defs ino lcn))
                  Hcb Hlcn) as Hin.
    cbn [di_clusterofs read_di] in Hin. nia.
  - injection Hwalk as <-. cbn [eh_ofs].
    pose proof (head_ofs_in_cluster lcn
                  (read_di (mpage_kaddr mpage1) (vle_extent_blkoff defs ino lcn))
                  Hcb Hlcn) as Hin.
    cbn [di_clusterofs read_di] in Hin. nia.
  - pose proof (di_u_delta0_nonneg
                  (read_di (mpage_kaddr mpage1) (vle_extent_blkoff defs ino lcn)))
      as Hd.
    destruct (Z.eqb_spec (di_u_delta0 (read_di (mpage_kaddr mpage1)
                (vle_extent_blkoff defs ino lcn))) 0) as [|Hnz];
      [injection Hwalk as <-; discriminate|].
    destruct (Z.ltb_spec lcn (di_u_delta0 (read_di (mpage_kaddr mpage1)
                (vle_extent_blkoff defs ino lcn)))) as [|Hle];
      [injection Hwalk as <-; discriminate|].
    cbn [orb] in Hwalk.
    apply IH in Hwalk; [|assumption|assumption|assumption|lia|assumption].
    nia.
  - exfalso. exact (no_compat_label _ Hext Hty).
  - injection Hwalk as <-. discriminate.
Qed.

(** Entered at a NONHEAD record, a walk that succeeds ends strictly below
    its starting cluster. *)
Lemma walk_nonhead_head_below fuel ino mpage lcn ofs pblk flags eh :
  CONFIG_EROFS_FS_HUAWEI_EXTENSION defs = false ->
  0 <= clusterbits <= 30 ->
  (forall mblk e, erofs_get_meta_page mblk = inl e -> e <> 0) ->
  0 <= lcn < 2 ^ 32 ->
  switch_page ino mpage lcn = inr mpage ->
  type_of (record ino mpage lcn) = CT_NONHEAD ->
  walk fuel ino mpage lcn ofs pblk flags = Some eh ->
  eh_err eh = 0 ->
  0 <= eh_ofs eh < lcn * 2 ^ clusterbits.
Proof.
  intros Hext Hcb Hget Hlcn Hsw Hty Hwalk Herr.
  destruct fuel as [|fuel]; [discriminate|].
  cbn [vle_get_logical_extent_head] in Hwalk. rewrite Hsw in Hwalk.
  unfold walk_record in Hty. rewrite Hty in Hwalk.
  pose proof (di_u_delta0_nonneg
                (read_di (mpage_kaddr mpage) (vle_extent_blkoff defs ino lcn)))
    as Hd.
  assert (Hcs : 0 < 2 ^ clusterbits) by (apply Z.pow_pos_nonneg; lia).
  destruct (Z.eqb_spec (di_u_delta0 (read_di (mpage_kaddr mpage)
              (vle_extent_blkoff defs ino lcn))) 0) as [|Hnz];
    [injection Hwalk as <-; discriminate|].
  destruct (Z.ltb_spec lcn (di_u_delta0 (read_di (mpage_kaddr mpage)
              (vle_extent_blkoff defs ino lcn)))) as [|Hle];
    [injection Hwalk as <-; discriminate|].
  cbn [orb] in Hwalk.
  apply walk_head_below in Hwalk;
    [|assumption|assumption|assumption|lia|assumption].
  nia.
Qed.

(** From label [nonhead], on success: the extent starts where the walk's
    head starts and runs up to [end_]. *)
Lemma nonhead_success ino map mpage lcn ofs end_ flags r :
  nonhead defs clusterbits erofs_get_meta_page ino map mpage lcn ofs end_ flags
    = Some r ->
  mr_err r = 0 ->
  exists eh,
    walk (walk_fuel lcn) ino mpage lcn ofs 0 flags = Some eh /\
    eh_err eh = 0 /\
    r = exact_hitted defs clusterbits map (eh_mpage eh) (eh_ofs eh) (eh_ofs eh)
          end_ (eh_pblk eh) (eh_flags eh).
Proof.
  unfold nonhead. intros Hnon Herr.
  destruct (walk _ _ _ _ _ _ _) as [eh|]; [|discriminate].
  destruct (Z.eqb_spec (eh_err eh) 0) as [Hz|Hnz]; cbn [negb] in Hnon.
  - injection Hnon as <-. eauto.
  - injection Hnon as <-. cbn in Herr. contradiction.
Qed.

(** The cluster number and the remainder of a requested offset. *)
Lemma map_blocks_split (map : erofs_map_blocks) :
  0 <= clusterbits <= 30 ->
  m_llen map = 0 ->
  0 <= m_la map < 2 ^ (32 + clusterbits) ->
  map_blocks_ofs map = m_la map /\
  0 <= map_blocks_lcn clusterbits map < 2 ^ 32 /\
  0 <= map_blocks_ofs_rem clusterbits map < 2 ^ clusterbits /\
  m_la map = map_blocks_lcn clusterbits map * 2 ^ clusterbits
             + map_blocks_ofs_rem clusterbits map.
Proof.
  intros Hcb Hinit Hla.
  assert (Hcs : 0 < 2 ^ clusterbits <= 2 ^ 30).
  { split; [apply Z.pow_pos_nonneg; lia|apply Z.pow_le_mono_r; lia]. }
  assert (Hofs : map_blocks_ofs map = m_la map).
  { unfold map_blocks_ofs. rewrite Hinit, Z.add_0_r. apply (wrap_small 64).
    split; [lia|]. eapply Z.lt_le_trans; [apply Hla|].
    apply Z.pow_le_mono_r; lia. }
  unfold map_blocks_lcn, map_blocks_ofs_rem. rewrite Hofs.
  rewrite clustersize_pow2, land_low_mask, Z.shiftr_div_pow2 by lia.
  pose proof (Z.mod_pos_bound (m_la map) (2 ^ clusterbits) ltac:(lia)) as Hrem.
  assert (Hq : 0 <= m_la map / 2 ^ clusterbits < 2 ^ 32).
  { split; [apply Z.div_pos; lia|].
    apply Z.div_lt_upper_bound; [lia|].
    rewrite <- Z.pow_add_r by lia. rewrite Z.add_comm. lia. }
  unfold u32. rewrite !wrap_small.
  - split; [reflexivity|]. split; [exact Hq|]. split; [exact Hrem|].
    rewrite Z.mul_comm. apply Z.div_mod. lia.
  - split; [lia|]. eapply Z.lt_le_trans; [apply Hrem|].
    etransitivity; [apply Hcs|]. apply Z.pow_le_mono_r; lia.
  - exact Hq.
Qed.

End WithSuperblock.
End ResolverBounds.

(** X1.  With the HUAWEI extension compiled out, a cluster size of at most
    2^30 bytes ([clusterbits <= 30]) and a requested offset whose cluster
    number fits the 32-bit [lcn] ([m_la < 2^(32 + clusterbits)]), an initial
    resolve inside the file that returns 0 hands back an extent that covers
    the requested offset and ends at or before the end of the requested
    cluster: [m_la' <= m_la < m_la' + m_llen' <= (lcn + 1) * clustersize].
    The record of the requested cluster is taken to carry a cluster offset
    below the cluster size, and a failed read of a metadata page to report
    a nonzero error; nothing is asked of the other records.  (Beyond that
    range [lcn] is the cluster number cut to 32 bits, and the extent found
    is that of another cluster.) *)
Theorem map_blocks_iter_extent_covers :
  forall (defs : erofs_defs) (clusterbits : Z)
         (erofs_get_meta_page : Z -> Z + meta_page)
         (ino : inode) (map : erofs_map_blocks) (mpage_ret : option meta_page)
         (r : Resolver.map_result),
    CONFIG_EROFS_FS_HUAWEI_EXTENSION defs = false ->
    0 <= clusterbits <= 30 ->
    (forall mblk e, erofs_get_meta_page mblk = inl e -> e <> 0) ->
    m_llen map = 0 ->
    0 <= m_la map < 2 ^ (32 + clusterbits) ->
    m_la map < u64 (i_size ino) ->
    (forall mpage,
        Resolver.map_blocks_meta_page defs erofs_get_meta_page ino mpage_ret
          (Resolver.map_blocks_lcn clusterbits map) = inr mpage ->
        di_clusterofs (Resolver.walk_record defs ino mpage
                         (Resolver.map_blocks_lcn clusterbits map))
        < Resolver.clustersize clusterbits) ->
    Resolver.z_erofs_map_blocks_iter defs clusterbits erofs_get_meta_page
      ino map mpage_ret = Some r ->
    Resolver.mr_err r = 0 ->
    m_la (Resolver.mr_map r) <= m_la map
      < m_la (Resolver.mr_map r) + m_llen (Resolver.mr_map r) /\
    m_la (Resolver.mr_map r) + m_llen (Resolver.mr_map r)
      <= (Resolver.map_blocks_lcn clusterbits map + 1)
         * Resolver.clustersize clusterbits.
Proof.
  intros defs clusterbits get ino map mpage_ret r
    Hext Hcb Hget Hinit Hla Heof Hwf Hrun Herr.
  destruct (ResolverBounds.map_blocks_split clusterbits map Hcb Hinit Hla)
    as (Hofs & Hlcn & Hrem & Hsplit).
  pose proof (ResolverBounds.clustersize_pow2 clusterbits Hcb) as Hcsz.
  assert (Hcs : 0 < 2 ^ clusterbits <= 2 ^ 30).
  { split; [apply Z.pow_pos_nonneg; lia|apply Z.pow_le_mono_r; lia]. }
  change (2 ^ 30) with 1073741824 in Hcs.
  change (2 ^ 32) with 4294967296 in Hlcn.
  set (lcn := Resolver.map_blocks_lcn clusterbits map) in *.
  set (rem := Resolver.map_blocks_ofs_rem clusterbits map) in *.
  destruct (Resolver.map_blocks_meta_page defs get ino mpage_ret lcn)
    as [err|mpage] eqn:Hpage.
  { unfold Resolver.z_erofs_map_blocks_iter in Hrun.
    destruct (Z.leb_spec (u64 (i_size ino)) (m_la map)); [lia|].
    fold lcn in Hrun. rewrite Hpage in Hrun. injection Hrun as <-.
    apply (ResolverBounds.map_blocks_meta_page_error _ _ _ _ _ _ Hget) in Hpage.
    contradiction. }
  specialize (Hwf mpage eq_refl). rewrite Hcsz in Hwf.
  assert (Hcofs : 0 <= di_clusterofs (Resolver.walk_record defs ino mpage lcn)).
  { apply le16_to_cpu_range. }
  assert (Hread : read_di (mpage_kaddr mpage)
                    (Resolver.vle_extent_blkoff defs ino lcn)
                  = Resolver.walk_record defs ino mpage lcn) by reflexivity.
  remember (Resolver.walk_record defs ino mpage lcn) as di eqn:Hdi.
  destruct (Resolver.vle_decompressed_index_clusterofs defs clusterbits di)
    as [err|c] eqn:Hc.
  { unfold Resolver.z_erofs_map_blocks_iter in Hrun.
    destruct (Z.leb_spec (u64 (i_size ino)) (m_la map)); [lia|].
    fold lcn in Hrun. rewrite Hpage in Hrun.
    rewrite Hread, Hc in Hrun.
    injection Hrun as <-. cbn in Herr. subst err.
    unfold Resolver.vle_decompressed_index_clusterofs in Hc.
    destruct (Resolver.switch_cluster_type defs _); try discriminate.
    destruct (negb _); discriminate. }
  rewrite Hdi in Hc.
  rewrite (ResolverFacts.map_blocks_iter_initial _ _ _ _ _ _ mpage c
             Hinit Heof Hpage Hc) in Hrun.
  fold lcn rem in Hrun. rewrite <- Hdi in Hrun, Hc. rewrite Hofs in Hrun.
  assert (Hend : u64 ((lcn + 1) * 2 ^ clusterbits) = (lcn + 1) * 2 ^ clusterbits).
  { apply (wrap_small 64). change (2 ^ 64) with 18446744073709551616. nia. }
  assert (Hbase : u64 (lcn * 2 ^ clusterbits) = lcn * 2 ^ clusterbits).
  { apply (wrap_small 64). change (2 ^ 64) with 18446744073709551616. nia. }
  (* the HEAD case, which PLAIN falls through to *)
  assert (Hhead : forall flags,
    Resolver.head_case defs clusterbits get ino map mpage di lcn (m_la map)
      rem (di_clusterofs di) (u64 ((lcn + 1) * Resolver.clustersize clusterbits))
      flags = Some r ->
    m_la (Resolver.mr_map r) <= m_la map
      < m_la (Resolver.mr_map r) + m_llen (Resolver.mr_map r) /\
    m_la (Resolver.mr_map r) + m_llen (Resolver.mr_map r) <= (lcn + 1) * 2 ^ clusterbits).
  { intros flags Hcase. unfold Resolver.head_case in Hcase.
    rewrite Hcsz in Hcase. rewrite Hend, Hbase in Hcase.
    rewrite (lor_shifted_low lcn (di_clusterofs di) clusterbits) in Hcase by lia.
    assert (Hprev : u32 (lcn - 1) = lcn - 1 \/ lcn = 0).
    { destruct (Z.eq_dec lcn 0); [right; assumption|left].
      apply (wrap_small 32). change (2 ^ 32) with 4294967296. lia. }
    destruct (Z.eqb_spec rem (di_clusterofs di)) as [Heq|Hne].
    { injection Hcase as <-. cbn [Resolver.mr_map Resolver.exact_hitted m_la m_llen].
      unfold u64. rewrite wrap_small
        by (change (2 ^ 64) with 18446744073709551616; nia). nia. }
    destruct (Z.ltb_spec (di_clusterofs di) rem) as [Hlt|Hge].
    { injection Hcase as <-. cbn [Resolver.mr_map Resolver.exact_hitted m_la m_llen].
      unfold u64. rewrite wrap_small
        by (change (2 ^ 64) with 18446744073709551616; nia). nia. }
    destruct (Z.eqb_spec lcn 0) as [Hz|Hnz].
    { injection Hcase as <-. discriminate. }
    destruct Hprev as [Hprev|]; [|contradiction].
    rewrite Hprev in Hcase.
    destruct (ResolverBounds.nonhead_success _ _ _ _ _ _ _ _ _ _ _ Hcase Herr)
      as (eh & Hwalk & Hok & ->).
    apply ResolverBounds.walk_head_below in Hwalk;
      [|assumption|assumption|assumption|lia|assumption].
    cbn [Resolver.mr_map Resolver.exact_hitted m_la m_llen].
    unfold u64. rewrite wrap_small
      by (change (2 ^ 64) with 18446744073709551616; nia). nia. }
  unfold Resolver.map_blocks_decode in Hrun. rewrite Hcsz.
  rewrite Hcsz in Hhead.
  destruct (Resolver.switch_cluster_type defs (Resolver.vle_cluster_type defs di))
    eqn:Hty.
  - (* PLAIN *)
    rewrite ResolverFacts.compat_case_falls_through in Hrun by (left; exact Hext).
    rewrite (ResolverFacts.clusterofs_plain_or_head defs clusterbits di) in Hc
      by (left; exact Hty).
    injection Hc as <-. rewrite Hcsz in Hrun.
    eapply Hhead. exact Hrun.
  - (* HEAD *)
    rewrite (ResolverFacts.clusterofs_plain_or_head defs clusterbits di) in Hc
      by (right; exact Hty).
    injection Hc as <-. rewrite Hcsz in Hrun.
    eapply Hhead. exact Hrun.
  - (* NONHEAD *)
    rewrite Hcsz in Hrun. rewrite Hend in Hrun.
    destruct (ResolverBounds.nonhead_success _ _ _ _ _ _ _ _ _ _ _ Hrun Herr)
      as (eh & Hwalk & Hok & ->).
    apply ResolverBounds.walk_nonhead_head_below in Hwalk;
      [|assumption|assumption|assumption|lia
       |exact (ResolverFacts.map_blocks_meta_page_switch _ _ _ _ _ _ Hpage)
       |rewrite <- Hdi; exact Hty|assumption].
    cbn [Resolver.mr_map Resolver.exact_hitted m_la m_llen].
    unfold u64. rewrite wrap_small
      by (change (2 ^ 64) with 18446744073709551616; nia). nia.
  - exfalso. exact (ResolverBounds.no_compat_label defs _ Hext Hty).
  - injection Hrun as <-. discriminate.
Qed.

(** X2.  A resolve call that returns an error leaves the extent of the
    caller's mapping as it found it: [m_la], [m_llen], [m_pa] and [m_plen]
    are unchanged, in initial and in walking mode, whatever the error. *)
Theorem map_blocks_iter_error_frame :
  forall (defs : erofs_defs) (clusterbits : Z)
         (erofs_get_meta_page : Z -> Z + meta_page)
         (ino : inode) (map : erofs_map_blocks) (mpage_ret : option meta_page)
         (r : Resolver.map_result),
    Resolver.z_erofs_map_blocks_iter defs clusterbits erofs_get_meta_page
      ino map mpage_ret = Some r ->
    Resolver.mr_err r <> 0 ->
    m_la (Resolver.mr_map r) = m_la map /\
    m_llen (Resolver.mr_map r) = m_llen map /\
    m_pa (Resolver.mr_map r) = m_pa map /\
    m_plen (Resolver.mr_map r) = m_plen map.
Proof.
  intros defs clusterbits get ino map mpage_ret r Hrun Herr.
  assert (Hnon : forall mpage lcn ofs end_ flags,
    Resolver.nonhead defs clusterbits get ino map mpage lcn ofs end_ flags
      = Some r ->
    m_la (Resolver.mr_map r) = m_la map /\
    m_llen (Resolver.mr_map r) = m_llen map /\
    m_pa (Resolver.mr_map r) = m_pa map /\
    m_plen (Resolver.mr_map r) = m_plen map).
  { intros mpage lcn ofs end_ flags Hcase. unfold Resolver.nonhead in Hcase.
    destruct (Resolver.vle_get_logical_extent_head _ _ _ _ _ _ _ _ _ _)
      as [eh|]; [|discriminate].
    destruct (negb _); injection Hcase as <-; cbn in *;
      [auto|contradiction]. }
  assert (Hhead : forall mpage di lcn ofs ofs_rem c end_ flags,
    Resolver.head_case defs clusterbits get ino map mpage di lcn ofs ofs_rem c
      end_ flags = Some r ->
    m_la (Resolver.mr_map r) = m_la map /\
    m_llen (Resolver.mr_map r) = m_llen map /\
    m_pa (Resolver.mr_map r) = m_pa map /\
    m_plen (Resolver.mr_map r) = m_plen map).
  { intros mpage di lcn ofs ofs_rem c end_ flags Hcase.
    unfold Resolver.head_case in Hcase.
    destruct (_ =? _); [injection Hcase as <-; cbn in *; contradiction|].
    destruct (_ <? _); [injection Hcase as <-; cbn in *; contradiction|].
    destruct (_ =? _); [injection Hcase as <-; cbn; auto|].
    eapply Hnon. exact Hcase. }
  assert (Hcompat : forall mpage di lcn ofs ofs_rem c end_ flags,
    Resolver.compat_case defs clusterbits get ino map mpage di lcn ofs ofs_rem c
      end_ flags = Some r ->
    m_la (Resolver.mr_map r) = m_la map /\
    m_llen (Resolver.mr_map r) = m_llen map /\
    m_pa (Resolver.mr_map r) = m_pa map /\
    m_plen (Resolver.mr_map r) = m_plen map).
  { intros mpage di lcn ofs ofs_rem c end_ flags Hcase.
    unfold Resolver.compat_case in Hcase.
    destruct (_ && _); [eapply Hnon|eapply Hhead]; exact Hcase. }
  unfold Resolver.z_erofs_map_blocks_iter in Hrun.
  destruct (_ <=? _); [injection Hrun as <-; cbn in *; contradiction|].
  destruct (Resolver.map_blocks_meta_page _ _ _ _ _) as [err|mpage];
    [injection Hrun as <-; cbn; auto|].
  destruct (Resolver.vle_decompressed_index_clusterofs _ _ _) as [err|c];
    [injection Hrun as <-; cbn; auto|].
  destruct (negb _); [injection Hrun as <-; cbn in *; contradiction|].
  unfold Resolver.map_blocks_decode in Hrun.
  destruct (Resolver.switch_cluster_type defs _).
  - eapply Hcompat. exact Hrun.
  - eapply Hhead. exact Hrun.
  - eapply Hnon. exact Hrun.
  - eapply Hcompat. exact Hrun.
  - injection Hrun as <-. cbn. auto.
Qed.

(** X3.  An initial resolve inside the file that returns 0 hands back a
    mapped extent of the shape [z_erofs_do_read_page] asserts before it
    begins a work: MAPPED is set, [m_plen] is the cluster size, and [m_pa]
    is the address of a block ([erofs_blkoff(m_pa)] is 0). *)
Theorem map_blocks_iter_mapped_shape :
  forall (defs : erofs_defs) (clusterbits : Z)
         (erofs_get_meta_page : Z -> Z + meta_page)
         (ino : inode) (map : erofs_map_blocks) (mpage_ret : option meta_page)
         (r : Resolver.map_result),
    (forall mblk e, erofs_get_meta_page mblk = inl e -> e <> 0) ->
    0 <= LOG_BLOCK_SIZE defs ->
    m_llen map = 0 ->
    m_la map < u64 (i_size ino) ->
    Resolver.z_erofs_map_blocks_iter defs clusterbits erofs_get_meta_page
      ino map mpage_ret = Some r ->
    Resolver.mr_err r = 0 ->
    Z.land (m_flags (Resolver.mr_map r)) (EROFS_MAP_MAPPED defs)
      = EROFS_MAP_MAPPED defs /\
    m_plen (Resolver.mr_map r) = Resolver.clustersize clusterbits /\
    Z.land (m_pa (Resolver.mr_map r)) (Z.shiftl 1 (LOG_BLOCK_SIZE defs) - 1) = 0.
Proof.
  intros defs clusterbits get ino map mpage_ret r Hget Hlog Hinit Heof Hrun Herr.
  assert (Hhit : forall mpage la ofs end_ pblk flags,
    r = Resolver.exact_hitted defs clusterbits map mpage la ofs end_ pblk flags ->
    Z.land (m_flags (Resolver.mr_map r)) (EROFS_MAP_MAPPED defs)
      = EROFS_MAP_MAPPED defs /\
    m_plen (Resolver.mr_map r) = Resolver.clustersize clusterbits /\
    Z.land (m_pa (Resolver.mr_map r)) (Z.shiftl 1 (LOG_BLOCK_SIZE defs) - 1) = 0).
  { intros mpage la ofs end_ pblk flags ->. cbn.
    split; [apply land_lor_same|split; [reflexivity|]].
    unfold Resolver.blknr_to_addr. apply shifted_block_aligned. exact Hlog. }
  assert (Hnon : forall mpage lcn ofs end_ flags,
    Resolver.nonhead defs clusterbits get ino map mpage lcn ofs end_ flags
      = Some r ->
    exists mpage' la ofs' pblk flags',
      r = Resolver.exact_hitted defs clusterbits map mpage' la ofs' end_ pblk
            flags').
  { intros mpage lcn ofs end_ flags Hcase.
    destruct (ResolverBounds.nonhead_success _ _ _ _ _ _ _ _ _ _ _ Hcase Herr)
      as (eh & _ & _ & ->). eauto 6. }
  assert (Hhead : forall mpage di lcn ofs ofs_rem c end_ flags,
    Resolver.head_case defs clusterbits get ino map mpage di lcn ofs ofs_rem c
      end_ flags = Some r ->
    exists mpage' la ofs' end' pblk flags',
      r = Resolver.exact_hitted defs clusterbits map mpage' la ofs' end' pblk
            flags').
  { intros mpage di lcn ofs ofs_rem c end_ flags Hcase.
    unfold Resolver.head_case in Hcase.
    destruct (_ =? _); [injection Hcase as <-; eauto 7|].
    destruct (_ <? _); [injection Hcase as <-; eauto 7|].
    destruct (_ =? _); [injection Hcase as <-; discriminate|].
    destruct (Hnon _ _ _ _ _ Hcase) as (? & ? & ? & ? & ? & ->). eauto 7. }
  assert (Hcompat : forall mpage di lcn ofs ofs_rem c end_ flags,
    Resolver.compat_case defs clusterbits get ino map mpage di lcn ofs ofs_rem c
      end_ flags = Some r ->
    exists mpage' la ofs' end' pblk flags',
      r = Resolver.exact_hitted defs clusterbits map mpage' la ofs' end' pblk
            flags').
  { intros mpage di lcn ofs ofs_rem c end_ flags Hcase.
    unfold Resolver.compat_case in Hcase.
    destruct (_ && _); [|eapply Hhead; exact Hcase].
    destruct (Hnon _ _ _ _ _ Hcase) as (? & ? & ? & ? & ? & ->). eauto 7. }
  assert (Hshape : exists mpage' la ofs' end' pblk flags',
    r = Resolver.exact_hitted defs clusterbits map mpage' la ofs' end' pblk
          flags').
  { unfold Resolver.z_erofs_map_blocks_iter in Hrun.
    destruct (Z.leb_spec (u64 (i_size ino)) (m_la map)); [lia|].
    destruct (Resolver.map_blocks_meta_page _ _ _ _ _) as [err|mpage] eqn:Hpage.
    { injection Hrun as <-. cbn in Herr.
      apply (ResolverBounds.map_blocks_meta_page_error _ _ _ _ _ _ Hget) in Hpage.
      contradiction. }
    destruct (Resolver.vle_decompressed_index_clusterofs _ _ _) as [err|c] eqn:Hc.
    { injection Hrun as <-. cbn in Herr. subst err.
      unfold Resolver.vle_decompressed_index_clusterofs in Hc.
      destruct (Resolver.switch_cluster_type defs _); try discriminate.
      destruct (negb _); discriminate. }
    rewrite Hinit in Hrun. cbn [Z.eqb negb] in Hrun.
    unfold Resolver.map_blocks_decode in Hrun.
    destruct (Resolver.switch_cluster_type defs _).
    - eapply Hcompat. exact Hrun.
    - eapply Hhead. exact Hrun.
    - destruct (Hnon _ _ _ _ _ Hrun) as (? & ? & ? & ? & ? & ->). eauto 7.
    - eapply Hcompat. exact Hrun.
    - injection Hrun as <-. discriminate. }
  destruct Hshape as (mpage' & la & ofs' & end' & pblk & flags' & Hr).
  eapply Hhit. exact Hr.
Qed.

(** X4.  What the backward walk returns is decided by the first record it
    reaches that is not a NONHEAD record with a valid delta.  At a HEAD
    record it returns 0 with the head's cluster number and offset packed
    into [ofs], the head's block address in [pblk], and [flags] as they
    were; at a PLAIN record the same with the ZIPPED bit of [flags] toggled
    (and, under the HUAWEI extension, the cluster number moved back by the
    record's previous-cluster count, as at a HUAWEI_COMPAT record); at a
    record of unknown type it returns -EIO with the three outputs
    untouched. *)
Theorem walk_returns_head_record :
  forall (defs : erofs_defs) (clusterbits : Z)
         (erofs_get_meta_page : Z -> Z + meta_page)
         (ino : inode) (mpage : meta_page) (lcn : Z)
         (mpage' : meta_page) (lcn' : Z) (fuel : nat) (ofs pblk flags : Z),
    Resolver.walk_visits defs erofs_get_meta_page ino mpage lcn mpage' lcn' ->
    (Z.to_nat lcn < fuel)%nat ->
    let di := Resolver.walk_record defs ino mpage' lcn' in
    let found (lcn'' flags' : Z) :=
      Some (mk_extent_head 0 (Some mpage')
              (u64 (Z.shiftl lcn'' clusterbits
                    + Z.land (di_clusterofs di)
                        (Resolver.clustersize clusterbits - 1)))
              (di_u_blkaddr di) flags') in
    let back (lcn'' : Z) :=
      if CONFIG_EROFS_FS_HUAWEI_EXTENSION defs
      then u32 (lcn'' - Resolver.vle_huawei_compat_previous_clusters
                          clusterbits di)
      else lcn'' in
    let result :=
      Resolver.vle_get_logical_extent_head defs clusterbits erofs_get_meta_page
        fuel ino mpage lcn ofs pblk flags in
    match Resolver.switch_cluster_type defs (Resolver.vle_cluster_type defs di)
    with
    | CT_HEAD => result = found lcn' flags
    | CT_PLAIN =>
        result = found (back lcn') (Z.lxor flags (EROFS_MAP_ZIPPED defs))
    | CT_HUAWEI_COMPAT => result = found (back lcn') flags
    | CT_DEFAULT =>
        result = Some (mk_extent_head (- EIO) (Some mpage') ofs pblk flags)
    | CT_NONHEAD => True
    end.
Proof.
  intros defs clusterbits get ino mpage lcn mpage' lcn' fuel ofs pblk flags Hvis.
  revert fuel.
  induction Hvis as [mpage lcn mpage' Hsw
                    |mpage lcn mpage1 mpage' lcn' Hsw Hv Hvis IH];
    intros fuel Hfuel; (destruct fuel as [|fuel]; [lia|]).
  - cbn zeta. cbn [Resolver.vle_get_logical_extent_head]. rewrite Hsw.
    unfold Resolver.walk_record.
    destruct (Resolver.switch_cluster_type defs _);
      try reflexivity; try exact I;
      destruct (CONFIG_EROFS_FS_HUAWEI_EXTENSION defs); reflexivity.
  - cbn zeta in *.
    rewrite (ResolverFacts.walk_nonhead_valid _ _ _ _ _ _ mpage1)
      by assumption.
    apply IH. apply ResolverFacts.valid_delta_decreases in Hv. lia.
Qed.

Lemma walk_returns_head_record_witness :
  Resolver.vle_get_logical_extent_head (demo_defs false) 12
    (demo_get_meta_page demo_chain) 4 (demo_inode 16384)
    (demo_block demo_chain) 2 0 0 65536
  = Some (mk_extent_head 0 (Some (demo_block demo_chain)) 0 7 65536).
Proof.
  apply (walk_returns_head_record (demo_defs false) 12
           (demo_get_meta_page demo_chain) (demo_inode 16384)
           (demo_block demo_chain) 2 (demo_block demo_chain) 0 4 0 0 65536).
  - apply Resolver.visits_next with (mpage1 := demo_block demo_chain).
    + vm_compute. reflexivity.
    + split; [vm_compute; reflexivity|].
      split; vm_compute; discriminate.
    + apply Resolver.visits_here. vm_compute. reflexivity.
  - lia.
Defined.

Lemma map_blocks_iter_extent_covers_witness :
  exists r,
    Resolver.z_erofs_map_blocks_iter (demo_defs false) 12
      (demo_get_meta_page demo_chain) (demo_inode 16384) (demo_map 5000) None
      = Some r /\
    m_la (Resolver.mr_map r) = 0 /\ m_llen (Resolver.mr_map r) = 8192 /\
    (m_la (Resolver.mr_map r) <= 5000
       < m_la (Resolver.mr_map r) + m_llen (Resolver.mr_map r)) /\
    m_la (Resolver.mr_map r) + m_llen (Resolver.mr_map r) <= (1 + 1) * 4096.
Proof.
  eexists. split; [vm_compute; reflexivity|].
  split; [reflexivity|]. split; [reflexivity|].
  apply (map_blocks_iter_extent_covers (demo_defs false) 12
           (demo_get_meta_page demo_chain) (demo_inode 16384) (demo_map 5000)
           None).
  - reflexivity.
  - lia.
  - intros mblk e. unfold demo_get_meta_page.
    destruct (mblk =? 2); [discriminate|]. intros [= <-]. discriminate.
  - reflexivity.
  - vm_compute. split; [discriminate|reflexivity].
  - vm_compute. reflexivity.
  - intros mpage [= <-]. vm_compute. reflexivity.
  - vm_compute. reflexivity.
  - reflexivity.
Defined.

Lemma map_blocks_iter_error_frame_witness :
  Resolver.z_erofs_map_blocks_iter (demo_defs false) 12
    (demo_get_meta_page demo_corrupt) (demo_inode 16384) (demo_map 12293) None
  = Some (Resolver.mk_map_result (- EIO)
            {| m_pa := 0; m_la := 12293; m_plen := 0; m_llen := 0;
               m_flags := 65536 |}
            (Some (demo_block demo_corrupt))) /\
  m_la {| m_pa := 0; m_la := 12293; m_plen := 0; m_llen := 0;
          m_flags := 65536 |} = m_la (demo_map 12293) /\
  m_llen {| m_pa := 0; m_la := 12293; m_plen := 0; m_llen := 0;
            m_flags := 65536 |} = m_llen (demo_map 12293) /\
  0 = m_pa (demo_map 12293) /\ 0 = m_plen (demo_map 12293).
Proof.
  split; [vm_compute; reflexivity|].
  apply (map_blocks_iter_error_frame (demo_defs false) 12
           (demo_get_meta_page demo_corrupt) (demo_inode 16384)
           (demo_map 12293) None
           (Resolver.mk_map_result (- EIO)
              {| m_pa := 0; m_la := 12293; m_plen := 0; m_llen := 0;
                 m_flags := 65536 |}
              (Some (demo_block demo_corrupt)))).
  - vm_compute. reflexivity.
  - vm_compute. discriminate.
Defined.

Lemma map_blocks_iter_mapped_shape_witness :
  exists r,
    Resolver.z_erofs_map_blocks_iter (demo_defs false) 12
      (demo_get_meta_page demo_chain) (demo_inode 16384) (demo_map 5000) None
      = Some r /\
    m_pa (Resolver.mr_map r) = 28672 /\
    Z.land (m_flags (Resolver.mr_map r)) 32 = 32 /\
    m_plen (Resolver.mr_map r) = 4096 /\
    Z.land (m_pa (Resolver.mr_map r)) 4095 = 0.
Proof.
  eexists. split; [vm_compute; reflexivity|].
  split; [reflexivity|].
  apply (map_blocks_iter_mapped_shape (demo_defs false) 12
           (demo_get_meta_page demo_chain) (demo_inode 16384) (demo_map 5000)
           None).
  - intros mblk e. unfold demo_get_meta_page.
    destruct (mblk =? 2); [discriminate|]. intros [= <-]. discriminate.
  - vm_compute. discriminate.
  - reflexivity.
  - vm_compute. reflexivity.
  - vm_compute. reflexivity.
  - reflexivity.
Defined.

(** ** Reading past the end of the file *)

(** X5.  [z_erofs_do_read_page] on a page that lies wholly at or beyond the
    end of the file, with [z_erofs_map_blocks_iter] as the resolver and a
    mapping at hand that does not cover the page's last byte: the page is
    initialized, zero-filled from 0 to [PAGE_SIZE] and ended, in that
    order; the call returns 0; no work is begun and nothing is taken from
    the pool.  The mapping left behind is the unmapped extent from the file
    size to the start of the page.  (The page may lie up to 4 GiB beyond
    the end of the file: the source computes the zeroed range in 32
    bits.) *)
Theorem do_read_page_beyond_eof :
  forall (defs : erofs_defs) (PAGE_SHIFT : Z)
         (EROFS_FS_HAS_MANAGED_CACHE : bool) (EROFS_FS_ZIP_CACHE_LVL : Z)
         (clusterbits : Z) (erofs_get_meta_page : Z -> Z + meta_page)
         (B : Type)
         (builder_role : B -> z_erofs_vle_work_role)
         (builder_work : B -> bool)
         (z_erofs_vle_work_iter_end : B -> bool * B)
         (z_erofs_vle_work_iter_begin :
            B -> erofs_map_blocks -> z_erofs_vle_owned_workgrp_t ->
            Z * B * z_erofs_vle_owned_workgrp_t)
         (z_erofs_vle_scan_cachepages :
            B -> erofs_map_blocks -> bool -> list Z -> mm -> B * list Z * mm)
         (z_erofs_vle_work_add_page : B -> Z -> z_erofs_page_type -> Z * B)
         (work_max_nr_pages : B -> Z -> B)
         (__stagingpage_alloc : list Z -> mm -> Z * list Z * mm)
         (fuel : nat) (fe : Read.z_erofs_vle_frontend B) (page : Z)
         (page_pool : list Z) (m : mm) (pg : struct_page),
    let size := i_size (Read.fe_inode fe) in
    let offset := Z.shiftl (pg_index pg) PAGE_SHIFT in
    let map := Read.fe_map fe in
    pages m !! page = Some pg ->
    0 <= PAGE_SHIFT <= 30 ->
    0 <= size <= offset ->
    size < 2 ^ 63 ->
    offset + Read.PAGE_SIZE PAGE_SHIFT - size < 2 ^ 32 ->
    ~ (m_la map <= offset + Read.PAGE_SIZE PAGE_SHIFT - 1
         < u64 (m_la map + m_llen map)) ->
    Read.z_erofs_do_read_page defs PAGE_SHIFT EROFS_FS_HAS_MANAGED_CACHE
      EROFS_FS_ZIP_CACHE_LVL
      (Resolver.z_erofs_map_blocks_iter defs clusterbits erofs_get_meta_page)
      B builder_role builder_work z_erofs_vle_work_iter_end
      z_erofs_vle_work_iter_begin z_erofs_vle_scan_cachepages
      z_erofs_vle_work_add_page work_max_nr_pages __stagingpage_alloc
      (S fuel) fe page page_pool m
    = Ok (0,
          Read.mk_frontend (Read.fe_inode fe)
            (z_erofs_vle_work_iter_end (Read.fe_builder fe)).2
            {| m_pa := m_pa map; m_la := size; m_plen := m_plen map;
               m_llen := offset - size; m_flags := 0 |}
            (Read.fe_mpage fe) (Read.fe_owned_head fe)
            (if (z_erofs_vle_work_iter_end (Read.fe_builder fe)).1
             then false else Read.fe_initial fe)
            (Read.fe_cachedzone_la fe),
          page_pool,
          emit (emit (emit m (z_erofs_onlinepage_init page))
                  (zero_user_segment page 0 (Read.PAGE_SIZE PAGE_SHIFT)))
            (z_erofs_onlinepage_endio page)).
Proof.
  intros defs PAGE_SHIFT MC LVL clusterbits get B role work iter_end iter_begin
    scan add_page max_nr alloc fuel fe page pool m pg size offset map
    Hpg Hshift Hsize Hsize63 Hnear Hout.
  assert (Hps : Read.PAGE_SIZE PAGE_SHIFT = 2 ^ PAGE_SHIFT).
  { unfold Read.PAGE_SIZE. rewrite Z.shiftl_mul_pow2 by lia. lia. }
  assert (Hpsr : 0 < 2 ^ PAGE_SHIFT <= 2 ^ 30).
  { split; [apply Z.pow_pos_nonneg; lia|apply Z.pow_le_mono_r; lia]. }
  rewrite Hps in *.
  change (2 ^ 30) with 1073741824 in Hpsr.
  change (2 ^ 32) with 4294967296 in Hnear.
  change (2 ^ 63) with 9223372036854775808 in Hsize63.
  set (PS := 2 ^ PAGE_SHIFT) in *.
  assert (Hcur : u32 (PS - 1) = PS - 1).
  { apply (wrap_small 32). change (2 ^ 32) with 4294967296. lia. }
  assert (Hlast : u64 (offset + (PS - 1)) = offset + PS - 1).
  { unfold u64. rewrite wrap_small
      by (change (2 ^ 64) with 18446744073709551616; lia). lia. }
  assert (Hisz : u64 size = size).
  { apply (wrap_small 64). change (2 ^ 64) with 18446744073709551616. lia. }
  unfold Read.z_erofs_do_read_page, deref_page. rewrite Hpg.
  cbn [mbind outcome_bind]. fold offset.
  cbn [Read.do_read_page_loop]. rewrite Hps. fold PS offset map.
  rewrite Hcur, Hlast.
  assert (Htest : (m_la map <=? offset + PS - 1)
                  && (offset + PS - 1 <? u64 (m_la map + m_llen map)) = false).
  { destruct (Z.leb_spec (m_la map) (offset + PS - 1));
      destruct (Z.ltb_spec (offset + PS - 1) (u64 (m_la map + m_llen map)));
      try reflexivity. exfalso. apply Hout. lia. }
  rewrite Htest.
  destruct (iter_end (Read.fe_builder fe)) as [ended b] eqn:Hend.
  cbn [Read.fe_inode Read.fe_mpage Read.fe_map Read.fe_builder fst snd].
  assert (Hres :
    Resolver.z_erofs_map_blocks_iter defs clusterbits get (Read.fe_inode fe)
      {| m_pa := m_pa map; m_la := offset + PS - 1; m_plen := m_plen map;
         m_llen := 0; m_flags := m_flags map |} (Read.fe_mpage fe)
    = Some (Resolver.mk_map_result 0
              {| m_pa := m_pa map; m_la := size; m_plen := m_plen map;
                 m_llen := offset + PS - size; m_flags := 0 |}
              (Read.fe_mpage fe))).
  { unfold Resolver.z_erofs_map_blocks_iter.
    cbn [m_la m_llen m_pa m_plen m_flags]. fold size. rewrite Hisz.
    destruct (Z.leb_spec size (offset + PS - 1)); [|lia].
    do 3 f_equal. unfold u64. rewrite wrap_small
      by (change (2 ^ 64) with 18446744073709551616; lia). lia. }
  rewrite Hres.
  cbn [Resolver.mr_err Resolver.mr_map Resolver.mr_mpage Z.eqb negb
       mbind outcome_bind Read.with_map Read.fe_map Read.fe_inode
       Read.fe_builder Read.fe_mpage Read.fe_owned_head Read.fe_initial
       Read.fe_cachedzone_la].
  unfold Read.is_mapped at 1. cbn [Read.fe_map m_flags m_la].
  rewrite Z.land_0_l. cbn [Z.eqb negb mbind outcome_bind].
  unfold Read.is_mapped at 1. cbn [Read.fe_map m_flags m_la].
  rewrite Z.land_0_l. cbn [Z.eqb negb mbind outcome_bind].
  assert (Hpart : u32 (PS - Z.min (u32 (offset + PS - size)) PS) = 0).
  { unfold u32 at 2. rewrite wrap_small
      by (change (2 ^ 32) with 4294967296; lia).
    rewrite Z.min_r by lia. rewrite Z.sub_diag. reflexivity. }
  cbn [Read.with_map Read.with_m_llen Read.fe_map Read.fe_inode
       Read.fe_builder Read.fe_mpage Read.fe_owned_head Read.fe_initial
       Read.fe_cachedzone_la m_la m_llen m_pa m_plen m_flags].
  rewrite Hpart. cbn [Z.ltb Z.compare].
  cbn [Read.with_map Read.with_m_llen Read.fe_map Read.fe_inode
       Read.fe_builder Read.fe_mpage Read.fe_owned_head Read.fe_initial
       Read.fe_cachedzone_la m_la m_llen m_pa m_plen m_flags].
  rewrite Z.add_0_r.
  assert (Hlen : u64 (offset - size) = offset - size).
  { apply (wrap_small 64). change (2 ^ 64) with 18446744073709551616. lia. }
  rewrite Hlen. reflexivity.
Qed.

Lemma do_read_page_beyond_eof_witness :
  Read.z_erofs_do_read_page (demo_defs false) 12 false 0
    (Resolver.z_erofs_map_blocks_iter (demo_defs false) 12
       (demo_get_meta_page demo_chain))
    unit (fun _ => Z_EROFS_VLE_WORK_PRIMARY_FOLLOWED) (fun _ => false)
    (fun b => (false, b)) (fun b _ owned_head => (- ENOMEM, b, owned_head))
    (fun b _ _ pool m => (b, pool, m)) (fun b _ _ => (- ENOMEM, b))
    (fun b _ => b) (fun pool m => (0, pool, m))
    1
    (Read.mk_frontend (demo_inode 10000) tt (mk_map 0 0 0 0 0) None
       Z_EROFS_VLE_WORKGRP_TAIL true 0)
    700 [] demo_read_mm
  = Ok (0,
        Read.mk_frontend (demo_inode 10000) tt (mk_map 0 10000 0 2288 0) None
          Z_EROFS_VLE_WORKGRP_TAIL true 0,
        [],
        {| pages := {[ 700 := demo_file_page ]}; grps := ∅;
           log := [ z_erofs_onlinepage_init 700;
                    zero_user_segment 700 0 4096;
                    z_erofs_onlinepage_endio 700 ] |}).
Proof.
  apply (do_read_page_beyond_eof (demo_defs false) 12 false 0 12
           (demo_get_meta_page demo_chain) unit
           (fun _ => Z_EROFS_VLE_WORK_PRIMARY_FOLLOWED) (fun _ => false)
           (fun b => (false, b))
           (fun b _ owned_head => (- ENOMEM, b, owned_head))
           (fun b _ _ pool m => (b, pool, m)) (fun b _ _ => (- ENOMEM, b))
           (fun b _ => b) (fun pool m => (0, pool, m))
           0%nat
           (Read.mk_frontend (demo_inode 10000) tt (mk_map 0 0 0 0 0) None
              Z_EROFS_VLE_WORKGRP_TAIL true 0)
           700 [] demo_read_mm demo_file_page).
  - reflexivity.
  - lia.
  - vm_compute. split; discriminate.
  - reflexivity.
  - reflexivity.
  - vm_compute. intros [_ H]. discriminate H.
Defined.

(** ** Reclaim: what a successful reclaim leaves behind *)

Module ReclaimEffects.
Import Reclaim.

Lemma store_grp_same m g grp : grps m !! g = Some grp -> store_grp m g grp = m.
Proof.
  intros Hgrp. destruct m as [ps gs l]. unfold store_grp. cbn in *.
  f_equal. apply insert_id. exact Hgrp.
Qed.

(** The loop of [erofs_try_to_free_cached_page] stops at the first slot that
    holds the page. *)
Lemma free_cached_page_loop_found n : forall a slots page i,
  (a <= i < a + n)%nat ->
  slots !! i = Some page ->
  (forall j, (a <= j < i)%nat -> exists v, slots !! j = Some v /\ v <> page) ->
  free_cached_page_loop (seq a n) slots page = Ok (1, <[i := 0]> slots).
Proof.
  induction n as [|n IH]; intros a slots page i Hi Hslot Hbefore; [lia|].
  cbn [seq free_cached_page_loop].
  destruct (decide (a = i)) as [->|Hne].
  - rewrite Hslot, Z.eqb_refl. reflexivity.
  - destruct (Hbefore a) as (v & Hv & Hvne); [lia|]. rewrite Hv.
    destruct (Z.eqb_spec v page); [contradiction|].
    apply IH; [lia|exact Hslot|]. intros j Hj. apply Hbefore. lia.
Qed.

Lemma free_cached_page_loop_absent n : forall a slots page,
  (forall j, (a <= j < a + n)%nat -> exists v, slots !! j = Some v /\ v <> page) ->
  free_cached_page_loop (seq a n) slots page = Ok (0, slots).
Proof.
  induction n as [|n IH]; intros a slots page Hall; [reflexivity|].
  cbn [seq free_cached_page_loop].
  destruct (Hall a) as (v & Hv & Hvne); [lia|]. rewrite Hv.
  destruct (Z.eqb_spec v page); [contradiction|].
  apply IH. intros j Hj. apply Hall. lia.
Qed.

End ReclaimEffects.

(** X6.  [erofs_try_to_free_cached_page] on a cached page whose workgroup
    has the reference count 1.  If the page sits in one of the workgroup's
    slots, the first such slot is set to NULL, the page has its private
    flag cleared and one reference dropped, the workgroup's count is back
    at 1, and the call returns 1; nothing else changes (the page's private
    word still names the workgroup).  If the page sits in no slot, the call
    returns 0 and leaves the memory as it was. *)
Theorem free_cached_page_detaches :
  forall (clusterpages : nat) (EROFS_LOCKED_MAGIC : Z)
         (m : mm) (page : Z) (pg : struct_page) (grp : z_erofs_vle_workgroup),
    pages m !! page = Some pg ->
    grps m !! pg_private pg = Some grp ->
    grp_refcount grp = 1 ->
    (clusterpages <= length (grp_compressed_pages grp))%nat ->
    (forall i,
        (i < clusterpages)%nat ->
        grp_compressed_pages grp !! i = Some page ->
        (forall j, (j < i)%nat -> grp_compressed_pages grp !! j <> Some page) ->
        Reclaim.erofs_try_to_free_cached_page clusterpages EROFS_LOCKED_MAGIC
          m page
        = Ok (1, store_page
                   (store_grp m (pg_private pg)
                      (with_compressed_pages grp
                         (<[i := 0]> (grp_compressed_pages grp))))
                   page (release_cached_page pg))) /\
    ((forall i, (i < clusterpages)%nat ->
                grp_compressed_pages grp !! i <> Some page) ->
     Reclaim.erofs_try_to_free_cached_page clusterpages EROFS_LOCKED_MAGIC
       m page = Ok (0, m)).
Proof.
  intros clusterpages magic m page pg grp Hpg Hgrp Hcount Hlen.
  assert (Hslots : forall j, (j < clusterpages)%nat ->
            grp_compressed_pages grp !! j <> Some page ->
            exists v, grp_compressed_pages grp !! j = Some v /\ v <> page).
  { intros j Hj Hne.
    destruct (lookup_lt_is_Some_2 (grp_compressed_pages grp) j) as [v Hv]; [lia|].
    exists v. split; [exact Hv|]. intros ->. contradiction. }
  unfold Reclaim.erofs_try_to_free_cached_page.
  rewrite (ReclaimFacts.deref_page_Some _ _ _ Hpg). cbn [mbind outcome_bind].
  rewrite (ReclaimFacts.deref_grp_Some _ _ _ Hgrp). cbn [mbind outcome_bind].
  unfold Reclaim.erofs_workgroup_try_to_freeze. rewrite Hcount, Z.eqb_refl.
  cbn [with_refcount grp_compressed_pages].
  split.
  - intros i Hi Hslot Hfirst.
    rewrite (ReclaimEffects.free_cached_page_loop_found clusterpages 0 _ page i);
      [|lia|exact Hslot|intros j Hj; apply Hslots; [lia|apply Hfirst; lia]].
    cbn [mbind outcome_bind Z.eqb negb].
    unfold Reclaim.erofs_workgroup_unfreeze, with_compressed_pages, with_refcount.
    cbn. rewrite Hcount. reflexivity.
  - intros Habsent.
    rewrite (ReclaimEffects.free_cached_page_loop_absent clusterpages 0 _ page);
      [|intros j Hj; apply Hslots; [lia|apply Habsent; lia]].
    cbn [mbind outcome_bind Z.eqb negb].
    unfold Reclaim.erofs_workgroup_unfreeze, with_compressed_pages, with_refcount.
    cbn. f_equal. f_equal. apply ReclaimEffects.store_grp_same.
    rewrite Hgrp. f_equal. destruct grp. cbn in *. subst. reflexivity.
Qed.

Lemma free_cached_page_detaches_witness :
  Reclaim.erofs_try_to_free_cached_page 1 (-1) (demo_mm 1 false false) 500
  = Ok (1,
        {| pages := {[ 500 := mk_page MNGD_MAPPING 5 false true false false
                                1000 1 ]};
           grps := {[ 1000 := mk_workgroup 5 1 (mk_work false 0 0 [])
                                Z_EROFS_VLE_WORKGRP_TAIL_CLOSED [0] 4096
                                Z_EROFS_VLE_WORKGRP_FMT_LZ4 ]};
           log := [] |}).
Proof.
  rewrite (proj1 (free_cached_page_detaches 1 (-1) (demo_mm 1 false false) 500
                    (demo_cached_page false true) (demo_workgroup 1 false [] 0)
                    ltac:(reflexivity) ltac:(reflexivity) ltac:(reflexivity)
                    ltac:(cbn; lia)) 0%nat).
  - vm_compute. reflexivity.
  - lia.
  - reflexivity.
  - intros j Hj. lia.
Defined.

Module ReclaimAll.
Import Reclaim.

(** What the loop of [erofs_try_to_free_all_cached_pages] has done to a page
    it has detached. *)
Lemma detach_cached_page_flags pg :
  pg_mapping (detach_cached_page pg) = pg_mapping pg /\
  PG_locked (detach_cached_page pg) = false /\
  PG_private (detach_cached_page pg) = false /\
  pg_private (detach_cached_page pg) = 0 /\
  pg_refcount (detach_cached_page pg) < pg_refcount pg.
Proof. cbn. repeat split; lia. Qed.

(** The loop over slots [done] none of which holds a locked page: it gets
    to the slots that follow with every slot of [done] set to NULL and its
    page detached, and nothing else changed. *)
Lemma free_all_loop_done g done : forall m grp,
  grps m !! g = Some grp ->
  slots_valid done m grp ->
  NoDup done ->
  (forall i p pg, i ∈ done -> grp_compressed_pages grp !! i = Some p ->
     p <> 0 -> pages m !! p = Some pg -> PG_locked pg = false) ->
  exists m1 slots1,
    (forall rest, free_all_cached_pages_loop (done ++ rest) g m
                  = free_all_cached_pages_loop rest g m1) /\
    grps m1 = <[g := with_compressed_pages grp slots1]> (grps m) /\
    log m1 = log m /\
    (forall i, i ∈ done -> slots1 !! i = Some 0) /\
    (forall i, i ∉ done -> slots1 !! i = grp_compressed_pages grp !! i) /\
    (forall p, (forall i, i ∈ done -> grp_compressed_pages grp !! i <> Some p) ->
       pages m1 !! p = pages m !! p) /\
    (forall i p pg, i ∈ done -> grp_compressed_pages grp !! i = Some p ->
       p <> 0 -> pages m !! p = Some pg ->
       exists pg', pages m1 !! p = Some pg' /\
         pg_mapping pg' = pg_mapping pg /\ PG_locked pg' = false /\
         PG_private pg' = false /\ pg_private pg' = 0 /\
         pg_refcount pg' < pg_refcount pg).
Proof.
  induction done as [|i done IH]; intros m grp Hgrp Hvalid Hnodup Hfree.
  - exists m, (grp_compressed_pages grp).
    split; [reflexivity|]. split.
    { symmetry. replace (with_compressed_pages grp (grp_compressed_pages grp))
        with grp by (destruct grp; reflexivity).
      apply insert_id. exact Hgrp. }
    split; [reflexivity|]. split; [intros i Hi; apply elem_of_nil in Hi; contradiction|].
    split; [reflexivity|]. split; [reflexivity|].
    intros i p pg Hi. apply elem_of_nil in Hi. contradiction.
  - apply NoDup_cons in Hnodup as [Hi Hnodup].
    destruct (Hvalid i) as (p & Hslot & Hp); [apply elem_of_cons; auto|].
    assert (Hrest : slots_valid done m grp)
      by (intros j Hj; apply Hvalid, elem_of_cons; auto).
    assert (Hilt : (i < length (grp_compressed_pages grp))%nat)
      by (apply lookup_lt_is_Some; eauto).
    destruct (Z.eqb_spec p 0) as [->|Hnz].
    + (* an empty slot *)
      destruct (IH m grp Hgrp Hrest Hnodup) as
        (m1 & slots1 & Hrun & Hgrps & Hlog & Hdone & Hother & Hkeep & Hdet).
      { intros j q pgq Hj. apply Hfree, elem_of_cons; auto. }
      exists m1, slots1. split.
      { intros rest. cbn [app free_all_cached_pages_loop].
        rewrite (ReclaimFacts.deref_grp_Some _ _ _ Hgrp). cbn [mbind outcome_bind].
        rewrite Hslot. cbn [Z.eqb]. apply Hrun. }
      split; [exact Hgrps|]. split; [exact Hlog|]. split.
      { intros j Hj. apply elem_of_cons in Hj as [->|Hj]; [|auto].
        rewrite Hother by exact Hi. exact Hslot. }
      split.
      { intros j Hj. apply Hother. intros Hin. apply Hj, elem_of_cons. auto. }
      split.
      { intros q Hq. apply Hkeep. intros j Hj. apply Hq, elem_of_cons. auto. }
      intros j q pgq Hj Hq Hqnz Hpgq.
      apply elem_of_cons in Hj as [->|Hj]; [congruence|].
      eapply Hdet; eassumption.
    + destruct Hp as [|[pg Hpg]]; [contradiction|].
      assert (Hunlocked : PG_locked pg = false).
      { apply (Hfree i p pg); [apply elem_of_cons; auto|assumption..]. }
      set (grp1 := with_compressed_pages grp
                     (<[i := 0]> (grp_compressed_pages grp))).
      set (m0 := store_page (store_grp m g grp1) p (detach_cached_page pg)).
      assert (Hgrp1 : grps m0 !! g = Some grp1) by (cbn; apply lookup_insert_eq).
      assert (Hvalid1 : slots_valid done m0 grp1).
      { intros j Hj. destruct (Hrest j Hj) as (q & Hq & Hq').
        assert (Hij : i <> j) by (intros <-; contradiction).
        exists q. split; [cbn; rewrite list_lookup_insert_ne by exact Hij;
                          exact Hq|].
        destruct Hq' as [|Hsome]; [auto|right]. cbn.
        apply lookup_insert_is_Some. destruct (decide (p = q)); auto. }
      destruct (IH m0 grp1 Hgrp1 Hvalid1 Hnodup) as
        (m1 & slots1 & Hrun & Hgrps & Hlog & Hdone & Hother & Hkeep & Hdet).
      { intros j q pgq Hj Hq Hqnz Hpgq.
        assert (Hij : i <> j) by (intros <-; contradiction).
        cbn in Hq, Hpgq. rewrite list_lookup_insert_ne in Hq by exact Hij.
        destruct (decide (p = q)) as [<-|Hpq].
        - rewrite lookup_insert_eq in Hpgq. injection Hpgq as <-. reflexivity.
        - rewrite lookup_insert_ne in Hpgq by exact Hpq.
          apply (Hfree j q pgq); [apply elem_of_cons; auto|assumption..]. }
      exists m1, slots1. split.
      { intros rest. cbn [app free_all_cached_pages_loop].
        rewrite (ReclaimFacts.deref_grp_Some _ _ _ Hgrp). cbn [mbind outcome_bind].
        rewrite Hslot. destruct (Z.eqb_spec p 0); [contradiction|].
        rewrite (ReclaimFacts.deref_page_Some _ _ _ Hpg). cbn [mbind outcome_bind].
        rewrite Hunlocked. apply Hrun. }
      split.
      { rewrite Hgrps. cbn. rewrite insert_insert_eq. reflexivity. }
      split; [rewrite Hlog; reflexivity|]. split.
      { intros j Hj. apply elem_of_cons in Hj as [->|Hj]; [|auto].
        rewrite Hother by exact Hi. cbn.
        apply list_lookup_insert_eq. exact Hilt. }
      split.
      { intros j Hj.
        assert (Hij : i <> j) by (intros <-; apply Hj, elem_of_cons; auto).
        rewrite Hother by (intros Hin; apply Hj, elem_of_cons; auto).
        cbn. apply list_lookup_insert_ne. exact Hij. }
      split.
      { intros q Hq.
        assert (Hpq : p <> q).
        { intros <-. apply (Hq i); [apply elem_of_cons; auto|exact Hslot]. }
        rewrite Hkeep.
        - cbn. apply lookup_insert_ne. exact Hpq.
        - intros j Hj. cbn.
          assert (Hij : i <> j) by (intros <-; contradiction).
          rewrite list_lookup_insert_ne by exact Hij.
          apply Hq, elem_of_cons. auto. }
      intros j q pgq Hj Hq Hqnz Hpgq.
      destruct (decide (q = p)) as [->|Hqp].
      * (* the page just detached *)
        assert (pgq = pg) as -> by congruence.
        destruct (decide (Exists (fun k => grp_compressed_pages grp !! k = Some p)
                            done)) as [Hex|Hnex].
        -- apply Exists_exists in Hex as (k & Hk & Hkslot).
           assert (Hik : i <> k) by (intros <-; contradiction).
           destruct (Hdet k p (detach_cached_page pg) Hk) as
             (pg' & Hpg' & Hmap & Hl & Hpriv & Hval & Hcount).
           { cbn. rewrite list_lookup_insert_ne by exact Hik. exact Hkslot. }
           { exact Hnz. }
           { cbn. apply lookup_insert_eq. }
           exists pg'. split; [exact Hpg'|]. cbn in Hmap, Hcount.
           repeat (split; [assumption|]). lia.
        -- exists (detach_cached_page pg). split.
           { rewrite Hkeep; [cbn; apply lookup_insert_eq|].
             intros k Hk Hkslot. apply Hnex, Exists_exists. exists k.
             split; [exact Hk|].
             assert (Hik : i <> k) by (intros <-; contradiction).
             cbn in Hkslot. rewrite list_lookup_insert_ne in Hkslot by exact Hik.
             exact Hkslot. }
           apply detach_cached_page_flags.
      * apply elem_of_cons in Hj as [->|Hj]; [congruence|].
        assert (Hij : i <> j) by (intros <-; contradiction).
        apply (Hdet j q pgq Hj).
        -- cbn. rewrite list_lookup_insert_ne by exact Hij. exact Hq.
        -- exact Hqnz.
        -- cbn. rewrite lookup_insert_ne by (intros ->; contradiction).
           exact Hpgq.
Qed.

End ReclaimAll.

(** X7.  [erofs_try_to_free_all_cached_pages] on a workgroup whose work
    mutex is free and whose slots hold NULL or pages, where [stop] is the
    first slot that holds a locked page, or [clusterpages] if there is
    none.  The call returns 0 if there is none and -EBUSY otherwise, and in
    both cases it keeps what it has done: the slots before [stop] are NULL
    and the pages that sat in them detached (unlocked, private flag and
    word cleared, references dropped), the slots from [stop] on are as they
    were.  The mutex is released, the workgroup is otherwise unchanged, the
    pages that sat in none of the slots before [stop] are untouched, and no
    call is logged. *)
Theorem free_all_cached_pages_effect :
  forall (clusterpages : nat) (m : mm) (g : Z) (grp : z_erofs_vle_workgroup)
         (stop : nat),
    grps m !! g = Some grp ->
    work_lock (grp_work grp) = false ->
    Reclaim.slots_valid (seq 0 clusterpages) m grp ->
    (stop <= clusterpages)%nat ->
    (forall j q pgq, (j < stop)%nat -> grp_compressed_pages grp !! j = Some q ->
       q <> 0 -> pages m !! q = Some pgq -> PG_locked pgq = false) ->
    ((stop < clusterpages)%nat ->
     exists p pg, grp_compressed_pages grp !! stop = Some p /\ p <> 0 /\
                  pages m !! p = Some pg /\ PG_locked pg = true) ->
    exists m' slots',
      Reclaim.erofs_try_to_free_all_cached_pages clusterpages m g
        = Ok (if decide (stop = clusterpages) then 0 else - EBUSY, m') /\
      grps m' = <[g := with_compressed_pages grp slots']> (grps m) /\
      log m' = log m /\
      (forall j, (j < stop)%nat -> slots' !! j = Some 0) /\
      (forall j, (stop <= j)%nat ->
         slots' !! j = grp_compressed_pages grp !! j) /\
      (forall p, (forall j, (j < stop)%nat ->
                    grp_compressed_pages grp !! j <> Some p) ->
         pages m' !! p = pages m !! p) /\
      (forall j p pg, (j < stop)%nat ->
         grp_compressed_pages grp !! j = Some p -> p <> 0 ->
         pages m !! p = Some pg ->
         exists pg', pages m' !! p = Some pg' /\
           pg_mapping pg' = pg_mapping pg /\ PG_locked pg' = false /\
           PG_private pg' = false /\ pg_private pg' = 0 /\
           pg_refcount pg' < pg_refcount pg).
Proof.
  intros clusterpages m g grp stop Hgrp Hfree Hvalid Hstop Hunlocked Hlocked.
  set (grp0 := with_work grp (with_lock (grp_work grp) true)).
  set (m0 := store_grp m g grp0).
  assert (Hgrp0 : grps m0 !! g = Some grp0) by (cbn; apply lookup_insert_eq).
  assert (Hsplit : seq 0 clusterpages
                   = seq 0 stop ++ seq stop (clusterpages - stop)).
  { rewrite <- seq_app. f_equal. lia. }
  destruct (ReclaimAll.free_all_loop_done g (seq 0 stop) m0 grp0 Hgrp0)
    as (m1 & slots1 & Hrun & Hgrps & Hlog & Hdone & Hother & Hkeep & Hdet).
  { intros j Hj. apply elem_of_seq in Hj.
    apply (Hvalid j). apply elem_of_seq. lia. }
  { apply NoDup_seq. }
  { intros j q pgq Hj. apply elem_of_seq in Hj. apply Hunlocked. lia. }
  assert (Hback : forall slots,
    with_work (with_compressed_pages grp0 slots)
      (with_lock (grp_work (with_compressed_pages grp0 slots)) false)
    = with_compressed_pages grp slots).
  { intros slots. destruct grp as [? ? [? ? ? ?] ? ? ? ?]. cbn in *.
    subst. reflexivity. }
  assert (Hgrp1 : grps m1 !! g = Some (with_compressed_pages grp0 slots1)).
  { rewrite Hgrps. apply lookup_insert_eq. }
  assert (Hunlock : Reclaim.mutex_unlock m1 g
                    = Ok (store_grp m1 g (with_compressed_pages grp slots1))).
  { unfold Reclaim.mutex_unlock.
    rewrite (ReclaimFacts.deref_grp_Some _ _ _ Hgrp1). cbn [mbind outcome_bind].
    rewrite Hback. reflexivity. }
  exists (store_grp m1 g (with_compressed_pages grp slots1)), slots1.
  split.
  { unfold Reclaim.erofs_try_to_free_all_cached_pages.
    rewrite (ReclaimFacts.deref_grp_Some _ _ _ Hgrp). cbn [mbind outcome_bind].
    rewrite Hfree. fold grp0 m0. rewrite Hsplit, Hrun.
    destruct (decide (stop = clusterpages)) as [->|Hne].
    - rewrite Nat.sub_diag. cbn [seq Reclaim.free_all_cached_pages_loop].
      rewrite Hunlock. reflexivity.
    - destruct (Hlocked ltac:(lia)) as (p & pg & Hslot & Hnz & Hpg & Hpl).
      replace (clusterpages - stop)%nat with (S (clusterpages - stop - 1))
        by lia.
      cbn [seq Reclaim.free_all_cached_pages_loop].
      rewrite (ReclaimFacts.deref_grp_Some _ _ _ Hgrp1). cbn [mbind outcome_bind].
      cbn [with_compressed_pages grp_compressed_pages].
      rewrite Hother by (intros Hin; apply elem_of_seq in Hin; lia).
      cbn [grp0 with_work grp_compressed_pages]. rewrite Hslot.
      destruct (Z.eqb_spec p 0); [contradiction|].
      assert (Hpg1 : pages m1 !! p = Some pg).
      { rewrite Hkeep; [exact Hpg|].
        intros j Hj Hjslot. apply elem_of_seq in Hj. cbn in Hjslot.
        assert (PG_locked pg = false)
          by (apply (Hunlocked j p pg); [lia|assumption..]).
        congruence. }
      rewrite (ReclaimFacts.deref_page_Some _ _ _ Hpg1). cbn [mbind outcome_bind].
      rewrite Hpl, Hunlock. reflexivity. }
  split.
  { cbn. rewrite Hgrps. cbn. rewrite !insert_insert_eq. reflexivity. }
  split; [exact Hlog|].
  split.
  { intros j Hj. apply Hdone, elem_of_seq. lia. }
  split.
  { intros j Hj. rewrite Hother by (intros Hin; apply elem_of_seq in Hin; lia).
    reflexivity. }
  split.
  { intros p Hp. cbn. rewrite Hkeep; [reflexivity|].
    intros j Hj. apply elem_of_seq in Hj. apply Hp. lia. }
  intros j p pg Hj Hslot Hnz Hpg. cbn.
  apply (Hdet j p pg); [apply elem_of_seq; lia|assumption..].
Qed.

Lemma free_all_cached_pages_effect_witness :
  exists m' slots',
    Reclaim.erofs_try_to_free_all_cached_pages 1 (demo_mm 1 false false) 1000
      = Ok (0, m') /\
    grps m' = <[1000 := with_compressed_pages (demo_workgroup 1 false [] 0)
                          slots']> (grps (demo_mm 1 false false)) /\
    slots' !! 0%nat = Some 0.
Proof.
  destruct (free_all_cached_pages_effect 1 (demo_mm 1 false false) 1000
              (demo_workgroup 1 false [] 0) 1)
    as (m' & slots' & Hrun & Hgrps & _ & Hnull & _).
  - reflexivity.
  - reflexivity.
  - intros i Hi. apply elem_of_seq in Hi. exists 500.
    replace i with 0%nat by lia. split; [reflexivity|right].
    vm_compute. eauto.
  - lia.
  - intros j q pgq Hj Hq Hqnz Hpgq. replace j with 0%nat in Hq by lia.
    injection Hq as <-. vm_compute in Hpgq. injection Hpgq as <-. reflexivity.
  - lia.
  - exists m', slots'. split; [exact Hrun|]. split; [exact Hgrps|].
    apply Hnull. lia.
Defined.

(** ** Decompression: the destination array and the state left behind *)

Module UnzipPlaces.
Import Unzip.
Section WithSuperblock.

Variable clusterpages : nat.
Variable EROFS_FS_HAS_MANAGED_CACHE : bool.
Variable z_erofs_onlinepage_index : struct_page -> Z.
Variable z_erofs_onlinepage_index2 : struct_page -> Z.

Local Abbreviation managed := (is_cache_managed EROFS_FS_HAS_MANAGED_CACHE).

(** A page is placed in an empty entry inside the array; the other entries
    are left alone. *)
Lemma place_page_inv pages_ nr_pages pagenr page pages' :
  0 <= pagenr ->
  place_page pages_ nr_pages pagenr page = Ok pages' ->
  pagenr < nr_pages /\
  pages_ !! Z.to_nat pagenr = Some 0 /\
  pages' !! Z.to_nat pagenr = Some page /\
  length pages' = length pages_ /\
  (forall k, k <> Z.to_nat pagenr -> pages' !! k = pages_ !! k).
Proof.
  unfold place_page. intros Hnn Hplace.
  destruct (Z.leb_spec nr_pages pagenr); [discriminate|].
  destruct (pages_ !! Z.to_nat pagenr) as [v|] eqn:Hv; [|discriminate].
  destruct (Z.eqb_spec v 0) as [->|]; [|discriminate].
  cbn [negb] in Hplace. injection Hplace as <-.
  assert (Z.to_nat pagenr < length pages_)%nat
    by (apply lookup_lt_is_Some; eauto).
  split; [assumption|]. split; [reflexivity|].
  split; [apply list_lookup_insert_eq; assumption|].
  split; [apply length_insert|].
  intros k Hk. apply list_lookup_insert_ne. auto.
Qed.

Lemma place_page_keeps pages_ nr_pages pagenr page pages' k v :
  0 <= pagenr ->
  place_page pages_ nr_pages pagenr page = Ok pages' ->
  pages_ !! k = Some v -> v <> 0 -> pages' !! k = Some v.
Proof.
  intros Hnn Hplace Hk Hv.
  destruct (place_page_inv _ _ _ _ _ Hnn Hplace) as (_ & Hzero & _ & _ & Hother).
  rewrite Hother; [exact Hk|]. intros ->. congruence.
Qed.

(** The destination index of an entry of the page vector. *)
Lemma pagenr_nonneg (page_type : z_erofs_page_type) pg :
  0 <= (if decide (page_type = Z_EROFS_VLE_PAGE_TYPE_HEAD) then 0
        else u32 (z_erofs_onlinepage_index pg)).
Proof.
  destruct (decide _); [lia|]. apply (wrap_range 32). lia.
Qed.

(** The loop over the page vector: an entry that is there is kept, and
    every entry of the vector is placed at its index or gathered. *)
Lemma gather_pagevec_places pagevec :
  forall m nr_pages pages_ pool pages' pool',
  gather_pagevec z_erofs_onlinepage_index pagevec m nr_pages pages_ pool
    = Ok (pages', pool') ->
  length pages' = length pages_ /\
  (forall k v, pages_ !! k = Some v -> v <> 0 -> pages' !! k = Some v) /\
  (forall p, p ∈ pool -> p ∈ pool') /\
  (forall page page_type pg,
     (page, page_type) ∈ pagevec -> pages m !! page = Some pg -> page <> 0 ->
     if z_erofs_is_stagingpage pg then page ∈ pool'
     else
       let pagenr := if decide (page_type = Z_EROFS_VLE_PAGE_TYPE_HEAD) then 0
                     else u32 (z_erofs_onlinepage_index pg) in
       0 <= pagenr < nr_pages /\ pages' !! Z.to_nat pagenr = Some page).
Proof.
  induction pagevec as [|[page0 ty0] pagevec IH];
    intros m nr_pages pages_ pool pages' pool' Hrun;
    cbn [gather_pagevec] in Hrun.
  - injection Hrun as <- <-. split; [reflexivity|]. split; [auto|].
    split; [auto|]. intros page ty pg Hin. apply elem_of_nil in Hin.
    contradiction.
  - destruct (deref_page m page0) as [pg0| | | |] eqn:Hpg0; try discriminate.
    cbn [mbind outcome_bind] in Hrun. apply UnzipFacts.deref_page_inv in Hpg0.
    destruct (z_erofs_is_stagingpage pg0) eqn:Hst0.
    + destruct (IH _ _ _ _ _ _ Hrun) as (Hlen & Hkeep & Hpool & Hall).
      split; [exact Hlen|]. split; [exact Hkeep|].
      split; [intros p Hp; apply Hpool, elem_of_cons; auto|].
      intros page ty pg Hin Hpg Hnz.
      apply elem_of_cons in Hin as [[= -> ->]|Hin];
        [|exact (Hall _ _ _ Hin Hpg Hnz)].
      rewrite Hpg0 in Hpg. injection Hpg as <-. rewrite Hst0.
      apply Hpool, elem_of_cons. auto.
    + destruct (place_page pages_ nr_pages _ page0) as [pages1| | | |] eqn:Hplace;
        try discriminate.
      cbn [mbind outcome_bind] in Hrun.
      destruct (IH _ _ _ _ _ _ Hrun) as (Hlen & Hkeep & Hpool & Hall).
      pose proof (pagenr_nonneg ty0 pg0) as Hnn.
      destruct (place_page_inv _ _ _ _ _ Hnn Hplace)
        as (Hlt & Hzero & Hhere & Hlen1 & Hother).
      split; [congruence|]. split.
      { intros k v Hk Hv. apply Hkeep; [|exact Hv].
        eapply place_page_keeps; eassumption. }
      split; [exact Hpool|].
      intros page ty pg Hin Hpg Hnz.
      apply elem_of_cons in Hin as [[= -> ->]|Hin];
        [|exact (Hall _ _ _ Hin Hpg Hnz)].
      rewrite Hpg0 in Hpg. injection Hpg as <-. rewrite Hst0. cbn zeta.
      split; [lia|]. apply Hkeep; assumption.
Qed.

(** The first loop over the compressed slots: an entry that is there is
    kept, and every page reused in place is placed at its index. *)
Lemma gather_compressed_places todo :
  forall compressed_pages m nr_pages acc acc',
  gather_compressed EROFS_FS_HAS_MANAGED_CACHE z_erofs_onlinepage_index2
    todo compressed_pages m nr_pages acc = Ok acc' ->
  length (g_pages acc') = length (g_pages acc) /\
  (forall k v, g_pages acc !! k = Some v -> v <> 0 ->
     g_pages acc' !! k = Some v) /\
  (forall i page pg,
     i ∈ todo -> compressed_pages !! i = Some page ->
     pages m !! page = Some pg -> page <> 0 ->
     z_erofs_is_stagingpage pg = false -> managed pg = false ->
     0 <= u32 (z_erofs_onlinepage_index2 pg) < nr_pages /\
     g_pages acc' !! Z.to_nat (u32 (z_erofs_onlinepage_index2 pg)) = Some page /\
     g_overlapped acc' = true) /\
  (g_overlapped acc = true -> g_overlapped acc' = true).
Proof.
  induction todo as [|i todo IH];
    intros compressed_pages m nr_pages acc acc' Hrun;
    cbn [gather_compressed] in Hrun.
  - injection Hrun as <-. split; [reflexivity|]. split; [auto|].
    split; [|auto]. intros i page pg Hi. apply elem_of_nil in Hi. contradiction.
  - destruct (compressed_pages !! i) as [page0|] eqn:Hslot; [|discriminate].
    destruct (deref_page m page0) as [pg0| | | |] eqn:Hpg0; try discriminate.
    cbn [mbind outcome_bind] in Hrun. apply UnzipFacts.deref_page_inv in Hpg0.
    destruct (z_erofs_is_stagingpage pg0) eqn:Hst0.
    { destruct (IH _ _ _ _ _ Hrun) as (Hlen & Hkeep & Hall & Hov).
      split; [exact Hlen|]. split; [exact Hkeep|]. split; [|exact Hov].
      intros j page pg Hj Hp Hpg Hnz Hst Hmg.
      apply elem_of_cons in Hj as [->|Hj];
      [|exact (Hall _ _ _ Hj Hp Hpg Hnz Hst Hmg)].
      rewrite Hslot in Hp. injection Hp as <-. congruence. }
    destruct (managed pg0) eqn:Hmg0.
    { destruct (IH _ _ _ _ _ Hrun) as (Hlen & Hkeep & Hall & Hov).
      split; [exact Hlen|]. split; [exact Hkeep|]. split; [|exact Hov].
      intros j page pg Hj Hp Hpg Hnz Hst Hmg.
      apply elem_of_cons in Hj as [->|Hj];
      [|exact (Hall _ _ _ Hj Hp Hpg Hnz Hst Hmg)].
      rewrite Hslot in Hp. injection Hp as <-. congruence. }
    destruct (place_page (g_pages acc) nr_pages _ page0) as [pages1| | | |]
      eqn:Hplace; try discriminate.
    cbn [mbind outcome_bind] in Hrun.
    destruct (IH _ _ _ _ _ Hrun) as (Hlen & Hkeep & Hall & Hov).
    cbn [g_pages g_overlapped] in Hlen, Hkeep, Hov.
    assert (Hnn : 0 <= u32 (z_erofs_onlinepage_index2 pg0))
      by (apply (wrap_range 32); lia).
    destruct (place_page_inv _ _ _ _ _ Hnn Hplace)
      as (Hlt & Hzero & Hhere & Hlen1 & Hother).
    split; [congruence|]. split.
    { intros k v Hk Hv. apply Hkeep; [|exact Hv].
      eapply place_page_keeps; eassumption. }
    split; [|auto].
    intros j page pg Hj Hp Hpg Hnz Hst Hmg.
    apply elem_of_cons in Hj as [->|Hj];
      [|exact (Hall _ _ _ Hj Hp Hpg Hnz Hst Hmg)].
    rewrite Hslot in Hp. injection Hp as <-.
    rewrite Hpg0 in Hpg. injection Hpg as <-.
    split; [lia|]. split; [apply Hkeep; assumption|auto].
Qed.

End WithSuperblock.
End UnzipPlaces.

(** X8.  When the gathering phase of [z_erofs_vle_unzip] gets through (no
    BUG_ON fails), the destination array has [nr_pages] entries and holds
    every page at its own index: a page of the page vector that is not a
    staging page sits at index 0 if it was enqueued as a HEAD page and at
    its online-page index otherwise; a compressed page reused in place
    (neither a staging nor a cache-managed page) sits at its online-page
    index, and [overlapped] is set; staging pages of the vector are in the
    pool.  Hence no two of these pages share an index. *)
Theorem unzip_gather_places_pages :
  forall (clusterpages : nat) (EROFS_FS_HAS_MANAGED_CACHE : bool)
         (z_erofs_onlinepage_index z_erofs_onlinepage_index2 : struct_page -> Z)
         (m : mm) (g : Z) (page_pool : list Z) (grp : z_erofs_vle_workgroup)
         (m1 : mm) (acc : Unzip.gathered) (pool1 : list Z),
    grps m !! g = Some grp ->
    Unzip.unzip_gather clusterpages EROFS_FS_HAS_MANAGED_CACHE
      z_erofs_onlinepage_index z_erofs_onlinepage_index2 m g page_pool
      = Ok (m1, acc, pool1) ->
    let nr_pages := work_nr_pages (grp_work grp) in
    length (Unzip.g_pages acc) = Z.to_nat nr_pages /\
    (forall page page_type pg,
       (page, page_type) ∈ work_pagevec (grp_work grp) ->
       pages m !! page = Some pg -> page <> 0 ->
       if Unzip.z_erofs_is_stagingpage pg then page ∈ pool1
       else
         let pagenr :=
           if decide (page_type = Z_EROFS_VLE_PAGE_TYPE_HEAD) then 0
           else u32 (z_erofs_onlinepage_index pg) in
         0 <= pagenr < nr_pages /\
         Unzip.g_pages acc !! Z.to_nat pagenr = Some page) /\
    (forall i page pg,
       (i < clusterpages)%nat ->
       grp_compressed_pages grp !! i = Some page ->
       pages m !! page = Some pg -> page <> 0 ->
       Unzip.z_erofs_is_stagingpage pg = false ->
       Unzip.is_cache_managed EROFS_FS_HAS_MANAGED_CACHE pg = false ->
       0 <= u32 (z_erofs_onlinepage_index2 pg) < nr_pages /\
       Unzip.g_pages acc !! Z.to_nat (u32 (z_erofs_onlinepage_index2 pg))
         = Some page /\
       Unzip.g_overlapped acc = true).
Proof.
  intros clusterpages MC idx idx2 m g pool grp m1 acc pool1 Hgrp Hrun nr_pages.
  unfold Unzip.unzip_gather, deref_grp in Hrun. rewrite Hgrp in Hrun.
  cbn [mbind outcome_bind] in Hrun. fold nr_pages in Hrun.
  destruct (nr_pages =? 0); [discriminate|].
  destruct (work_lock (grp_work grp)); [discriminate|].
  set (m0 := store_grp m g (with_work grp (with_lock (grp_work grp) true))) in *.
  destruct (Unzip.gather_pagevec idx (work_pagevec (grp_work grp)) m0 nr_pages
              _ pool) as [[pages0 pool0]| | | |] eqn:Hvec; try discriminate.
  cbn [mbind outcome_bind] in Hrun.
  destruct (Unzip.gather_compressed MC idx2 (seq 0 clusterpages)
              (grp_compressed_pages grp) m0 nr_pages _)
    as [acc0| | | |] eqn:Hcomp; try discriminate.
  cbn [mbind outcome_bind] in Hrun. injection Hrun as <- <- <-.
  destruct (UnzipPlaces.gather_pagevec_places _ _ _ _ _ _ _ _ Hvec)
    as (Hlen0 & _ & _ & Hvecall).
  destruct (UnzipPlaces.gather_compressed_places _ _ _ _ _ _ _ _ Hcomp)
    as (Hlen1 & Hkeep & Hslots & _).
  cbn [Unzip.g_pages] in Hlen1, Hkeep.
  split; [rewrite Hlen1, Hlen0; apply length_replicate|]. split.
  - intros page ty pg Hin Hpg Hnz.
    specialize (Hvecall page ty pg Hin Hpg Hnz).
    destruct (Unzip.z_erofs_is_stagingpage pg); [exact Hvecall|].
    cbn zeta in *. destruct Hvecall as [Hrange Hat].
    split; [exact Hrange|]. apply Hkeep; assumption.
  - intros i page pg Hi Hslot Hpg Hnz Hst Hmg.
    apply (Hslots i page pg); try assumption. apply elem_of_seq. lia.
Qed.

Lemma unzip_gather_places_pages_witness :
  exists m1 acc pool1,
    Unzip.unzip_gather 1 true pg_private pg_private demo_unzip_ok_mm 1000 []
      = Ok (m1, acc, pool1) /\
    Unzip.g_pages acc = [700].
Proof.
  eexists _, _, _. split; [vm_compute; reflexivity|].
  destruct (unzip_gather_places_pages 1 true pg_private pg_private
              demo_unzip_ok_mm 1000 []
              (demo_workgroup 2 false [(700, Z_EROFS_PAGE_TYPE_EXCLUSIVE)] 1)
              (store_grp demo_unzip_ok_mm 1000
                 (demo_workgroup 2 true [(700, Z_EROFS_PAGE_TYPE_EXCLUSIVE)] 1))
              (Unzip.mk_gathered [700] 0 false 1) [])
    as (_ & Hvec & _).
  - vm_compute. reflexivity.
  - vm_compute. reflexivity.
  - reflexivity.
Defined.

Module UnzipInv.
Import Unzip.
Section WithSuperblock.

Variable clusterpages : nat.
Variable EROFS_FS_HAS_MANAGED_CACHE : bool.

Local Abbreviation managed := (is_cache_managed EROFS_FS_HAS_MANAGED_CACHE).

(** The loop that ends the destination pages touches no workgroup and keeps
    every page, with its mapping. *)
Lemma end_pages_inv pages_ : forall err m pool m' pool',
  end_pages pages_ err m pool = Ok (m', pool') ->
  grps m' = grps m /\ pages_evolve m m'.
Proof.
  induction pages_ as [|page pages_ IH]; intros err m pool m' pool' Hrun;
    cbn [end_pages] in Hrun.
  - injection Hrun as <- <-. split; [reflexivity|apply UnzipFacts.pages_evolve_refl].
  - destruct (page =? 0); [eauto|].
    destruct (deref_page m page) as [pg| | | |] eqn:Hpg; try discriminate.
    cbn [mbind outcome_bind] in Hrun. apply UnzipFacts.deref_page_inv in Hpg.
    destruct (z_erofs_is_stagingpage pg); [eauto|].
    apply IH in Hrun as [Hgrps Hev].
    destruct (err <? 0).
    + split; [rewrite Hgrps; reflexivity|].
      eapply UnzipFacts.pages_evolve_trans; [|exact Hev].
      intros q pgq Hq. cbn.
      destruct (decide (page = q)) as [<-|Hne].
      * rewrite lookup_insert_eq. rewrite Hpg in Hq. injection Hq as <-.
        eexists. split; [reflexivity|]. cbn. auto.
      * rewrite lookup_insert_ne by exact Hne. eauto.
    + split; [rewrite Hgrps; reflexivity|].
      eapply UnzipFacts.pages_evolve_trans; [|exact Hev].
      intros q pgq Hq. cbn. eauto.
Qed.

(** The loop that releases the compressed slots leaves in each slot it
    visits NULL or a cache-managed page. *)
Lemma release_compressed_inv todo : forall m slots pool slots' pool',
  NoDup todo ->
  release_compressed EROFS_FS_HAS_MANAGED_CACHE todo m slots pool
    = Ok (slots', pool') ->
  (forall i, i ∉ todo -> slots' !! i = slots !! i) /\
  (forall i, i ∈ todo ->
     exists v, slots' !! i = Some v /\
               (v = 0 \/ exists pg, pages m !! v = Some pg /\ managed pg = true)).
Proof.
  induction todo as [|i todo IH]; intros m slots pool slots' pool' Hnodup Hrun;
    cbn [release_compressed] in Hrun.
  - injection Hrun as <- <-. split; [auto|].
    intros i Hi. apply elem_of_nil in Hi. contradiction.
  - apply NoDup_cons in Hnodup as [Hi Hnodup].
    destruct (slots !! i) as [page|] eqn:Hslot; [|discriminate].
    destruct (deref_page m page) as [pg| | | |] eqn:Hpg; try discriminate.
    cbn [mbind outcome_bind] in Hrun. apply UnzipFacts.deref_page_inv in Hpg.
    assert (Hilt : (i < length slots)%nat) by (apply lookup_lt_is_Some; eauto).
    destruct (managed pg) eqn:Hmg.
    + destruct (IH _ _ _ _ _ Hnodup Hrun) as [Hother Hin].
      split.
      * intros j Hj. apply Hother. intros Hjin. apply Hj, elem_of_cons. auto.
      * intros j Hj. apply elem_of_cons in Hj as [->|Hj]; [|auto].
        exists page. rewrite Hother by exact Hi. split; [exact Hslot|].
        right. eauto.
    + destruct (IH _ _ _ _ _ Hnodup Hrun) as [Hother Hin].
      split.
      * intros j Hj.
        assert (Hij : i <> j) by (intros <-; apply Hj, elem_of_cons; auto).
        rewrite Hother by (intros Hjin; apply Hj, elem_of_cons; auto).
        apply list_lookup_insert_ne. exact Hij.
      * intros j Hj. apply elem_of_cons in Hj as [->|Hj]; [|auto].
        exists 0. rewrite Hother by exact Hi.
        split; [apply list_lookup_insert_eq; exact Hilt|auto].
Qed.

(** From label [out]: whatever [err] is, the workgroup is left idle. *)
Lemma unzip_out_inv m g pages_ err pool e m' pool' :
  unzip_out clusterpages EROFS_FS_HAS_MANAGED_CACHE m g pages_ err pool
    = Ok (e, m', pool') ->
  e = err /\
  exists grp grp',
    grps m !! g = Some grp /\
    grps m' !! g = Some grp' /\
    grp_next grp' = Z_EROFS_VLE_WORKGRP_NIL /\
    grp_work grp' = mk_work false (work_pageofs (grp_work grp)) 0 [] /\
    grp_refcount grp' = grp_refcount grp - 1 /\
    (forall i, (i < clusterpages)%nat ->
       exists v, grp_compressed_pages grp' !! i = Some v /\
         (v = 0 \/ exists pg, pages m' !! v = Some pg /\ managed pg = true)).
Proof.
  unfold unzip_out, deref_grp. intros Hrun.
  destruct (grps m !! g) as [grp|] eqn:Hgrp; [|discriminate].
  cbn [mbind outcome_bind] in Hrun.
  destruct (release_compressed _ _ _ _ _) as [[slots' pool1]| | | |] eqn:Hrel;
    try discriminate.
  cbn [mbind outcome_bind] in Hrun.
  destruct (end_pages _ _ _ _) as [[m1 pool2]| | | |] eqn:Hend;
    try discriminate.
  cbn [mbind outcome_bind] in Hrun. injection Hrun as <- <- <-.
  split; [reflexivity|].
  apply release_compressed_inv in Hrel as [_ Hslots]; [|apply NoDup_seq].
  apply end_pages_inv in Hend as [Hgrps Hev].
  eexists grp, _. split; [reflexivity|]. cbn.
  split; [apply lookup_insert_eq|]. cbn.
  split; [reflexivity|]. split; [reflexivity|]. split; [reflexivity|].
  intros i Hi. destruct (Hslots i) as (v & Hv & Hwhat); [apply elem_of_seq; lia|].
  exists v. split; [exact Hv|].
  destruct Hwhat as [->|(pg & Hpg & Hmg)]; [auto|right].
  destruct (Hev v pg Hpg) as (pg' & Hpg' & Hmap & _).
  exists pg'. split; [exact Hpg'|].
  unfold is_cache_managed in *. rewrite Hmap. exact Hmg.
Qed.

End WithSuperblock.
End UnzipInv.

(** X9.  Whatever a decompression pass returns, the value of a
    decompressor, -EIO for a failed input or -ENOMEM, it leaves the
    workgroup idle: [next] is NIL, the work's mutex is released, the work
    has no pages and an empty page vector, and every compressed slot holds
    NULL or a cache-managed page. *)
Theorem unzip_leaves_workgroup_idle :
  forall (clusterpages : nat) (EROFS_FS_HAS_MANAGED_CACHE : bool)
         (PAGE_SHIFT : Z)
         (z_erofs_onlinepage_index z_erofs_onlinepage_index2 : struct_page -> Z)
         (plain_copy : list Z -> list Z -> Z -> Z)
         (unzip_fast_percpu : list Z -> list Z -> Z -> Z -> Z)
         (unzip_vmap : list Z -> list Z -> Z -> Z -> bool -> Z)
         (erofs_vmap : list Z -> bool)
         (erofs_allocpage : list Z -> mm -> Z * list Z * mm)
         (m : mm) (g : Z) (page_pool : list Z)
         (err : Z) (m' : mm) (pool' : list Z),
    Unzip.z_erofs_vle_unzip clusterpages EROFS_FS_HAS_MANAGED_CACHE PAGE_SHIFT
      z_erofs_onlinepage_index z_erofs_onlinepage_index2
      plain_copy unzip_fast_percpu unzip_vmap erofs_vmap erofs_allocpage
      m g page_pool = Ok (err, m', pool') ->
    exists grp',
      grps m' !! g = Some grp' /\
      grp_next grp' = Z_EROFS_VLE_WORKGRP_NIL /\
      work_lock (grp_work grp') = false /\
      work_nr_pages (grp_work grp') = 0 /\
      work_pagevec (grp_work grp') = [] /\
      (forall i, (i < clusterpages)%nat ->
         exists v, grp_compressed_pages grp' !! i = Some v /\
           (v = 0 \/
            exists pg, pages m' !! v = Some pg /\
                       Unzip.is_cache_managed EROFS_FS_HAS_MANAGED_CACHE pg
                       = true)).
Proof.
  intros clusterpages MC PAGE_SHIFT idx idx2 plain fast vmapf vmap alloc
    m g pool err m' pool' Hrun.
  assert (Hout : exists m0 pages_ err0 pool0,
    Unzip.unzip_out clusterpages MC m0 g pages_ err0 pool0 = Ok (err, m', pool')).
  { unfold Unzip.z_erofs_vle_unzip in Hrun.
    destruct (Unzip.unzip_gather _ _ _ _ _ _ _) as [[[m1 acc] pool1]| | | |];
      try discriminate.
    cbn [mbind outcome_bind] in Hrun.
    destruct (negb _); [eauto|].
    destruct (deref_grp m1 g) as [grp1| | | |]; try discriminate.
    cbn [mbind outcome_bind] in Hrun.
    destruct (Unzip.unzip_decompress _ _ _ _ _ _ _ _ _ _)
      as [[[[err1 pages1] pool2] m2]| | | |]; try discriminate.
    cbn [mbind outcome_bind] in Hrun. eauto. }
  destruct Hout as (m0 & pages_ & err0 & pool0 & Hout).
  apply UnzipInv.unzip_out_inv in Hout
    as (_ & grp & grp' & _ & Hgrp' & Hnext & Hwork & _ & Hslots).
  exists grp'. split; [exact Hgrp'|]. split; [exact Hnext|].
  rewrite Hwork. cbn. auto.
Qed.

Lemma unzip_leaves_workgroup_idle_witness :
  exists err m' pool' grp',
    demo_unzip demo_unzip_ok_mm 1000 [] = Ok (err, m', pool') /\
    grps m' !! 1000 = Some grp' /\
    grp_next grp' = Z_EROFS_VLE_WORKGRP_NIL /\
    work_lock (grp_work grp') = false.
Proof.
  edestruct (unzip_leaves_workgroup_idle 1 true 12 pg_private pg_private
               (fun _ _ _ => 0) (fun _ _ _ _ => 0) (fun _ _ _ _ _ => 0)
               (fun _ => true) (fun pool m => (0, pool, m))
               demo_unzip_ok_mm 1000 [])
    as (grp' & Hgrp' & Hnext & Hlock & _).
  - vm_compute. reflexivity.
  - eexists _, _, _, grp'. split; [vm_compute; reflexivity|].
    split; [exact Hgrp'|]. split; [exact Hnext|exact Hlock].
Defined.

(** X10.  How a decompression pass whose inputs were all read picks its
    decompressor.  A workgroup in PLAIN format whose [llen] is exactly the
    span of its pages, [(nr_pages << PAGE_SHIFT) - pageofs], is copied: the
    pass returns what [z_erofs_vle_plain_copy] returns and calls no
    decompressor; with any other [llen] it runs into BUG_ON.  A workgroup in
    LZ4 format is handed to [z_erofs_vle_unzip_fast_percpu] with the
    smaller of that span and [llen]; unless this returns -ENOTSUPP the pass
    returns that value and neither maps the pages nor calls
    [z_erofs_vle_unzip_vmap].  In both cases the only calls that follow are
    the end-of-I/O calls on destination pages. *)
Theorem unzip_format_dispatch :
  forall (clusterpages : nat) (EROFS_FS_HAS_MANAGED_CACHE : bool)
         (PAGE_SHIFT : Z)
         (z_erofs_onlinepage_index z_erofs_onlinepage_index2 : struct_page -> Z)
         (plain_copy : list Z -> list Z -> Z -> Z)
         (unzip_fast_percpu : list Z -> list Z -> Z -> Z -> Z)
         (unzip_vmap : list Z -> list Z -> Z -> Z -> bool -> Z)
         (erofs_vmap : list Z -> bool)
         (erofs_allocpage : list Z -> mm -> Z * list Z * mm)
         (m : mm) (g : Z) (page_pool : list Z) (grp : z_erofs_vle_workgroup)
         (m1 : mm) (acc : Unzip.gathered) (pool1 : list Z),
    grps m !! g = Some grp ->
    Unzip.unzip_gather clusterpages EROFS_FS_HAS_MANAGED_CACHE
      z_erofs_onlinepage_index z_erofs_onlinepage_index2 m g page_pool
      = Ok (m1, acc, pool1) ->
    Unzip.g_err acc = 0 ->
    let work := grp_work grp in
    let span := u32 (Z.shiftl (work_nr_pages work) PAGE_SHIFT - work_pageofs work) in
    let run :=
      Unzip.z_erofs_vle_unzip clusterpages EROFS_FS_HAS_MANAGED_CACHE PAGE_SHIFT
        z_erofs_onlinepage_index z_erofs_onlinepage_index2
        plain_copy unzip_fast_percpu unzip_vmap erofs_vmap erofs_allocpage
        m g page_pool in
    let ended (call : event) (err : Z) :=
      exists m' pool' evs,
        run = Ok (err, m', pool') /\
        log m' = log m ++ call :: evs /\
        Forall (fun ev => exists p, ev = z_erofs_onlinepage_endio p
                                    /\ p ∈ Unzip.g_pages acc) evs in
    match grp_fmt grp with
    | Z_EROFS_VLE_WORKGRP_FMT_PLAIN =>
        if grp_llen grp =? span
        then ended z_erofs_vle_plain_copy
               (plain_copy (grp_compressed_pages grp) (Unzip.g_pages acc)
                  (work_pageofs work))
        else run = Bug
    | Z_EROFS_VLE_WORKGRP_FMT_LZ4 =>
        let err :=
          unzip_fast_percpu (grp_compressed_pages grp) (Unzip.g_pages acc)
            (if grp_llen grp <? span then grp_llen grp else span)
            (work_pageofs work) in
        err <> - ENOTSUPP -> ended z_erofs_vle_unzip_fast_percpu err
    end.
Proof.
  intros clusterpages MC PAGE_SHIFT idx idx2 plain fast vmapf vmap alloc
    m g pool grp m1 acc pool1 Hgrp Hgather Herr work span run ended.
  destruct (UnzipFacts.unzip_gather_inv _ _ _ _ _ _ _ _ _ _ Hgather)
    as (grp0 & Hgrp0 & Hnr & Hlock & -> & Hvalid & Hslots & _).
  rewrite Hgrp in Hgrp0. injection Hgrp0 as <-.
  set (grp1 := with_work grp (with_lock (grp_work grp) true)) in *.
  set (m1 := store_grp m g grp1) in *.
  assert (Hgrp1 : grps m1 !! g = Some grp1) by (cbn; apply lookup_insert_eq).
  assert (Hrun : forall call err,
    Unzip.unzip_decompress PAGE_SHIFT plain fast vmapf vmap alloc m1 grp1 acc pool1
      = Ok (err, Unzip.g_pages acc, pool1, emit m1 call) ->
    ended call err).
  { intros call err Hdec. subst ended run. cbn beta.
    unfold Unzip.z_erofs_vle_unzip. rewrite Hgather.
    cbn [mbind outcome_bind]. rewrite Herr. cbn [Z.eqb negb].
    rewrite (ReclaimFacts.deref_grp_Some _ _ _ Hgrp1). cbn [mbind outcome_bind].
    rewrite Hdec. cbn [mbind outcome_bind].
    destruct (UnzipFacts.unzip_out_spec clusterpages MC (emit m1 call) g grp1
                (Unzip.g_pages acc) err pool1)
      as (m' & pool' & evs & grp' & Hout & Hlog & Hevs & _);
      [exact Hgrp1|exact Hslots|exact Hvalid|].
    exists m', pool', evs. split; [exact Hout|]. split; [|exact Hevs].
    rewrite Hlog. cbn. rewrite <- app_assoc. reflexivity. }
  destruct (grp_fmt grp) eqn:Hfmt.
  - destruct (Z.eqb_spec (grp_llen grp) span) as [Hllen|Hllen].
    + apply Hrun. unfold Unzip.unzip_decompress.
      cbn [grp1 with_work with_lock grp_fmt grp_work grp_llen
           grp_compressed_pages work_nr_pages work_pageofs].
      rewrite Hfmt. fold work span. rewrite Hllen, Z.eqb_refl. reflexivity.
    + subst run. unfold Unzip.z_erofs_vle_unzip. rewrite Hgather.
      cbn [mbind outcome_bind]. rewrite Herr. cbn [Z.eqb negb].
      rewrite (ReclaimFacts.deref_grp_Some _ _ _ Hgrp1). cbn [mbind outcome_bind].
      unfold Unzip.unzip_decompress.
      cbn [grp1 with_work with_lock grp_fmt grp_work grp_llen
           grp_compressed_pages work_nr_pages work_pageofs].
      rewrite Hfmt. fold work span.
      destruct (Z.eqb_spec (grp_llen grp) span); [contradiction|]. reflexivity.
  - cbn zeta. intros Hsupp. apply Hrun. unfold Unzip.unzip_decompress.
    cbn [grp1 with_work with_lock grp_fmt grp_work grp_llen
         grp_compressed_pages work_nr_pages work_pageofs].
    rewrite Hfmt. fold work span.
    destruct (Z.eqb_spec
                (fast (grp_compressed_pages grp) (Unzip.g_pages acc)
                   (if grp_llen grp <? span then grp_llen grp else span)
                   (work_pageofs work)) (- ENOTSUPP)); [contradiction|].
    reflexivity.
Qed.

Lemma unzip_format_dispatch_witness :
  exists m' pool' evs,
    demo_unzip demo_unzip_ok_mm 1000 [] = Ok (0, m', pool') /\
    log m' = [] ++ z_erofs_vle_unzip_fast_percpu :: evs /\
    Forall (fun ev => exists p, ev = z_erofs_onlinepage_endio p /\ p ∈ [700])
      evs.
Proof.
  apply (unzip_format_dispatch 1 true 12 pg_private pg_private
           (fun _ _ _ => 0) (fun _ _ _ _ => 0) (fun _ _ _ _ _ => 0)
           (fun _ => true) (fun pool m => (0, pool, m))
           demo_unzip_ok_mm 1000 []
           (demo_workgroup 2 false [(700, Z_EROFS_PAGE_TYPE_EXCLUSIVE)] 1)
           (store_grp demo_unzip_ok_mm 1000
              (demo_workgroup 2 true [(700, Z_EROFS_PAGE_TYPE_EXCLUSIVE)] 1))
           (Unzip.mk_gathered [700] 0 false 1) []).
  - vm_compute. reflexivity.
  - vm_compute. reflexivity.
  - reflexivity.
  - vm_compute. discriminate.
Defined.

(** ** The work builder: compressed slots and the page vector *)

Module BuilderFacts.
Import Builder.

(** The loop of [try_to_reuse_as_compressed_page] takes the first NULL slot
    of its window. *)
Lemma try_to_reuse_loop_found deficit : forall cursor slots page k,
  (cursor + deficit <= length slots)%nat ->
  (k < deficit)%nat ->
  slots !! (cursor + k)%nat = Some 0 ->
  (forall k', (k' < k)%nat -> slots !! (cursor + k')%nat <> Some 0) ->
  try_to_reuse_loop deficit cursor slots page
  = Ok (true, (deficit - k - 1)%nat, (cursor + k + 1)%nat,
        <[(cursor + k)%nat := page]> slots).
Proof.
  induction deficit as [|deficit IH]; intros cursor slots page k Hlen Hk Hfree Hfirst;
    [lia|].
  cbn [try_to_reuse_loop].
  destruct (lookup_lt_is_Some_2 slots cursor) as [v Hv]; [lia|]. rewrite Hv.
  destruct k as [|k].
  - rewrite Nat.add_0_r in Hfree. rewrite Hv in Hfree. injection Hfree as ->.
    cbn [Z.eqb].
    replace (S deficit - 0 - 1)%nat with deficit by lia.
    replace (cursor + 0 + 1)%nat with (S cursor) by lia.
    rewrite Nat.add_0_r. reflexivity.
  - destruct (Z.eqb_spec v 0) as [->|Hnz].
    { exfalso. apply (Hfirst 0%nat); [lia|]. rewrite Nat.add_0_r. exact Hv. }
    replace (S deficit - S k - 1)%nat with (deficit - k - 1)%nat by lia.
    replace (cursor + S k)%nat with (S cursor + k)%nat in * by lia.
    apply IH; [lia|lia|exact Hfree|].
    intros k' Hk'. replace (S cursor + k')%nat with (cursor + S k')%nat by lia.
    apply Hfirst. lia.
Qed.

Lemma try_to_reuse_loop_full deficit : forall cursor slots page,
  (cursor + deficit <= length slots)%nat ->
  (forall k, (k < deficit)%nat -> slots !! (cursor + k)%nat <> Some 0) ->
  try_to_reuse_loop deficit cursor slots page
  = Ok (false, 0%nat, (cursor + deficit)%nat, slots).
Proof.
  induction deficit as [|deficit IH]; intros cursor slots page Hlen Hfull.
  - cbn. rewrite Nat.add_0_r. reflexivity.
  - cbn [try_to_reuse_loop].
    destruct (lookup_lt_is_Some_2 slots cursor) as [v Hv]; [lia|]. rewrite Hv.
    destruct (Z.eqb_spec v 0) as [->|Hnz].
    { exfalso. apply (Hfull 0%nat); [lia|]. rewrite Nat.add_0_r. exact Hv. }
    replace (cursor + S deficit)%nat with (S cursor + deficit)%nat by lia.
    apply IH; [lia|].
    intros k Hk. replace (S cursor + k)%nat with (cursor + S k)%nat by lia.
    apply Hfull. lia.
Qed.

Lemma with_compressed_pages_same grp :
  with_compressed_pages grp (grp_compressed_pages grp) = grp.
Proof. destruct grp. reflexivity. Qed.

Lemma with_work_same grp : with_work grp (grp_work grp) = grp.
Proof. destruct grp. reflexivity. Qed.

(** A window of slots has a first NULL slot or none. *)
Lemma first_null_slot (slots : list Z) (cursor : nat) : forall deficit,
  (exists k, (k < deficit)%nat /\ slots !! (cursor + k)%nat = Some 0 /\
             (forall k', (k' < k)%nat ->
                slots !! (cursor + k')%nat <> Some 0)) \/
  (forall k, (k < deficit)%nat -> slots !! (cursor + k)%nat <> Some 0).
Proof.
  induction deficit as [|deficit [(k & Hk & Hfree & Hfirst)|Hnone]].
  - right. intros k Hk. lia.
  - left. exists k. split; [lia|]. split; assumption.
  - destruct (decide (slots !! (cursor + deficit)%nat = Some 0)) as [Hfree|Hocc].
    + left. exists deficit. split; [lia|]. split; assumption.
    + right. intros k Hk. destruct (decide (k = deficit)) as [->|Hne];
        [exact Hocc|apply Hnone; lia].
Qed.

Section WithCollector.

Variable V : Type.

(** What [try_to_reuse_as_compressed_page] does to a builder whose window
    lies inside the array of slots. *)
Lemma try_to_reuse_cases (b : z_erofs_vle_work_builder V) page m grp cursor :
  grps m !! b_grp b = Some grp ->
  b_compressed_pages b = Some cursor ->
  (cursor + b_compressed_deficit b <= length (grp_compressed_pages grp))%nat ->
  (exists k, (k < b_compressed_deficit b)%nat /\
     grp_compressed_pages grp !! (cursor + k)%nat = Some 0 /\
     (forall k', (k' < k)%nat ->
        grp_compressed_pages grp !! (cursor + k')%nat <> Some 0) /\
     try_to_reuse_as_compressed_page V b page m
     = Ok (true,
           with_window V b (Some (cursor + k + 1)%nat)
             (b_compressed_deficit b - k - 1),
           store_grp m (b_grp b)
             (with_compressed_pages grp
                (<[(cursor + k)%nat := page]> (grp_compressed_pages grp))))) \/
  ((forall k, (k < b_compressed_deficit b)%nat ->
      grp_compressed_pages grp !! (cursor + k)%nat <> Some 0) /\
   try_to_reuse_as_compressed_page V b page m
   = Ok (false,
         with_window V b (Some (cursor + b_compressed_deficit b)%nat) 0,
         m)).
Proof.
  intros Hgrp Hptr Hlen.
  destruct (first_null_slot (grp_compressed_pages grp) cursor
              (b_compressed_deficit b)) as [(k & Hk & Hfree & Hfirst)|Hfull].
  - left. exists k. split; [exact Hk|]. split; [exact Hfree|].
    split; [exact Hfirst|].
    unfold try_to_reuse_as_compressed_page.
    destruct (b_compressed_deficit b) as [|d] eqn:Hd; [lia|].
    rewrite Hptr, (ReclaimFacts.deref_grp_Some _ _ _ Hgrp).
    cbn [mbind outcome_bind].
    rewrite (try_to_reuse_loop_found (S d) cursor _ page k) by assumption.
    reflexivity.
  - right. split; [exact Hfull|].
    unfold try_to_reuse_as_compressed_page.
    destruct (b_compressed_deficit b) as [|d] eqn:Hd.
    + f_equal. f_equal. f_equal. destruct b. cbn in *. subst.
      unfold with_window. cbn. rewrite Nat.add_0_r. reflexivity.
    + rewrite Hptr, (ReclaimFacts.deref_grp_Some _ _ _ Hgrp).
      cbn [mbind outcome_bind].
      rewrite (try_to_reuse_loop_full (S d) cursor _ page) by assumption.
      cbn [mbind outcome_bind].
      rewrite with_compressed_pages_same,
        (ReclaimEffects.store_grp_same _ _ _ Hgrp).
      reflexivity.
Qed.

End WithCollector.

End BuilderFacts.

(** X11.  [try_to_reuse_as_compressed_page] is first fit over the builder's
    window of slots, the [compressed_deficit] slots from the one the pointer
    stands at.  If the window has a NULL slot the page is stored in the
    first one, the call returns true, and the window now starts right after
    that slot; if it has none the call returns false with the deficit at 0
    and the memory unchanged.  In both cases the pointer plus the deficit
    is what it was (the pointer never leaves the array), no slot that held a
    page is overwritten, and at most one slot changes. *)
Theorem try_to_reuse_is_first_fit :
  forall (V : Type) (b : Builder.z_erofs_vle_work_builder V) (page : Z)
         (m : mm) (grp : z_erofs_vle_workgroup) (cursor : nat),
    grps m !! Builder.b_grp b = Some grp ->
    Builder.b_compressed_pages b = Some cursor ->
    (cursor + Builder.b_compressed_deficit b
       <= length (grp_compressed_pages grp))%nat ->
    (forall k,
        (k < Builder.b_compressed_deficit b)%nat ->
        grp_compressed_pages grp !! (cursor + k)%nat = Some 0 ->
        (forall k', (k' < k)%nat ->
           grp_compressed_pages grp !! (cursor + k')%nat <> Some 0) ->
        Builder.try_to_reuse_as_compressed_page V b page m
        = Ok (true,
              Builder.with_window V b (Some (cursor + k + 1)%nat)
                (Builder.b_compressed_deficit b - k - 1),
              store_grp m (Builder.b_grp b)
                (with_compressed_pages grp
                   (<[(cursor + k)%nat := page]> (grp_compressed_pages grp))))) /\
    ((forall k, (k < Builder.b_compressed_deficit b)%nat ->
                grp_compressed_pages grp !! (cursor + k)%nat <> Some 0) ->
     Builder.try_to_reuse_as_compressed_page V b page m
     = Ok (false,
           Builder.with_window V b
             (Some (cursor + Builder.b_compressed_deficit b)%nat) 0,
           m)).
Proof.
  intros V b page m grp cursor Hgrp Hptr Hlen. split.
  - intros k Hk Hfree Hfirst. unfold Builder.try_to_reuse_as_compressed_page.
    destruct (Builder.b_compressed_deficit b) as [|d] eqn:Hd; [lia|].
    rewrite Hptr, (ReclaimFacts.deref_grp_Some _ _ _ Hgrp).
    cbn [mbind outcome_bind].
    rewrite (BuilderFacts.try_to_reuse_loop_found (S d) cursor _ page k)
      by assumption.
    reflexivity.
  - intros Hfull. unfold Builder.try_to_reuse_as_compressed_page.
    destruct (Builder.b_compressed_deficit b) as [|d] eqn:Hd.
    + f_equal. f_equal. f_equal. destruct b. cbn in *. subst.
      unfold Builder.with_window. cbn. rewrite Nat.add_0_r. reflexivity.
    + rewrite Hptr, (ReclaimFacts.deref_grp_Some _ _ _ Hgrp).
      cbn [mbind outcome_bind].
      rewrite (BuilderFacts.try_to_reuse_loop_full (S d) cursor _ page)
        by assumption.
      cbn [mbind outcome_bind].
      rewrite BuilderFacts.with_compressed_pages_same,
        (ReclaimEffects.store_grp_same _ _ _ Hgrp).
      reflexivity.
Qed.

Lemma try_to_reuse_is_first_fit_witness :
  Builder.try_to_reuse_as_compressed_page demo_collector
    (demo_builder Z_EROFS_VLE_WORK_PRIMARY_FOLLOWED [] 0 4) 700 demo_builder_mm
  = Ok (true, demo_builder Z_EROFS_VLE_WORK_PRIMARY_FOLLOWED [] 2 2,
        store_grp demo_builder_mm 2000
          (with_compressed_pages demo_builder_workgroup [510; 700; 0; 0])) /\
  Builder.try_to_reuse_as_compressed_page demo_collector
    (demo_builder Z_EROFS_VLE_WORK_PRIMARY_FOLLOWED [] 0 1) 700 demo_builder_mm
  = Ok (false, demo_builder Z_EROFS_VLE_WORK_PRIMARY_FOLLOWED [] 1 0,
        demo_builder_mm).
Proof.
  split.
  - apply (proj1 (try_to_reuse_is_first_fit demo_collector
                    (demo_builder Z_EROFS_VLE_WORK_PRIMARY_FOLLOWED [] 0 4) 700
                    demo_builder_mm demo_builder_workgroup 0
                    eq_refl eq_refl ltac:(cbn; lia)) 1%nat).
    + cbn. lia.
    + reflexivity.
    + intros k' Hk'. assert (k' = 0%nat) as -> by lia. cbn. discriminate.
  - apply (proj2 (try_to_reuse_is_first_fit demo_collector
                    (demo_builder Z_EROFS_VLE_WORK_PRIMARY_FOLLOWED [] 0 1) 700
                    demo_builder_mm demo_builder_workgroup 0
                    eq_refl eq_refl ltac:(cbn; lia))).
    intros k Hk. cbn in Hk. assert (k = 0%nat) as -> by lia. cbn. discriminate.
Defined.

(** X12.  [z_erofs_vle_work_add_page] records the page in exactly one
    place.  On a builder whose work is the primary work of its workgroup
    and whose window lies inside the array of slots, the call returns 0 or
    [-EAGAIN].  With 0 the page either went into a slot of the window that
    was NULL (only for an EXCLUSIVE page and a role of at least PRIMARY; the
    page vector is then as before), or it was appended to the page vector
    with its type (the slots are then as before).  With [-EAGAIN] the
    workgroup is unchanged.  Nothing but that workgroup changes, and the end
    of the window stays where it was. *)
Theorem work_add_page_records_once :
  forall (V : Type) (enqueue : V -> Z -> z_erofs_page_type -> bool * V)
         (b : Builder.z_erofs_vle_work_builder V) (page : Z)
         (type : z_erofs_page_type) (m : mm) (grp : z_erofs_vle_workgroup)
         (cursor : nat),
    grps m !! Builder.b_grp b = Some grp ->
    Builder.b_work b = Builder.b_grp b ->
    Builder.b_compressed_pages b = Some cursor ->
    (cursor + Builder.b_compressed_deficit b
       <= length (grp_compressed_pages grp))%nat ->
    exists ret b' grp' cursor',
      Builder.z_erofs_vle_work_add_page V enqueue b page type m
      = Ok (ret, b', store_grp m (Builder.b_grp b) grp') /\
      Builder.b_compressed_pages b' = Some cursor' /\
      (cursor' + Builder.b_compressed_deficit b'
       = cursor + Builder.b_compressed_deficit b)%nat /\
      ((ret = 0 /\
        (1 <= role_rank (Builder.b_role b))%nat /\
        type = Z_EROFS_PAGE_TYPE_EXCLUSIVE /\
        exists n, (cursor <= n < cursor')%nat /\
          grp_compressed_pages grp !! n = Some 0 /\
          grp' = with_compressed_pages grp
                   (<[n := page]> (grp_compressed_pages grp))) \/
       (ret = 0 /\
        grp' = with_work grp
                 (mk_work (work_lock (grp_work grp))
                    (work_pageofs (grp_work grp))
                    (work_nr_pages (grp_work grp))
                    (work_pagevec (grp_work grp) ++ [(page, type)]))) \/
       (ret = - EAGAIN /\ grp' = grp)).
Proof.
  intros V enqueue b page type m grp cursor Hgrp Hwork Hptr Hlen.
  unfold Builder.z_erofs_vle_work_add_page.
  (* the call of the collector, on a memory that still has [grp] *)
  assert (Henq : forall (b1 : Builder.z_erofs_vle_work_builder V) cursor1,
    Builder.b_work b1 = Builder.b_grp b ->
    Builder.b_compressed_pages b1 = Some cursor1 ->
    (cursor1 + Builder.b_compressed_deficit b1
     = cursor + Builder.b_compressed_deficit b)%nat ->
    exists ret b' grp' cursor',
      (let '(ret, vector) := enqueue (Builder.b_vector b1) page type in
       grp0 ← deref_grp m (Builder.b_work b1);
       let work := grp_work grp0 in
       let work :=
         if ret
         then mk_work (work_lock work) (work_pageofs work) (work_nr_pages work)
                (work_pagevec work ++ [(page, type)])
         else work in
       Ok (if ret then 0 else - EAGAIN, Builder.with_vector V b1 vector,
           store_grp m (Builder.b_work b1) (with_work grp0 work)))
      = Ok (ret, b', store_grp m (Builder.b_grp b) grp') /\
      Builder.b_compressed_pages b' = Some cursor' /\
      (cursor' + Builder.b_compressed_deficit b'
       = cursor + Builder.b_compressed_deficit b)%nat /\
      ((ret = 0 /\
        grp' = with_work grp
                 (mk_work (work_lock (grp_work grp))
                    (work_pageofs (grp_work grp))
                    (work_nr_pages (grp_work grp))
                    (work_pagevec (grp_work grp) ++ [(page, type)]))) \/
       (ret = - EAGAIN /\ grp' = grp))).
  { intros b1 cursor1 Hw1 Hp1 Hend1.
    destruct (enqueue (Builder.b_vector b1) page type) as [[|] vector];
      rewrite Hw1, (ReclaimFacts.deref_grp_Some _ _ _ Hgrp);
      cbn [mbind outcome_bind].
    - eexists 0, _, _, cursor1. split; [reflexivity|].
      split; [exact Hp1|]. split; [exact Hend1|]. left. split; reflexivity.
    - eexists (- EAGAIN), _, grp, cursor1.
      rewrite BuilderFacts.with_work_same. split; [reflexivity|].
      split; [exact Hp1|]. split; [exact Hend1|]. right. split; reflexivity. }
  destruct ((1 <=? role_rank (Builder.b_role b))%nat
            && bool_decide (type = Z_EROFS_PAGE_TYPE_EXCLUSIVE)) eqn:Hprio.
  - apply andb_true_iff in Hprio as [Hrole Htype].
    apply Nat.leb_le in Hrole. apply bool_decide_eq_true in Htype.
    destruct (BuilderFacts.try_to_reuse_cases V b page m grp cursor
                Hgrp Hptr Hlen) as [(k & Hk & Hfree & _ & ->)|[_ ->]];
      cbn [mbind outcome_bind].
    + eexists 0, _, _, (cursor + k + 1)%nat. split; [reflexivity|].
      split; [reflexivity|]. split; [cbn; lia|].
      left. split; [reflexivity|]. split; [exact Hrole|]. split; [exact Htype|].
      exists (cursor + k)%nat. split; [lia|]. split; [exact Hfree|reflexivity].
    + destruct (Henq (Builder.with_window V b
                        (Some (cursor + Builder.b_compressed_deficit b)%nat) 0)
                  (cursor + Builder.b_compressed_deficit b)%nat)
        as (ret & b' & grp' & cursor' & Heq & Hp' & Hend' & Hcases);
        [exact Hwork|reflexivity|cbn; lia|].
      exists ret, b', grp', cursor'. split; [exact Heq|].
      split; [exact Hp'|]. split; [exact Hend'|]. right. exact Hcases.
  - cbn [mbind outcome_bind].
    destruct (Henq b cursor) as (ret & b' & grp' & cursor' & Heq & Hp' & Hend' & Hcases);
      [exact Hwork|exact Hptr|reflexivity|].
    exists ret, b', grp', cursor'. split; [exact Heq|].
    split; [exact Hp'|]. split; [exact Hend'|]. right. exact Hcases.
Qed.

Lemma work_add_page_records_once_witness :
  exists ret b' grp' cursor',
    Builder.z_erofs_vle_work_add_page demo_collector demo_enqueue
      (demo_builder Z_EROFS_VLE_WORK_PRIMARY_FOLLOWED [] 0 4) 700
      Z_EROFS_PAGE_TYPE_EXCLUSIVE demo_builder_mm
    = Ok (ret, b', store_grp demo_builder_mm 2000 grp') /\
    Builder.b_compressed_pages b' = Some cursor' /\
    (cursor' + Builder.b_compressed_deficit b' = 0 + 4)%nat /\
    ((ret = 0 /\
      (1 <= role_rank Z_EROFS_VLE_WORK_PRIMARY_FOLLOWED)%nat /\
      Z_EROFS_PAGE_TYPE_EXCLUSIVE = Z_EROFS_PAGE_TYPE_EXCLUSIVE /\
      exists n, (0 <= n < cursor')%nat /\
        grp_compressed_pages demo_builder_workgroup !! n = Some 0 /\
        grp' = with_compressed_pages demo_builder_workgroup
                 (<[n := 700]> (grp_compressed_pages demo_builder_workgroup))) \/
     (ret = 0 /\
      grp' = with_work demo_builder_workgroup
               (mk_work (work_lock (grp_work demo_builder_workgroup))
                  (work_pageofs (grp_work demo_builder_workgroup))
                  (work_nr_pages (grp_work demo_builder_workgroup))
                  (work_pagevec (grp_work demo_builder_workgroup)
                     ++ [(700, Z_EROFS_PAGE_TYPE_EXCLUSIVE)]))) \/
     (ret = - EAGAIN /\ grp' = demo_builder_workgroup)).
Proof.
  apply (work_add_page_records_once demo_collector demo_enqueue
           (demo_builder Z_EROFS_VLE_WORK_PRIMARY_FOLLOWED [] 0 4) 700
           Z_EROFS_PAGE_TYPE_EXCLUSIVE demo_builder_mm demo_builder_workgroup 0).
  - reflexivity.
  - reflexivity.
  - reflexivity.
  - cbn. lia.
Defined.

(** ** The work builder: preloading the slots from the managed cache *)

Module ScanFacts.
Import Builder.

Lemma pages_kept_refl m : pages_kept m m.
Proof. intros q Hq. exact Hq. Qed.

Lemma pages_kept_trans m1 m2 m3 :
  pages_kept m1 m2 -> pages_kept m2 m3 -> pages_kept m1 m3.
Proof. intros H12 H23 q Hq. apply H23, H12, Hq. Qed.

Lemma pages_kept_store_page m p pg : pages_kept m (store_page m p pg).
Proof.
  intros q Hq. cbn. destruct (decide (q = p)) as [->|Hne].
  - rewrite lookup_insert_eq. eauto.
  - rewrite lookup_insert_ne by congruence. exact Hq.
Qed.

Lemma pool_real_kept m m' pagepool :
  pages_kept m m' -> pool_real m pagepool -> pool_real m' pagepool.
Proof. intros Hk Hp p Hin Hnz. apply Hk, Hp; assumption. Qed.

Lemma with_compressed_pages_twice grp s1 s2 :
  with_compressed_pages (with_compressed_pages grp s1) s2
  = with_compressed_pages grp s2.
Proof. reflexivity. Qed.

Lemma removelast_elem (l : list Z) p : p ∈ removelast l -> p ∈ l.
Proof.
  intros Hin. destruct l as [|x l]; [exact Hin|].
  rewrite (app_removelast_last 0 (l := x :: l)) by discriminate.
  apply elem_of_app. left. exact Hin.
Qed.

Lemma last_elem (l : list Z) : l <> [] -> List.last l 0 ∈ l.
Proof.
  intros Hne. rewrite (app_removelast_last 0 Hne) at 2.
  apply elem_of_app. right. apply list_elem_of_singleton. reflexivity.
Qed.

(** The compare-and-swap leaves a pointer that is not NULL in the slot,
    and changes nothing else of the workgroup. *)
Lemma scan_install_spec raced page newpage v slot g pagepool m grp :
  grps m !! g = Some grp ->
  v <> 0 ->
  (page <> 0 -> is_Some (pages m !! page)) ->
  (newpage <> 0 -> is_Some (pages m !! newpage)) ->
  pool_real m pagepool ->
  exists pagepool' m' v',
    scan_install raced page newpage v slot g pagepool m = Ok (pagepool', m') /\
    v' <> 0 /\
    grps m' = <[g := with_compressed_pages grp
                        (<[slot := v']> (grp_compressed_pages grp))]> (grps m) /\
    pages_kept m m' /\ pool_real m' pagepool'.
Proof.
  intros Hgrp Hv Hpage Hnew Hpool. unfold scan_install.
  rewrite (ReclaimFacts.deref_grp_Some _ _ _ Hgrp). cbn [mbind outcome_bind].
  destruct (Z.eqb_spec raced 0) as [Hr|Hr].
  - eexists _, _, v. split; [reflexivity|]. split; [exact Hv|].
    split; [reflexivity|]. split; [intros q Hq; exact Hq|exact Hpool].
  - destruct (Z.eqb_spec page 0) as [Hp|Hp]; cbn [negb].
    + destruct (Z.eqb_spec newpage 0) as [Hn|Hn]; cbn [negb].
      * eexists _, _, raced. split; [reflexivity|]. split; [exact Hr|].
        split; [reflexivity|]. split; [intros q Hq; exact Hq|exact Hpool].
      * destruct (Hnew Hn) as [pg Hpg].
        unfold deref_page. cbn [pages store_grp]. rewrite Hpg.
        cbn [mbind outcome_bind].
        eexists _, _, raced. split; [reflexivity|]. split; [exact Hr|].
        split; [reflexivity|].
        assert (Hk : pages_kept m
                  (store_page
                     (store_grp m g
                        (with_compressed_pages grp
                           (<[slot:=raced]> (grp_compressed_pages grp))))
                     newpage (with_mapping pg MAPPING_NULL))).
        { intros q Hq. cbn. destruct (decide (q = newpage)) as [->|Hne].
          - rewrite lookup_insert_eq. eauto.
          - rewrite lookup_insert_ne by congruence. exact Hq. }
        split; [exact Hk|].
        intros p Hin Hnz. apply elem_of_cons in Hin as [->|Hin].
        -- cbn. rewrite lookup_insert_eq. eauto.
        -- apply Hk, Hpool; assumption.
    + destruct (Hpage Hp) as [pg Hpg].
      unfold deref_page. cbn [pages store_grp]. rewrite Hpg.
      cbn [mbind outcome_bind].
      eexists _, _, raced. split; [reflexivity|]. split; [exact Hr|].
      split; [reflexivity|].
      assert (Hk : pages_kept m
                (store_page
                   (store_grp m g
                      (with_compressed_pages grp
                         (<[slot:=raced]> (grp_compressed_pages grp))))
                   page (put_page pg))).
      { intros q Hq. cbn. destruct (decide (q = page)) as [->|Hne].
        - rewrite lookup_insert_eq. eauto.
        - rewrite lookup_insert_ne by congruence. exact Hq. }
      split; [exact Hk|]. exact (pool_real_kept _ _ _ Hk Hpool).
Qed.

Section WithCache.

Variable tagptr_fold : Z -> Z -> Z.
Variable find_get_page : Z -> mm -> Z * mm.
Variable alloc_pages : mm -> Z * mm.

(** Folding a tag into a pointer that is not NULL does not give NULL. *)
Hypothesis tagptr_fold_nonnull : forall p t, p <> 0 -> tagptr_fold p t <> 0.
(** The page cache and the allocator hand out pages, take none away and
    leave the workgroups alone. *)
Hypothesis find_get_page_ok : forall i m,
  grps (find_get_page i m).2 = grps m /\
  pages_kept m (find_get_page i m).2 /\
  ((find_get_page i m).1 <> 0 ->
   is_Some (pages (find_get_page i m).2 !! (find_get_page i m).1)).
Hypothesis alloc_pages_ok : forall m,
  grps (alloc_pages m).2 = grps m /\
  pages_kept m (alloc_pages m).2 /\
  ((alloc_pages m).1 <> 0 ->
   is_Some (pages (alloc_pages m).2 !! (alloc_pages m).1)).

Lemma scan_newpage_spec pagepool m :
  pool_real m pagepool ->
  exists newpage pagepool' m',
    scan_newpage alloc_pages pagepool m = (newpage, pagepool', m') /\
    grps m' = grps m /\ pages_kept m m' /\ pool_real m' pagepool' /\
    (newpage <> 0 -> is_Some (pages m' !! newpage)).
Proof.
  intros Hpool. unfold scan_newpage. destruct pagepool as [|x l].
  - destruct (alloc_pages_ok m) as (Hg & Hk & Hp).
    destruct (alloc_pages m) as [newpage m'] eqn:Ha. cbn [fst snd] in *.
    exists newpage, [], m'. split; [reflexivity|]. split; [exact Hg|].
    split; [exact Hk|]. split; [|exact Hp].
    intros p Hin. apply elem_of_nil in Hin. destruct Hin.
  - eexists _, _, m. split; [reflexivity|]. split; [reflexivity|].
    split; [apply pages_kept_refl|]. split.
    + intros p Hin Hnz. apply Hpool; [|exact Hnz].
      apply removelast_elem. exact Hin.
    + intros Hnz. apply Hpool; [|exact Hnz]. apply last_elem. discriminate.
Qed.

(** One pass: the slot's new value [v'] is the old one if that was not
    NULL; it is NULL only if the pass gave up. *)
Lemma scan_cachepages_pass_spec i base index reserve_allocation racing g
    standalone j pagepool m grp :
  grps m !! g = Some grp ->
  (base + i < length (grp_compressed_pages grp))%nat ->
  pool_real m pagepool ->
  exists standalone' j' pagepool' m' v',
    scan_cachepages_pass tagptr_fold find_get_page alloc_pages i base index
      reserve_allocation racing g standalone j pagepool m
    = Ok (standalone', j', pagepool', m') /\
    grps m' = <[g := with_compressed_pages grp
                        (<[(base + i)%nat := v']> (grp_compressed_pages grp))]>
                (grps m) /\
    (forall cur, grp_compressed_pages grp !! (base + i)%nat = Some cur ->
                 cur <> 0 -> v' = cur) /\
    pool_real m' pagepool' /\
    ((v' <> 0 /\ standalone' = standalone /\ j' = j) \/
     (v' = 0 /\ standalone' = false /\ j' = if standalone then i else j)).
Proof.
  intros Hgrp Hlen Hpool. unfold scan_cachepages_pass.
  rewrite (ReclaimFacts.deref_grp_Some _ _ _ Hgrp). cbn [mbind outcome_bind].
  destruct (lookup_lt_is_Some_2 _ _ Hlen) as [cur Hcur]. rewrite Hcur.
  assert (Hsame : forall m0, grps m0 = grps m ->
            grps m0 = <[g := with_compressed_pages grp
                               (<[(base + i)%nat := cur]>
                                  (grp_compressed_pages grp))]> (grps m)).
  { intros m0 ->. rewrite (list_insert_id _ _ _ Hcur),
      BuilderFacts.with_compressed_pages_same, insert_id by exact Hgrp.
    reflexivity. }
  destruct (Z.eqb_spec cur 0) as [Hz|Hnz]; cbn [negb].
  2:{ exists standalone, j, pagepool, m, cur. split; [reflexivity|].
      split; [apply Hsame; reflexivity|]. split; [intros c [= <-] _; reflexivity|].
      split; [exact Hpool|]. left. split; [exact Hnz|]. split; reflexivity. }
  subst cur.
  destruct (find_get_page_ok (u64 (index + Z.of_nat i)) m) as (Hfg & Hfk & Hfp).
  destruct (find_get_page (u64 (index + Z.of_nat i)) m) as [page m1] eqn:Hfind.
  cbn [fst snd] in *.
  assert (Hgrp1 : grps m1 !! g = Some grp) by (rewrite Hfg; exact Hgrp).
  assert (Hpool1 : pool_real m1 pagepool) by exact (pool_real_kept _ _ _ Hfk Hpool).
  destruct (Z.eqb_spec page 0) as [Hp|Hp]; cbn [negb].
  - (* nothing in the cache *)
    destruct reserve_allocation.
    + destruct (scan_newpage_spec pagepool m1 Hpool1)
        as (newpage & pagepool2 & m2 & -> & Hg2 & Hk2 & Hpool2 & Hreal2).
      destruct (Z.eqb_spec newpage 0) as [Hn|Hn].
      * eexists false, _, pagepool2, m2, 0. split; [reflexivity|].
        split; [apply Hsame; congruence|].
        split; [intros c [= <-] Hc; destruct Hc; reflexivity|].
        split; [exact Hpool2|]. right. split; [reflexivity|]. split; reflexivity.
      * destruct (Hreal2 Hn) as [pg Hpg].
        rewrite (ReclaimFacts.deref_page_Some _ _ _ Hpg).
        cbn [mbind outcome_bind].
        set (m3 := store_page m2 newpage
                     (with_mapping pg Z_EROFS_MAPPING_PREALLOCATED)).
        assert (Hk3 : pages_kept m2 m3) by apply pages_kept_store_page.
        destruct (scan_install_spec (racing i) 0 newpage
                    (tagptr_fold newpage 1) (base + i)%nat g pagepool2 m3 grp)
          as (pagepool4 & m4 & v' & -> & Hv' & Hg4 & Hk4 & Hpool4).
        { cbn. rewrite Hg2. exact Hgrp1. }
        { apply tagptr_fold_nonnull. exact Hn. }
        { intros Hc. destruct Hc. reflexivity. }
        { intros _. cbn. rewrite lookup_insert_eq. eauto. }
        { exact (pool_real_kept _ _ _ Hk3 Hpool2). }
        cbn [mbind outcome_bind].
        exists standalone, j, pagepool4, m4, v'. split; [reflexivity|].
        split; [rewrite Hg4; cbn; rewrite Hg2, Hfg; reflexivity|].
        split; [intros c [= <-] Hc; destruct Hc; reflexivity|].
        split; [exact Hpool4|]. left. split; [exact Hv'|]. split; reflexivity.
    + eexists false, _, pagepool, m1, 0. split; [reflexivity|].
      split; [apply Hsame; exact Hfg|].
      split; [intros c [= <-] Hc; destruct Hc; reflexivity|].
      split; [exact Hpool1|]. right. split; [reflexivity|]. split; reflexivity.
  - (* found in the cache *)
    destruct (scan_install_spec (racing i) page 0 (tagptr_fold page 1)
                (base + i)%nat g pagepool m1 grp)
      as (pagepool2 & m2 & v' & -> & Hv' & Hg2 & Hk2 & Hpool2).
    { exact Hgrp1. }
    { apply tagptr_fold_nonnull. exact Hp. }
    { intros _. apply Hfp. exact Hp. }
    { intros Hc. destruct Hc. reflexivity. }
    { exact Hpool1. }
    cbn [mbind outcome_bind].
    exists standalone, j, pagepool2, m2, v'. split; [reflexivity|].
    split; [rewrite Hg2, Hfg; reflexivity|].
    split; [intros c [= <-] Hc; destruct Hc; reflexivity|].
    split; [exact Hpool2|]. left. split; [exact Hv'|]. split; reflexivity.
Qed.

(** The loop over the offsets [a], ..., [a + len - 1] of the window. *)
Lemma scan_cachepages_loop_spec base index reserve_allocation racing g len :
  forall a standalone j pagepool m grp,
  grps m !! g = Some grp ->
  (base + a + len <= length (grp_compressed_pages grp))%nat ->
  pool_real m pagepool ->
  exists standalone' j' pagepool' m' slots',
    scan_cachepages_loop tagptr_fold find_get_page alloc_pages (seq a len)
      base index reserve_allocation racing g standalone j pagepool m
    = Ok (standalone', j', pagepool', m') /\
    grps m' = <[g := with_compressed_pages grp slots']> (grps m) /\
    length slots' = length (grp_compressed_pages grp) /\
    (forall n v, grp_compressed_pages grp !! n = Some v -> v <> 0 ->
                 slots' !! n = Some v) /\
    (forall n, ~ (base + a <= n < base + a + len)%nat ->
               slots' !! n = grp_compressed_pages grp !! n) /\
    pool_real m' pagepool' /\
    ((standalone' = standalone /\ j' = j /\
      (standalone = true ->
       forall n, (base + a <= n < base + a + len)%nat ->
                 slots' !! n <> Some 0)) \/
     (standalone' = false /\ standalone = true /\
      (a <= j' < a + len)%nat /\
      slots' !! (base + j')%nat = Some 0 /\
      forall n, (base + a <= n < base + j')%nat -> slots' !! n <> Some 0)).
Proof.
  induction len as [|len IH]; intros a standalone j pagepool m grp Hgrp Hlen Hpool.
  - cbn [seq scan_cachepages_loop].
    exists standalone, j, pagepool, m, (grp_compressed_pages grp).
    split; [reflexivity|].
    split; [rewrite BuilderFacts.with_compressed_pages_same, insert_id
              by exact Hgrp; reflexivity|].
    split; [reflexivity|]. split; [intros n v Hn _; exact Hn|].
    split; [reflexivity|]. split; [exact Hpool|].
    left. split; [reflexivity|]. split; [reflexivity|]. intros _ n Hn. lia.
  - cbn [seq scan_cachepages_loop].
    destruct (scan_cachepages_pass_spec a base index reserve_allocation racing
                g standalone j pagepool m grp Hgrp ltac:(lia) Hpool)
      as (s1 & j1 & pool1 & m1 & v' & -> & Hg1 & Hkeep1 & Hpool1 & Hcase).
    cbn [mbind outcome_bind].
    set (slots := grp_compressed_pages grp) in *.
    set (grp1 := with_compressed_pages grp (<[(base + a)%nat := v']> slots)) in *.
    assert (Hgrp1 : grps m1 !! g = Some grp1)
      by (rewrite Hg1, lookup_insert_eq; reflexivity).
    destruct (IH (S a) s1 j1 pool1 m1 grp1 Hgrp1)
      as (s' & j' & pool' & m' & slots' & -> & Hg' & Hlen' & Hkeep' & Hout' &
          Hpool' & Hcase'); [cbn; rewrite length_insert; fold slots; lia|
                             exact Hpool1|].
    cbn [grp_compressed_pages grp1 with_compressed_pages] in Hlen', Hkeep', Hout'.
    rewrite length_insert in Hlen'.
    assert (Hslot : slots' !! (base + a)%nat = Some v').
    { rewrite Hout' by lia. apply list_lookup_insert_eq. fold slots. lia. }
    exists s', j', pool', m', slots'. split; [reflexivity|].
    split; [rewrite Hg', Hg1, insert_insert_eq; reflexivity|].
    split; [exact Hlen'|].
    split.
    { intros n v Hn Hv. apply Hkeep'; [|exact Hv].
      destruct (decide (n = (base + a)%nat)) as [->|Hne].
      - rewrite (Hkeep1 v Hn Hv). apply list_lookup_insert_eq.
        apply lookup_lt_is_Some. eauto.
      - rewrite list_lookup_insert_ne by congruence. exact Hn. }
    split.
    { intros n Hn. rewrite Hout' by lia.
      apply list_lookup_insert_ne. lia. }
    split; [exact Hpool'|].
    destruct Hcase' as [(-> & -> & Hfull)|(-> & -> & Hj' & Hnull & Hbefore)].
    + destruct Hcase as [(Hv' & -> & ->)|(-> & -> & ->)].
      * left. split; [reflexivity|]. split; [reflexivity|].
        intros Hs n Hn. destruct (decide (n = (base + a)%nat)) as [->|Hne].
        -- rewrite Hslot. congruence.
        -- apply (Hfull Hs). lia.
      * destruct standalone.
        -- right. split; [reflexivity|]. split; [reflexivity|].
           split; [lia|]. split; [exact Hslot|]. intros n Hn. lia.
        -- left. split; [reflexivity|]. split; [reflexivity|]. discriminate.
    + destruct Hcase as [(Hv' & <- & ->)|(_ & [=] & _)].
      right. split; [reflexivity|]. split; [reflexivity|].
      split; [lia|]. split; [exact Hnull|].
      intros n Hn. destruct (decide (n = (base + a)%nat)) as [->|Hne].
      * rewrite Hslot. congruence.
      * apply Hbefore. lia.
Qed.

End WithCache.
End ScanFacts.

(** X13.  [z_erofs_vle_scan_cachepages] fills free slots only, and moves
    the window past filled slots only.  For a builder whose role is at
    least PRIMARY_TERMINAL and whose window lies inside the array of slots,
    with a page cache and an allocator that hand out pages, take none away
    and leave the workgroups alone, the call returns, and of all workgroups
    it changes the slots of the builder's one only.  A slot that held a page
    holds the same page afterwards, and no slot outside the window changes.
    The window keeps its end, and every slot it has moved past is filled.
    Either every slot of the window is filled, and then the role is PRIMARY
    and the window is where it was, or the role is as before and the window
    starts at a slot that is still NULL. *)
Theorem scan_cachepages_fills_free_slots :
  forall (V : Type) (tagptr_fold : Z -> Z -> Z)
         (find_get_page : Z -> mm -> Z * mm) (alloc_pages : mm -> Z * mm)
         (bl : Builder.z_erofs_vle_work_builder V) (index clusterpages : Z)
         (reserve_allocation : bool) (racing : nat -> Z) (pagepool : list Z)
         (m : mm) (grp : z_erofs_vle_workgroup) (base : nat),
    (2 <= role_rank (Builder.b_role bl))%nat ->
    grps m !! Builder.b_grp bl = Some grp ->
    Builder.b_compressed_pages bl = Some base ->
    (base + Builder.b_compressed_deficit bl
       <= length (grp_compressed_pages grp))%nat ->
    (forall p t, p <> 0 -> tagptr_fold p t <> 0) ->
    (forall i m,
        grps (find_get_page i m).2 = grps m /\
        Builder.pages_kept m (find_get_page i m).2 /\
        ((find_get_page i m).1 <> 0 ->
         is_Some (pages (find_get_page i m).2 !! (find_get_page i m).1))) ->
    (forall m,
        grps (alloc_pages m).2 = grps m /\
        Builder.pages_kept m (alloc_pages m).2 /\
        ((alloc_pages m).1 <> 0 ->
         is_Some (pages (alloc_pages m).2 !! (alloc_pages m).1))) ->
    Builder.pool_real m pagepool ->
    exists bl' pagepool' m' slots' base',
      Builder.z_erofs_vle_scan_cachepages V tagptr_fold find_get_page
        alloc_pages bl index clusterpages reserve_allocation racing pagepool m
      = Ok (bl', pagepool', m') /\
      grps m' = <[Builder.b_grp bl := with_compressed_pages grp slots']> (grps m) /\
      length slots' = length (grp_compressed_pages grp) /\
      (forall n v, grp_compressed_pages grp !! n = Some v -> v <> 0 ->
                   slots' !! n = Some v) /\
      (forall n, ~ (base <= n < base + Builder.b_compressed_deficit bl)%nat ->
                 slots' !! n = grp_compressed_pages grp !! n) /\
      Builder.b_compressed_pages bl' = Some base' /\
      (base <= base')%nat /\
      (base' + Builder.b_compressed_deficit bl'
       = base + Builder.b_compressed_deficit bl)%nat /\
      (forall n, (base <= n < base')%nat -> slots' !! n <> Some 0) /\
      ((Builder.b_role bl' = Z_EROFS_VLE_WORK_PRIMARY /\ base' = base /\
        forall n, (base <= n < base + Builder.b_compressed_deficit bl)%nat ->
                  slots' !! n <> Some 0) \/
       (Builder.b_role bl' = Builder.b_role bl /\
        (base' < base + Builder.b_compressed_deficit bl)%nat /\
        slots' !! base' = Some 0)).
Proof.
  intros V tagptr_fold find_get_page alloc_pages bl index clusterpages
    reserve_allocation racing pagepool m grp base Hrole Hgrp Hptr Hlen
    Hfold Hfind Halloc Hpool.
  unfold Builder.z_erofs_vle_scan_cachepages.
  destruct (Nat.ltb_spec (role_rank (Builder.b_role bl)) 2) as [Hlt|_]; [lia|].
  destruct (Builder.b_compressed_deficit bl) as [|d] eqn:Hd.
  - exists (Builder.with_role V bl Z_EROFS_VLE_WORK_PRIMARY), pagepool, m,
      (grp_compressed_pages grp), base.
    split; [reflexivity|].
    split; [rewrite BuilderFacts.with_compressed_pages_same, insert_id
              by exact Hgrp; reflexivity|].
    split; [reflexivity|]. split; [intros n v Hn _; exact Hn|].
    split; [reflexivity|]. split; [exact Hptr|]. split; [lia|].
    split; [cbn; rewrite Hd; reflexivity|]. split; [intros n Hn; lia|].
    left. split; [reflexivity|]. split; [reflexivity|]. intros n Hn. lia.
  - rewrite Hptr.
    destruct (ScanFacts.scan_cachepages_loop_spec tagptr_fold find_get_page
                alloc_pages Hfold Hfind Halloc base
                (u64 (index + u32 (clusterpages - Z.of_nat (S d))))
                reserve_allocation racing (Builder.b_grp bl) (S d)
                0%nat true 0%nat pagepool m grp Hgrp ltac:(lia) Hpool)
      as (s' & j' & pool' & m' & slots' & -> & Hg' & Hlen' & Hkeep' & Hout' &
          Hpool' & Hcase').
    cbn [mbind outcome_bind].
    rewrite Nat.add_0_r in Hout', Hcase'.
    destruct Hcase' as [(-> & -> & Hfull)|(-> & _ & Hj' & Hnull & Hbefore)].
    + eexists _, pool', m', slots', base. split; [reflexivity|].
      split; [exact Hg'|]. split; [exact Hlen'|]. split; [exact Hkeep'|].
      split; [exact Hout'|].
      split; [cbn; rewrite Nat.add_0_r; reflexivity|]. split; [lia|].
      split; [cbn; lia|]. split; [intros n Hn; lia|].
      left. split; [reflexivity|]. split; [reflexivity|]. exact (Hfull eq_refl).
    + eexists _, pool', m', slots', (base + j')%nat. split; [reflexivity|].
      split; [exact Hg'|]. split; [exact Hlen'|]. split; [exact Hkeep'|].
      split; [exact Hout'|]. split; [reflexivity|]. split; [lia|].
      split; [cbn; lia|]. split; [exact Hbefore|].
      right. split; [reflexivity|]. split; [lia|exact Hnull].
Qed.

Lemma scan_cachepages_fills_free_slots_witness :
  exists bl' pagepool' m' slots' base',
    Builder.z_erofs_vle_scan_cachepages demo_collector demo_tagptr_fold
      demo_find_get_page demo_alloc_pages
      (demo_builder Z_EROFS_VLE_WORK_PRIMARY_FOLLOWED [] 0 4) 8 4 false
      (fun _ => 0) [] demo_builder_mm
    = Ok (bl', pagepool', m') /\
    grps m' = <[2000 := with_compressed_pages demo_builder_workgroup slots']>
                (grps demo_builder_mm) /\
    length slots' = 4%nat /\
    (forall n v, [510; 0; 0; 0] !! n = Some v -> v <> 0 -> slots' !! n = Some v) /\
    (forall n, ~ (0 <= n < 0 + 4)%nat -> slots' !! n = [510; 0; 0; 0] !! n) /\
    Builder.b_compressed_pages bl' = Some base' /\
    (0 <= base')%nat /\
    (base' + Builder.b_compressed_deficit bl' = 0 + 4)%nat /\
    (forall n, (0 <= n < base')%nat -> slots' !! n <> Some 0) /\
    ((Builder.b_role bl' = Z_EROFS_VLE_WORK_PRIMARY /\ base' = 0%nat /\
      forall n, (0 <= n < 0 + 4)%nat -> slots' !! n <> Some 0) \/
     (Builder.b_role bl' = Z_EROFS_VLE_WORK_PRIMARY_FOLLOWED /\
      (base' < 0 + 4)%nat /\ slots' !! base' = Some 0)).
Proof.
  apply (scan_cachepages_fills_free_slots demo_collector demo_tagptr_fold
           demo_find_get_page demo_alloc_pages
           (demo_builder Z_EROFS_VLE_WORK_PRIMARY_FOLLOWED [] 0 4) 8 4 false
           (fun _ => 0) [] demo_builder_mm demo_builder_workgroup 0).
  - cbn. lia.
  - reflexivity.
  - reflexivity.
  - cbn. lia.
  - intros p t Hp Hz. unfold demo_tagptr_fold in Hz.
    apply Z.lor_eq_0_iff in Hz. tauto.
  - intros i m. unfold demo_find_get_page.
    destruct (pages m !! 520) as [pg|] eqn:Hpg;
      [destruct (i =? 9)|]; cbn [fst snd].
    + split; [reflexivity|]. split.
      * intros q Hq. cbn. destruct (decide (q = 520)) as [->|Hne].
        -- rewrite lookup_insert_eq. eauto.
        -- rewrite lookup_insert_ne by congruence. exact Hq.
      * intros _. cbn. rewrite lookup_insert_eq. eauto.
    + split; [reflexivity|]. split; [intros q Hq; exact Hq|].
      intros Hc. destruct Hc. reflexivity.
    + split; [reflexivity|]. split; [intros q Hq; exact Hq|].
      intros Hc. destruct Hc. reflexivity.
  - intros m. split; [reflexivity|]. split; [intros q Hq; exact Hq|].
    intros Hc. destruct Hc. reflexivity.
  - intros p Hin. apply elem_of_nil in Hin. destruct Hin.
Defined.

(** ** Completion of the reads *)

Module IoFacts.
Import Io.

Lemma s32_small x : - 2 ^ 31 <= x < 2 ^ 31 -> s32 x = x.
Proof.
  intros Hx. unfold s32, wrap. rewrite Z.mod_small; lia.
Qed.

Section WithConfig.

Variable CONFIG_PREEMPT_COUNT : bool.
Variable EROFS_FS_HAS_MANAGED_CACHE : bool.

Local Abbreviation kickoff := (z_erofs_vle_unzip_kickoff CONFIG_PREEMPT_COUNT).
Local Abbreviation run := (kickoffs CONFIG_PREEMPT_COUNT).

Lemma kickoffs_app background calls1 : forall calls2 pending,
  run background (calls1 ++ calls2) pending
  = (let '(pending1, kicks1) := run background calls1 pending in
     let '(pending2, kicks2) := run background calls2 pending1 in
     (pending2, kicks1 ++ kicks2)).
Proof.
  induction calls1 as [|[bios atomic] calls1 IH]; intros calls2 pending.
  - cbn. destruct (run background calls2 pending). reflexivity.
  - cbn [app kickoffs].
    destruct (kickoff background atomic pending bios) as [p1 k1].
    rewrite IH.
    destruct (run background calls1 p1) as [p2 k2].
    destruct (run background calls2 p2) as [p3 k3].
    rewrite app_assoc. reflexivity.
Qed.

(** A kickoff that leaves the counter off zero sets nothing going. *)
Lemma kickoff_pending background atomic pending bios :
  - 2 ^ 31 <= pending + bios < 2 ^ 31 ->
  pending + bios <> 0 ->
  kickoff background atomic pending bios = (pending + bios, []).
Proof.
  intros Hrange Hnz. unfold z_erofs_vle_unzip_kickoff, atomic_add_return.
  rewrite s32_small by exact Hrange.
  destruct (Z.eqb_spec (pending + bios) 0) as [Hz|_]; [contradiction|].
  destruct background; reflexivity.
Qed.

(** Completions that do not bring the counter to zero. *)
Lemma kickoffs_countdown background calls : forall (n : nat) pending,
  map fst calls = replicate n (-1) ->
  - 2 ^ 31 <= pending - Z.of_nat n ->
  pending < 2 ^ 31 ->
  pending <= 0 \/ Z.of_nat n < pending ->
  run background calls pending = (pending - Z.of_nat n, []).
Proof.
  induction calls as [|[bios atomic] calls IH]; intros n pending Hmap Hlo Hhi Hsign.
  - destruct n; [|discriminate]. cbn. f_equal. lia.
  - destruct n as [|n]; [discriminate|]. cbn in Hmap.
    injection Hmap as -> Hmap. cbn [kickoffs].
    rewrite kickoff_pending by lia.
    rewrite (IH n) by (try exact Hmap; lia).
    f_equal. lia.
Qed.

Lemma read_endio_page_mapping err c pg :
  pg_mapping (read_endio_page err c pg) = pg_mapping pg.
Proof.
  unfold read_endio_page. destruct (negb (err =? 0)), c; reflexivity.
Qed.

Lemma read_endio_page_twice err c pg :
  read_endio_page err c (read_endio_page err c pg) = read_endio_page err c pg.
Proof.
  unfold read_endio_page. destruct (negb (err =? 0)), c; reflexivity.
Qed.

Local Abbreviation managed := (Unzip.is_cache_managed EROFS_FS_HAS_MANAGED_CACHE).

(** Once a page that is no staging page has come by, [mngda] is the managed
    cache; whether it has or not, [cachemngd] tells the pages of the managed
    cache from the others. *)
Lemma read_endio_loop_spec err bvecs : forall mngda m,
  mngda = MAPPING_NULL \/ mngda = MNGD_MAPPING ->
  (forall p, p ∈ bvecs ->
     exists pg, pages m !! p = Some pg /\
                pg_mapping pg <> MAPPING_NULL /\
                pg_mapping pg <> Z_EROFS_MAPPING_PREALLOCATED) ->
  exists m',
    read_endio_loop EROFS_FS_HAS_MANAGED_CACHE bvecs err mngda m = Ok m' /\
    grps m' = grps m /\ log m' = log m /\
    forall p,
      pages m' !! p
      = if decide (p ∈ bvecs)
        then (fun pg => read_endio_page err (managed pg) pg) <$> pages m !! p
        else pages m !! p.
Proof.
  induction bvecs as [|page bvecs IH]; intros mngda m Hmngda Hpages.
  - exists m. split; [reflexivity|]. split; [reflexivity|].
    split; [reflexivity|]. intros p.
    destruct (decide (p ∈ [])) as [Hin|_]; [|reflexivity].
    apply elem_of_nil in Hin. destruct Hin.
  - cbn [read_endio_loop].
    destruct (Hpages page) as (pg & Hpg & Hnull & Hprealloc);
      [apply elem_of_cons; auto|].
    rewrite (ReclaimFacts.deref_page_Some _ _ _ Hpg). cbn [mbind outcome_bind].
    rewrite bool_decide_eq_false_2 by exact Hnull.
    set (mngda1 := if EROFS_FS_HAS_MANAGED_CACHE
                      && bool_decide (mngda = MAPPING_NULL)
                      && negb (Unzip.z_erofs_is_stagingpage pg)
                   then MNGD_MAPPING else mngda).
    assert (Hfetch :
      (if EROFS_FS_HAS_MANAGED_CACHE && bool_decide (mngda = MAPPING_NULL)
          && negb (Unzip.z_erofs_is_stagingpage pg)
       then match pg_mapping pg with
            | MNGD_MAPPING | FILE_MAPPING _ => Ok MNGD_MAPPING
            | _ => Fault
            end
       else Ok mngda) = Ok mngda1).
    { unfold mngda1, Unzip.z_erofs_is_stagingpage.
      destruct (EROFS_FS_HAS_MANAGED_CACHE && bool_decide (mngda = MAPPING_NULL));
        cbn [andb]; [|reflexivity].
      destruct (pg_mapping pg); try reflexivity; congruence. }
    rewrite Hfetch. cbn [mbind outcome_bind].
    assert (Hcm : EROFS_FS_HAS_MANAGED_CACHE && bool_decide (pg_mapping pg = mngda1)
                  = managed pg).
    { unfold mngda1, Unzip.is_cache_managed, Unzip.z_erofs_is_stagingpage.
      destruct EROFS_FS_HAS_MANAGED_CACHE; cbn [andb]; [|reflexivity].
      destruct Hmngda as [-> | ->].
      - rewrite (bool_decide_eq_true_2 (MAPPING_NULL = MAPPING_NULL))
          by reflexivity. cbn [andb].
        destruct (pg_mapping pg); cbn; try reflexivity; congruence.
      - rewrite (bool_decide_eq_false_2 (MNGD_MAPPING = MAPPING_NULL))
          by discriminate. reflexivity. }
    rewrite Hcm.
    set (pg1 := read_endio_page err (managed pg) pg).
    destruct (IH mngda1 (store_page m page pg1)) as (m' & -> & Hg & Hl & Hp).
    { unfold mngda1.
      destruct (EROFS_FS_HAS_MANAGED_CACHE && bool_decide (mngda = MAPPING_NULL)
                && negb (Unzip.z_erofs_is_stagingpage pg)); auto. }
    { intros p Hin. cbn. destruct (decide (p = page)) as [->|Hne].
      - rewrite lookup_insert_eq. exists pg1. split; [reflexivity|].
        unfold pg1. rewrite read_endio_page_mapping. auto.
      - rewrite lookup_insert_ne by congruence.
        apply Hpages, elem_of_cons. auto. }
    exists m'. split; [reflexivity|]. split; [exact Hg|]. split; [exact Hl|].
    intros p. rewrite Hp. cbn [pages store_page].
    destruct (decide (p = page)) as [->|Hne].
    + rewrite lookup_insert_eq, Hpg.
      rewrite (decide_True (P := page ∈ page :: bvecs)) by (apply elem_of_cons; auto).
      destruct (decide (page ∈ bvecs)) as [_|_]; [|reflexivity].
      cbn. f_equal. unfold pg1, Unzip.is_cache_managed.
      rewrite read_endio_page_mapping. apply read_endio_page_twice.
    + rewrite lookup_insert_ne by congruence.
      destruct (decide (p ∈ bvecs)) as [Hin|Hout].
      * rewrite decide_True by (apply elem_of_cons; auto). reflexivity.
      * rewrite decide_False; [reflexivity|].
        intros Hc. apply elem_of_cons in Hc as [?|?]; contradiction.
Qed.

End WithConfig.
End IoFacts.

(** X14.  Decompression is set going exactly once, by the last of the
    kickoffs.  An io descriptor starts with [pending_bios] at 0; each of its
    [nr] bios ends with a kickoff of -1, and the submitter makes one kickoff
    of [nr], after [k] of the bios have ended.  Then no call but the last
    brings the counter to zero: the calls before it set nothing going, and
    the last one makes the one wake-up (foreground), or queues or runs the
    one decompression work (background). *)
Theorem kickoff_fires_once_at_the_end :
  forall (CONFIG_PREEMPT_COUNT background : bool) (nr : Z) (k : nat)
         (calls : list (Z * bool)),
    0 <= nr < 2 ^ 31 ->
    Z.of_nat k <= nr ->
    map fst calls
    = replicate k (-1) ++ nr :: replicate (Z.to_nat nr - k) (-1) ->
    exists init last,
      calls = init ++ [last] /\
      (Io.kickoffs CONFIG_PREEMPT_COUNT background init 0).2 = [] /\
      Io.kickoffs CONFIG_PREEMPT_COUNT background calls 0
      = (0, [if negb background then Io.wake_up_locked
             else if CONFIG_PREEMPT_COUNT && negb last.2
                  then Io.call_unzip_wq else Io.queue_work]).
Proof.
  intros PC background nr k calls Hnr Hk Hmap.
  apply map_eq_app in Hmap as (c1 & c2 & -> & Hc1 & Hc2).
  destruct c2 as [|[bios atomic] c2]; [discriminate|].
  cbn [map fst] in Hc2. injection Hc2 as -> Hc2.
  pose proof (IoFacts.kickoffs_countdown PC background c1 k 0 Hc1
                ltac:(lia) ltac:(lia) ltac:(lia)) as Hrun1.
  assert (Hfire : forall atomic0 pending bios0, pending + bios0 = 0 ->
    Io.z_erofs_vle_unzip_kickoff PC background atomic0 pending bios0
    = (0, [if negb background then Io.wake_up_locked
           else if PC && negb atomic0 then Io.call_unzip_wq
                else Io.queue_work])).
  { intros atomic0 pending bios0 Hz.
    unfold Io.z_erofs_vle_unzip_kickoff, Io.atomic_add_return.
    rewrite Hz. cbn. destruct background, PC, atomic0; reflexivity. }
  destruct (Z.to_nat nr - k)%nat as [|n] eqn:Hrest.
  - (* the submitter's kickoff comes last *)
    destruct c2; [|discriminate].
    exists c1, (nr, atomic). split; [reflexivity|].
    split; [rewrite Hrun1; reflexivity|].
    rewrite IoFacts.kickoffs_app, Hrun1. cbn [Io.kickoffs].
    rewrite Hfire by lia. reflexivity.
  - (* a completion comes last *)
    change (replicate (S n) (-1)) with ((-1) :: replicate n (-1)) in Hc2.
    rewrite <- (reverse_involutive c2) in Hc2 |- *.
    destruct (reverse c2) as [|[bios' atomic'] rc2]; [discriminate|].
    rewrite reverse_cons in Hc2 |- *.
    rewrite map_app in Hc2. cbn [map fst] in Hc2.
    assert (Hsnoc : (-1) :: replicate n (-1) = replicate n (-1) ++ [-1]).
    { clear. induction n as [|n IH]; [reflexivity|].
      cbn [replicate app]. rewrite <- IH. reflexivity. }
    rewrite Hsnoc in Hc2. apply app_inj_tail in Hc2 as [Hc2 ->].
    assert (Hrun2 :
      Io.kickoffs PC background (c1 ++ (nr, atomic) :: reverse rc2) 0
      = (1, [])).
    { rewrite IoFacts.kickoffs_app, Hrun1. cbn [Io.kickoffs].
      rewrite IoFacts.kickoff_pending by lia.
      rewrite (IoFacts.kickoffs_countdown PC background (reverse rc2) n)
        by (try exact Hc2; lia).
      f_equal. lia. }
    exists (c1 ++ (nr, atomic) :: reverse rc2), (-1, atomic').
    split; [rewrite <- app_assoc; reflexivity|].
    split; [rewrite Hrun2; reflexivity|].
    replace (c1 ++ (nr, atomic) :: reverse rc2 ++ [(-1, atomic')])
      with ((c1 ++ (nr, atomic) :: reverse rc2) ++ [(-1, atomic')])
      by (rewrite <- app_assoc; reflexivity).
    rewrite IoFacts.kickoffs_app, Hrun2. cbn [Io.kickoffs].
    rewrite Hfire by lia. reflexivity.
Qed.

Lemma kickoff_fires_once_at_the_end_witness :
  exists init last,
    [(-1, true); (2, false); (-1, true)] = init ++ [last] /\
    (Io.kickoffs true true init 0).2 = [] /\
    Io.kickoffs true true [(-1, true); (2, false); (-1, true)] 0
    = (0, [if negb true then Io.wake_up_locked
           else if true && negb last.2 then Io.call_unzip_wq
                else Io.queue_work]).
Proof.
  apply (kickoff_fires_once_at_the_end true true 2 1
           [(-1, true); (2, false); (-1, true)]).
  - lia.
  - lia.
  - reflexivity.
Defined.

(** X15.  What the end of a read does to the pages of its bio, none of
    which has a NULL mapping or is still marked as preallocated.  The call
    returns, counts the bio off [pending_bios], and touches those pages
    only: a failed read sets the error flag of every page and marks none up
    to date; a successful read marks the pages of the managed cache up to
    date and sets no error flag.  The pages of the managed cache are
    unlocked, and every other page keeps its lock. *)
Theorem read_endio_marks_pages :
  forall (CONFIG_PREEMPT_COUNT EROFS_FS_HAS_MANAGED_CACHE : bool)
         (bvecs : list Z) (err : Z) (background atomic : bool) (pending : Z)
         (m : mm),
    (forall p, p ∈ bvecs ->
       exists pg, pages m !! p = Some pg /\
                  pg_mapping pg <> MAPPING_NULL /\
                  pg_mapping pg <> Z_EROFS_MAPPING_PREALLOCATED) ->
    exists m' kicks,
      Io.z_erofs_vle_read_endio CONFIG_PREEMPT_COUNT EROFS_FS_HAS_MANAGED_CACHE
        bvecs err background atomic pending m
      = Ok (m', Io.s32 (pending - 1), kicks) /\
      grps m' = grps m /\
      (forall p, p ∉ bvecs -> pages m' !! p = pages m !! p) /\
      (forall p pg, p ∈ bvecs -> pages m !! p = Some pg ->
         exists pg',
           pages m' !! p = Some pg' /\
           PG_error pg' = PG_error pg || negb (err =? 0) /\
           PG_uptodate pg'
           = PG_uptodate pg
             || (err =? 0) && Unzip.is_cache_managed EROFS_FS_HAS_MANAGED_CACHE pg /\
           PG_locked pg'
           = PG_locked pg
             && negb (Unzip.is_cache_managed EROFS_FS_HAS_MANAGED_CACHE pg) /\
           pg_mapping pg' = pg_mapping pg /\
           pg_index pg' = pg_index pg /\
           PG_private pg' = PG_private pg /\
           pg_private pg' = pg_private pg /\
           pg_refcount pg' = pg_refcount pg).
Proof.
  intros PC MC bvecs err background atomic pending m Hpages.
  destruct (IoFacts.read_endio_loop_spec MC err bvecs MAPPING_NULL m)
    as (m' & Hrun & Hg & _ & Hp); [auto|exact Hpages|].
  unfold Io.z_erofs_vle_read_endio. rewrite Hrun. cbn [mbind outcome_bind].
  destruct (Io.z_erofs_vle_unzip_kickoff PC background atomic pending (-1))
    as [pending' kicks] eqn:Hkick.
  assert (pending' = Io.s32 (pending - 1)) as ->.
  { unfold Io.z_erofs_vle_unzip_kickoff, Io.atomic_add_return in Hkick.
    destruct (negb background); injection Hkick as <- _; reflexivity. }
  exists m', kicks. split; [reflexivity|]. split; [exact Hg|]. split.
  - intros p Hout. rewrite Hp, decide_False by exact Hout. reflexivity.
  - intros p pg Hin Hpg. rewrite Hp, decide_True, Hpg by exact Hin.
    eexists. split; [reflexivity|].
    unfold Io.read_endio_page.
    destruct (err =? 0), (Unzip.is_cache_managed MC pg), pg as [? ? [] [] [] ? ? ?];
      cbn; repeat split; reflexivity.
Qed.

Lemma read_endio_marks_pages_witness :
  exists m' kicks,
    Io.z_erofs_vle_read_endio true true demo_bio 0 false true 1 demo_bio_mm
    = Ok (m', Io.s32 (1 - 1), kicks) /\
    grps m' = grps demo_bio_mm /\
    (forall p, p ∉ demo_bio -> pages m' !! p = pages demo_bio_mm !! p) /\
    (forall p pg, p ∈ demo_bio -> pages demo_bio_mm !! p = Some pg ->
       exists pg',
         pages m' !! p = Some pg' /\
         PG_error pg' = PG_error pg || negb (0 =? 0) /\
         PG_uptodate pg'
         = PG_uptodate pg || (0 =? 0) && Unzip.is_cache_managed true pg /\
         PG_locked pg' = PG_locked pg && negb (Unzip.is_cache_managed true pg) /\
         pg_mapping pg' = pg_mapping pg /\
         pg_index pg' = pg_index pg /\
         PG_private pg' = PG_private pg /\
         pg_private pg' = pg_private pg /\
         pg_refcount pg' = pg_refcount pg).
Proof.
  apply (read_endio_marks_pages true true demo_bio 0 false true 1 demo_bio_mm).
  intros p Hin. unfold demo_bio in Hin.
  repeat (apply elem_of_cons in Hin as [->|Hin]);
    [| | |apply elem_of_nil in Hin; destruct Hin];
    eexists; (split; [vm_compute; reflexivity|]); split; discriminate.
Defined.

(** ** Migration of a cached compressed page *)

Module MigrateFacts.
Import Migrate.

(** The slots below [n] have a first one that holds [v], or none. *)
Lemma first_slot_holding (slots : list Z) (v : Z) : forall n,
  (exists i, (i < n)%nat /\ slots !! i = Some v /\
             (forall j, (j < i)%nat -> slots !! j <> Some v)) \/
  (forall i, (i < n)%nat -> slots !! i <> Some v).
Proof.
  induction n as [|n [(i & Hi & Hslot & Hfirst)|Hnone]].
  - right. intros i Hi. lia.
  - left. exists i. split; [lia|]. split; assumption.
  - destruct (decide (slots !! n = Some v)) as [Hslot|Hne].
    + left. exists n. split; [lia|]. split; [exact Hslot|].
      intros j Hj. apply Hnone. exact Hj.
    + right. intros i Hi. destruct (decide (i = n)) as [->|Hin];
        [exact Hne|apply Hnone; lia].
Qed.

Lemma migrate_loop_found n : forall a slots page newpage locking i,
  (a <= i < a + n)%nat ->
  slots !! i = Some page ->
  (forall j, (a <= j < i)%nat -> exists v, slots !! j = Some v /\ v <> page) ->
  exists locking',
    migrate_loop (seq a n) slots page newpage locking
    = Ok (true, locking', <[i := newpage]> slots).
Proof.
  induction n as [|n IH]; intros a slots page newpage locking i Hi Hslot Hbefore;
    [lia|].
  cbn [seq migrate_loop].
  destruct (decide (a = i)) as [->|Hne].
  - rewrite Hslot, Z.eqb_refl. eauto.
  - destruct (Hbefore a) as (v & Hv & Hvne); [lia|]. rewrite Hv.
    destruct (Z.eqb_spec v page); [contradiction|].
    apply IH; [lia|exact Hslot|]. intros j Hj. apply Hbefore. lia.
Qed.

Lemma migrate_loop_absent n : forall a slots page newpage locking,
  (forall j, (a <= j < a + n)%nat -> exists v, slots !! j = Some v /\ v <> page) ->
  exists locking',
    migrate_loop (seq a n) slots page newpage locking = Ok (false, locking', slots).
Proof.
  induction n as [|n IH]; intros a slots page newpage locking Hall; [cbn; eauto|].
  cbn [seq migrate_loop].
  destruct (Hall a) as (v & Hv & Hvne); [lia|]. rewrite Hv.
  destruct (Z.eqb_spec v page); [contradiction|].
  apply IH. intros j Hj. apply Hall. lia.
Qed.

(** Taking the mutex of a work and releasing it again. *)
Lemma lock_unlock_same grp :
  work_lock (grp_work grp) = false ->
  with_work grp (with_lock (grp_work grp) false) = grp.
Proof.
  destruct grp as [? ? [lock ? ? ?] ? ? ? ?]. cbn. intros ->. reflexivity.
Qed.

Lemma mutex_unlock_Some m g grp :
  grps m !! g = Some grp ->
  Reclaim.mutex_unlock m g
  = Ok (store_grp m g (with_work grp (with_lock (grp_work grp) false))).
Proof.
  intros Hgrp. unfold Reclaim.mutex_unlock.
  rewrite (ReclaimFacts.deref_grp_Some _ _ _ Hgrp). reflexivity.
Qed.

End MigrateFacts.

(** X16.  When [erofs_migrate_cached_page] backs off from a page that is
    attached to a workgroup.  If the mutex of the workgroup's work is held,
    an asynchronous migration returns [-EAGAIN] at once, and any other mode
    waits for the mutex.  If the mutex is free but the workgroup's reference
    count is frozen, the call returns [-EBUSY].  In both cases the memory is
    as it was: the mutex is not left held, no slot is changed, and
    [migrate_page_move_mapping] is not called. *)
Theorem migrate_backs_off :
  forall (clusterpages : nat) (EROFS_LOCKED_MAGIC MIGRATEPAGE_SUCCESS : Z)
         (migrate_page migrate_page_move_mapping :
            address_space -> Z -> Z -> Migrate.migrate_mode -> mm -> Z * mm)
         (migrate_page_copy : Z -> Z -> mm -> mm)
         (mapping : address_space) (newpage page : Z)
         (mode : Migrate.migrate_mode) (m : mm) (pg : struct_page)
         (grp : z_erofs_vle_workgroup),
    pages m !! page = Some pg ->
    PG_private pg = true ->
    grps m !! pg_private pg = Some grp ->
    (work_lock (grp_work grp) = true ->
     Migrate.erofs_migrate_cached_page clusterpages EROFS_LOCKED_MAGIC
       MIGRATEPAGE_SUCCESS migrate_page migrate_page_move_mapping
       migrate_page_copy mapping newpage page mode m
     = if decide (mode = Migrate.MIGRATE_ASYNC) then Ok (- EAGAIN, m)
       else Sleeps) /\
    (work_lock (grp_work grp) = false ->
     grp_refcount grp = EROFS_LOCKED_MAGIC ->
     Migrate.erofs_migrate_cached_page clusterpages EROFS_LOCKED_MAGIC
       MIGRATEPAGE_SUCCESS migrate_page migrate_page_move_mapping
       migrate_page_copy mapping newpage page mode m
     = Ok (- EBUSY, m)).
Proof.
  intros clusterpages magic success migrate_page move copy mapping newpage page
    mode m pg grp Hpg Hpriv Hgrp.
  unfold Migrate.erofs_migrate_cached_page.
  rewrite (ReclaimFacts.deref_page_Some _ _ _ Hpg). cbn [mbind outcome_bind].
  rewrite Hpriv. cbn [negb].
  rewrite (ReclaimFacts.deref_grp_Some _ _ _ Hgrp). cbn [mbind outcome_bind].
  split.
  - intros ->. reflexivity.
  - intros Hlock Hfrozen. rewrite Hlock, Hfrozen, Z.eqb_refl.
    rewrite (MigrateFacts.mutex_unlock_Some _ _
               (with_work grp (with_lock (grp_work grp) true)))
      by (cbn; apply lookup_insert_eq).
    cbn [mbind outcome_bind]. f_equal. f_equal.
    destruct m as [ps gs l]. unfold store_grp. cbn in *. f_equal.
    rewrite insert_insert_eq. apply insert_id. rewrite Hgrp. f_equal.
    destruct grp as [? ? [lock ? ? ?] ? ? ? ?]. cbn in *. subst. reflexivity.
Qed.

Lemma migrate_backs_off_witness :
  demo_migrate Migrate.MIGRATE_ASYNC (demo_migrate_mm true)
  = Ok (- EAGAIN, demo_migrate_mm true).
Proof.
  apply (proj1 (migrate_backs_off 1 (-1) 0
                  (fun _ _ _ _ m => (0, m)) (fun _ _ _ _ m => (0, m))
                  (fun _ _ m => m) MNGD_MAPPING 900 500 Migrate.MIGRATE_ASYNC
                  (demo_migrate_mm true) (demo_cached_page true true)
                  (demo_workgroup 2 true [] 0) eq_refl eq_refl eq_refl)).
  reflexivity.
Defined.

(** X17.  What a migration does to the workgroup of a page that is
    attached to one, when the work's mutex is free and the reference count
    is not frozen, and the kernel's helpers leave the workgroups alone and
    take no page away.  The call returns what
    [migrate_page_move_mapping] returned.  If that is not
    [MIGRATEPAGE_SUCCESS] the workgroups are as before.  If it is, the first
    of the cluster's slots that held the page holds the new page, and
    nothing else changes in the workgroups; if no slot held the page, none
    changes.  In every case the mutex is released again. *)
Theorem migrate_swaps_the_slot :
  forall (clusterpages : nat) (EROFS_LOCKED_MAGIC MIGRATEPAGE_SUCCESS : Z)
         (migrate_page migrate_page_move_mapping :
            address_space -> Z -> Z -> Migrate.migrate_mode -> mm -> Z * mm)
         (migrate_page_copy : Z -> Z -> mm -> mm)
         (mapping : address_space) (newpage page : Z)
         (mode : Migrate.migrate_mode) (m : mm) (pg : struct_page)
         (grp : z_erofs_vle_workgroup),
    pages m !! page = Some pg ->
    PG_private pg = true ->
    grps m !! pg_private pg = Some grp ->
    work_lock (grp_work grp) = false ->
    grp_refcount grp <> EROFS_LOCKED_MAGIC ->
    (clusterpages <= length (grp_compressed_pages grp))%nat ->
    is_Some (pages m !! newpage) ->
    (forall m0,
        grps (migrate_page_move_mapping mapping newpage page mode m0).2
        = grps m0 /\
        Builder.pages_kept m0
          (migrate_page_move_mapping mapping newpage page mode m0).2) ->
    (forall m0,
        grps (migrate_page_copy newpage page m0) = grps m0 /\
        Builder.pages_kept m0 (migrate_page_copy newpage page m0)) ->
    exists rc m' slots',
      Migrate.erofs_migrate_cached_page clusterpages EROFS_LOCKED_MAGIC
        MIGRATEPAGE_SUCCESS migrate_page migrate_page_move_mapping
        migrate_page_copy mapping newpage page mode m
      = Ok (rc, m') /\
      rc = (migrate_page_move_mapping mapping newpage page mode
              (store_grp m (pg_private pg)
                 (with_work grp (with_lock (grp_work grp) true)))).1 /\
      grps m' = <[pg_private pg := with_compressed_pages grp slots']> (grps m) /\
      (rc <> MIGRATEPAGE_SUCCESS -> slots' = grp_compressed_pages grp) /\
      (rc = MIGRATEPAGE_SUCCESS ->
       (forall i, (i < clusterpages)%nat ->
          grp_compressed_pages grp !! i = Some page ->
          (forall j, (j < i)%nat -> grp_compressed_pages grp !! j <> Some page) ->
          slots' = <[i := newpage]> (grp_compressed_pages grp)) /\
       ((forall i, (i < clusterpages)%nat ->
           grp_compressed_pages grp !! i <> Some page) ->
        slots' = grp_compressed_pages grp)).
Proof.
  intros clusterpages magic success migrate_page move copy mapping newpage page
    mode m pg grp Hpg Hpriv Hgrp Hlock Hcount Hlen Hnew Hmove Hcopy.
  set (g := pg_private pg) in *.
  set (locked := with_work grp (with_lock (grp_work grp) true)).
  assert (Hunlock : forall slots,
            with_work (with_compressed_pages locked slots)
              (with_lock (grp_work (with_compressed_pages locked slots)) false)
            = with_compressed_pages grp slots).
  { intros slots. unfold locked.
    destruct grp as [? ? [lock ? ? ?] ? ? ? ?]. cbn in *. subst. reflexivity. }
  assert (Hslots : forall j, (j < clusterpages)%nat ->
            grp_compressed_pages grp !! j <> Some page ->
            exists v, grp_compressed_pages grp !! j = Some v /\ v <> page).
  { intros j Hj Hne.
    destruct (lookup_lt_is_Some_2 (grp_compressed_pages grp) j) as [v Hv]; [lia|].
    exists v. split; [exact Hv|]. intros ->. contradiction. }
  unfold Migrate.erofs_migrate_cached_page.
  rewrite (ReclaimFacts.deref_page_Some _ _ _ Hpg). cbn [mbind outcome_bind].
  rewrite Hpriv. cbn [negb]. fold g.
  rewrite (ReclaimFacts.deref_grp_Some _ _ _ Hgrp). cbn [mbind outcome_bind].
  rewrite Hlock.
  destruct (Z.eqb_spec (grp_refcount grp) magic) as [Hc|_]; [contradiction|].
  fold locked.
  set (m0 := store_grp m g locked).
  destruct (Hmove m0) as [Hg1 Hk1].
  destruct (move mapping newpage page mode m0) as [rc m1] eqn:Hrun.
  cbn [fst snd] in *.
  assert (Hgrp1 : grps m1 !! g = Some locked)
    by (rewrite Hg1; cbn; apply lookup_insert_eq).
  assert (Hk01 : Builder.pages_kept m m1).
  { intros q Hq. apply Hk1. exact Hq. }
  destruct (Z.eqb_spec rc success) as [Hrc|Hrc]; cbn [negb].
  2:{ rewrite (MigrateFacts.mutex_unlock_Some _ _ _ Hgrp1).
      cbn [mbind outcome_bind].
      exists rc, (store_grp m1 g (with_work locked (with_lock (grp_work locked) false))),
        (grp_compressed_pages grp).
      split; [reflexivity|]. split; [reflexivity|]. split.
      - cbn. rewrite Hg1. cbn. rewrite insert_insert_eq. f_equal.
        rewrite BuilderFacts.with_compressed_pages_same.
        unfold locked. destruct grp as [? ? [lock ? ? ?] ? ? ? ?].
        cbn in *. subst. reflexivity.
      - split; [reflexivity|]. intros Hc. contradiction. }
  rewrite (ReclaimFacts.deref_grp_Some _ _ _ Hgrp1). cbn [mbind outcome_bind].
  (* from the loop on, for the slots the loop leaves *)
  assert (Hrest : forall (found locking : bool) slots',
    exists m',
      (m2 ← (if found
             then npg ← deref_page
                          (store_grp m1 g (with_compressed_pages locked slots'))
                          newpage;
                  Ok (store_page
                        (store_grp m1 g (with_compressed_pages locked slots'))
                        newpage (Migrate.attach_cached_page npg g))
             else Ok (store_grp m1 g (with_compressed_pages locked slots')));
       pg0 ← deref_page m2 page;
       m3 ← Reclaim.mutex_unlock
              (copy newpage page
                 (store_page m2 page (Migrate.clear_cached_page pg0))) g;
       m4 ← (if negb (if found then false else locking)
             then pg1 ← deref_page m3 page;
                  Ok (store_page m3 page (Builder.put_page pg1))
             else Ok m3);
       Ok (success, m4)) = Ok (success, m') /\
      grps m' = <[g := with_compressed_pages grp slots']> (grps m)).
  { intros found locking slots'.
    set (ma := store_grp m1 g (with_compressed_pages locked slots')).
    assert (Hka : Builder.pages_kept m ma) by exact Hk01.
    assert (Hga : grps ma = <[g := with_compressed_pages locked slots']> (grps m)).
    { unfold ma. cbn. rewrite Hg1. cbn. apply insert_insert_eq. }
    assert (Hstep : exists m2,
      (if found
       then npg ← deref_page ma newpage;
            Ok (store_page ma newpage (Migrate.attach_cached_page npg g))
       else Ok ma) = Ok m2 /\ grps m2 = grps ma /\ Builder.pages_kept m m2).
    { destruct found.
      - destruct (Hka newpage Hnew) as [npg Hnpg].
        rewrite (ReclaimFacts.deref_page_Some _ _ _ Hnpg).
        cbn [mbind outcome_bind]. eexists. split; [reflexivity|].
        split; [reflexivity|].
        eapply ScanFacts.pages_kept_trans;
          [exact Hka|apply ScanFacts.pages_kept_store_page].
      - exists ma. split; [reflexivity|]. split; [reflexivity|exact Hka]. }
    destruct Hstep as (m2 & -> & Hg2 & Hk2). cbn [mbind outcome_bind].
    destruct (Hk2 page) as [pg0 Hpg0]; [rewrite Hpg; eauto|].
    rewrite (ReclaimFacts.deref_page_Some _ _ _ Hpg0). cbn [mbind outcome_bind].
    set (mb := store_page m2 page (Migrate.clear_cached_page pg0)).
    destruct (Hcopy mb) as [Hgc Hkc].
    assert (Hgrpc : grps (copy newpage page mb) !! g
                    = Some (with_compressed_pages locked slots')).
    { rewrite Hgc. cbn. rewrite Hg2, Hga. apply lookup_insert_eq. }
    rewrite (MigrateFacts.mutex_unlock_Some _ _ _ Hgrpc).
    cbn [mbind outcome_bind]. rewrite Hunlock.
    set (m3 := store_grp (copy newpage page mb) g
                 (with_compressed_pages grp slots')).
    assert (Hg3 : grps m3 = <[g := with_compressed_pages grp slots']> (grps m)).
    { unfold m3. cbn. rewrite Hgc. cbn. rewrite Hg2, Hga.
      apply insert_insert_eq. }
    destruct (negb (if found then false else locking)).
    - assert (Hk3 : is_Some (pages m3 !! page)).
      { unfold m3. cbn. apply Hkc. cbn. rewrite lookup_insert_eq. eauto. }
      destruct Hk3 as [pg1 Hpg1].
      rewrite (ReclaimFacts.deref_page_Some _ _ _ Hpg1).
      cbn [mbind outcome_bind]. eexists. split; [reflexivity|]. exact Hg3.
    - cbn [mbind outcome_bind]. exists m3. split; [reflexivity|exact Hg3]. }
  cbn [grp_compressed_pages locked with_work].
  destruct (MigrateFacts.first_slot_holding (grp_compressed_pages grp) page
              clusterpages) as [(i & Hi & Hslot & Hfirst)|Habsent].
  - destruct (MigrateFacts.migrate_loop_found clusterpages 0
                (grp_compressed_pages grp) page newpage false i)
      as [locking' ->];
      [lia|exact Hslot|intros j Hj; apply Hslots; [lia|apply Hfirst; lia]|].
    cbn [mbind outcome_bind].
    destruct (Hrest true locking' (<[i := newpage]> (grp_compressed_pages grp)))
      as (m' & -> & Hg').
    exists success, m', (<[i := newpage]> (grp_compressed_pages grp)).
    split; [reflexivity|]. split; [symmetry; exact Hrc|]. split; [exact Hg'|].
    split; [intros Hc; contradiction|]. intros _. split.
    + intros i' Hi' Hslot' Hfirst'.
      assert (i' = i) as ->; [|reflexivity].
      destruct (Nat.lt_trichotomy i' i) as [Hlt|[Heq|Hgt]]; [|exact Heq|].
      * destruct (Hfirst i' Hlt Hslot').
      * destruct (Hfirst' i Hgt Hslot).
    + intros Hnone. destruct (Hnone i Hi Hslot).
  - destruct (MigrateFacts.migrate_loop_absent clusterpages 0
                (grp_compressed_pages grp) page newpage false)
      as [locking' ->];
      [intros j Hj; apply Hslots; [lia|apply Habsent; lia]|].
    cbn [mbind outcome_bind].
    destruct (Hrest false locking' (grp_compressed_pages grp))
      as (m' & Heq & Hg').
    cbn [mbind outcome_bind] in Heq. rewrite Heq.
    exists success, m', (grp_compressed_pages grp).
    split; [reflexivity|]. split; [symmetry; exact Hrc|]. split; [exact Hg'|].
    split; [reflexivity|]. intros _. split.
    + intros i Hi Hslot _. destruct (Habsent i Hi Hslot).
    + reflexivity.
Qed.

Lemma migrate_swaps_the_slot_witness :
  exists m',
    demo_migrate Migrate.MIGRATE_SYNC (demo_migrate_mm false) = Ok (0, m') /\
    grps m' = <[1000 := with_compressed_pages (demo_workgroup 2 false [] 0) [900]]>
                (grps (demo_migrate_mm false)).
Proof.
  destruct (migrate_swaps_the_slot 1 (-1) 0
              (fun _ _ _ _ m => (0, m)) (fun _ _ _ _ m => (0, m))
              (fun _ _ m => m) MNGD_MAPPING 900 500 Migrate.MIGRATE_SYNC
              (demo_migrate_mm false) (demo_cached_page true true)
              (demo_workgroup 2 false [] 0))
    as (rc & m' & slots' & Hrun & Hrc & Hg & _ & Hok).
  - reflexivity.
  - reflexivity.
  - reflexivity.
  - reflexivity.
  - cbn. lia.
  - cbn. lia.
  - vm_compute. eauto.
  - intros m0. split; [reflexivity|]. intros q Hq. exact Hq.
  - intros m0. split; [reflexivity|]. intros q Hq. exact Hq.
  - cbn [fst] in Hrc. subst rc.
    destruct (Hok eq_refl) as [Hfound _].
    rewrite (Hfound 0%nat) in Hg.
    + exists m'. split; [exact Hrun|exact Hg].
    + lia.
    + reflexivity.
    + intros j Hj. lia.
Defined.

(** ** Beginning and ending the work on a cluster *)

Module WorkIterFacts.
Import Builder WorkIter.

(** With no other thread at work, the loop that raises [llen] leaves the
    larger of the two lengths. *)
Lemma join_alone_max cur map :
  0 <= m_llen map < 2 ^ 32 ->
  Llen.join_alone cur map = Z.max cur (m_llen map).
Proof.
  intros Hllen. unfold Llen.join_alone, Llen.joiner_step. cbn.
  destruct (Z.ltb_spec cur (m_llen map)) as [Hlt|Hge]; cbn.
  - rewrite Z.eqb_refl. cbn. unfold u32. rewrite wrap_small by exact Hllen. lia.
  - lia.
Qed.

(** What a claim with no other thread at work makes of [grp->next]: the
    role, [*hosted], [grp->next] and [*owned_head]. *)
Local Abbreviation claim_alone g next owned_head :=
  (match next with
   | Z_EROFS_VLE_WORKGRP_NIL =>
       (Z_EROFS_VLE_WORK_PRIMARY_FOLLOWED, true, owned_head,
        WORKGRP (Z.to_pos g))
   | Z_EROFS_VLE_WORKGRP_TAIL =>
       (Z_EROFS_VLE_WORK_PRIMARY_TERMINAL, false, owned_head,
        Z_EROFS_VLE_WORKGRP_TAIL)
   | _ => (Z_EROFS_VLE_WORK_PRIMARY, false, next, owned_head)
   end).

Lemma try_to_claim_alone g next owned_head :
  Claim.try_to_claim_workgroup 1 (Z.to_pos g) []
    (Claim.mk_claim next owned_head false)
  = let '(role, hosted, next', owned_head') := claim_alone g next owned_head in
    Some (role, Claim.mk_claim next' owned_head' hosted, []).
Proof. destruct next; reflexivity. Qed.

Section WithSuperblock.

Variable defs : erofs_defs.
Variable PAGE_SHIFT : Z.
Variable clusterpages : nat.
Variable Z_EROFS_CLUSTER_MAX_PAGES : nat.
Variable V : Type.
Variable z_erofs_pagevec_ctor_init : list (Z * z_erofs_page_type) -> V.
Variable erofs_find_workgroup : Z -> mm -> Z * mm.
Variable kmem_cache_zalloc : mm -> Z.
Variable erofs_register_workgroup : Z -> mm -> Z * mm.

(** A begin that finds the workgroup with its mutex free, whatever the
    mapping's length. *)
Lemma iter_begin_found_any fuel (b : z_erofs_vle_work_builder V) map
    owned_head m g m1 grp :
  erofs_find_workgroup (erofs_blknr defs (m_pa map)) m = (g, m1) ->
  g <> 0 ->
  grps m1 !! g = Some grp ->
  work_lock (grp_work grp) = false ->
  z_erofs_vle_work_iter_begin defs PAGE_SHIFT clusterpages
    Z_EROFS_CLUSTER_MAX_PAGES V z_erofs_pagevec_ctor_init
    erofs_find_workgroup kmem_cache_zalloc erofs_register_workgroup
    (S fuel) b map owned_head m
  = let '(role, hosted, next', owned_head') :=
      claim_alone g (grp_next grp) owned_head in
    Ok (0,
        mk_builder role hosted g g
          (z_erofs_pagevec_ctor_init (work_pagevec (grp_work grp)))
          (Some 0%nat) clusterpages,
        owned_head',
        store_grp m1 g
          (mk_workgroup (grp_index grp) (grp_refcount grp)
             (with_lock (grp_work grp) true) next'
             (grp_compressed_pages grp)
             (Llen.join_alone (grp_llen grp) map) (grp_fmt grp))).
Proof.
  intros Hfind Hg Hgrp Hlock.
  cbn [z_erofs_vle_work_iter_begin]. unfold z_erofs_vle_work_lookup.
  rewrite Hfind.
  destruct (Z.eqb_spec g 0) as [|_]; [contradiction|].
  rewrite (ReclaimFacts.deref_grp_Some _ _ _ Hgrp). cbn [mbind outcome_bind].
  rewrite Hlock. cbn [grp_next with_work].
  rewrite try_to_claim_alone. apply Z.eqb_neq in Hg.
  destruct (grp_next grp) eqn:Hnext; cbn [mbind outcome_bind Claim.hosted
    Claim.owned_head Claim.next];
    rewrite Hg; cbn [negb];
    unfold deref_grp; cbn [grps store_grp]; rewrite lookup_insert_eq;
    cbn [mbind outcome_bind]; unfold iter_begin_got_it, deref_grp;
    cbn [grps store_grp]; rewrite lookup_insert_eq; cbn [mbind outcome_bind];
    cbn -[Llen.join_alone];
    unfold store_grp; cbn [grps pages log]; rewrite insert_insert_eq;
    reflexivity.
Qed.

(** A begin that finds the workgroup with its mutex free. *)
Lemma iter_begin_found fuel (b : z_erofs_vle_work_builder V) map owned_head m
    g m1 grp :
  erofs_find_workgroup (erofs_blknr defs (m_pa map)) m = (g, m1) ->
  g <> 0 ->
  grps m1 !! g = Some grp ->
  work_lock (grp_work grp) = false ->
  0 <= m_llen map < 2 ^ 32 ->
  z_erofs_vle_work_iter_begin defs PAGE_SHIFT clusterpages
    Z_EROFS_CLUSTER_MAX_PAGES V z_erofs_pagevec_ctor_init
    erofs_find_workgroup kmem_cache_zalloc erofs_register_workgroup
    (S fuel) b map owned_head m
  = let '(role, hosted, next', owned_head') :=
      claim_alone g (grp_next grp) owned_head in
    Ok (0,
        mk_builder role hosted g g
          (z_erofs_pagevec_ctor_init (work_pagevec (grp_work grp)))
          (Some 0%nat) clusterpages,
        owned_head',
        store_grp m1 g
          (mk_workgroup (grp_index grp) (grp_refcount grp)
             (with_lock (grp_work grp) true) next'
             (grp_compressed_pages grp)
             (Z.max (grp_llen grp) (m_llen map)) (grp_fmt grp))).
Proof.
  intros Hfind Hg Hgrp Hlock Hllen.
  rewrite (iter_begin_found_any fuel b map owned_head m g m1 grp Hfind Hg Hgrp
             Hlock).
  rewrite join_alone_max by exact Hllen. reflexivity.
Qed.

End WithSuperblock.

End WorkIterFacts.

(** X18.  What [z_erofs_vle_work_iter_begin] does when the registry has the
    workgroup and the mutex of its work is free (and the mapping's length
    fits 32 bits).  It returns 0 with the builder on that work, the mutex
    held, and the workgroup's [llen] raised to the mapping's length if that
    is larger.  The role is never SECONDARY, so the builder's window is
    always the [clusterpages] slots from slot 0.  The builder is hosted
    exactly if the workgroup's [next] was NIL: then the role is
    PRIMARY_FOLLOWED, the workgroup is the new head of the caller's chain
    and its [next] is the old head.  If [next] was TAIL the role is
    PRIMARY_TERMINAL, [next] is the caller's head and the caller's chain
    closes with TAIL.  Otherwise the role is PRIMARY, and neither [next]
    nor the caller's head changes. *)
Theorem iter_begin_joins_workgroup :
  forall (defs : erofs_defs) (PAGE_SHIFT : Z)
         (clusterpages Z_EROFS_CLUSTER_MAX_PAGES : nat) (V : Type)
         (z_erofs_pagevec_ctor_init : list (Z * z_erofs_page_type) -> V)
         (erofs_find_workgroup : Z -> mm -> Z * mm)
         (kmem_cache_zalloc : mm -> Z)
         (erofs_register_workgroup : Z -> mm -> Z * mm)
         (fuel : nat) (b : Builder.z_erofs_vle_work_builder V)
         (map : erofs_map_blocks) (owned_head : z_erofs_vle_owned_workgrp_t)
         (m : mm) (g : Z) (m1 : mm) (grp : z_erofs_vle_workgroup),
    erofs_find_workgroup (WorkIter.erofs_blknr defs (m_pa map)) m = (g, m1) ->
    g <> 0 ->
    grps m1 !! g = Some grp ->
    work_lock (grp_work grp) = false ->
    0 <= m_llen map < 2 ^ 32 ->
    exists b' owned_head' grp',
      WorkIter.z_erofs_vle_work_iter_begin defs PAGE_SHIFT clusterpages
        Z_EROFS_CLUSTER_MAX_PAGES V z_erofs_pagevec_ctor_init
        erofs_find_workgroup kmem_cache_zalloc erofs_register_workgroup
        (S fuel) b map owned_head m
      = Ok (0, b', owned_head', store_grp m1 g grp') /\
      Builder.b_grp b' = g /\ Builder.b_work b' = g /\
      Builder.b_vector b'
      = z_erofs_pagevec_ctor_init (work_pagevec (grp_work grp)) /\
      Builder.b_compressed_pages b' = Some 0%nat /\
      Builder.b_compressed_deficit b' = clusterpages /\
      (1 <= role_rank (Builder.b_role b'))%nat /\
      grp_work grp' = with_lock (grp_work grp) true /\
      grp_llen grp' = Z.max (grp_llen grp) (m_llen map) /\
      grp_refcount grp' = grp_refcount grp /\
      grp_compressed_pages grp' = grp_compressed_pages grp /\
      (Builder.b_hosted b' = true <-> grp_next grp = Z_EROFS_VLE_WORKGRP_NIL) /\
      match grp_next grp with
      | Z_EROFS_VLE_WORKGRP_NIL =>
          Builder.b_role b' = Z_EROFS_VLE_WORK_PRIMARY_FOLLOWED /\
          grp_next grp' = owned_head /\
          owned_head' = WORKGRP (Z.to_pos g)
      | Z_EROFS_VLE_WORKGRP_TAIL =>
          Builder.b_role b' = Z_EROFS_VLE_WORK_PRIMARY_TERMINAL /\
          grp_next grp' = owned_head /\
          owned_head' = Z_EROFS_VLE_WORKGRP_TAIL
      | _ =>
          Builder.b_role b' = Z_EROFS_VLE_WORK_PRIMARY /\
          grp_next grp' = grp_next grp /\
          owned_head' = owned_head
      end.
Proof.
  intros defs PAGE_SHIFT clusterpages maxpages V ctor_init find zalloc register
    fuel b map owned_head m g m1 grp Hfind Hg Hgrp Hlock Hllen.
  rewrite (WorkIterFacts.iter_begin_found defs PAGE_SHIFT clusterpages maxpages
             V ctor_init find zalloc register fuel b map owned_head m g m1 grp
             Hfind Hg Hgrp Hlock Hllen).
  destruct (grp_next grp) eqn:Hnext; cbn;
    eexists _, _, _; (split; [reflexivity|]); cbn;
    repeat (split; [first [reflexivity | lia | congruence]|]);
    repeat split; try reflexivity; try congruence; try discriminate.
Qed.

Lemma iter_begin_joins_workgroup_witness :
  exists b' grp',
    WorkIter.z_erofs_vle_work_iter_begin (demo_defs false) 12 1 1
      demo_collector (fun pagevec => pagevec) (fun _ m => (1000, m))
      (fun _ => 0) (fun _ m => (0, m)) 1
      (WorkIter.VLE_WORK_BUILDER_INIT demo_collector [])
      (mk_map 20480 0 4096 8192 0) Z_EROFS_VLE_WORKGRP_TAIL
      (demo_mm 2 false false)
    = Ok (0, b', Z_EROFS_VLE_WORKGRP_TAIL,
          store_grp (demo_mm 2 false false) 1000 grp') /\
    Builder.b_role b' = Z_EROFS_VLE_WORK_PRIMARY /\
    Builder.b_hosted b' = false /\
    grp_llen grp' = 8192 /\
    work_lock (grp_work grp') = true.
Proof.
  destruct (iter_begin_joins_workgroup (demo_defs false) 12 1 1
              demo_collector (fun pagevec => pagevec) (fun _ m => (1000, m))
              (fun _ => 0) (fun _ m => (0, m)) 0
              (WorkIter.VLE_WORK_BUILDER_INIT demo_collector [])
              (mk_map 20480 0 4096 8192 0) Z_EROFS_VLE_WORKGRP_TAIL
              (demo_mm 2 false false) 1000 (demo_mm 2 false false)
              (demo_workgroup 2 false [] 0))
    as (b' & owned_head' & grp' & Hrun & _ & _ & _ & _ & _ & _ & Hwork & Hllen &
        _ & _ & Hhosted & Hrole & _ & Hhead).
  - reflexivity.
  - lia.
  - reflexivity.
  - reflexivity.
  - cbn. lia.
  - cbn in Hhead. subst owned_head'. exists b', grp'.
    split; [exact Hrun|]. split; [exact Hrole|].
    split; [destruct (Builder.b_hosted b'); [|reflexivity];
            destruct Hhosted as [Hh _]; discriminate (Hh eq_refl)|].
    split; [rewrite Hllen; reflexivity|]. rewrite Hwork. reflexivity.
Defined.

(** X19.  Ending the work gives back what beginning it took.  After a begin
    that found the workgroup with its mutex free, whatever the length of the
    mapping, [z_erofs_vle_work_iter_end] returns true, leaves the builder
    without a work and the mutex free again, with the page vector
    untouched.  The reference the registry's lookup took is kept if the
    builder is hosted (the workgroup's [next] was NIL) and dropped
    otherwise.  A second end returns false and changes nothing. *)
Theorem iter_begin_end_round_trip :
  forall (defs : erofs_defs) (PAGE_SHIFT : Z)
         (clusterpages Z_EROFS_CLUSTER_MAX_PAGES : nat) (V : Type)
         (z_erofs_pagevec_ctor_init : list (Z * z_erofs_page_type) -> V)
         (z_erofs_pagevec_ctor_exit : V -> V)
         (erofs_find_workgroup : Z -> mm -> Z * mm)
         (kmem_cache_zalloc : mm -> Z)
         (erofs_register_workgroup : Z -> mm -> Z * mm)
         (fuel : nat) (b : Builder.z_erofs_vle_work_builder V)
         (map : erofs_map_blocks) (owned_head : z_erofs_vle_owned_workgrp_t)
         (m : mm) (g : Z) (m1 : mm) (grp : z_erofs_vle_workgroup),
    erofs_find_workgroup (WorkIter.erofs_blknr defs (m_pa map)) m = (g, m1) ->
    g <> 0 ->
    grps m1 !! g = Some grp ->
    work_lock (grp_work grp) = false ->
    exists b' owned_head' m' b'' m'' grp'',
      WorkIter.z_erofs_vle_work_iter_begin defs PAGE_SHIFT clusterpages
        Z_EROFS_CLUSTER_MAX_PAGES V z_erofs_pagevec_ctor_init
        erofs_find_workgroup kmem_cache_zalloc erofs_register_workgroup
        (S fuel) b map owned_head m
      = Ok (0, b', owned_head', m') /\
      WorkIter.z_erofs_vle_work_iter_end V z_erofs_pagevec_ctor_exit b' m'
      = Ok (true, b'', m'') /\
      Builder.b_work b'' = 0 /\ Builder.b_grp b'' = 0 /\
      pages m'' = pages m1 /\
      grps m'' = <[g := grp'']> (grps m1) /\
      grp_work grp'' = grp_work grp /\
      grp_refcount grp''
      = (if decide (grp_next grp = Z_EROFS_VLE_WORKGRP_NIL)
         then grp_refcount grp else grp_refcount grp - 1) /\
      WorkIter.z_erofs_vle_work_iter_end V z_erofs_pagevec_ctor_exit b'' m''
      = Ok (false, b'', m'').
Proof.
  intros defs PAGE_SHIFT clusterpages maxpages V ctor_init ctor_exit find zalloc
    register fuel b map owned_head m g m1 grp Hfind Hg Hgrp Hlock.
  rewrite (WorkIterFacts.iter_begin_found_any defs PAGE_SHIFT clusterpages
             maxpages V ctor_init find zalloc register fuel b map owned_head m
             g m1 grp Hfind Hg Hgrp Hlock).
  apply Z.eqb_neq in Hg.
  destruct grp as [index refcount [lock pageofs nr_pages pagevec] next slots
                     llen fmt].
  cbn in Hlock. subst lock.
  destruct next; cbn [grp_next];
    eexists _, _, _, _, _, _; (split; [reflexivity|]);
    unfold WorkIter.z_erofs_vle_work_iter_end, Reclaim.mutex_unlock, deref_grp;
    cbn [Builder.b_work Builder.b_grp Builder.b_hosted negb grps store_grp];
    rewrite Hg, ?lookup_insert_eq; cbn [mbind outcome_bind grps store_grp];
    rewrite ?lookup_insert_eq; cbn [mbind outcome_bind];
    (split; [reflexivity|]); cbn -[Z.sub Llen.join_alone];
    rewrite ?insert_insert_eq;
    repeat (split; [reflexivity|]); reflexivity.
Qed.

Lemma iter_begin_end_round_trip_witness :
  exists b' owned_head' m' b'' m'' grp'',
    WorkIter.z_erofs_vle_work_iter_begin (demo_defs false) 12 1 1
      demo_collector (fun pagevec => pagevec) (fun _ m => (1000, m))
      (fun _ => 0) (fun _ m => (0, m)) 1
      (WorkIter.VLE_WORK_BUILDER_INIT demo_collector [])
      (mk_map 20480 0 4096 8192 0) Z_EROFS_VLE_WORKGRP_TAIL
      (demo_mm 2 false false)
    = Ok (0, b', owned_head', m') /\
    WorkIter.z_erofs_vle_work_iter_end demo_collector (fun v => v) b' m'
    = Ok (true, b'', m'') /\
    Builder.b_work b'' = 0 /\ Builder.b_grp b'' = 0 /\
    pages m'' = pages (demo_mm 2 false false) /\
    grps m'' = <[1000 := grp'']> (grps (demo_mm 2 false false)) /\
    grp_work grp'' = grp_work (demo_workgroup 2 false [] 0) /\
    grp_refcount grp''
    = (if decide (grp_next (demo_workgroup 2 false [] 0)
                  = Z_EROFS_VLE_WORKGRP_NIL)
       then grp_refcount (demo_workgroup 2 false [] 0)
       else grp_refcount (demo_workgroup 2 false [] 0) - 1) /\
    WorkIter.z_erofs_vle_work_iter_end demo_collector (fun v => v) b'' m''
    = Ok (false, b'', m'').
Proof.
  apply (iter_begin_end_round_trip (demo_defs false) 12 1 1
           demo_collector (fun pagevec => pagevec) (fun v => v)
           (fun _ m => (1000, m)) (fun _ => 0) (fun _ m => (0, m)) 0
           (WorkIter.VLE_WORK_BUILDER_INIT demo_collector [])
           (mk_map 20480 0 4096 8192 0) Z_EROFS_VLE_WORKGRP_TAIL
           (demo_mm 2 false false) 1000 (demo_mm 2 false false)
           (demo_workgroup 2 false [] 0)).
  - reflexivity.
  - lia.
  - reflexivity.
  - reflexivity.
Defined.

(** X20.  What [z_erofs_vle_work_iter_begin] can return, whatever the
    registry and the allocator do and however often the registration has to
    be tried again.  The only error is [-ENOMEM], and then the builder is
    still without the work and the caller's chain as it was.  With 0 the
    builder is on the primary work of a workgroup, its role is at least
    PRIMARY, its window is the [clusterpages] slots from slot 0, and if it
    is hosted the workgroup is the head of the caller's chain. *)
Theorem iter_begin_returns :
  forall (defs : erofs_defs) (PAGE_SHIFT : Z)
         (clusterpages Z_EROFS_CLUSTER_MAX_PAGES : nat) (V : Type)
         (z_erofs_pagevec_ctor_init : list (Z * z_erofs_page_type) -> V)
         (erofs_find_workgroup : Z -> mm -> Z * mm)
         (kmem_cache_zalloc : mm -> Z)
         (erofs_register_workgroup : Z -> mm -> Z * mm)
         (fuel : nat) (b : Builder.z_erofs_vle_work_builder V)
         (map : erofs_map_blocks) (owned_head : z_erofs_vle_owned_workgrp_t)
         (m : mm) (err : Z) (b' : Builder.z_erofs_vle_work_builder V)
         (owned_head' : z_erofs_vle_owned_workgrp_t) (m' : mm),
    WorkIter.z_erofs_vle_work_iter_begin defs PAGE_SHIFT clusterpages
      Z_EROFS_CLUSTER_MAX_PAGES V z_erofs_pagevec_ctor_init
      erofs_find_workgroup kmem_cache_zalloc erofs_register_workgroup
      fuel b map owned_head m
    = Ok (err, b', owned_head', m') ->
    (err = 0 /\
     Builder.b_work b' <> 0 /\
     Builder.b_grp b' = Builder.b_work b' /\
     (1 <= role_rank (Builder.b_role b'))%nat /\
     Builder.b_compressed_pages b' = Some 0%nat /\
     Builder.b_compressed_deficit b' = clusterpages /\
     (Builder.b_hosted b' = true ->
      owned_head' = WORKGRP (Z.to_pos (Builder.b_grp b')))) \/
    (err = - ENOMEM /\
     Builder.b_work b' = Builder.b_work b /\
     Builder.b_grp b' = Builder.b_grp b /\
     owned_head' = owned_head).
Proof.
  intros defs PAGE_SHIFT clusterpages maxpages V ctor_init find zalloc register
    fuel.
  induction fuel as [|fuel IH]; intros b map owned_head m err b' owned_head' m'
    Hrun; [discriminate|].
  cbn [WorkIter.z_erofs_vle_work_iter_begin] in Hrun.
  unfold WorkIter.z_erofs_vle_work_lookup in Hrun.
  destruct (find (WorkIter.erofs_blknr defs (m_pa map)) m) as [egrp m1].
  destruct (Z.eqb_spec egrp 0) as [->|Hegrp].
  - (* no workgroup yet *)
    cbn [mbind outcome_bind Z.eqb negb] in Hrun.
    unfold WorkIter.z_erofs_vle_work_register in Hrun.
    cbn [Z.eqb negb] in Hrun.
    destruct (Z.eqb_spec (zalloc m1) 0) as [Hz|Hz].
    + cbn [mbind outcome_bind Z.eqb negb] in Hrun.
      change (0 =? - ENOMEM) with false in Hrun. cbn in Hrun.
      injection Hrun as <- <- <- <-. right. auto.
    + destruct (register (zalloc m1) _) as [rerr m2].
      destruct (Z.eqb_spec rerr 0) as [->|Hrerr]; cbn [negb] in Hrun.
      * cbn [mbind outcome_bind] in Hrun.
        apply Z.eqb_neq in Hz. rewrite Hz in Hrun. cbn [negb] in Hrun.
        unfold WorkIter.iter_begin_got_it in Hrun.
        destruct (deref_grp m2 (zalloc m1)) as [w| | | |]; try discriminate.
        cbn [mbind outcome_bind Builder.b_role role_rank Nat.leb] in Hrun.
        injection Hrun as <- <- <- <-. left. cbn.
        apply Z.eqb_neq in Hz. repeat split; auto.
      * cbn [mbind outcome_bind Z.eqb negb] in Hrun.
        rewrite Z.eqb_refl in Hrun.
        apply IH in Hrun as [Hok|(-> & Hw & Hg & ->)]; [left; exact Hok|].
        right. cbn in Hw, Hg. auto.
  - (* the registry has the workgroup *)
    destruct (deref_grp m1 egrp) as [grp| | | |]; try discriminate.
    cbn [mbind outcome_bind] in Hrun.
    destruct (work_lock (grp_work grp)); [discriminate|].
    rewrite WorkIterFacts.try_to_claim_alone in Hrun.
    apply Z.eqb_neq in Hegrp.
    destruct (grp_next (with_work grp (with_lock (grp_work grp) true)));
      cbn [mbind outcome_bind Claim.hosted Claim.owned_head Claim.next] in Hrun;
      rewrite Hegrp in Hrun; cbn [negb] in Hrun;
      (destruct (deref_grp _ egrp) as [g1| | | |]; try discriminate);
      cbn [mbind outcome_bind] in Hrun;
      unfold WorkIter.iter_begin_got_it in Hrun;
      (destruct (deref_grp _ egrp) as [w| | | |]; try discriminate);
      cbn [mbind outcome_bind Builder.b_role role_rank Nat.leb] in Hrun;
      injection Hrun as <- <- <- <-; left; cbn;
      apply Z.eqb_neq in Hegrp; repeat split; auto; discriminate.
Qed.

Lemma iter_begin_returns_witness :
  exists b' m',
    WorkIter.z_erofs_vle_work_iter_begin (demo_defs false) 12 1 1
      demo_collector (fun pagevec => pagevec) (fun _ m => (0, m))
      (fun _ => 3000) (fun _ m => (0, m)) 1
      (WorkIter.VLE_WORK_BUILDER_INIT demo_collector [])
      (mk_map 20480 0 4096 8192 0) Z_EROFS_VLE_WORKGRP_TAIL
      (demo_mm 2 false false)
    = Ok (0, b', WORKGRP 3000, m') /\
    Builder.b_work b' <> 0 /\
    Builder.b_grp b' = Builder.b_work b' /\
    (1 <= role_rank (Builder.b_role b'))%nat /\
    Builder.b_compressed_pages b' = Some 0%nat /\
    Builder.b_compressed_deficit b' = 1%nat.
Proof.
  eexists _, _. split; [vm_compute; reflexivity|].
  edestruct (iter_begin_returns (demo_defs false) 12 1 1
               demo_collector (fun pagevec => pagevec) (fun _ m => (0, m))
               (fun _ => 3000) (fun _ m => (0, m)) 1
               (WorkIter.VLE_WORK_BUILDER_INIT demo_collector [])
               (mk_map 20480 0 4096 8192 0) Z_EROFS_VLE_WORKGRP_TAIL
               (demo_mm 2 false false))
    as [(_ & Hwork & Hgrp & Hrole & Hptr & Hdef & _)|(Herr & _)].
  - vm_compute. reflexivity.
  - split; [exact Hwork|]. split; [exact Hgrp|]. split; [exact Hrole|].
    split; [exact Hptr|exact Hdef].
  - discriminate Herr.
Defined.

(** ** Decompression of an owned chain *)

Module UnzipAllFacts.
Import Unzip UnzipAll.

Lemma owned_chain_functional m owned gs1 :
  owned_chain m owned gs1 -> forall gs2, owned_chain m owned gs2 -> gs1 = gs2.
Proof.
  induction 1 as [|g grp gs Hgrp Hrest IH]; intros gs2 H2; inversion H2; subst.
  - reflexivity.
  - f_equal. apply IH. congruence.
Qed.

(** Every workgroup of a chain starts a chain of its own, a shorter one. *)
Lemma owned_chain_from m owned gs :
  owned_chain m owned gs ->
  forall x, x ∈ gs ->
  exists p gs', x = Z.pos p /\ owned_chain m (WORKGRP p) (x :: gs') /\
                (length gs' < length gs)%nat.
Proof.
  induction 1 as [|g grp gs Hgrp Hrest IH]; intros x Hx.
  - apply elem_of_nil in Hx. destruct Hx.
  - apply elem_of_cons in Hx as [->|Hx].
    + exists g, gs. split; [reflexivity|]. split; [|cbn; lia].
      econstructor; eassumption.
    + destruct (IH x Hx) as (p & gs' & -> & Hchain & Hlen).
      exists p, gs'. split; [reflexivity|]. split; [exact Hchain|cbn; lia].
Qed.

(** A chain does not come back to its head. *)
Lemma owned_chain_head_once m g gs :
  owned_chain m (WORKGRP g) (Z.pos g :: gs) -> Z.pos g ∉ gs.
Proof.
  intros Hchain Hin. inversion Hchain as [|g0 grp gs0 Hgrp Hrest]; subst.
  destruct (owned_chain_from _ _ _ Hrest _ Hin) as (p & gs' & [= <-] & Hfrom & Hlen).
  pose proof (owned_chain_functional _ _ _ Hchain _ Hfrom) as [= ->]. lia.
Qed.

Lemma owned_chain_frame m m' owned gs :
  owned_chain m owned gs ->
  (forall x, x ∈ gs -> grps m' !! x = grps m !! x) ->
  owned_chain m' owned gs.
Proof.
  induction 1 as [|g grp gs Hgrp Hrest IH]; intros Hsame.
  - constructor.
  - econstructor.
    + rewrite Hsame by (apply elem_of_cons; auto). exact Hgrp.
    + apply IH. intros x Hx. apply Hsame, elem_of_cons. auto.
Qed.

Section WithSuperblock.

Variable clusterpages : nat.
Variable EROFS_FS_HAS_MANAGED_CACHE : bool.
Variable PAGE_SHIFT : Z.
Variable z_erofs_onlinepage_index : struct_page -> Z.
Variable z_erofs_onlinepage_index2 : struct_page -> Z.
Variable plain_copy : list Z -> list Z -> Z -> Z.
Variable unzip_fast_percpu : list Z -> list Z -> Z -> Z -> Z.
Variable unzip_vmap : list Z -> list Z -> Z -> Z -> bool -> Z.
Variable erofs_vmap : list Z -> bool.
Variable erofs_allocpage : list Z -> mm -> Z * list Z * mm.

(** The allocator leaves the workgroups alone. *)
Hypothesis erofs_allocpage_grps : forall pool m,
  grps (erofs_allocpage pool m).2 = grps m.

Lemma stagingpage_alloc_grps pool m page pool' m' :
  __stagingpage_alloc erofs_allocpage pool m = Ok (page, pool', m') ->
  grps m' = grps m.
Proof.
  unfold __stagingpage_alloc. intros Hrun.
  pose proof (erofs_allocpage_grps pool m) as Hg.
  destruct (erofs_allocpage pool m) as [[p pool1] m1]. cbn [snd] in Hg.
  destruct (p =? 0).
  - injection Hrun as <- <- <-. exact Hg.
  - destruct (deref_page m1 p) as [pg| | | |]; try discriminate.
    cbn [mbind outcome_bind] in Hrun. injection Hrun as <- <- <-. exact Hg.
Qed.

Lemma fill_holes_grps todo : forall pages_ pool m pages' pool' m',
  fill_holes erofs_allocpage todo pages_ pool m = Ok (pages', pool', m') ->
  grps m' = grps m.
Proof.
  induction todo as [|i todo IH]; intros pages_ pool m pages' pool' m' Hrun;
    cbn [fill_holes] in Hrun.
  - injection Hrun as <- <- <-. reflexivity.
  - destruct (pages_ !! i) as [v|]; [|discriminate].
    destruct (negb (v =? 0)); [eauto|].
    destruct (__stagingpage_alloc erofs_allocpage pool m)
      as [[[page pool1] m1]| | | |] eqn:Halloc; try discriminate.
    cbn [mbind outcome_bind] in Hrun.
    apply IH in Hrun. rewrite Hrun.
    exact (stagingpage_alloc_grps _ _ _ _ _ Halloc).
Qed.

Lemma unzip_decompress_grps m grp acc pool err pages' pool' m' :
  unzip_decompress PAGE_SHIFT plain_copy unzip_fast_percpu unzip_vmap
    erofs_vmap erofs_allocpage m grp acc pool = Ok (err, pages', pool', m') ->
  grps m' = grps m.
Proof.
  unfold unzip_decompress. intros Hrun.
  destruct (grp_fmt grp).
  - destruct (negb _); [discriminate|]. injection Hrun as <- <- <- <-. reflexivity.
  - destruct (negb (_ =? - ENOTSUPP)).
    + injection Hrun as <- <- <- <-. reflexivity.
    + match type of Hrun with
      | context [mbind _ ?x] =>
          assert (Hfill : forall pages1 pool1 m1, x = Ok (pages1, pool1, m1) ->
                    grps m1 = grps m);
            [|destruct x as [[[pages1 pool1] m1]| | | |] eqn:Hx; try discriminate]
      end.
      { intros pages1 pool1 m1 Hx.
        destruct (work_nr_pages (grp_work grp) <=? g_sparsemem_pages acc).
        - destruct (work_nr_pages (grp_work grp) <? g_sparsemem_pages acc);
            [discriminate|]. injection Hx as <- <- <-. reflexivity.
        - apply fill_holes_grps in Hx. exact Hx. }
      cbn [mbind outcome_bind] in Hrun.
      specialize (Hfill _ _ _ eq_refl).
      destruct (negb (erofs_vmap pages1)); injection Hrun as <- <- <- <-;
        exact Hfill.
Qed.

(** A decompression pass changes, of all workgroups, only its own: it
    leaves it idle and drops one reference. *)
Lemma unzip_effect m g pool err m' pool' :
  z_erofs_vle_unzip clusterpages EROFS_FS_HAS_MANAGED_CACHE PAGE_SHIFT
    z_erofs_onlinepage_index z_erofs_onlinepage_index2 plain_copy
    unzip_fast_percpu unzip_vmap erofs_vmap erofs_allocpage m g pool
  = Ok (err, m', pool') ->
  (forall g', g' <> g -> grps m' !! g' = grps m !! g') /\
  exists grp grp',
    grps m !! g = Some grp /\ grps m' !! g = Some grp' /\
    grp_next grp' = Z_EROFS_VLE_WORKGRP_NIL /\
    work_lock (grp_work grp') = false /\
    grp_refcount grp' = grp_refcount grp - 1.
Proof.
  unfold z_erofs_vle_unzip. intros Hrun.
  destruct (unzip_gather _ _ _ _ m g pool) as [[[m1 acc] pool1]| | | |] eqn:Hgather;
    try discriminate.
  cbn [mbind outcome_bind] in Hrun.
  apply UnzipFacts.unzip_gather_inv in Hgather
    as (grp & Hgrp & _ & Hlock & -> & _).
  set (m1 := store_grp m g (with_work grp (with_lock (grp_work grp) true))) in *.
  assert (Hout : exists m2 pages_ err0 pool0,
    grps m2 = grps m1 /\
    unzip_out clusterpages EROFS_FS_HAS_MANAGED_CACHE m2 g pages_ err0 pool0
    = Ok (err, m', pool')).
  { destruct (negb (g_err acc =? 0)).
    - eexists m1, _, _, _. split; [reflexivity|exact Hrun].
    - destruct (deref_grp m1 g) as [grp1| | | |]; try discriminate.
      cbn [mbind outcome_bind] in Hrun.
      destruct (unzip_decompress _ _ _ _ _ _ _ _ _ _)
        as [[[[err1 pages1] pool2] m2]| | | |] eqn:Hdec; try discriminate.
      cbn [mbind outcome_bind] in Hrun.
      apply unzip_decompress_grps in Hdec.
      eexists m2, _, _, _. split; [exact Hdec|exact Hrun]. }
  destruct Hout as (m2 & pages_ & err0 & pool0 & Hg2 & Hout).
  assert (Hframe : forall g', g' <> g -> grps m' !! g' = grps m2 !! g').
  { unfold unzip_out in Hout.
    destruct (deref_grp m2 g) as [grp2| | | |]; try discriminate.
    cbn [mbind outcome_bind] in Hout.
    destruct (release_compressed _ _ _ _ _) as [[slots' pool3]| | | |];
      try discriminate.
    cbn [mbind outcome_bind] in Hout.
    destruct (end_pages _ _ _ _) as [[m3 pool4]| | | |] eqn:Hend;
      try discriminate.
    cbn [mbind outcome_bind] in Hout. injection Hout as <- <- <-.
    apply UnzipInv.end_pages_inv in Hend as [Hg3 _].
    intros g' Hne. cbn. rewrite lookup_insert_ne by congruence.
    rewrite Hg3. reflexivity. }
  apply (UnzipInv.unzip_out_inv clusterpages EROFS_FS_HAS_MANAGED_CACHE) in Hout
    as (_ & grp2 & grp' & Hgrp2 & Hgrp' & Hnext & Hwork & Hcount & _).
  assert (grp2 = with_work grp (with_lock (grp_work grp) true)) as ->.
  { rewrite Hg2 in Hgrp2. unfold m1 in Hgrp2. cbn in Hgrp2.
    rewrite lookup_insert_eq in Hgrp2. congruence. }
  split.
  - intros g' Hne. rewrite (Hframe g' Hne), Hg2. unfold m1. cbn.
    apply lookup_insert_ne. congruence.
  - exists grp, grp'. split; [exact Hgrp|]. split; [exact Hgrp'|].
    split; [exact Hnext|]. split; [rewrite Hwork; reflexivity|exact Hcount].
Qed.

End WithSuperblock.
End UnzipAllFacts.

(** X21.  [z_erofs_vle_unzip_all] decompresses every workgroup of the chain
    at [io->head], once.  For a chain that [next] links up to TAIL_CLOSED,
    and an allocator that leaves the workgroups alone, as many passes as
    the chain has workgroups are enough: more passes give the same result.
    Whenever the call returns, each workgroup of the chain has lost one
    reference and is idle, with [next] at NIL and its mutex free, and no
    other workgroup has changed. *)
Theorem unzip_all_walks_chain :
  forall (clusterpages : nat) (EROFS_FS_HAS_MANAGED_CACHE : bool)
         (PAGE_SHIFT : Z)
         (z_erofs_onlinepage_index z_erofs_onlinepage_index2 : struct_page -> Z)
         (plain_copy : list Z -> list Z -> Z -> Z)
         (unzip_fast_percpu : list Z -> list Z -> Z -> Z -> Z)
         (unzip_vmap : list Z -> list Z -> Z -> Z -> bool -> Z)
         (erofs_vmap : list Z -> bool)
         (erofs_allocpage : list Z -> mm -> Z * list Z * mm)
         (gs : list Z) (fuel : nat) (head : z_erofs_vle_owned_workgrp_t)
         (page_pool : list Z) (m : mm),
    (forall pool m0, grps (erofs_allocpage pool m0).2 = grps m0) ->
    UnzipAll.owned_chain m head gs ->
    (length gs <= fuel)%nat ->
    UnzipAll.z_erofs_vle_unzip_all clusterpages EROFS_FS_HAS_MANAGED_CACHE
      PAGE_SHIFT z_erofs_onlinepage_index z_erofs_onlinepage_index2 plain_copy
      unzip_fast_percpu unzip_vmap erofs_vmap erofs_allocpage
      fuel head page_pool m
    = UnzipAll.z_erofs_vle_unzip_all clusterpages EROFS_FS_HAS_MANAGED_CACHE
        PAGE_SHIFT z_erofs_onlinepage_index z_erofs_onlinepage_index2
        plain_copy unzip_fast_percpu unzip_vmap erofs_vmap erofs_allocpage
        (length gs) head page_pool m /\
    forall pool' m',
      UnzipAll.z_erofs_vle_unzip_all clusterpages EROFS_FS_HAS_MANAGED_CACHE
        PAGE_SHIFT z_erofs_onlinepage_index z_erofs_onlinepage_index2
        plain_copy unzip_fast_percpu unzip_vmap erofs_vmap erofs_allocpage
        fuel head page_pool m
      = Ok (pool', m') ->
      (forall g, g ∈ gs ->
         exists grp grp',
           grps m !! g = Some grp /\ grps m' !! g = Some grp' /\
           grp_next grp' = Z_EROFS_VLE_WORKGRP_NIL /\
           work_lock (grp_work grp') = false /\
           grp_refcount grp' = grp_refcount grp - 1) /\
      (forall g, g ∉ gs -> grps m' !! g = grps m !! g).
Proof.
  intros clusterpages MC PAGE_SHIFT idx idx2 plain fast vmapf vmap alloc gs.
  induction gs as [|x gs IH]; intros fuel head pool m Halloc Hchain Hfuel.
  - inversion Hchain; subst. destruct fuel; cbn.
    + split; [reflexivity|]. intros pool' m' [= <- <-]. split; [|reflexivity].
      intros g Hg. apply elem_of_nil in Hg. destruct Hg.
    + split; [reflexivity|]. intros pool' m' [= <- <-]. split; [|reflexivity].
      intros g Hg. apply elem_of_nil in Hg. destruct Hg.
  - pose proof Hchain as Hchain0.
    inversion Hchain as [|g grp gs0 Hgrp Hrest]; subst.
    apply UnzipAllFacts.owned_chain_head_once in Hchain0 as Honce.
    destruct fuel as [|fuel]; [cbn in Hfuel; lia|]. cbn [length] in Hfuel |- *.
    cbn [UnzipAll.z_erofs_vle_unzip_all].
    rewrite (ReclaimFacts.deref_grp_Some _ _ _ Hgrp). cbn [mbind outcome_bind].
    destruct (Unzip.z_erofs_vle_unzip clusterpages MC PAGE_SHIFT idx idx2 plain
                fast vmapf vmap alloc m (Z.pos g) pool)
      as [[[err m1] pool1]| | | |] eqn:Hunzip; cbn [mbind outcome_bind];
      try (split; [reflexivity|discriminate]).
    apply (UnzipAllFacts.unzip_effect clusterpages MC PAGE_SHIFT idx idx2 plain
             fast vmapf vmap alloc Halloc) in Hunzip
      as (Hframe & grp0 & grp' & Hgrp0 & Hgrp' & Hnext & Hlock & Hcount).
    assert (Hchain1 : UnzipAll.owned_chain m1 (grp_next grp) gs).
    { apply (UnzipAllFacts.owned_chain_frame m); [exact Hrest|].
      intros y Hy. apply Hframe. intros ->. contradiction. }
    destruct (IH fuel (grp_next grp) pool1 m1 Halloc Hchain1 ltac:(lia))
      as [Hsame Heffect].
    split; [exact Hsame|].
    intros pool' m' Hrun. destruct (Heffect pool' m' Hrun) as [Hin Hout].
    split.
    + intros y Hy. apply elem_of_cons in Hy as [->|Hy].
      * exists grp0, grp'. split; [exact Hgrp0|].
        split; [rewrite (Hout _ Honce); exact Hgrp'|]. auto.
      * destruct (Hin y Hy) as (grp1 & grp1' & Hy1 & Hy1' & Hrest1).
        exists grp1, grp1'. split; [|split; [exact Hy1'|exact Hrest1]].
        rewrite <- Hframe; [exact Hy1|]. intros ->. contradiction.
    + intros y Hy. apply not_elem_of_cons in Hy as [Hne Hy].
      rewrite (Hout y Hy). apply Hframe. exact Hne.
Qed.

Lemma unzip_all_walks_chain_witness :
  exists pool' m',
    demo_unzip_all 2 (WORKGRP 1000) [] demo_chain_mm = Ok (pool', m') /\
    (forall g, g ∈ [1000; 1100] ->
       exists grp grp',
         grps demo_chain_mm !! g = Some grp /\ grps m' !! g = Some grp' /\
         grp_next grp' = Z_EROFS_VLE_WORKGRP_NIL /\
         work_lock (grp_work grp') = false /\
         grp_refcount grp' = grp_refcount grp - 1) /\
    (forall g, g ∉ [1000; 1100] -> grps m' !! g = grps demo_chain_mm !! g).
Proof.
  eexists _, _. split; [vm_compute; reflexivity|].
  eapply (proj2 (unzip_all_walks_chain 1 true 12 pg_private pg_private
                  (fun _ _ _ => 0) (fun _ _ _ _ => 0) (fun _ _ _ _ _ => 0)
                  (fun _ => true) (fun pool m => (0, pool, m))
                  [1000; 1100] 2 (WORKGRP 1000) [] demo_chain_mm
                  ltac:(reflexivity)
                  ltac:(repeat (econstructor; try reflexivity))
                  ltac:(cbn; lia))).
  vm_compute. reflexivity.
Defined.

(** ** Picking the pages to read *)

Module SubmitFacts.
Import Submit.

Section WithSuperblock.

Variable erofs_allocpage : list Z -> mm -> Z * list Z * mm.
Variable add_to_page_cache_lru : Z -> Z -> mm -> Z * mm.

Hypothesis erofs_allocpage_grps : forall pool m,
  grps (erofs_allocpage pool m).2 = grps m.
Hypothesis add_to_page_cache_lru_grps : forall page index m,
  grps (add_to_page_cache_lru page index m).2 = grps m.

Lemma grab_add_to_managed_cache_inv g first_index nr page pool m p' pool' m' :
  grab_add_to_managed_cache add_to_page_cache_lru g first_index nr page pool m
  = Ok (p', pool', m') ->
  p' = page /\ grps m' = grps m.
Proof.
  unfold grab_add_to_managed_cache. intros Hrun.
  pose proof (add_to_page_cache_lru_grps page
                (u64 (first_index + Z.of_nat nr)) m) as Hg.
  destruct (add_to_page_cache_lru page _ m) as [err m1]. cbn [snd] in Hg.
  destruct (deref_page m1 page) as [pg| | | |]; try discriminate.
  cbn [mbind outcome_bind] in Hrun.
  destruct (negb (err =? 0)); injection Hrun as <- <- <-;
    (split; [reflexivity|exact Hg]).
Qed.

(** From [out_allocpage]: the slot gets the page that is returned. *)
Lemma grab_allocpage_inv g first_index nr tocache pool m grp p' pool' m' :
  grps m !! g = Some grp ->
  grab_allocpage erofs_allocpage add_to_page_cache_lru g first_index nr
    tocache pool m = Ok (p', pool', m') ->
  grps m'
  = <[g := with_compressed_pages grp (<[nr := p']> (grp_compressed_pages grp))]>
      (grps m).
Proof.
  unfold grab_allocpage. intros Hgrp Hrun.
  destruct (Unzip.__stagingpage_alloc erofs_allocpage pool m)
    as [[[page pool1] m1]| | | |] eqn:Halloc; try discriminate.
  cbn [mbind outcome_bind] in Hrun.
  apply (UnzipAllFacts.stagingpage_alloc_grps erofs_allocpage
           erofs_allocpage_grps) in Halloc.
  unfold deref_grp in Hrun. rewrite Halloc, Hgrp in Hrun.
  cbn [mbind outcome_bind] in Hrun.
  destruct tocache; cbn [negb] in Hrun.
  - apply grab_add_to_managed_cache_inv in Hrun as [-> ->].
    cbn. rewrite Halloc. reflexivity.
  - injection Hrun as <- <- <-. cbn. rewrite Halloc. reflexivity.
Qed.

(** What the slot holds when the call returns. *)
Lemma grab_page_slot EROFS_UNALLOCATED_CACHED_PAGE tagptr_unfold_tags
    tagptr_unfold_ptr g first_index nr pagepool m grp v page pool' m' :
  grps m !! g = Some grp ->
  grp_compressed_pages grp !! nr = Some v ->
  z_erofs_workgrp_grab_page_for_submission
    EROFS_UNALLOCATED_CACHED_PAGE tagptr_unfold_tags tagptr_unfold_ptr
    erofs_allocpage add_to_page_cache_lru g first_index nr pagepool m
  = Ok (page, pool', m') ->
  exists v',
    grps m'
    = <[g := with_compressed_pages grp
               (<[nr := v']> (grp_compressed_pages grp))]> (grps m) /\
    (v' = page \/
     (page = 0 /\ v' = tagptr_unfold_ptr v /\
      exists pg',
        pages m' !! v' = Some pg' /\
        pg_mapping pg' = MNGD_MAPPING /\ PG_uptodate pg' = true /\
        PG_private pg' = true /\ PG_locked pg' = false)).
Proof.
  intros Hgrp Hslot Hrun.
  pose proof erofs_allocpage_grps as Halloc.
  pose proof add_to_page_cache_lru_grps as Hadd.
  set (alloc := erofs_allocpage) in *. set (add := add_to_page_cache_lru) in *.
  set (unalloc := EROFS_UNALLOCATED_CACHED_PAGE) in *.
  set (tags := tagptr_unfold_tags) in *. set (ptr := tagptr_unfold_ptr) in *.
  rename pagepool into pool.
  unfold Submit.z_erofs_workgrp_grab_page_for_submission in Hrun.
  rewrite (ReclaimFacts.deref_grp_Some _ _ _ Hgrp) in Hrun.
  cbn [mbind outcome_bind] in Hrun. rewrite Hslot in Hrun.
  set (grpL := with_compressed_pages grp
                 (<[nr := PAGE_MIGRATE_LOCKED]> (grp_compressed_pages grp))) in *.
  set (mL := Submit.store_slot m g grp nr PAGE_MIGRATE_LOCKED) in *.
  assert (HgrpL : grps mL !! g = Some grpL) by apply lookup_insert_eq.
  assert (Hstore : forall m0 w, grps m0 = grps mL ->
            grps (Submit.store_slot m0 g grpL nr w)
            = <[g := with_compressed_pages grp
                       (<[nr := w]> (grp_compressed_pages grp))]> (grps m)).
  { intros m0 w Hm0. cbn. rewrite Hm0. cbn.
    rewrite insert_insert_eq, list_insert_insert_eq. reflexivity. }
  assert (Hfresh : forall tocache m0,
            grps m0 = grps mL ->
            Submit.grab_allocpage alloc add g first_index nr tocache pool m0
            = Ok (page, pool', m') ->
            grps m'
            = <[g := with_compressed_pages grp
                       (<[nr := page]> (grp_compressed_pages grp))]> (grps m)).
  { intros tocache m0 Hm0 Hr.
    apply (grab_allocpage_inv _ _ _ _ _ _ grpL)
      in Hr; [|rewrite Hm0; exact HgrpL].
    rewrite Hr, Hm0. cbn.
    rewrite insert_insert_eq, list_insert_insert_eq. reflexivity. }
  destruct (v =? 0).
  { exists page. split; [|left; reflexivity].
    exact (Hfresh false mL eq_refl Hrun). }
  destruct (v =? unalloc).
  { exists page. split; [|left; reflexivity].
    exact (Hfresh true mL eq_refl Hrun). }
  destruct (deref_page mL (ptr v)) as [pg| | | |] eqn:Hpg; try discriminate.
  cbn [mbind outcome_bind] in Hrun.
  destruct (bool_decide (pg_mapping pg = Z_EROFS_MAPPING_PREALLOCATED)).
  { apply (grab_add_to_managed_cache_inv) in Hrun
      as [-> Hg'].
    exists (ptr v). split; [|left; reflexivity].
    rewrite Hg'. apply Hstore. reflexivity. }
  destruct (bool_decide (pg_mapping pg <> MAPPING_NULL)
            && bool_decide (pg_mapping pg <> MNGD_MAPPING)).
  { injection Hrun as <- <- <-. exists (ptr v). split; [|left; reflexivity].
    apply Hstore. reflexivity. }
  destruct (PG_locked pg) eqn:Hlocked; [discriminate|].
  cbn [Submit.lock_page pg_mapping PG_private PG_uptodate] in Hrun.
  destruct (bool_decide (pg_mapping pg = MNGD_MAPPING)) eqn:Hmc.
  2:{ exists page. split; [|left; reflexivity].
      exact (Hfresh true (store_page mL (ptr v) _) eq_refl Hrun). }
  apply bool_decide_eq_true in Hmc.
  destruct (PG_private pg) eqn:Hpriv; cbn [negb] in Hrun.
  - cbn [Submit.lock_page PG_uptodate] in Hrun.
    destruct (PG_uptodate pg) eqn:Hup; injection Hrun as <- <- <-;
      exists (ptr v); (split; [apply Hstore; reflexivity|]).
    + right. split; [reflexivity|]. split; [reflexivity|].
      eexists. split; [cbn; apply lookup_insert_eq|]. cbn. auto.
    + left. reflexivity.
  - assert (Hsame : forall pg0,
              PG_uptodate (Submit.set_cached_page pg0 g) = PG_uptodate pg0)
      by reflexivity.
    rewrite Hsame in Hrun.
    assert (Hup0 : PG_uptodate
                     (if tags v =? 0
                      then Submit.get_page (Submit.lock_page pg)
                      else Submit.lock_page pg) = PG_uptodate pg)
      by (destruct (tags v =? 0); reflexivity).
    rewrite Hup0 in Hrun.
    destruct (PG_uptodate pg) eqn:Hup; injection Hrun as <- <- <-;
      exists (ptr v); (split; [apply Hstore; reflexivity|]).
    + right. split; [reflexivity|]. split; [reflexivity|].
      eexists. split; [cbn; apply lookup_insert_eq|].
      destruct (tags v =? 0); cbn; auto.
    + left. reflexivity.
Qed.

End WithSuperblock.
End SubmitFacts.

(** X22.  What [z_erofs_workgrp_grab_page_for_submission] leaves in the
    slot, with helpers that leave the workgroups alone.  Whenever the call
    returns, no workgroup but its own has changed, and of that only the
    slot [nr]: it holds the page that is returned.  The one exception is a
    page of the managed cache that is up to date: then NULL is returned,
    for there is nothing to read, and the slot keeps the page, which is
    attached to a workgroup and unlocked. *)
Theorem grab_page_fills_the_slot :
  forall (EROFS_UNALLOCATED_CACHED_PAGE : Z)
         (tagptr_unfold_tags tagptr_unfold_ptr : Z -> Z)
         (erofs_allocpage : list Z -> mm -> Z * list Z * mm)
         (add_to_page_cache_lru : Z -> Z -> mm -> Z * mm)
         (g first_index : Z) (nr : nat) (pagepool : list Z) (m : mm)
         (grp : z_erofs_vle_workgroup) (v page : Z) (pool' : list Z) (m' : mm),
    (forall pool m0, grps (erofs_allocpage pool m0).2 = grps m0) ->
    (forall p index m0, grps (add_to_page_cache_lru p index m0).2 = grps m0) ->
    grps m !! g = Some grp ->
    grp_compressed_pages grp !! nr = Some v ->
    Submit.z_erofs_workgrp_grab_page_for_submission
      EROFS_UNALLOCATED_CACHED_PAGE tagptr_unfold_tags tagptr_unfold_ptr
      erofs_allocpage add_to_page_cache_lru g first_index nr pagepool m
    = Ok (page, pool', m') ->
    exists v',
      grps m'
      = <[g := with_compressed_pages grp
                 (<[nr := v']> (grp_compressed_pages grp))]> (grps m) /\
      (v' = page \/
       (page = 0 /\ v' = tagptr_unfold_ptr v /\
        exists pg',
          pages m' !! v' = Some pg' /\
          pg_mapping pg' = MNGD_MAPPING /\ PG_uptodate pg' = true /\
          PG_private pg' = true /\ PG_locked pg' = false)).
Proof.
  intros unalloc tags ptr alloc add g first_index nr pool m grp v page pool' m'
    Halloc Hadd Hgrp Hslot Hrun.
  exact (SubmitFacts.grab_page_slot alloc add Halloc Hadd unalloc tags ptr g
           first_index nr pool m grp v page pool' m' Hgrp Hslot Hrun).
Qed.

Lemma grab_page_fills_the_slot_witness :
  exists m' v',
    demo_grab (demo_mm 2 true false) = Ok (0, [], m') /\
    grps m'
    = <[1000 := with_compressed_pages (demo_workgroup 2 true [] 0)
                  (<[0%nat := v']> [500])]> (grps (demo_mm 2 true false)) /\
    (v' = 0 \/
     (0 = 0 /\ v' = Z.land 500 (-2) /\
      exists pg',
        pages m' !! v' = Some pg' /\
        pg_mapping pg' = MNGD_MAPPING /\ PG_uptodate pg' = true /\
        PG_private pg' = true /\ PG_locked pg' = false)).
Proof.
  eexists _. 
  edestruct (grab_page_fills_the_slot 0x5F0EF00D
               (fun v => Z.land v 1) (fun v => Z.land v (-2))
               (fun pool m => (0, pool, m)) (fun _ _ m => (- ENOMEM, m))
               1000 5 0 [] (demo_mm 2 true false)
               (demo_workgroup 2 true [] 0) 500)
    as (v' & Hg & Hv').
  - reflexivity.
  - reflexivity.
  - reflexivity.
  - reflexivity.
  - vm_compute. reflexivity.
  - exists v'. split; [vm_compute; reflexivity|]. split; [exact Hg|exact Hv'].
Defined.

(** ** Submitting an owned chain *)

Module SubmitAllFacts.
Import Submit SubmitAll.

(** [grp->next] of every workgroup, as far as it exists. *)
Local Abbreviation nexts m x := (grp_next <$> (grps m !! x)).

Lemma nexts_store_next m x grp v y :
  nexts (store_grp m x (with_next grp v)) y
  = if decide (y = x) then Some v else nexts m y.
Proof.
  cbn. destruct (decide (y = x)) as [->|Hne].
  - rewrite lookup_insert_eq. reflexivity.
  - rewrite lookup_insert_ne by congruence. reflexivity.
Qed.

Lemma nexts_store_slot m g grp nr v y :
  grps m !! g = Some grp ->
  nexts (store_slot m g grp nr v) y = nexts m y.
Proof.
  intros Hgrp. cbn. destruct (decide (y = g)) as [->|Hne].
  - rewrite lookup_insert_eq, Hgrp. reflexivity.
  - rewrite lookup_insert_ne by congruence. reflexivity.
Qed.

Lemma chain_seg_frame m m' stop a l :
  chain_seg m stop a l ->
  (forall x, x ∈ l -> nexts m' x = nexts m x) ->
  chain_seg m' stop a l.
Proof.
  induction 1 as [|g grp gs Hgrp Hrest IH]; intros Hsame.
  - constructor.
  - pose proof (Hsame (Z.pos g) ltac:(apply elem_of_cons; auto)) as Hg.
    rewrite Hgrp in Hg. cbn in Hg.
    destruct (grps m' !! Z.pos g) as [grp'|] eqn:Hgrp'; [|discriminate].
    cbn in Hg. injection Hg as Hg.
    econstructor; [exact Hgrp'|]. rewrite Hg. apply IH.
    intros x Hx. apply Hsame, elem_of_cons. auto.
Qed.

Lemma chain_seg_snoc m g grp a l :
  chain_seg m (WORKGRP g) a l ->
  grps m !! Z.pos g = Some grp ->
  chain_seg m (grp_next grp) a (l ++ [Z.pos g]).
Proof.
  intros Hseg Hgrp.
  induction Hseg as [|g0 grp0 gs Hgrp0 Hrest IH].
  - cbn. econstructor; [exact Hgrp|]. constructor.
  - cbn. econstructor; [exact Hgrp0|]. exact IH.
Qed.

Lemma chain_seg_last m stop a l x :
  chain_seg m stop a (l ++ [x]) ->
  exists p grp, x = Z.pos p /\ grps m !! x = Some grp /\
                grp_next grp = stop /\ chain_seg m (WORKGRP p) a l.
Proof.
  revert a. induction l as [|y l IH]; intros a Hseg; cbn in Hseg.
  - inversion Hseg as [|g grp gs Hgrp Hrest]; subst.
    inversion Hrest; subst.
    exists g, grp. split; [reflexivity|]. split; [exact Hgrp|].
    split; [reflexivity|constructor].
  - inversion Hseg as [|g grp gs Hgrp Hrest]; subst.
    destruct (IH _ Hrest) as (p & grpx & -> & Hx & Hnext & Hl).
    exists p, grpx. split; [reflexivity|]. split; [exact Hx|].
    split; [exact Hnext|]. econstructor; eassumption.
Qed.

Lemma chain_seg_elem m stop a l :
  chain_seg m stop a l ->
  forall x, x ∈ l -> x <> 0 /\ is_Some (grps m !! x).
Proof.
  induction 1 as [|g grp gs Hgrp Hrest IH]; intros x Hx.
  - apply elem_of_nil in Hx. destruct Hx.
  - apply elem_of_cons in Hx as [->|Hx]; [|auto].
    split; [lia|eauto].
Qed.

Lemma chain_seg_owned m a l :
  chain_seg m Z_EROFS_VLE_WORKGRP_TAIL_CLOSED a l -> UnzipAll.owned_chain m a l.
Proof.
  induction 1 as [|g grp gs Hgrp Hrest IH].
  - constructor.
  - econstructor; [exact Hgrp|]. exact IH.
Qed.

(** An open chain, one that ends with TAIL, visits no workgroup twice. *)
Lemma chain_seg_functional m a l1 :
  chain_seg m Z_EROFS_VLE_WORKGRP_TAIL a l1 ->
  forall l2, chain_seg m Z_EROFS_VLE_WORKGRP_TAIL a l2 -> l1 = l2.
Proof.
  induction 1 as [|g grp gs Hgrp Hrest IH]; intros l2 H2.
  - inversion H2; subst. reflexivity.
  - inversion H2 as [|g0 grp0 gs0 Hgrp0 Hrest0]; subst.
    f_equal. apply IH. congruence.
Qed.

Lemma chain_seg_from m stop a l :
  chain_seg m stop a l ->
  forall x, x ∈ l ->
  exists p l', x = Z.pos p /\ chain_seg m stop (WORKGRP p) (x :: l') /\
               (length l' < length l)%nat.
Proof.
  induction 1 as [|g grp gs Hgrp Hrest IH]; intros x Hx.
  - apply elem_of_nil in Hx. destruct Hx.
  - apply elem_of_cons in Hx as [->|Hx].
    + exists g, gs. split; [reflexivity|]. split; [|cbn; lia].
      econstructor; eassumption.
    + destruct (IH x Hx) as (p & l' & -> & Hseg & Hlen).
      exists p, l'. split; [reflexivity|]. split; [exact Hseg|cbn; lia].
Qed.

Lemma chain_seg_NoDup m a l :
  chain_seg m Z_EROFS_VLE_WORKGRP_TAIL a l -> NoDup l.
Proof.
  induction 1 as [|g grp gs Hgrp Hrest IH].
  - constructor.
  - apply NoDup_cons. split; [|exact IH].
    intros Hin.
    destruct (chain_seg_from _ _ _ _ Hrest _ Hin)
      as (p & l' & [= <-] & Hfrom & Hlen).
    assert (Hall : chain_seg m Z_EROFS_VLE_WORKGRP_TAIL (WORKGRP g)
                     (Z.pos g :: gs)) by (econstructor; eassumption).
    pose proof (chain_seg_functional _ _ _ Hall _ Hfrom) as [= ->]. lia.
Qed.

Section WithSuperblock.

Variable clusterpages : nat.
Variable EROFS_UNALLOCATED_CACHED_PAGE : Z.
Variable tagptr_unfold_tags : Z -> Z.
Variable tagptr_unfold_ptr : Z -> Z.
Variable erofs_allocpage : list Z -> mm -> Z * list Z * mm.
Variable add_to_page_cache_lru : Z -> Z -> mm -> Z * mm.
Variable bio_add_page : list Z -> Z -> bool.

Hypothesis erofs_allocpage_grps : forall pool m,
  grps (erofs_allocpage pool m).2 = grps m.
Hypothesis add_to_page_cache_lru_grps : forall page index m,
  grps (add_to_page_cache_lru page index m).2 = grps m.

(** The chain without io while it is built: its workgroups but the last
    are linked from [ios[0]->head] to the last one, [lstgrp_noio], whose
    [next] is yet to be written. *)
Local Abbreviation noio_inv m ch P0 :=
  ((P0 = [] /\ c_lstgrp_noio ch = 0) \/
   (exists Q p, P0 = Q ++ [Z.pos p] /\
                chain_seg m (WORKGRP p) (c_head0 ch) Q /\
                c_lstgrp_noio ch = Z.pos p /\
                is_Some (grps m !! Z.pos p))).

Lemma nexts_is_Some m m' x :
  nexts m' x = nexts m x -> is_Some (grps m !! x) -> is_Some (grps m' !! x).
Proof.
  intros Hn [grp Hgrp]. rewrite Hgrp in Hn.
  destruct (grps m' !! x); [eauto|discriminate].
Qed.

Lemma last_nonnull (l : list Z) :
  (forall x, x ∈ l -> x <> 0) ->
  (List.last l 0 = 0 -> l = []) /\
  (List.last l 0 <> 0 -> exists l', l = l' ++ [List.last l 0]).
Proof.
  intros Hnz. destruct l as [|a l] using rev_ind.
  - split; [reflexivity|]. intros Hc. destruct Hc. reflexivity.
  - rewrite last_last. split; [|eauto].
    intros ->. destruct (Hnz 0); [|reflexivity].
    apply elem_of_app. right. apply list_elem_of_singleton. reflexivity.
Qed.

(** What the end of a pass does to the two chains, for the workgroup at
    [g] whose [next] is by now [stop]. *)
Lemma submit_link_spec g noio old stop ch m P0 P1 grp ch' m' :
  grps m !! Z.pos g = Some grp ->
  grp_next grp = stop ->
  stop = (if decide (old = Z_EROFS_VLE_WORKGRP_TAIL)
          then Z_EROFS_VLE_WORKGRP_TAIL_CLOSED else old) ->
  chain_seg m (WORKGRP g) (c_head1 ch) P1 ->
  c_lstgrp_io ch = List.last P1 0 ->
  noio_inv m ch P0 ->
  NoDup (P0 ++ P1 ++ [Z.pos g]) ->
  submit_link clusterpages g noio old ch m = Ok (ch', m') ->
  (forall y, y ∉ P0 ++ P1 -> nexts m' y = nexts m y) /\
  ((chain_seg m' stop (c_head1 ch') (P1 ++ [Z.pos g]) /\
    c_lstgrp_io ch' = List.last (P1 ++ [Z.pos g]) 0 /\
    noio_inv m' ch' P0 /\ c_head0 ch' = c_head0 ch /\
    (noio <? Z.of_nat clusterpages) = true) \/
   (chain_seg m' stop (c_head1 ch') P1 /\
    c_lstgrp_io ch' = List.last P1 0 /\
    noio_inv m' ch' (P0 ++ [Z.pos g]) /\
    (noio <? Z.of_nat clusterpages) = false)).
Proof.
  intros Hgrp Hnext Hstop Hio Hlast Hnoio Hnodup Hrun.
  unfold submit_link in Hrun. rewrite <- Hstop in Hrun.
  apply NoDup_app in Hnodup as (Hnd0 & Hdisj0 & Hnodup).
  apply NoDup_app in Hnodup as (Hnd1 & Hdisj1 & _).
  assert (Hg1 : Z.pos g ∉ P1).
  { intros Hin. apply (Hdisj1 _ Hin), list_elem_of_singleton. reflexivity. }
  assert (Hg0 : Z.pos g ∉ P0).
  { intros Hin. apply (Hdisj0 _ Hin), elem_of_app. right.
    apply list_elem_of_singleton. reflexivity. }
  destruct (noio <? Z.of_nat clusterpages).
  { (* the workgroup has io *)
    injection Hrun as <- <-. split; [reflexivity|]. left.
    split; [rewrite <- Hnext; apply chain_seg_snoc; assumption|].
    split; [cbn; rewrite last_last; reflexivity|].
    split; [exact Hnoio|split; reflexivity]. }
  (* the chain with io skips the workgroup *)
  assert (Hstep1 : exists ch1 m1,
    (if c_lstgrp_io ch =? 0
     then Ok (mk_chains (c_head0 ch) stop (c_lstgrp_noio ch) (c_lstgrp_io ch), m)
     else l ← deref_grp m (c_lstgrp_io ch);
          Ok (ch, store_grp m (c_lstgrp_io ch) (with_next l stop)))
    = Ok (ch1, m1) /\
    c_head0 ch1 = c_head0 ch /\ c_lstgrp_noio ch1 = c_lstgrp_noio ch /\
    c_lstgrp_io ch1 = c_lstgrp_io ch /\
    chain_seg m1 stop (c_head1 ch1) P1 /\
    (forall y, y ∉ P1 -> nexts m1 y = nexts m y)).
  { destruct (last_nonnull P1) as [Hnull Hsome];
      [intros x Hx; apply (chain_seg_elem _ _ _ _ Hio x Hx)|].
    destruct (Z.eqb_spec (c_lstgrp_io ch) 0) as [Hz|Hnz].
    - rewrite Hlast in Hz. rewrite (Hnull Hz) in *.
      inversion Hio; subst.
      eexists _, _. split; [reflexivity|]. cbn.
      repeat (split; [reflexivity|]). split; [constructor|reflexivity].
    - rewrite Hlast in Hnz. destruct (Hsome Hnz) as [P1' HP1].
      rewrite <- Hlast in HP1. rewrite HP1 in Hio, Hnd1.
      destruct (chain_seg_last _ _ _ _ _ Hio) as (p & l & Hp & Hl & _ & Hseg).
      rewrite Hp in Hl, HP1, Hnd1 |- *.
      rewrite (ReclaimFacts.deref_grp_Some _ _ _ Hl). cbn [mbind outcome_bind].
      eexists _, _. split; [reflexivity|].
      split; [reflexivity|]. split; [reflexivity|]. split; [exact Hp|].
      apply NoDup_app in Hnd1 as (_ & Hdisj & _).
      split.
      + rewrite HP1.
        change stop with (grp_next (with_next l stop)).
        apply chain_seg_snoc.
        * apply (chain_seg_frame m); [exact Hseg|].
          intros x Hx. rewrite nexts_store_next.
          destruct (decide (x = Z.pos p)) as [->|_]; [|reflexivity].
          destruct (Hdisj _ Hx). apply list_elem_of_singleton. reflexivity.
        * cbn. apply lookup_insert_eq.
      + intros y Hy. rewrite nexts_store_next.
        destruct (decide (y = Z.pos p)) as [->|_]; [|reflexivity].
        destruct Hy. rewrite HP1. apply elem_of_app. right.
        apply list_elem_of_singleton. reflexivity. }
  destruct Hstep1 as (ch1 & m1 & Heq1 & Hh0 & Hn0 & Hi0 & Hio1 & Hsame1).
  rewrite Heq1 in Hrun. cbn [mbind outcome_bind] in Hrun.
  assert (Hg_m1 : is_Some (grps m1 !! Z.pos g)).
  { apply (nexts_is_Some m); [apply Hsame1; exact Hg1|eauto]. }
  rewrite Hn0 in Hrun.
  destruct Hnoio as [[-> Hnull]|(Q & p & -> & Hseg0 & Hl0 & Hsome0)].
  - (* the first workgroup without io *)
    rewrite Hnull in Hrun. cbn [Z.eqb mbind outcome_bind] in Hrun.
    injection Hrun as <- <-. cbn [c_head1 c_lstgrp_io].
    split; [intros y Hy; apply Hsame1; intros Hc; apply Hy, elem_of_app; auto|].
    right.
    split; [exact Hio1|]. split; [rewrite Hi0; exact Hlast|].
    split; [|reflexivity].
    right. exists [], g. split; [reflexivity|].
    split; [constructor|]. split; [reflexivity|exact Hg_m1].
  - rewrite Hl0 in Hrun. cbn [Z.eqb] in Hrun.
    assert (Hp1 : Z.pos p ∉ P1).
    { intros Hin. apply (Hdisj0 (Z.pos p)).
      - apply elem_of_app. right. apply list_elem_of_singleton. reflexivity.
      - apply elem_of_app. left. exact Hin. }
    assert (Hsome1 : is_Some (grps m1 !! Z.pos p))
      by (apply (nexts_is_Some m); [apply Hsame1; exact Hp1|exact Hsome0]).
    destruct Hsome1 as [l0 Hl0m1].
    rewrite (ReclaimFacts.deref_grp_Some _ _ _ Hl0m1) in Hrun.
    cbn [mbind outcome_bind] in Hrun. injection Hrun as <- <-.
    cbn [c_head0 c_head1 c_lstgrp_io c_lstgrp_noio].
    apply NoDup_app in Hnd0 as (_ & HdisjQ & _).
    split.
    { intros y Hy. rewrite nexts_store_next.
      destruct (decide (y = Z.pos p)) as [->|_].
      - destruct Hy. apply elem_of_app. left. apply elem_of_app. right.
        apply list_elem_of_singleton. reflexivity.
      - apply Hsame1. intros Hc. apply Hy, elem_of_app. auto. }
    right. split.
    { apply (chain_seg_frame m1); [exact Hio1|].
      intros x Hx. rewrite nexts_store_next.
      destruct (decide (x = Z.pos p)) as [->|_]; [contradiction|reflexivity]. }
    split; [rewrite Hi0; exact Hlast|].
    split; [|reflexivity].
    right. exists (Q ++ [Z.pos p]), g. split; [reflexivity|].
    split.
    { change (WORKGRP g) with (grp_next (with_next l0 (WORKGRP g))).
      apply chain_seg_snoc; [|cbn; apply lookup_insert_eq].
      rewrite Hh0. apply (chain_seg_frame m); [exact Hseg0|].
      intros x Hx. rewrite nexts_store_next.
      destruct (decide (x = Z.pos p)) as [->|_].
      - destruct (HdisjQ _ Hx). apply list_elem_of_singleton. reflexivity.
      - apply Hsame1. intros Hc. apply (Hdisj0 x).
        + apply elem_of_app. left. exact Hx.
        + apply elem_of_app. left. exact Hc. }
    split; [reflexivity|].
    cbn. rewrite lookup_insert_ne by (intros [= ->]; apply Hg0, elem_of_app;
      right; apply list_elem_of_singleton; reflexivity).
    exact Hg_m1.
Qed.

(** Picking a page changes, of all workgroups, only the slots of its own. *)
Lemma grab_page_grps g first_index nr pool m grp page pool' m' :
  grps m !! g = Some grp ->
  z_erofs_workgrp_grab_page_for_submission EROFS_UNALLOCATED_CACHED_PAGE
    tagptr_unfold_tags tagptr_unfold_ptr erofs_allocpage add_to_page_cache_lru
    g first_index nr pool m = Ok (page, pool', m') ->
  exists slots', grps m' = <[g := with_compressed_pages grp slots']> (grps m).
Proof.
  intros Hgrp Hrun.
  unfold z_erofs_workgrp_grab_page_for_submission in Hrun.
  rewrite (ReclaimFacts.deref_grp_Some _ _ _ Hgrp) in Hrun.
  cbn [mbind outcome_bind] in Hrun.
  destruct (grp_compressed_pages grp !! nr) as [v|]; [|discriminate].
  set (grpL := with_compressed_pages grp
                 (<[nr := PAGE_MIGRATE_LOCKED]> (grp_compressed_pages grp))) in *.
  set (mL := store_slot m g grp nr PAGE_MIGRATE_LOCKED) in *.
  assert (HgrpL : grps mL !! g = Some grpL) by apply lookup_insert_eq.
  assert (Hstore : forall m0 w, grps m0 = grps mL ->
            exists slots',
              grps (store_slot m0 g grpL nr w)
              = <[g := with_compressed_pages grp slots']> (grps m)).
  { intros m0 w Hm0. eexists. cbn. rewrite Hm0. cbn.
    rewrite insert_insert_eq. reflexivity. }
  assert (Hfresh : forall tocache m0,
            grps m0 = grps mL ->
            grab_allocpage erofs_allocpage add_to_page_cache_lru g first_index
              nr tocache pool m0 = Ok (page, pool', m') ->
            exists slots',
              grps m' = <[g := with_compressed_pages grp slots']> (grps m)).
  { intros tocache m0 Hm0 Hr.
    apply (SubmitFacts.grab_allocpage_inv erofs_allocpage add_to_page_cache_lru
             erofs_allocpage_grps add_to_page_cache_lru_grps _ _ _ _ _ _ grpL)
      in Hr; [|rewrite Hm0; exact HgrpL].
    eexists. rewrite Hr, Hm0. cbn. rewrite insert_insert_eq. reflexivity. }
  destruct (v =? 0); [exact (Hfresh false mL eq_refl Hrun)|].
  destruct (v =? EROFS_UNALLOCATED_CACHED_PAGE);
    [exact (Hfresh true mL eq_refl Hrun)|].
  destruct (deref_page mL (tagptr_unfold_ptr v)) as [pg| | | |];
    try discriminate.
  cbn [mbind outcome_bind] in Hrun.
  destruct (bool_decide (pg_mapping pg = Z_EROFS_MAPPING_PREALLOCATED)).
  { apply (SubmitFacts.grab_add_to_managed_cache_inv add_to_page_cache_lru
             add_to_page_cache_lru_grps) in Hrun as [_ ->].
    apply Hstore. reflexivity. }
  destruct (bool_decide (pg_mapping pg <> MAPPING_NULL)
            && bool_decide (pg_mapping pg <> MNGD_MAPPING)).
  { injection Hrun as <- <- <-. apply Hstore. reflexivity. }
  destruct (PG_locked pg); [discriminate|].
  destruct (bool_decide (pg_mapping (lock_page pg) = MNGD_MAPPING)).
  - match type of Hrun with
    | (if ?c then _ else _) = _ =>
        destruct c; injection Hrun as <- <- <-; apply Hstore; reflexivity
    end.
  - exact (Hfresh true (store_page mL (tagptr_unfold_ptr v) _) eq_refl Hrun).
Qed.

Lemma grab_page_nexts g first_index nr pool m grp page pool' m' :
  grps m !! g = Some grp ->
  z_erofs_workgrp_grab_page_for_submission EROFS_UNALLOCATED_CACHED_PAGE
    tagptr_unfold_tags tagptr_unfold_ptr erofs_allocpage add_to_page_cache_lru
    g first_index nr pool m = Ok (page, pool', m') ->
  forall y, nexts m' y = nexts m y.
Proof.
  intros Hgrp Hrun y.
  destruct (grab_page_grps _ _ _ _ _ _ _ _ _ Hgrp Hrun) as [slots' ->].
  destruct (decide (y = g)) as [->|Hne].
  - rewrite lookup_insert_eq, Hgrp. reflexivity.
  - rewrite lookup_insert_ne by congruence. reflexivity.
Qed.

(** The bios are built without a look at the memory; the pages of a
    workgroup are picked without a change to any [next]. *)
Lemma submit_pages_nexts fuel todo : forall g first_index noio st m noio' st' m',
  is_Some (grps m !! g) ->
  submit_pages EROFS_UNALLOCATED_CACHED_PAGE tagptr_unfold_tags
    tagptr_unfold_ptr erofs_allocpage add_to_page_cache_lru bio_add_page
    fuel todo g first_index noio st m = Ok (noio', st', m') ->
  forall y, nexts m' y = nexts m y.
Proof.
  induction todo as [|i todo IH]; intros g first_index noio st m noio' st' m'
    [grp Hgrp] Hrun y; cbn [submit_pages] in Hrun.
  - injection Hrun as <- <- <-. reflexivity.
  - destruct (z_erofs_workgrp_grab_page_for_submission _ _ _ _ _ g first_index
                i (s_pagepool st) m) as [[[page pool1] m1]| | | |] eqn:Hgrab;
      try discriminate.
    cbn [mbind outcome_bind] in Hrun.
    pose proof (grab_page_nexts _ _ _ _ _ _ _ _ _ Hgrp Hgrab) as Hn.
    assert (Hg1 : is_Some (grps m1 !! g)).
    { specialize (Hn g). rewrite Hgrp in Hn.
      destruct (grps m1 !! g); [eauto|discriminate]. }
    destruct (page =? 0).
    + rewrite (IH _ _ _ _ _ _ _ _ Hg1 Hrun y). apply Hn.
    + destruct (bio_add _ _ _ _ _ _) as [st1| | | |]; try discriminate.
      cbn [mbind outcome_bind] in Hrun.
      rewrite (IH _ _ _ _ _ _ _ _ Hg1 Hrun y). apply Hn.
Qed.

(** *** Which pages are read

    A slot needs no read if it holds NULL or a page that is up to date; a
    slot is read if its page is in a bio. *)

(** No page loses [PG_uptodate]. *)
Local Abbreviation uptodate_kept m m' :=
  (forall p pg, pages m !! p = Some pg -> PG_uptodate pg = true ->
     exists pg', pages m' !! p = Some pg' /\ PG_uptodate pg' = true).

Local Abbreviation slots m x := (grp_compressed_pages <$> grps m !! x).

(** The pages of the bios grabbed so far, in the order they were added. *)
Local Abbreviation bio_pages st :=
  (concat (bi_pages <$> s_submitted st) ++ from_option bi_pages [] (s_bio st)).

Local Abbreviation slot_noio m g i :=
  (exists grp p, grps m !! g = Some grp /\
     grp_compressed_pages grp !! i = Some p /\
     (p = 0 \/ exists pg, pages m !! p = Some pg /\ PG_uptodate pg = true)).

Local Abbreviation slot_io m bios g i :=
  (exists grp p, grps m !! g = Some grp /\
     grp_compressed_pages grp !! i = Some p /\ p <> 0 /\ p ∈ bios).

Lemma uptodate_kept_trans m1 m2 m3 :
  uptodate_kept m1 m2 -> uptodate_kept m2 m3 -> uptodate_kept m1 m3.
Proof.
  intros H12 H23 p pg Hp Hup.
  destruct (H12 p pg Hp Hup) as (pg2 & Hp2 & Hup2). eauto.
Qed.

Lemma uptodate_kept_pages m m' : pages m' = pages m -> uptodate_kept m m'.
Proof. intros Heq p pg Hp Hup. rewrite Heq. eauto. Qed.

Lemma uptodate_kept_store_page m p pg pg' :
  deref_page m p = Ok pg ->
  PG_uptodate pg' = PG_uptodate pg ->
  uptodate_kept m (store_page m p pg').
Proof.
  intros Hpg Heq q pgq Hq Hup. apply UnzipFacts.deref_page_inv in Hpg.
  cbn. destruct (decide (q = p)) as [->|Hne].
  - rewrite lookup_insert_eq. eexists. split; [reflexivity|]. congruence.
  - rewrite lookup_insert_ne by congruence. eauto.
Qed.

Lemma submit_bio_pages st : bio_pages (submit_bio st) = bio_pages st.
Proof.
  unfold submit_bio. destruct (s_bio st) as [b|] eqn:Hbio; cbn.
  - rewrite fmap_app, concat_app. cbn. rewrite !app_nil_r. reflexivity.
  - rewrite Hbio. reflexivity.
Qed.

Lemma submit_bio_submitted_pages st :
  concat (bi_pages <$> s_submitted (submit_bio st)) = bio_pages st.
Proof.
  unfold submit_bio. destruct (s_bio st) as [b|] eqn:Hbio; cbn.
  - rewrite fmap_app, concat_app. cbn. rewrite !app_nil_r. reflexivity.
  - rewrite app_nil_r. reflexivity.
Qed.

Lemma bio_add_pages fuel : forall first_index i page st st',
  bio_add bio_add_page fuel first_index i page st = Ok st' ->
  bio_pages st' = bio_pages st ++ [page].
Proof.
  induction fuel as [|fuel IH]; intros first_index i page st st' Hrun;
    cbn [bio_add] in Hrun.
  - destruct (s_bio st) as [b|] eqn:Hbio; cbn [s_bio] in Hrun.
    + rewrite Hbio in Hrun. destruct (bio_add_page _ _); [|discriminate].
      injection Hrun as <-. cbn. rewrite app_assoc. reflexivity.
    + destruct (bio_add_page _ _); [|discriminate].
      injection Hrun as <-. cbn. rewrite app_nil_r. reflexivity.
  - destruct (s_bio st) as [b|] eqn:Hbio; cbn [s_bio] in Hrun.
    + rewrite Hbio in Hrun. destruct (bio_add_page _ _).
      * injection Hrun as <-. cbn. rewrite app_assoc. reflexivity.
      * rewrite (IH _ _ _ _ _ Hrun), submit_bio_pages, Hbio. reflexivity.
    + destruct (bio_add_page _ _).
      * injection Hrun as <-. cbn. rewrite app_nil_r. reflexivity.
      * rewrite (IH _ _ _ _ _ Hrun), submit_bio_pages. cbn.
        rewrite !app_nil_r. reflexivity.
Qed.

Section WithPagesKept.

Hypothesis erofs_allocpage_uptodate : forall pool m,
  uptodate_kept m (erofs_allocpage pool m).2.
Hypothesis add_to_page_cache_lru_uptodate : forall page index m,
  uptodate_kept m (add_to_page_cache_lru page index m).2.

Lemma grab_add_to_managed_cache_uptodate g first_index nr page pool m p' pool' m' :
  grab_add_to_managed_cache add_to_page_cache_lru g first_index nr page pool m
  = Ok (p', pool', m') ->
  uptodate_kept m m'.
Proof.
  unfold grab_add_to_managed_cache. intros Hrun.
  pose proof (add_to_page_cache_lru_uptodate page
                (u64 (first_index + Z.of_nat nr)) m) as Hk.
  destruct (add_to_page_cache_lru page _ m) as [err m1]. cbn [snd] in Hk.
  destruct (deref_page m1 page) as [pg| | | |] eqn:Hpg; try discriminate.
  cbn [mbind outcome_bind] in Hrun.
  apply (uptodate_kept_trans _ m1); [exact Hk|].
  destruct (negb (err =? 0)); injection Hrun as <- <- <-;
    apply (uptodate_kept_store_page _ _ pg); [exact Hpg|reflexivity
                                             |exact Hpg|reflexivity].
Qed.

Lemma stagingpage_alloc_uptodate pool m page pool' m' :
  Unzip.__stagingpage_alloc erofs_allocpage pool m = Ok (page, pool', m') ->
  uptodate_kept m m'.
Proof.
  unfold Unzip.__stagingpage_alloc. intros Hrun.
  pose proof (erofs_allocpage_uptodate pool m) as Hk.
  destruct (erofs_allocpage pool m) as [[page1 pool1] m1]. cbn [snd] in Hk.
  destruct (page1 =? 0); [injection Hrun as <- <- <-; exact Hk|].
  destruct (deref_page m1 page1) as [pg| | | |] eqn:Hpg; try discriminate.
  cbn [mbind outcome_bind] in Hrun. injection Hrun as <- <- <-.
  apply (uptodate_kept_trans _ m1); [exact Hk|].
  apply (uptodate_kept_store_page _ _ pg); [exact Hpg|reflexivity].
Qed.

Lemma grab_allocpage_uptodate g first_index nr tocache pool m p' pool' m' :
  grab_allocpage erofs_allocpage add_to_page_cache_lru g first_index nr
    tocache pool m = Ok (p', pool', m') ->
  uptodate_kept m m'.
Proof.
  unfold grab_allocpage. intros Hrun.
  destruct (Unzip.__stagingpage_alloc erofs_allocpage pool m)
    as [[[page pool1] m1]| | | |] eqn:Halloc; try discriminate.
  cbn [mbind outcome_bind] in Hrun.
  pose proof (stagingpage_alloc_uptodate _ _ _ _ _ Halloc) as Hk.
  destruct (deref_grp m1 g) as [grp| | | |]; try discriminate.
  cbn [mbind outcome_bind] in Hrun.
  apply (uptodate_kept_trans _ m1); [exact Hk|].
  destruct tocache; cbn [negb] in Hrun.
  - apply (uptodate_kept_trans _ (store_slot m1 g grp nr page));
      [apply uptodate_kept_pages; reflexivity|].
    exact (grab_add_to_managed_cache_uptodate _ _ _ _ _ _ _ _ _ Hrun).
  - injection Hrun as <- <- <-. apply uptodate_kept_pages. reflexivity.
Qed.

Lemma grab_page_uptodate g first_index nr pool m page pool' m' :
  z_erofs_workgrp_grab_page_for_submission EROFS_UNALLOCATED_CACHED_PAGE
    tagptr_unfold_tags tagptr_unfold_ptr erofs_allocpage add_to_page_cache_lru
    g first_index nr pool m = Ok (page, pool', m') ->
  uptodate_kept m m'.
Proof.
  intros Hrun.
  unfold z_erofs_workgrp_grab_page_for_submission in Hrun.
  destruct (deref_grp m g) as [grp| | | |]; try discriminate.
  cbn [mbind outcome_bind] in Hrun.
  destruct (grp_compressed_pages grp !! nr) as [v|]; [|discriminate].
  set (grpL := with_compressed_pages grp
                 (<[nr := PAGE_MIGRATE_LOCKED]> (grp_compressed_pages grp))) in *.
  set (mL := store_slot m g grp nr PAGE_MIGRATE_LOCKED) in *.
  assert (HmL : uptodate_kept m mL) by (apply uptodate_kept_pages; reflexivity).
  apply (uptodate_kept_trans _ mL); [exact HmL|]. clear HmL.
  destruct (v =? 0); [exact (grab_allocpage_uptodate _ _ _ _ _ _ _ _ _ Hrun)|].
  destruct (v =? EROFS_UNALLOCATED_CACHED_PAGE);
    [exact (grab_allocpage_uptodate _ _ _ _ _ _ _ _ _ Hrun)|].
  destruct (deref_page mL (tagptr_unfold_ptr v)) as [pg| | | |] eqn:Hpg;
    try discriminate.
  cbn [mbind outcome_bind] in Hrun.
  destruct (bool_decide (pg_mapping pg = Z_EROFS_MAPPING_PREALLOCATED)).
  { apply (uptodate_kept_trans _ (store_slot mL g grpL nr (tagptr_unfold_ptr v)));
      [apply uptodate_kept_pages; reflexivity|].
    exact (grab_add_to_managed_cache_uptodate _ _ _ _ _ _ _ _ _ Hrun). }
  destruct (bool_decide (pg_mapping pg <> MAPPING_NULL)
            && bool_decide (pg_mapping pg <> MNGD_MAPPING)).
  { injection Hrun as <- <- <-. apply uptodate_kept_pages. reflexivity. }
  destruct (PG_locked pg); [discriminate|].
  destruct (bool_decide (pg_mapping (lock_page pg) = MNGD_MAPPING)).
  - apply (uptodate_kept_trans _ (store_slot mL g grpL nr (tagptr_unfold_ptr v)));
      [apply uptodate_kept_pages; reflexivity|].
    match type of Hrun with
    | (if ?c then _ else _) = _ =>
        destruct c; injection Hrun as <- <- <-;
          apply (uptodate_kept_store_page _ _ pg); try exact Hpg;
          destruct (PG_private pg), (tagptr_unfold_tags v =? 0); reflexivity
    end.
  - refine (uptodate_kept_trans _ _ _ _
              (grab_allocpage_uptodate _ _ _ _ _ _ _ _ _ Hrun)).
    apply (uptodate_kept_store_page _ _ pg); [exact Hpg|reflexivity].
Qed.

(** The pages of a workgroup, slot by slot: the slots counted by [noio]
    need no read, and the page of every other is in a bio. *)
Lemma submit_pages_slots fuel todo :
  forall g first_index noio st m grp noio' st' m',
  grps m !! g = Some grp ->
  NoDup todo ->
  0 <= noio -> noio + Z.of_nat (length todo) < 2 ^ 32 ->
  submit_pages EROFS_UNALLOCATED_CACHED_PAGE tagptr_unfold_tags
    tagptr_unfold_ptr erofs_allocpage add_to_page_cache_lru bio_add_page
    fuel todo g first_index noio st m = Ok (noio', st', m') ->
  exists slots' nulls rest,
    grps m' = <[g := with_compressed_pages grp slots']> (grps m) /\
    (forall j, j ∉ todo -> slots' !! j = grp_compressed_pages grp !! j) /\
    todo ≡ₚ nulls ++ rest /\
    noio' = noio + Z.of_nat (length nulls) /\
    Forall (fun i => exists p, slots' !! i = Some p /\
              (p = 0 \/ exists pg, pages m' !! p = Some pg /\
                                   PG_uptodate pg = true)) nulls /\
    Forall (fun i => exists p, slots' !! i = Some p /\ p <> 0 /\
                               p ∈ bio_pages st') rest /\
    (forall p, p ∈ bio_pages st -> p ∈ bio_pages st') /\
    uptodate_kept m m'.
Proof.
  induction todo as [|i todo IH]; intros g first_index noio st m grp noio' st' m'
    Hgrp Hnodup Hlo Hhi Hrun; cbn [submit_pages] in Hrun.
  - injection Hrun as <- <- <-.
    exists (grp_compressed_pages grp), [], [].
    split.
    { symmetry. apply insert_id. rewrite Hgrp. f_equal.
      destruct grp; reflexivity. }
    split; [reflexivity|]. split; [reflexivity|]. split; [cbn; lia|].
    split; [constructor|]. split; [constructor|]. split; [auto|].
    apply uptodate_kept_pages. reflexivity.
  - cbn [length] in Hhi. rewrite Nat2Z.inj_succ in Hhi.
    apply NoDup_cons in Hnodup as [Hi Hnodup].
    destruct (z_erofs_workgrp_grab_page_for_submission _ _ _ _ _ g first_index
                i (s_pagepool st) m) as [[[page pool1] m1]| | | |] eqn:Hgrab;
      try discriminate.
    cbn [mbind outcome_bind] in Hrun.
    pose proof (grab_page_uptodate _ _ _ _ _ _ _ _ Hgrab) as Hk1.
    assert (Hslot : exists v, grp_compressed_pages grp !! i = Some v).
    { unfold z_erofs_workgrp_grab_page_for_submission in Hgrab.
      rewrite (ReclaimFacts.deref_grp_Some _ _ _ Hgrp) in Hgrab.
      cbn [mbind outcome_bind] in Hgrab.
      destruct (grp_compressed_pages grp !! i); [eauto|discriminate]. }
    destruct Hslot as [v Hslot].
    destruct (SubmitFacts.grab_page_slot erofs_allocpage add_to_page_cache_lru
                erofs_allocpage_grps add_to_page_cache_lru_grps _ _ _ _ _ _ _ _
                _ _ _ _ _ Hgrp Hslot Hgrab) as (v' & Hg1 & Hv').
    set (grp1 := with_compressed_pages grp (<[i := v']> (grp_compressed_pages grp)))
      in *.
    assert (Hgrp1 : grps m1 !! g = Some grp1)
      by (rewrite Hg1; apply lookup_insert_eq).
    assert (Hi_len : (i < length (grp_compressed_pages grp))%nat)
      by (apply lookup_lt_is_Some; eauto).
    assert (Hfin : forall noio1 st1,
              0 <= noio1 -> noio1 + Z.of_nat (length todo) < 2 ^ 32 ->
              submit_pages EROFS_UNALLOCATED_CACHED_PAGE tagptr_unfold_tags
                tagptr_unfold_ptr erofs_allocpage add_to_page_cache_lru
                bio_add_page fuel todo g first_index noio1 st1 m1
              = Ok (noio', st', m') ->
              exists slots' nulls rest,
                grps m' = <[g := with_compressed_pages grp slots']> (grps m) /\
                (forall j, j ∉ i :: todo ->
                   slots' !! j = grp_compressed_pages grp !! j) /\
                slots' !! i = Some v' /\
                todo ≡ₚ nulls ++ rest /\
                noio' = noio1 + Z.of_nat (length nulls) /\
                Forall (fun i => exists p, slots' !! i = Some p /\
                          (p = 0 \/ exists pg, pages m' !! p = Some pg /\
                                               PG_uptodate pg = true)) nulls /\
                Forall (fun i => exists p, slots' !! i = Some p /\ p <> 0 /\
                                           p ∈ bio_pages st') rest /\
                (forall p, p ∈ bio_pages st1 -> p ∈ bio_pages st') /\
                uptodate_kept m1 m').
    { intros noio1 st1 Hlo1 Hhi1 Hr.
      destruct (IH _ _ _ _ _ _ _ _ _ Hgrp1 Hnodup Hlo1 Hhi1 Hr)
        as (slots' & nulls & rest & Hg' & Hother & Hperm & Hn & Hnulls & Hrest
            & Hbios & Hk).
      exists slots', nulls, rest.
      split.
      { rewrite Hg', Hg1. cbn. rewrite insert_insert_eq. reflexivity. }
      split.
      { intros j Hj. rewrite Hother.
        - cbn. apply list_lookup_insert_ne. intros ->. apply Hj, elem_of_cons. auto.
        - intros Hc. apply Hj, elem_of_cons. auto. }
      split.
      { rewrite (Hother i Hi). cbn. apply list_lookup_insert_eq. exact Hi_len. }
      auto 10. }
    destruct (page =? 0) eqn:Hpage.
    + apply Z.eqb_eq in Hpage.
      assert (Hnoio : u32 (noio + 1) = noio + 1) by (apply wrap_small; lia).
      rewrite Hnoio in Hrun.
      assert (Hlo1 : 0 <= noio + 1) by lia.
      assert (Hhi1 : noio + 1 + Z.of_nat (length todo) < 2 ^ 32) by lia.
      destruct (Hfin _ _ Hlo1 Hhi1 Hrun)
        as (slots' & nulls & rest & Hg' & Hother & Hi' & Hperm & Hn & Hnulls
            & Hrest & Hbios & Hk).
      cbn [s_bio s_submitted] in Hbios.
      exists slots', (i :: nulls), rest.
      split; [exact Hg'|]. split; [exact Hother|].
      split; [cbn; rewrite Hperm; reflexivity|].
      split; [cbn [length]; lia|].
      split.
      { apply Forall_cons. split; [|exact Hnulls].
        exists v'. split; [exact Hi'|].
        destruct Hv' as [->|(_ & _ & pg' & Hpg' & _ & Hup & _)]; [left; exact Hpage|].
        right. exact (Hk _ _ Hpg' Hup). }
      split; [exact Hrest|]. split; [exact Hbios|].
      exact (uptodate_kept_trans _ _ _ Hk1 Hk).
    + apply Z.eqb_neq in Hpage.
      destruct (bio_add _ _ _ _ _ _) as [st1| | | |] eqn:Hadd;
        try discriminate.
      cbn [mbind outcome_bind] in Hrun.
      apply bio_add_pages in Hadd.
      assert (Hst1 : bio_pages st1 = bio_pages st ++ [page]).
      { rewrite Hadd. f_equal.
        cbn [s_force_submit s_bio s_submitted].
        destruct (s_force_submit st); [rewrite submit_bio_pages|]; reflexivity. }
      assert (Hhi1 : noio + Z.of_nat (length todo) < 2 ^ 32) by lia.
      destruct (Hfin _ _ Hlo Hhi1 Hrun)
        as (slots' & nulls & rest & Hg' & Hother & Hi' & Hperm & Hn & Hnulls
            & Hrest & Hbios & Hk).
      exists slots', nulls, (i :: rest).
      split; [exact Hg'|]. split; [exact Hother|].
      split; [rewrite Hperm; apply Permutation_middle|].
      split; [exact Hn|]. split; [exact Hnulls|].
      split.
      { apply Forall_cons. split; [|exact Hrest].
        exists v'. split; [exact Hi'|].
        destruct Hv' as [->|(Hz & _)]; [|contradiction].
        split; [exact Hpage|]. apply Hbios. rewrite Hst1.
        apply elem_of_app. right. apply list_elem_of_singleton. reflexivity. }
      split.
      { intros p Hp. apply Hbios. rewrite Hst1. apply elem_of_app. auto. }
      exact (uptodate_kept_trans _ _ _ Hk1 Hk).
Qed.

End WithPagesKept.

Lemma deref_grp_inv m g grp : deref_grp m g = Ok grp -> grps m !! g = Some grp.
Proof. unfold deref_grp. destruct (grps m !! g); congruence. Qed.

Lemma slots_store_next m x grp v y :
  grps m !! x = Some grp -> slots (store_grp m x (with_next grp v)) y = slots m y.
Proof.
  intros Hx. cbn. destruct (decide (y = x)) as [->|Hne].
  - rewrite lookup_insert_eq, Hx. reflexivity.
  - rewrite lookup_insert_ne by congruence. reflexivity.
Qed.

Lemma slots_Some m x l :
  slots m x = Some l ->
  exists grp, grps m !! x = Some grp /\ grp_compressed_pages grp = l.
Proof.
  destruct (grps m !! x) as [grp|]; [|discriminate].
  intros [= <-]. eauto.
Qed.

Lemma slot_noio_kept m m' g i :
  slots m' g = slots m g -> uptodate_kept m m' ->
  slot_noio m g i -> slot_noio m' g i.
Proof.
  intros Hs Hk (grp & p & Hgrp & Hp & Hgood).
  rewrite Hgrp in Hs. destruct (slots_Some _ _ _ Hs) as (grp' & Hgrp' & Heq).
  exists grp', p. split; [exact Hgrp'|]. split; [rewrite Heq; exact Hp|].
  destruct Hgood as [->|(pg & Hpg & Hup)]; [left; reflexivity|].
  right. exact (Hk _ _ Hpg Hup).
Qed.

Lemma slot_io_kept m m' (bios bios' : list Z) g i :
  slots m' g = slots m g -> (forall p, p ∈ bios -> p ∈ bios') ->
  slot_io m bios g i -> slot_io m' bios' g i.
Proof.
  intros Hs Hb (grp & p & Hgrp & Hp & Hnz & Hin).
  rewrite Hgrp in Hs. destruct (slots_Some _ _ _ Hs) as (grp' & Hgrp' & Heq).
  exists grp', p. split; [exact Hgrp'|]. split; [rewrite Heq; exact Hp|].
  split; [exact Hnz|exact (Hb _ Hin)].
Qed.

(** The end of a pass writes [next] only. *)
Lemma submit_link_pages g noio old ch m ch' m' :
  submit_link clusterpages g noio old ch m = Ok (ch', m') ->
  pages m' = pages m /\ forall y, slots m' y = slots m y.
Proof.
  unfold submit_link. intros Hrun.
  destruct (noio <? Z.of_nat clusterpages).
  { injection Hrun as <- <-. auto. }
  match type of Hrun with
  | mbind _ ?x = _ =>
      assert (H1 : forall ch1 m1, x = Ok (ch1, m1) ->
                pages m1 = pages m /\ forall y, slots m1 y = slots m y);
        [|destruct x as [[ch1 m1]| | | |]; try discriminate]
  end.
  { intros ch1 m1 Hx. destruct (c_lstgrp_io ch =? 0).
    - injection Hx as <- <-. auto.
    - destruct (deref_grp m (c_lstgrp_io ch)) as [l| | | |] eqn:Hl;
        try discriminate.
      cbn [mbind outcome_bind] in Hx. injection Hx as <- <-.
      split; [reflexivity|]. intros y.
      apply slots_store_next, deref_grp_inv, Hl. }
  destruct (H1 _ _ eq_refl) as [Hp1 Hs1].
  cbn [mbind outcome_bind] in Hrun.
  match type of Hrun with
  | mbind _ ?x = _ =>
      assert (H2 : forall ch2 m2, x = Ok (ch2, m2) ->
                pages m2 = pages m1 /\ forall y, slots m2 y = slots m1 y);
        [|destruct x as [[ch2 m2]| | | |]; try discriminate]
  end.
  { intros ch2 m2 Hx. destruct (c_lstgrp_noio ch1 =? 0).
    - injection Hx as <- <-. auto.
    - destruct (deref_grp m1 (c_lstgrp_noio ch1)) as [l| | | |] eqn:Hl;
        try discriminate.
      cbn [mbind outcome_bind] in Hx. injection Hx as <- <-.
      split; [reflexivity|]. intros y.
      apply slots_store_next, deref_grp_inv, Hl. }
  destruct (H2 _ _ eq_refl) as [Hp2 Hs2].
  cbn [mbind outcome_bind] in Hrun. injection Hrun as <- <-.
  split; [congruence|]. intros y. rewrite Hs2. apply Hs1.
Qed.

(** The passes over the slots of a workgroup: [i = 0], then every [i]
    below [clusterpages]. *)
Lemma submit_todo :
  NoDup (0%nat :: seq 1 (clusterpages - 1)) /\
  length (0%nat :: seq 1 (clusterpages - 1)) = Nat.max 1 clusterpages /\
  forall i, i ∈ 0%nat :: seq 1 (clusterpages - 1)
            <-> (i < Nat.max 1 clusterpages)%nat.
Proof.
  split; [|split].
  - apply NoDup_cons. split; [|apply NoDup_seq].
    intros Hin. apply elem_of_seq in Hin. lia.
  - cbn. rewrite length_seq. lia.
  - intros i. rewrite elem_of_cons, elem_of_seq. lia.
Qed.

(** The loop, with the workgroups [P0] and [P1] behind it and the chain [R]
    ahead: it deals [R] out to the two chains, in order. *)
Lemma submit_all_loop_chains fuel :
  forall R P0 P1 owned_head ch st m ch' st' m',
  chain_seg m Z_EROFS_VLE_WORKGRP_TAIL owned_head R ->
  chain_seg m owned_head (c_head1 ch) P1 ->
  c_lstgrp_io ch = List.last P1 0 ->
  noio_inv m ch P0 ->
  NoDup (P0 ++ P1 ++ R) ->
  submit_all_loop clusterpages EROFS_UNALLOCATED_CACHED_PAGE tagptr_unfold_tags
    tagptr_unfold_ptr erofs_allocpage add_to_page_cache_lru bio_add_page
    fuel owned_head ch st m = Ok (ch', st', m') ->
  exists R0 R1,
    R0 `sublist_of` R /\ R1 `sublist_of` R /\ R0 ++ R1 ≡ₚ R /\
    chain_seg m' Z_EROFS_VLE_WORKGRP_TAIL_CLOSED (c_head1 ch') (P1 ++ R1) /\
    noio_inv m' ch' (P0 ++ R0) /\
    (P0 ++ R0 = [] -> c_head0 ch' = c_head0 ch) /\
    (forall y, y ∉ P0 ++ P1 ++ R -> nexts m' y = nexts m y) /\
    ((forall pool m0, uptodate_kept m0 (erofs_allocpage pool m0).2) ->
     (forall page index m0,
        uptodate_kept m0 (add_to_page_cache_lru page index m0).2) ->
     Z.of_nat clusterpages < 2 ^ 32 ->
     (forall x, x ∈ R0 ->
        forall i, (i < clusterpages)%nat -> slot_noio m' x i) /\
     (forall x, x ∈ R1 ->
        exists i, (i < clusterpages)%nat /\ slot_io m' (bio_pages st') x i) /\
     (forall y, y ∉ R -> slots m' y = slots m y) /\
     (forall p, p ∈ bio_pages st -> p ∈ bio_pages st') /\
     uptodate_kept m m').
Proof.
  induction fuel as [|fuel IH];
    intros R P0 P1 owned_head ch st m ch' st' m' Hrest Hio Hlast Hnoio Hnodup Hrun;
    [discriminate|].
  cbn [submit_all_loop] in Hrun.
  destruct Hrest as [|g grp R Hgrp Hrest]; [discriminate|].
  rewrite (ReclaimFacts.deref_grp_Some _ _ _ Hgrp) in Hrun.
  cbn [mbind outcome_bind] in Hrun.
  set (stop := if decide (grp_next grp = Z_EROFS_VLE_WORKGRP_TAIL)
               then Z_EROFS_VLE_WORKGRP_TAIL_CLOSED else grp_next grp).
  set (m1 := if decide (grp_next grp = Z_EROFS_VLE_WORKGRP_TAIL)
             then store_grp m (Z.pos g)
                    (with_next grp Z_EROFS_VLE_WORKGRP_TAIL_CLOSED)
             else m) in *.
  assert (Hn1 : forall y, y <> Z.pos g -> nexts m1 y = nexts m y).
  { intros y Hy. unfold m1. destruct (decide _); [|reflexivity].
    rewrite nexts_store_next, decide_False by exact Hy. reflexivity. }
  assert (Hg1 : nexts m1 (Z.pos g) = Some stop).
  { unfold m1, stop. destruct (decide _).
    - rewrite nexts_store_next, decide_True by reflexivity. reflexivity.
    - rewrite Hgrp. reflexivity. }
  destruct (submit_pages _ _ _ _ _ _ _ _ _ _ _ _ m1)
    as [[[noio st2] m2]| | | |] eqn:Hpages; try discriminate.
  cbn [mbind outcome_bind] in Hrun.
  assert (Hn2 : forall y, nexts m2 y = nexts m1 y).
  { assert (Hsome1 : is_Some (grps m1 !! Z.pos g))
      by (destruct (grps m1 !! Z.pos g); [eauto|discriminate]).
    exact (submit_pages_nexts _ _ _ _ _ _ _ _ _ _ Hsome1 Hpages). }
  assert (Hg2 : exists grp2, grps m2 !! Z.pos g = Some grp2 /\
                             grp_next grp2 = stop).
  { pose proof (Hn2 (Z.pos g)) as Hn. rewrite Hg1 in Hn.
    destruct (grps m2 !! Z.pos g) as [grp2|]; [|discriminate].
    exists grp2. split; [reflexivity|]. cbn in Hn. congruence. }
  destruct Hg2 as (grp2 & Hgrp2 & Hnext2).
  (* the workgroup is none of those behind or ahead *)
  pose proof Hnodup as Hnodup0.
  apply NoDup_app in Hnodup as (Hnd0 & Hdisj0 & Hnodup).
  apply NoDup_app in Hnodup as (Hnd1 & Hdisj1 & HndR).
  apply NoDup_cons in HndR as [HgR HndR].
  assert (HgP1 : Z.pos g ∉ P1).
  { intros Hin. apply (Hdisj1 _ Hin), elem_of_cons. auto. }
  assert (HgP0 : Z.pos g ∉ P0).
  { intros Hin. apply (Hdisj0 _ Hin), elem_of_app. right.
    apply elem_of_cons. auto. }
  assert (Hm2 : forall y, y <> Z.pos g -> nexts m2 y = nexts m y).
  { intros y Hy. rewrite Hn2. apply Hn1. exact Hy. }
  assert (Hio2 : chain_seg m2 (WORKGRP g) (c_head1 ch) P1).
  { apply (chain_seg_frame m); [exact Hio|].
    intros x Hx. apply Hm2. intros ->. contradiction. }
  assert (Hnoio2 : noio_inv m2 ch P0).
  { destruct Hnoio as [Hnil|(Q & p & -> & Hseg & Hl & Hsome)]; [left; exact Hnil|].
    right. exists Q, p. split; [reflexivity|].
    assert (Hpg : Z.pos p <> Z.pos g).
    { intros Heq. apply HgP0. rewrite <- Heq. apply elem_of_app. right.
      apply list_elem_of_singleton. reflexivity. }
    split; [|split; [exact Hl|apply (nexts_is_Some m); [apply Hm2|]; assumption]].
    apply (chain_seg_frame m); [exact Hseg|].
    intros x Hx. apply Hm2. intros ->. apply HgP0, elem_of_app. auto. }
  assert (Hnodup2 : NoDup (P0 ++ P1 ++ [Z.pos g])).
  { apply NoDup_app. split; [exact Hnd0|]. split.
    - intros x Hx Hc. apply elem_of_app in Hc as [Hc|Hc].
      + apply (Hdisj0 x Hx), elem_of_app. auto.
      + apply list_elem_of_singleton in Hc as ->. contradiction.
    - apply NoDup_app. split; [exact Hnd1|]. split.
      + intros x Hx Hc. apply list_elem_of_singleton in Hc as ->. contradiction.
      + apply NoDup_singleton. }
  destruct (submit_link clusterpages g noio (grp_next grp) ch m2)
    as [[ch3 m3]| | | |] eqn:Hlink; try discriminate.
  cbn [mbind outcome_bind] in Hrun.
  destruct (submit_link_spec g noio (grp_next grp) stop ch m2 P0 P1 grp2 ch3 m3
              Hgrp2 Hnext2 eq_refl Hio2 Hlast Hnoio2 Hnodup2 Hlink)
    as [Hn3 Hcases].
  (* the slots of the workgroup *)
  assert (Hpass :
    (forall pool m0, uptodate_kept m0 (erofs_allocpage pool m0).2) ->
    (forall page index m0,
       uptodate_kept m0 (add_to_page_cache_lru page index m0).2) ->
    Z.of_nat clusterpages < 2 ^ 32 ->
    ((noio <? Z.of_nat clusterpages) = false ->
       forall i, (i < clusterpages)%nat -> slot_noio m3 (Z.pos g) i) /\
    ((noio <? Z.of_nat clusterpages) = true ->
       exists i, (i < clusterpages)%nat /\
                 slot_io m3 (bio_pages st2) (Z.pos g) i) /\
    (forall y, y <> Z.pos g -> slots m3 y = slots m y) /\
    (forall p, p ∈ bio_pages st -> p ∈ bio_pages st2) /\
    uptodate_kept m m3).
  { intros Hua Hud Hcp.
    destruct submit_todo as (Htodo & Hlen & Helem).
    destruct (submit_link_pages _ _ _ _ _ _ _ Hlink) as [Hpg3 Hsl3].
    assert (Hs1 : forall y, slots m1 y = slots m y).
    { intros y. unfold m1. destruct (decide _); [|reflexivity].
      apply slots_store_next. exact Hgrp. }
    assert (Hp1 : pages m1 = pages m)
      by (unfold m1; destruct (decide _); reflexivity).
    destruct (grps m1 !! Z.pos g) as [grp1|] eqn:Hgrp1; [|discriminate Hg1].
    assert (Hhi : 0 + Z.of_nat (length (0%nat :: seq 1 (clusterpages - 1)))
                  < 2 ^ 32) by (rewrite Hlen; lia).
    destruct (submit_pages_slots Hua Hud _ _ _ _ _ _ _ _ _ _ _ Hgrp1 Htodo
                (Z.le_refl 0) Hhi Hpages)
      as (slots' & nulls & rest & Hg2 & _ & Hperm & Hn & Hnulls & Hrest'
          & Hbios & Hk).
    assert (Hslots3 : slots m3 (Z.pos g) = Some slots').
    { rewrite Hsl3, Hg2, lookup_insert_eq. reflexivity. }
    destruct (slots_Some _ _ _ Hslots3) as (grp3 & Hgrp3 & Hcp3).
    pose proof (Permutation_length Hperm) as Hcount.
    rewrite Hlen, length_app in Hcount.
    split; [|split; [|split; [|split]]].
    - intros Htest i Hi. apply Z.ltb_ge in Htest.
      assert (Hnil : rest = []) by (apply length_zero_iff_nil; lia).
      rewrite Hnil, app_nil_r in Hperm.
      assert (Hin : i ∈ nulls) by (rewrite <- Hperm; apply Helem; lia).
      destruct (proj1 (Forall_forall _ _) Hnulls i Hin) as (p & Hp & Hgood).
      exists grp3, p. split; [exact Hgrp3|]. split; [rewrite Hcp3; exact Hp|].
      rewrite Hpg3. exact Hgood.
    - intros Htest. apply Z.ltb_lt in Htest.
      destruct rest as [|i rest0]; [cbn [length] in Hcount; lia|].
      apply Forall_cons in Hrest' as [(p & Hp & Hnz & Hin) _].
      exists i. split.
      { assert (Hi : i ∈ 0%nat :: seq 1 (clusterpages - 1)).
        { rewrite Hperm. apply elem_of_app. right. apply elem_of_cons. auto. }
        apply Helem in Hi. lia. }
      exists grp3, p. split; [exact Hgrp3|]. split; [rewrite Hcp3; exact Hp|].
      split; [exact Hnz|exact Hin].
    - intros y Hy. rewrite Hsl3, <- Hs1, Hg2.
      rewrite lookup_insert_ne by congruence. reflexivity.
    - intros p Hp. apply Hbios. exact Hp.
    - apply (uptodate_kept_trans _ m2).
      + apply (uptodate_kept_trans _ m1);
          [apply uptodate_kept_pages; exact Hp1|exact Hk].
      + apply uptodate_kept_pages. exact Hpg3. }
  assert (Hm3 : forall y, y ∉ P0 ++ P1 -> y <> Z.pos g ->
                          nexts m3 y = nexts m y).
  { intros y Hy Hne. rewrite (Hn3 y Hy). apply Hm2. exact Hne. }
  assert (HinR : forall x, x ∈ R -> (x ∉ P0 ++ P1) /\ x <> Z.pos g).
  { intros x Hx. split.
    - intros Hc. apply elem_of_app in Hc as [Hc|Hc].
      + apply (Hdisj0 x Hc), elem_of_app. right. apply elem_of_cons. auto.
      + apply (Hdisj1 x Hc), elem_of_cons. auto.
    - intros ->. contradiction. }
  assert (Hrest3 : chain_seg m3 Z_EROFS_VLE_WORKGRP_TAIL (grp_next grp) R).
  { apply (chain_seg_frame m); [exact Hrest|].
    intros x Hx. destruct (HinR x Hx). apply Hm3; assumption. }
  assert (Hframe : forall m4,
            (forall y, y ∉ P0 ++ P1 ++ Z.pos g :: R -> nexts m4 y = nexts m3 y) ->
            forall y, y ∉ P0 ++ P1 ++ Z.pos g :: R -> nexts m4 y = nexts m y).
  { intros m4 H4 y Hy. rewrite (H4 y Hy). apply Hm3.
    - intros Hc. apply Hy. apply elem_of_app in Hc as [Hc|Hc].
      + apply elem_of_app. auto.
      + apply elem_of_app. right. apply elem_of_app. auto.
    - intros ->. apply Hy, elem_of_app. right. apply elem_of_app. right.
      apply elem_of_cons. auto. }
  destruct (decide (grp_next grp = Z_EROFS_VLE_WORKGRP_TAIL)) as [Htail|Hopen].
  - (* the last workgroup of the chain *)
    injection Hrun as <- <- <-.
    rewrite Htail in Hrest. inversion Hrest; subst R.
    destruct Hcases as [(Hio3 & Hlast3 & Hnoio3 & Hhead3 & Htest)
                       |(Hio3 & Hlast3 & Hnoio3 & Htest)].
    + exists [], [Z.pos g]. split; [apply sublist_nil_l|].
      split; [reflexivity|]. split; [reflexivity|].
      split; [exact Hio3|]. rewrite app_nil_r.
      split; [exact Hnoio3|]. split; [intros _; exact Hhead3|].
      split; [apply Hframe; reflexivity|].
      intros Hua Hud Hcp.
      destruct (Hpass Hua Hud Hcp) as (Hp0 & Hp1 & Hps & Hpb & Hpk).
      split; [intros x Hx; apply elem_of_nil in Hx; destruct Hx|].
      split.
      { intros x Hx. apply list_elem_of_singleton in Hx as ->.
        exact (Hp1 Htest). }
      split.
      { intros y Hy. apply Hps. intros ->. apply Hy, elem_of_cons. auto. }
      split; [exact Hpb|exact Hpk].
    + exists [Z.pos g], []. split; [reflexivity|].
      split; [apply sublist_nil_l|]. split; [reflexivity|].
      rewrite app_nil_r. split; [exact Hio3|].
      split; [exact Hnoio3|].
      split; [intros Hc; destruct P0; discriminate Hc|].
      split; [apply Hframe; reflexivity|].
      intros Hua Hud Hcp.
      destruct (Hpass Hua Hud Hcp) as (Hp0 & Hp1 & Hps & Hpb & Hpk).
      split.
      { intros x Hx. apply list_elem_of_singleton in Hx as ->.
        exact (Hp0 Htest). }
      split; [intros x Hx; apply elem_of_nil in Hx; destruct Hx|].
      split.
      { intros y Hy. apply Hps. intros ->. apply Hy, elem_of_cons. auto. }
      split; [exact Hpb|exact Hpk].
  - assert (stop = grp_next grp) as Hstop by reflexivity.
    rewrite Hstop in Hcases.
    assert (Hrest_io : forall R0 R1,
              ((forall pool m0, uptodate_kept m0 (erofs_allocpage pool m0).2) ->
               (forall page index m0,
                  uptodate_kept m0 (add_to_page_cache_lru page index m0).2) ->
               Z.of_nat clusterpages < 2 ^ 32 ->
               (forall x, x ∈ R0 ->
                  forall i, (i < clusterpages)%nat -> slot_noio m' x i) /\
               (forall x, x ∈ R1 ->
                  exists i, (i < clusterpages)%nat /\
                            slot_io m' (bio_pages st') x i) /\
               (forall y, y ∉ R -> slots m' y = slots m3 y) /\
               (forall p, p ∈ bio_pages st2 -> p ∈ bio_pages st') /\
               uptodate_kept m3 m') ->
              (forall pool m0, uptodate_kept m0 (erofs_allocpage pool m0).2) ->
              (forall page index m0,
                 uptodate_kept m0 (add_to_page_cache_lru page index m0).2) ->
              Z.of_nat clusterpages < 2 ^ 32 ->
              (forall x, x ∈ (if noio <? Z.of_nat clusterpages
                              then R0 else Z.pos g :: R0) ->
                 forall i, (i < clusterpages)%nat -> slot_noio m' x i) /\
              (forall x, x ∈ (if noio <? Z.of_nat clusterpages
                              then Z.pos g :: R1 else R1) ->
                 exists i, (i < clusterpages)%nat /\
                           slot_io m' (bio_pages st') x i) /\
              (forall y, y ∉ Z.pos g :: R -> slots m' y = slots m y) /\
              (forall p, p ∈ bio_pages st -> p ∈ bio_pages st') /\
              uptodate_kept m m').
    { intros R0 R1 Hcond Hua Hud Hcp.
      destruct (Hpass Hua Hud Hcp) as (Hp0 & Hp1 & Hps & Hpb & Hpk).
      destruct (Hcond Hua Hud Hcp) as (Hc0 & Hc1 & Hcs & Hcb & Hck).
      split; [|split; [|split; [|split]]].
      - destruct (noio <? Z.of_nat clusterpages); [exact Hc0|].
        intros x Hx. apply elem_of_cons in Hx as [->|Hx]; [|exact (Hc0 x Hx)].
        intros i Hi.
        apply (slot_noio_kept m3 m'); [apply Hcs; exact HgR|exact Hck|].
        exact (Hp0 eq_refl i Hi).
      - destruct (noio <? Z.of_nat clusterpages); [|exact Hc1].
        intros x Hx. apply elem_of_cons in Hx as [->|Hx]; [|exact (Hc1 x Hx)].
        destruct (Hp1 eq_refl) as (i & Hi & Hio_i).
        exists i. split; [exact Hi|].
        apply (slot_io_kept m3 m' (bio_pages st2));
          [apply Hcs; exact HgR|exact Hcb|exact Hio_i].
      - intros y Hy. rewrite Hcs.
        + apply Hps. intros ->. apply Hy, elem_of_cons. auto.
        + intros Hc. apply Hy, elem_of_cons. auto.
      - intros p Hp. apply Hcb, Hpb, Hp.
      - exact (uptodate_kept_trans _ _ _ Hpk Hck). }
    destruct Hcases as [(Hio3 & Hlast3 & Hnoio3 & Hhead3 & Htest)
                       |(Hio3 & Hlast3 & Hnoio3 & Htest)];
      rewrite Htest in Hrest_io.
    + destruct (IH R P0 (P1 ++ [Z.pos g]) (grp_next grp) ch3 st2 m3 ch' st' m'
                  Hrest3 Hio3 Hlast3 Hnoio3)
        as (R0 & R1 & Hsub0 & Hsub1 & Hperm & Hio' & Hnoio' & Hhead' & Hn'
            & Hcond');
        [|exact Hrun|].
      { rewrite <- app_assoc. exact Hnodup0. }
      exists R0, (Z.pos g :: R1).
      split; [apply sublist_cons; exact Hsub0|].
      split; [apply sublist_skip; exact Hsub1|].
      split; [rewrite <- Hperm; symmetry; apply Permutation_middle|].
      split; [rewrite <- app_assoc in Hio'; exact Hio'|].
      split; [exact Hnoio'|].
      split; [intros Hnil; rewrite (Hhead' Hnil); exact Hhead3|].
      split; [|exact (Hrest_io R0 R1 Hcond')].
      apply Hframe. intros y Hy. apply Hn'.
      rewrite <- app_assoc. exact Hy.
    + destruct (IH R (P0 ++ [Z.pos g]) P1 (grp_next grp) ch3 st2 m3 ch' st' m'
                  Hrest3 Hio3 Hlast3 Hnoio3)
        as (R0 & R1 & Hsub0 & Hsub1 & Hperm & Hio' & Hnoio' & Hhead' & Hn'
            & Hcond');
        [|exact Hrun|].
      { rewrite <- app_assoc. cbn.
        apply (NoDup_Permutation_proper _ _
                 (Permutation_app_head P0 (Permutation_middle P1 R (Z.pos g)))).
        exact Hnodup0. }
      exists (Z.pos g :: R0), R1.
      split; [apply sublist_skip; exact Hsub0|].
      split; [apply sublist_cons; exact Hsub1|].
      split; [cbn; rewrite Hperm; reflexivity|].
      split; [exact Hio'|].
      split; [rewrite <- app_assoc in Hnoio'; exact Hnoio'|].
      split; [intros Hc; destruct P0; discriminate Hc|].
      split; [|exact (Hrest_io R0 R1 Hcond')].
      apply Hframe. intros y Hy. apply Hn'.
      intros Hc. apply Hy. rewrite <- app_assoc in Hc. cbn in Hc.
      apply elem_of_app in Hc as [Hc|Hc]; [apply elem_of_app; auto|].
      apply elem_of_cons in Hc as [->|Hc].
      * apply elem_of_app. right. apply elem_of_app. right.
        apply elem_of_cons. auto.
      * apply elem_of_app. right.
        apply elem_of_app in Hc as [Hc|Hc]; apply elem_of_app; [auto|].
        right. apply elem_of_cons. auto.
Qed.

End WithSuperblock.
End SubmitAllFacts.

(** X23.  [z_erofs_vle_submit_all] deals the owned chain out to its two io
    descriptors by whether a workgroup needs a read.  With the managed cache
    compiled in, helpers [erofs_allocpage] and [add_to_page_cache_lru] that
    leave the workgroups alone and clear no page's PG_uptodate,
    [clusterpages] below 2^32 and no other thread at work on the chain: for
    an open chain, one that [next] links from [owned_head] up to TAIL,
    whenever the call returns it returns true, and the workgroups of the
    chain are dealt out to the chain linked from [ios[0]->head] and the one
    linked from [ios[1]->head], each in the order of the owned chain and
    closed with TAIL_CLOSED, every workgroup in exactly one of them.  The
    workgroups on [ios[0]] are without io: each of their [clusterpages]
    slots holds NULL or a page that is up to date.  Every workgroup on
    [ios[1]] has a slot whose page is in one of the bios submitted.  No
    workgroup outside the chain gets its [next] changed. *)
Theorem submit_all_deals_out_the_chain :
  forall (clusterpages : nat) (CONFIG_PREEMPT_COUNT : bool)
         (EROFS_UNALLOCATED_CACHED_PAGE : Z)
         (tagptr_unfold_tags tagptr_unfold_ptr : Z -> Z)
         (erofs_allocpage : list Z -> mm -> Z * list Z * mm)
         (add_to_page_cache_lru : Z -> Z -> mm -> Z * mm)
         (bio_add_page : list Z -> Z -> bool)
         (fuel : nat) (owned_head : z_erofs_vle_owned_workgrp_t)
         (pagepool : list Z) (fg_io0 fg_io1 : SubmitAll.z_erofs_vle_unzip_io)
         (force_fg atomic : bool) (last_index : Z) (m : mm) (gs : list Z)
         (r : SubmitAll.submitted),
    (forall pool m0, grps (erofs_allocpage pool m0).2 = grps m0) ->
    (forall p index m0, grps (add_to_page_cache_lru p index m0).2 = grps m0) ->
    (forall pool m0 p pg,
       pages m0 !! p = Some pg -> PG_uptodate pg = true ->
       exists pg', pages (erofs_allocpage pool m0).2 !! p = Some pg' /\
                   PG_uptodate pg' = true) ->
    (forall page index m0 p pg,
       pages m0 !! p = Some pg -> PG_uptodate pg = true ->
       exists pg', pages (add_to_page_cache_lru page index m0).2 !! p = Some pg' /\
                   PG_uptodate pg' = true) ->
    Z.of_nat clusterpages < 2 ^ 32 ->
    SubmitAll.chain_seg m Z_EROFS_VLE_WORKGRP_TAIL owned_head gs ->
    owned_head <> Z_EROFS_VLE_WORKGRP_TAIL ->
    SubmitAll.z_erofs_vle_submit_all clusterpages CONFIG_PREEMPT_COUNT
      EROFS_UNALLOCATED_CACHED_PAGE tagptr_unfold_tags tagptr_unfold_ptr
      erofs_allocpage add_to_page_cache_lru bio_add_page fuel owned_head
      pagepool fg_io0 fg_io1 force_fg atomic last_index m = Ok r ->
    SubmitAll.r_ret r = true /\
    exists gs0 gs1,
      gs0 `sublist_of` gs /\ gs1 `sublist_of` gs /\ gs0 ++ gs1 ≡ₚ gs /\
      UnzipAll.owned_chain (SubmitAll.r_mm r)
        (SubmitAll.io_head (SubmitAll.r_io0 r)) gs0 /\
      UnzipAll.owned_chain (SubmitAll.r_mm r)
        (SubmitAll.io_head (SubmitAll.r_io1 r)) gs1 /\
      (forall g, g ∈ gs0 ->
         forall i, (i < clusterpages)%nat ->
         exists grp p,
           grps (SubmitAll.r_mm r) !! g = Some grp /\
           grp_compressed_pages grp !! i = Some p /\
           (p = 0 \/
            exists pg, pages (SubmitAll.r_mm r) !! p = Some pg /\
                       PG_uptodate pg = true)) /\
      (forall g, g ∈ gs1 ->
         exists i, (i < clusterpages)%nat /\
         exists grp p,
           grps (SubmitAll.r_mm r) !! g = Some grp /\
           grp_compressed_pages grp !! i = Some p /\
           p <> 0 /\
           p ∈ concat (SubmitAll.bi_pages <$> SubmitAll.r_bios r)) /\
      (forall y, y ∉ gs ->
         grp_next <$> grps (SubmitAll.r_mm r) !! y = grp_next <$> grps m !! y).
Proof.
  intros clusterpages PC unalloc tags ptr alloc add bio_add fuel owned_head pool
    fg_io0 fg_io1 force_fg atomic last_index m gs r Halloc Hadd Hup_alloc Hup_add
    Hcp Hchain Hopen Hrun.
  unfold SubmitAll.z_erofs_vle_submit_all in Hrun.
  rewrite decide_False in Hrun by exact Hopen.
  assert (Hio1 : (if force_fg
                  then SubmitAll.prepare_io_handler (Some fg_io1) false
                  else SubmitAll.prepare_io_handler None true)
                 = Ok (SubmitAll.mk_io 0 Z_EROFS_VLE_WORKGRP_TAIL_CLOSED))
    by (destruct force_fg; reflexivity).
  rewrite Hio1 in Hrun.
  cbn [SubmitAll.prepare_io_handler negb mbind outcome_bind SubmitAll.io_head
       SubmitAll.io_pending_bios] in Hrun.
  destruct (SubmitAll.submit_all_loop _ _ _ _ _ _ _ _ _ _ _ _)
    as [[[ch st] m1]| | | |] eqn:Hloop; try discriminate.
  cbn [mbind outcome_bind] in Hrun.
  pose proof (SubmitAllFacts.chain_seg_NoDup _ _ _ Hchain) as Hnodup.
  destruct (SubmitAllFacts.submit_all_loop_chains clusterpages unalloc tags ptr
              alloc add bio_add Halloc Hadd fuel gs [] [] owned_head
              (SubmitAll.mk_chains Z_EROFS_VLE_WORKGRP_TAIL_CLOSED owned_head
                 0 0)
              (SubmitAll.mk_submit None [] 0 false last_index pool) m
              ch st m1 Hchain)
    as (gs0 & gs1 & Hsub0 & Hsub1 & Hperm & Hseg1 & Hnoio & Hhead0 & Hframe
        & Hslots);
    [constructor|reflexivity|left; split; reflexivity|exact Hnodup|exact Hloop|].
  destruct (Hslots Hup_alloc Hup_add Hcp) as (Hs0 & Hs1 & _).
  cbn [app SubmitAll.c_head0] in Hseg1, Hnoio, Hhead0, Hframe.
  assert (Hnd01 : NoDup (gs0 ++ gs1)) by (rewrite Hperm; exact Hnodup).
  apply NoDup_app in Hnd01 as (Hnd0 & Hdisj & _).
  (* the chain without io is closed *)
  assert (Hclose : exists m2,
    (if negb (SubmitAll.c_lstgrp_noio ch =? 0)
     then l ← deref_grp m1 (SubmitAll.c_lstgrp_noio ch);
          Ok (store_grp m1 (SubmitAll.c_lstgrp_noio ch)
                (with_next l Z_EROFS_VLE_WORKGRP_TAIL_CLOSED))
     else Ok m1) = Ok m2 /\
    UnzipAll.owned_chain m2 (SubmitAll.c_head0 ch) gs0 /\
    UnzipAll.owned_chain m2 (SubmitAll.c_head1 ch) gs1 /\
    (forall y, y ∉ gs -> grp_next <$> grps m2 !! y = grp_next <$> grps m1 !! y) /\
    pages m2 = pages m1 /\
    (forall y, grp_compressed_pages <$> grps m2 !! y
               = grp_compressed_pages <$> grps m1 !! y)).
  { destruct Hnoio as [[-> Hnull]|(Q & p & -> & Hseg0 & Hl & [l Hsome])].
    - rewrite Hnull. cbn [Z.eqb negb]. exists m1. split; [reflexivity|].
      rewrite (Hhead0 eq_refl).
      split; [constructor|].
      split; [apply SubmitAllFacts.chain_seg_owned; exact Hseg1|].
      split; [reflexivity|]. split; reflexivity.
    - rewrite Hl. cbn [Z.eqb negb].
      rewrite (ReclaimFacts.deref_grp_Some _ _ _ Hsome).
      cbn [mbind outcome_bind]. eexists. split; [reflexivity|].
      apply NoDup_app in Hnd0 as (_ & HdisjQ & _).
      split; [|split; [|split; [|split]]].
      + apply SubmitAllFacts.chain_seg_owned.
        change Z_EROFS_VLE_WORKGRP_TAIL_CLOSED
          with (grp_next (with_next l Z_EROFS_VLE_WORKGRP_TAIL_CLOSED)).
        apply SubmitAllFacts.chain_seg_snoc; [|cbn; apply lookup_insert_eq].
        apply (SubmitAllFacts.chain_seg_frame m1); [exact Hseg0|].
        intros x Hx. rewrite SubmitAllFacts.nexts_store_next.
        destruct (decide (x = Z.pos p)) as [->|_]; [|reflexivity].
        destruct (HdisjQ _ Hx). apply list_elem_of_singleton. reflexivity.
      + apply SubmitAllFacts.chain_seg_owned.
        apply (SubmitAllFacts.chain_seg_frame m1); [exact Hseg1|].
        intros x Hx. rewrite SubmitAllFacts.nexts_store_next.
        destruct (decide (x = Z.pos p)) as [->|_]; [|reflexivity].
        destruct (Hdisj (Z.pos p)); [|exact Hx].
        apply elem_of_app. right. apply list_elem_of_singleton. reflexivity.
      + intros y Hy. rewrite SubmitAllFacts.nexts_store_next.
        destruct (decide (y = Z.pos p)) as [->|_]; [|reflexivity].
        destruct Hy. rewrite <- Hperm. apply elem_of_app. left.
        apply elem_of_app. right. apply list_elem_of_singleton. reflexivity.
      + reflexivity.
      + intros y. apply SubmitAllFacts.slots_store_next. exact Hsome. }
  destruct Hclose as (m2 & Heq & Hchain0 & Hchain1 & Hframe2 & Hpages2 & Hslots2).
  rewrite Heq in Hrun. cbn [mbind outcome_bind] in Hrun.
  assert (Hout : forall y, y ∉ gs ->
            grp_next <$> grps m2 !! y = grp_next <$> grps m !! y).
  { intros y Hy. rewrite (Hframe2 y Hy). apply Hframe. exact Hy. }
  (* the slots, when the call returns *)
  assert (Hnoio2 : forall g, g ∈ gs0 ->
            forall i, (i < clusterpages)%nat ->
            exists grp p,
              grps m2 !! g = Some grp /\
              grp_compressed_pages grp !! i = Some p /\
              (p = 0 \/
               exists pg, pages m2 !! p = Some pg /\ PG_uptodate pg = true)).
  { intros g Hg i Hi.
    apply (SubmitAllFacts.slot_noio_kept m1 m2);
      [apply Hslots2|apply SubmitAllFacts.uptodate_kept_pages; exact Hpages2|].
    exact (Hs0 g Hg i Hi). }
  assert (Hio2 : forall g, g ∈ gs1 ->
            exists i, (i < clusterpages)%nat /\
            exists grp p,
              grps m2 !! g = Some grp /\
              grp_compressed_pages grp !! i = Some p /\
              p <> 0 /\
              p ∈ concat (SubmitAll.bi_pages
                            <$> SubmitAll.s_submitted (SubmitAll.submit_bio st))).
  { intros g Hg. destruct (Hs1 g Hg) as (i & Hi & Hio_i).
    exists i. split; [exact Hi|].
    rewrite SubmitAllFacts.submit_bio_submitted_pages.
    apply (SubmitAllFacts.slot_io_kept m1 m2 _ _ g i (Hslots2 g) (fun p Hp => Hp)).
    exact Hio_i. }
  destruct (negb force_fg && _).
  - injection Hrun as <-. cbn. split; [reflexivity|].
    exists gs0, gs1. auto 10.
  - destruct (Io.z_erofs_vle_unzip_kickoff _ _ _ _ _) as [pending kicks].
    injection Hrun as <-. cbn. split; [reflexivity|].
    exists gs0, gs1. auto 10.
Qed.

Lemma submit_all_deals_out_the_chain_witness :
  exists r,
    demo_submit_all true demo_submit_mm = Ok r /\
    SubmitAll.io_head (SubmitAll.r_io0 r) = WORKGRP 1000 /\
    SubmitAll.io_head (SubmitAll.r_io1 r) = WORKGRP 1100 /\
    exists gs0 gs1,
      gs0 `sublist_of` [1000; 1100] /\ gs1 `sublist_of` [1000; 1100] /\
      gs0 ++ gs1 ≡ₚ [1000; 1100] /\
      UnzipAll.owned_chain (SubmitAll.r_mm r) (WORKGRP 1000) gs0 /\
      UnzipAll.owned_chain (SubmitAll.r_mm r) (WORKGRP 1100) gs1 /\
      (forall g, g ∈ gs0 ->
         forall i, (i < 1)%nat ->
         exists grp p,
           grps (SubmitAll.r_mm r) !! g = Some grp /\
           grp_compressed_pages grp !! i = Some p /\
           (p = 0 \/
            exists pg, pages (SubmitAll.r_mm r) !! p = Some pg /\
                       PG_uptodate pg = true)) /\
      (forall g, g ∈ gs1 ->
         exists i, (i < 1)%nat /\
         exists grp p,
           grps (SubmitAll.r_mm r) !! g = Some grp /\
           grp_compressed_pages grp !! i = Some p /\
           p <> 0 /\
           p ∈ concat (SubmitAll.bi_pages <$> SubmitAll.r_bios r)).
Proof.
  eexists. split; [vm_compute; reflexivity|].
  split; [reflexivity|]. split; [reflexivity|].
  edestruct (submit_all_deals_out_the_chain 1 true 0x5F0EF00D
               (fun v => Z.land v 1) (fun v => Z.land v (-2))
               demo_allocpage (fun _ _ m => (- ENOMEM, m)) (fun _ _ => true)
               2 (WORKGRP 1000) []
               (SubmitAll.mk_io 7 Z_EROFS_VLE_WORKGRP_NIL)
               (SubmitAll.mk_io 7 Z_EROFS_VLE_WORKGRP_NIL)
               true false 0 demo_submit_mm [1000; 1100])
    as (_ & gs0 & gs1 & Hsub0 & Hsub1 & Hperm & Hc0 & Hc1 & Hnoio & Hio & _).
  - intros pool m0. unfold demo_allocpage.
    destruct (pages m0 !! 910); reflexivity.
  - reflexivity.
  - intros pool m0 p pg Hp Hup. unfold demo_allocpage.
    destruct (pages m0 !! 910) eqn:H910; cbn; eauto.
  - intros page index m0 p pg Hp Hup. cbn. eauto.
  - vm_compute. reflexivity.
  - repeat (econstructor; try reflexivity).
  - discriminate.
  - vm_compute. reflexivity.
  - exists gs0, gs1. auto 10.
Defined.

Module SubmitBiosFacts.
Import Submit SubmitAll.

(** [nr_bios] counts the bios grabbed: those submitted and the one in
    hand. *)
Local Abbreviation counted st :=
  (s_nr_bios st
   = u32 (Z.of_nat (length (s_submitted st))
          + match s_bio st with Some _ => 1 | None => 0 end)).

Lemma u32_succ x : u32 (u32 x + 1) = u32 (x + 1).
Proof. unfold u32, wrap. apply Zplus_mod_idemp_l. Qed.

Lemma submit_bio_counted st : counted st -> counted (submit_bio st).
Proof.
  unfold submit_bio. intros Hst. destruct (s_bio st) as [b|] eqn:Hbio.
  - cbn. rewrite Hst, length_app. cbn. f_equal. lia.
  - rewrite Hbio. exact Hst.
Qed.

Section WithSuperblock.

Variable clusterpages : nat.
Variable EROFS_UNALLOCATED_CACHED_PAGE : Z.
Variable tagptr_unfold_tags : Z -> Z.
Variable tagptr_unfold_ptr : Z -> Z.
Variable erofs_allocpage : list Z -> mm -> Z * list Z * mm.
Variable add_to_page_cache_lru : Z -> Z -> mm -> Z * mm.
Variable bio_add_page : list Z -> Z -> bool.

Lemma bio_add_counted fuel : forall first_index i page st st',
  counted st ->
  bio_add bio_add_page fuel first_index i page st = Ok st' ->
  counted st' /\ is_Some (s_bio st').
Proof.
  induction fuel as [|fuel IH]; intros first_index i page st st' Hst Hrun;
    cbn [bio_add] in Hrun.
  - destruct (s_bio st) as [b|] eqn:Hbio; cbn [s_bio] in Hrun.
    + rewrite Hbio in Hrun. destruct (bio_add_page _ _); [|discriminate].
      injection Hrun as <-. cbn. rewrite Hst. eauto.
    + destruct (bio_add_page _ _); [|discriminate].
      injection Hrun as <-. cbn. rewrite Hst, Z.add_0_r.
      split; [apply u32_succ|eauto].
  - destruct (s_bio st) as [b|] eqn:Hbio; cbn [s_bio] in Hrun.
    + rewrite Hbio in Hrun. destruct (bio_add_page _ _).
      * injection Hrun as <-. cbn. rewrite Hst. eauto.
      * apply IH in Hrun; [exact Hrun|].
        apply submit_bio_counted. rewrite Hbio. exact Hst.
    + destruct (bio_add_page _ _).
      * injection Hrun as <-. cbn. rewrite Hst, Z.add_0_r.
        split; [apply u32_succ|eauto].
      * apply IH in Hrun; [exact Hrun|].
        apply submit_bio_counted. cbn. rewrite Hst, Z.add_0_r.
        apply u32_succ.
Qed.

Lemma submit_pages_counted fuel todo :
  forall g first_index noio st m noio' st' m',
  counted st ->
  submit_pages EROFS_UNALLOCATED_CACHED_PAGE tagptr_unfold_tags
    tagptr_unfold_ptr erofs_allocpage add_to_page_cache_lru bio_add_page
    fuel todo g first_index noio st m = Ok (noio', st', m') ->
  counted st'.
Proof.
  induction todo as [|i todo IH]; intros g first_index noio st m noio' st' m'
    Hst Hrun; cbn [submit_pages] in Hrun.
  - injection Hrun as <- <- <-. exact Hst.
  - destruct (z_erofs_workgrp_grab_page_for_submission _ _ _ _ _ _ _ _ _ _)
      as [[[page pool1] m1]| | | |]; try discriminate.
    cbn [mbind outcome_bind] in Hrun.
    destruct (page =? 0).
    + apply IH in Hrun; [exact Hrun|]. exact Hst.
    + destruct (bio_add _ _ _ _ _ _) as [st1| | | |] eqn:Hadd;
        try discriminate.
      cbn [mbind outcome_bind] in Hrun.
      apply IH in Hrun; [exact Hrun|].
      apply bio_add_counted in Hadd as [Hc _]; [exact Hc|].
      cbn [s_force_submit]. destruct (s_force_submit st);
        [apply submit_bio_counted|]; exact Hst.
Qed.

Lemma submit_all_loop_counted fuel : forall owned_head ch st m ch' st' m',
  counted st ->
  submit_all_loop clusterpages EROFS_UNALLOCATED_CACHED_PAGE tagptr_unfold_tags
    tagptr_unfold_ptr erofs_allocpage add_to_page_cache_lru bio_add_page
    fuel owned_head ch st m = Ok (ch', st', m') ->
  counted st'.
Proof.
  induction fuel as [|fuel IH]; intros owned_head ch st m ch' st' m' Hst Hrun;
    [discriminate|].
  cbn [submit_all_loop] in Hrun.
  destruct owned_head as [| | |g]; try discriminate.
  destruct (deref_grp m (Z.pos g)) as [grp| | | |]; try discriminate.
  cbn [mbind outcome_bind] in Hrun.
  destruct (submit_pages _ _ _ _ _ _ _ _ _ _ _ _ _)
    as [[[noio st2] m2]| | | |] eqn:Hpages; try discriminate.
  cbn [mbind outcome_bind] in Hrun.
  apply submit_pages_counted in Hpages; [|exact Hst].
  destruct (submit_link _ _ _ _ _ _) as [[ch3 m3]| | | |]; try discriminate.
  cbn [mbind outcome_bind] in Hrun.
  destruct (decide _).
  - injection Hrun as <- <- <-. exact Hpages.
  - apply IH in Hrun; [exact Hrun|exact Hpages].
Qed.

End WithSuperblock.
End SubmitBiosFacts.

(** X24.  The count that [z_erofs_vle_submit_all] hands to its kickoff and
    to its caller is the number of bios it has submitted.  Whenever the call
    returns, [*io_submitted] is the number of the bios submitted (as an
    [unsigned]).  If no bio was submitted, a foreground call makes its
    kickoff of 0 and so the wake-up at once, and a background call makes no
    kickoff.  If bios were submitted, fewer than 2^31, the kickoff leaves
    their number in [pending_bios] and sets nothing going: that is left to
    the end of the last bio. *)
Theorem submit_all_counts_bios :
  forall (clusterpages : nat) (CONFIG_PREEMPT_COUNT : bool)
         (EROFS_UNALLOCATED_CACHED_PAGE : Z)
         (tagptr_unfold_tags tagptr_unfold_ptr : Z -> Z)
         (erofs_allocpage : list Z -> mm -> Z * list Z * mm)
         (add_to_page_cache_lru : Z -> Z -> mm -> Z * mm)
         (bio_add_page : list Z -> Z -> bool)
         (fuel : nat) (owned_head : z_erofs_vle_owned_workgrp_t)
         (pagepool : list Z) (fg_io0 fg_io1 : SubmitAll.z_erofs_vle_unzip_io)
         (force_fg atomic : bool) (last_index : Z) (m : mm)
         (r : SubmitAll.submitted),
    SubmitAll.z_erofs_vle_submit_all clusterpages CONFIG_PREEMPT_COUNT
      EROFS_UNALLOCATED_CACHED_PAGE tagptr_unfold_tags tagptr_unfold_ptr
      erofs_allocpage add_to_page_cache_lru bio_add_page fuel owned_head
      pagepool fg_io0 fg_io1 force_fg atomic last_index m = Ok r ->
    SubmitAll.r_io_submitted r
    = u32 (Z.of_nat (length (SubmitAll.r_bios r))) /\
    (SubmitAll.r_ret r = true ->
     (SubmitAll.r_bios r = [] ->
      SubmitAll.r_kicks r = if force_fg then [Io.wake_up_locked] else []) /\
     (SubmitAll.r_bios r <> [] ->
      Z.of_nat (length (SubmitAll.r_bios r)) < 2 ^ 31 ->
      SubmitAll.r_kicks r = [] /\
      SubmitAll.io_pending_bios (SubmitAll.r_io1 r)
      = Z.of_nat (length (SubmitAll.r_bios r)))).
Proof.
  intros clusterpages PC unalloc tags ptr alloc add bio_add fuel owned_head pool
    fg_io0 fg_io1 force_fg atomic last_index m r Hrun.
  unfold SubmitAll.z_erofs_vle_submit_all in Hrun.
  destruct (decide (owned_head = Z_EROFS_VLE_WORKGRP_TAIL)) as [Htail|Hopen].
  { injection Hrun as <-. cbn. split; [reflexivity|discriminate]. }
  assert (Hio1 : (if force_fg
                  then SubmitAll.prepare_io_handler (Some fg_io1) false
                  else SubmitAll.prepare_io_handler None true)
                 = Ok (SubmitAll.mk_io 0 Z_EROFS_VLE_WORKGRP_TAIL_CLOSED))
    by (destruct force_fg; reflexivity).
  rewrite Hio1 in Hrun.
  cbn [SubmitAll.prepare_io_handler negb mbind outcome_bind SubmitAll.io_head
       SubmitAll.io_pending_bios] in Hrun.
  destruct (SubmitAll.submit_all_loop _ _ _ _ _ _ _ _ _ _ _ _)
    as [[[ch st] m1]| | | |] eqn:Hloop; try discriminate.
  cbn [mbind outcome_bind] in Hrun.
  apply (SubmitBiosFacts.submit_all_loop_counted) in Hloop; [|reflexivity].
  apply SubmitBiosFacts.submit_bio_counted in Hloop.
  assert (Hnone : SubmitAll.s_bio (SubmitAll.submit_bio st) = None).
  { unfold SubmitAll.submit_bio. destruct (SubmitAll.s_bio st) eqn:Hb;
      [reflexivity|exact Hb]. }
  rewrite Hnone, Z.add_0_r in Hloop.
  set (st' := SubmitAll.submit_bio st) in *.
  set (n := Z.of_nat (length (SubmitAll.s_submitted st'))) in *.
  assert (Hn : 0 <= n) by (unfold n; lia).
  match type of Hrun with
  | context [mbind _ ?x] => destruct x as [m2| | | |]; try discriminate
  end.
  cbn [mbind outcome_bind] in Hrun.
  assert (Hzero : SubmitAll.s_submitted st' = [] -> SubmitAll.s_nr_bios st' = 0).
  { intros Hnil. rewrite Hloop. unfold n. rewrite Hnil. reflexivity. }
  assert (Hsmall : SubmitAll.s_submitted st' <> [] -> n < 2 ^ 31 ->
                   SubmitAll.s_nr_bios st' = n /\ n <> 0).
  { intros Hne Hlt. split.
    - rewrite Hloop. unfold u32. apply wrap_small. lia.
    - unfold n. destruct (SubmitAll.s_submitted st'); [contradiction|].
      cbn. lia. }
  destruct (negb force_fg && (SubmitAll.s_nr_bios st' =? 0)) eqn:Hskip.
  - injection Hrun as <-. cbn. split; [exact Hloop|]. intros _.
    apply andb_true_iff in Hskip as [Hbg Hz].
    apply negb_true_iff in Hbg. subst force_fg. apply Z.eqb_eq in Hz.
    split; [reflexivity|].
    intros Hne Hlt. destruct (Hsmall Hne Hlt) as [Hnr Hnz]. congruence.
  - destruct (Io.z_erofs_vle_unzip_kickoff PC (negb force_fg) atomic 0
                (SubmitAll.s_nr_bios st')) as [pending kicks] eqn:Hkick.
    injection Hrun as <-. cbn. split; [exact Hloop|]. intros _.
    split.
    + intros Hnil. rewrite (Hzero Hnil) in Hkick, Hskip.
      rewrite Z.eqb_refl, andb_true_r in Hskip.
      apply negb_false_iff in Hskip. subst force_fg.
      cbn in Hkick. injection Hkick as _ <-. reflexivity.
    + intros Hne Hlt. destruct (Hsmall Hne Hlt) as [Hnr Hnz].
      rewrite Hnr in Hkick.
      rewrite (IoFacts.kickoff_pending PC) in Hkick by lia.
      injection Hkick as <- <-. split; [reflexivity|lia].
Qed.

Lemma submit_all_counts_bios_witness :
  exists r,
    demo_submit_all true demo_submit_mm = Ok r /\
    SubmitAll.r_io_submitted r = 1 /\
    length (SubmitAll.r_bios r) = 1%nat /\
    SubmitAll.r_kicks r = [] /\
    SubmitAll.io_pending_bios (SubmitAll.r_io1 r) = 1.
Proof.
  eexists. split; [vm_compute; reflexivity|].
  split; [reflexivity|]. split; [reflexivity|].
  edestruct (submit_all_counts_bios 1 true 0x5F0EF00D
               (fun v => Z.land v 1) (fun v => Z.land v (-2))
               demo_allocpage (fun _ _ m => (- ENOMEM, m)) (fun _ _ => true)
               2 (WORKGRP 1000) []
               (SubmitAll.mk_io 7 Z_EROFS_VLE_WORKGRP_NIL)
               (SubmitAll.mk_io 7 Z_EROFS_VLE_WORKGRP_NIL)
               true false 0 demo_submit_mm)
    as [_ Hkick].
  - vm_compute. reflexivity.
  - destruct (Hkick eq_refl) as [_ Hsome].
    destruct Hsome as [Hkicks Hpending]; [discriminate|cbn; lia|].
    split; [exact Hkicks|exact Hpending].
Defined.

(** ** Setting the subsystem up and tearing it down *)

(** X25.  [z_erofs_init_zip_subsystem] sets up both the slab cache and the
    workqueue, or neither.  When the kernel hands out addresses that are not
    in use, the call returns 0 exactly if both could be created; then both
    exist, and [z_erofs_exit_zip_subsystem] takes them away again, leaving
    the caches and workqueues that were there before.  Otherwise it returns
    [-ENOMEM] with the caches and workqueues as before: a cache that was
    created is destroyed again.  The workqueue is asked for with
    [onlinecpus + onlinecpus / 4] threads. *)
Theorem init_zip_subsystem_all_or_nothing :
  forall (kmem_cache_create : Subsystem.kernel -> Z)
         (alloc_workqueue : Z -> Subsystem.kernel -> Z)
         (num_possible_cpus : Z) (k : Subsystem.kernel),
    let cachep := kmem_cache_create k in
    let k1 := Subsystem.mk_kernel (Subsystem.z_erofs_workqueue k) cachep
                ({[ cachep ]} ∪ Subsystem.caches k) (Subsystem.workqueues k) in
    let wq := alloc_workqueue
                (u32 (u32 num_possible_cpus + u32 num_possible_cpus / 4)) k1 in
    let r := Subsystem.z_erofs_init_zip_subsystem kmem_cache_create
               alloc_workqueue num_possible_cpus k in
    cachep ∉ Subsystem.caches k ->
    wq ∉ Subsystem.workqueues k ->
    if bool_decide (cachep <> 0) && bool_decide (wq <> 0) then
      r.1 = 0 /\
      Subsystem.z_erofs_workgroup_cachep r.2 = cachep /\
      Subsystem.z_erofs_workqueue r.2 = wq /\
      Subsystem.caches r.2 = {[ cachep ]} ∪ Subsystem.caches k /\
      Subsystem.workqueues r.2 = {[ wq ]} ∪ Subsystem.workqueues k /\
      exists k',
        Subsystem.z_erofs_exit_zip_subsystem r.2 = Ok k' /\
        Subsystem.caches k' = Subsystem.caches k /\
        Subsystem.workqueues k' = Subsystem.workqueues k
    else
      r.1 = - ENOMEM /\
      Subsystem.caches r.2 = Subsystem.caches k /\
      Subsystem.workqueues r.2 = Subsystem.workqueues k.
Proof.
  intros create alloc cpus k. cbn zeta.
  set (cachep := create k).
  unfold Subsystem.z_erofs_init_zip_subsystem. fold cachep.
  cbn [Subsystem.z_erofs_workgroup_cachep].
  destruct (Z.eqb_spec cachep 0) as [Hz|Hnz]; cbn [negb].
  - (* no cache *)
    intros _ _.
    rewrite bool_decide_eq_false_2 by (intros Hne; contradiction).
    cbn. auto.
  - rewrite bool_decide_eq_true_2 by exact Hnz. cbn [andb].
    unfold Subsystem.init_unzip_workqueue.
    cbn [Subsystem.z_erofs_workqueue Subsystem.z_erofs_workgroup_cachep
         Subsystem.caches Subsystem.workqueues].
    match goal with |- context [alloc ?n ?k1] => set (wq := alloc n k1) end.
    intros Hc Hw.
    destruct (Z.eqb_spec wq 0) as [Hwz|Hwnz]; cbn [negb].
    + rewrite bool_decide_eq_false_2 by (intros Hne; contradiction).
      change (- ENOMEM =? 0) with false. cbn.
      split; [reflexivity|]. split; [set_solver|reflexivity].
    + rewrite bool_decide_eq_true_2 by exact Hwnz. cbn.
      do 5 (split; [reflexivity|]).
      unfold Subsystem.z_erofs_exit_zip_subsystem. cbn.
      apply Z.eqb_neq in Hwnz, Hnz. rewrite Hwnz, Hnz.
      eexists. split; [reflexivity|]. cbn. split; set_solver.
Qed.

Lemma init_zip_subsystem_all_or_nothing_witness :
  let r := Subsystem.z_erofs_init_zip_subsystem (fun _ => 4096)
             (fun _ _ => 8192) 6 demo_kernel in
  r.1 = 0 /\
  exists k', Subsystem.z_erofs_exit_zip_subsystem r.2 = Ok k' /\
             Subsystem.caches k' = Subsystem.caches demo_kernel.
Proof.
  cbn zeta.
  pose proof (init_zip_subsystem_all_or_nothing (fun _ => 4096)
                (fun _ _ => 8192) 6 demo_kernel) as H.
  cbn zeta in H.
  specialize (H ltac:(cbn; set_solver) ltac:(cbn; set_solver)).
  rewrite bool_decide_eq_true_2 in H by lia.
  rewrite bool_decide_eq_true_2 in H by lia.
  cbn [andb] in H.
  destruct H as (Hr & _ & _ & _ & _ & k' & Hexit & Hcaches & _).
  split; [exact Hr|]. exists k'. split; [exact Hexit|exact Hcaches].
Defined.

(** ** Submitting an owned chain and decompressing it *)

Module SubmitUnzipFacts.
Import Submit SubmitAll.

(** The reference count of every workgroup, as far as it exists. *)
Local Abbreviation refs m x := (grp_refcount <$> (grps m !! x)).

Lemma refs_store m x grp grp' y :
  grps m !! x = Some grp ->
  grp_refcount grp' = grp_refcount grp ->
  refs (store_grp m x grp') y = refs m y.
Proof.
  intros Hgrp Href. cbn. destruct (decide (y = x)) as [->|Hne].
  - rewrite lookup_insert_eq, Hgrp. cbn. f_equal. exact Href.
  - rewrite lookup_insert_ne by congruence. reflexivity.
Qed.

Lemma refs_is_Some m m' x :
  refs m' x = refs m x -> is_Some (grps m !! x) -> is_Some (grps m' !! x).
Proof.
  intros Hn [grp Hgrp]. rewrite Hgrp in Hn.
  destruct (grps m' !! x); [eauto|discriminate].
Qed.

Lemma s32_add_l a b : Io.s32 (Io.s32 a + b) = Io.s32 (a + b).
Proof.
  unfold Io.s32, wrap. f_equal.
  replace ((a + 2 ^ 31) mod 2 ^ 32 - 2 ^ 31 + b + 2 ^ 31)
    with ((a + 2 ^ 31) mod 2 ^ 32 + b) by lia.
  rewrite Zplus_mod_idemp_l. f_equal. lia.
Qed.

Lemma s32_zero x : 0 <= x < 2 ^ 32 -> Io.s32 x = 0 -> x = 0.
Proof.
  unfold Io.s32, wrap. intros Hx Hz.
  destruct (Z_lt_le_dec x (2 ^ 31)) as [Hlt|Hge].
  - rewrite Z.mod_small in Hz by lia. lia.
  - replace (x + 2 ^ 31) with (x - 2 ^ 31 + 1 * 2 ^ 32) in Hz by lia.
    rewrite Z_mod_plus_full, Z.mod_small in Hz by lia. lia.
Qed.

Section WithSuperblock.

Variable clusterpages : nat.
Variable CONFIG_PREEMPT_COUNT : bool.
Variable PAGE_SHIFT : Z.
Variable z_erofs_onlinepage_index : struct_page -> Z.
Variable z_erofs_onlinepage_index2 : struct_page -> Z.
Variable plain_copy : list Z -> list Z -> Z -> Z.
Variable unzip_fast_percpu : list Z -> list Z -> Z -> Z -> Z.
Variable unzip_vmap : list Z -> list Z -> Z -> Z -> bool -> Z.
Variable erofs_vmap : list Z -> bool.
Variable erofs_allocpage : list Z -> mm -> Z * list Z * mm.
Variable EROFS_UNALLOCATED_CACHED_PAGE : Z.
Variable tagptr_unfold_tags : Z -> Z.
Variable tagptr_unfold_ptr : Z -> Z.
Variable add_to_page_cache_lru : Z -> Z -> mm -> Z * mm.
Variable bio_add_page : list Z -> Z -> bool.
Variable bi_status : bio -> Z.

Hypothesis erofs_allocpage_grps : forall pool m,
  grps (erofs_allocpage pool m).2 = grps m.
Hypothesis add_to_page_cache_lru_grps : forall page index m,
  grps (add_to_page_cache_lru page index m).2 = grps m.

Local Abbreviation submit_all :=
  (z_erofs_vle_submit_all clusterpages CONFIG_PREEMPT_COUNT
     EROFS_UNALLOCATED_CACHED_PAGE tagptr_unfold_tags tagptr_unfold_ptr
     erofs_allocpage add_to_page_cache_lru bio_add_page).

Local Abbreviation unzip_all :=
  (UnzipAll.z_erofs_vle_unzip_all clusterpages true PAGE_SHIFT
     z_erofs_onlinepage_index z_erofs_onlinepage_index2 plain_copy
     unzip_fast_percpu unzip_vmap erofs_vmap erofs_allocpage).

(** *** The submission keeps the reference counts *)

Lemma submit_pages_refs fuel todo : forall g first_index noio st m noio' st' m',
  is_Some (grps m !! g) ->
  submit_pages EROFS_UNALLOCATED_CACHED_PAGE tagptr_unfold_tags
    tagptr_unfold_ptr erofs_allocpage add_to_page_cache_lru bio_add_page
    fuel todo g first_index noio st m = Ok (noio', st', m') ->
  forall y, refs m' y = refs m y.
Proof.
  induction todo as [|i todo IH]; intros g first_index noio st m noio' st' m'
    [grp Hgrp] Hrun y; cbn [submit_pages] in Hrun.
  - injection Hrun as <- <- <-. reflexivity.
  - destruct (z_erofs_workgrp_grab_page_for_submission _ _ _ _ _ g first_index
                i (s_pagepool st) m) as [[[page pool1] m1]| | | |] eqn:Hgrab;
      try discriminate.
    cbn [mbind outcome_bind] in Hrun.
    destruct (SubmitAllFacts.grab_page_grps _ _ _ _ _ erofs_allocpage_grps
                add_to_page_cache_lru_grps _ _ _ _ _ _ _ _ _ Hgrp Hgrab)
      as [slots' Hg1].
    assert (Hn : forall z, refs m1 z = refs m z).
    { intros z. rewrite Hg1.
      exact (refs_store m g grp (with_compressed_pages grp slots') z Hgrp
               eq_refl). }
    assert (Hsome1 : is_Some (grps m1 !! g)).
    { rewrite Hg1, lookup_insert_eq. eauto. }
    destruct (page =? 0).
    + rewrite (IH _ _ _ _ _ _ _ _ Hsome1 Hrun y). apply Hn.
    + destruct (bio_add _ _ _ _ _ _) as [st1| | | |]; try discriminate.
      cbn [mbind outcome_bind] in Hrun.
      rewrite (IH _ _ _ _ _ _ _ _ Hsome1 Hrun y). apply Hn.
Qed.

Lemma link_refs m x v m' :
  (l ← deref_grp m x; Ok (store_grp m x (with_next l v))) = Ok m' ->
  forall y, refs m' y = refs m y.
Proof.
  unfold deref_grp. intros Hrun y.
  destruct (grps m !! x) as [l|] eqn:Hl; [|discriminate].
  cbn [mbind outcome_bind] in Hrun. injection Hrun as <-.
  exact (refs_store m x l (with_next l v) y Hl eq_refl).
Qed.

Lemma submit_link_refs g noio old ch m ch' m' :
  submit_link clusterpages g noio old ch m = Ok (ch', m') ->
  forall y, refs m' y = refs m y.
Proof.
  unfold submit_link. intros Hrun y.
  destruct (noio <? Z.of_nat clusterpages).
  { injection Hrun as <- <-. reflexivity. }
  set (nxt := if decide (old = Z_EROFS_VLE_WORKGRP_TAIL)
              then Z_EROFS_VLE_WORKGRP_TAIL_CLOSED else old) in *.
  assert (H1 : exists ch1 m1,
    (if c_lstgrp_io ch =? 0
     then Ok (mk_chains (c_head0 ch) nxt (c_lstgrp_noio ch) (c_lstgrp_io ch), m)
     else l ← deref_grp m (c_lstgrp_io ch);
          Ok (ch, store_grp m (c_lstgrp_io ch) (with_next l nxt)))
    = Ok (ch1, m1) /\ forall z, refs m1 z = refs m z).
  { destruct (c_lstgrp_io ch =? 0).
    - eexists _, _. split; [reflexivity|]. reflexivity.
    - unfold deref_grp in *.
      destruct (grps m !! c_lstgrp_io ch) as [l|] eqn:Hl; [|discriminate].
      cbn [mbind outcome_bind]. eexists _, _. split; [reflexivity|].
      intros z. exact (refs_store m _ l (with_next l nxt) z Hl eq_refl). }
  destruct H1 as (ch1 & m1 & Heq1 & Hr1).
  rewrite Heq1 in Hrun. cbn [mbind outcome_bind] in Hrun.
  assert (H2 : exists ch2 m2,
    (if c_lstgrp_noio ch1 =? 0
     then Ok (mk_chains (WORKGRP g) (c_head1 ch1) (c_lstgrp_noio ch1)
                (c_lstgrp_io ch1), m1)
     else l ← deref_grp m1 (c_lstgrp_noio ch1);
          Ok (ch1, store_grp m1 (c_lstgrp_noio ch1) (with_next l (WORKGRP g))))
    = Ok (ch2, m2) /\ forall z, refs m2 z = refs m1 z).
  { destruct (c_lstgrp_noio ch1 =? 0).
    - eexists _, _. split; [reflexivity|]. reflexivity.
    - unfold deref_grp in *.
      destruct (grps m1 !! c_lstgrp_noio ch1) as [l|] eqn:Hl; [|discriminate].
      cbn [mbind outcome_bind]. eexists _, _. split; [reflexivity|].
      intros z. exact (refs_store m1 _ l (with_next l (WORKGRP g)) z Hl eq_refl). }
  destruct H2 as (ch2 & m2 & Heq2 & Hr2).
  rewrite Heq2 in Hrun. cbn [mbind outcome_bind] in Hrun.
  injection Hrun as <- <-. rewrite Hr2. apply Hr1.
Qed.

Lemma submit_all_loop_refs fuel : forall owned_head ch st m ch' st' m',
  submit_all_loop clusterpages EROFS_UNALLOCATED_CACHED_PAGE tagptr_unfold_tags
    tagptr_unfold_ptr erofs_allocpage add_to_page_cache_lru bio_add_page
    fuel owned_head ch st m = Ok (ch', st', m') ->
  forall y, refs m' y = refs m y.
Proof.
  induction fuel as [|fuel IH]; intros owned_head ch st m ch' st' m' Hrun y;
    [discriminate|].
  cbn [submit_all_loop] in Hrun.
  destruct owned_head as [| | |g]; try discriminate.
  unfold deref_grp in Hrun at 1.
  destruct (grps m !! Z.pos g) as [grp|] eqn:Hgrp; [|discriminate].
  cbn [mbind outcome_bind] in Hrun.
  set (m1 := if decide (grp_next grp = Z_EROFS_VLE_WORKGRP_TAIL)
             then store_grp m (Z.pos g)
                    (with_next grp Z_EROFS_VLE_WORKGRP_TAIL_CLOSED)
             else m) in *.
  assert (Hr1 : forall z, refs m1 z = refs m z).
  { intros z. unfold m1. destruct (decide _); [|reflexivity].
    exact (refs_store m _ grp
             (with_next grp Z_EROFS_VLE_WORKGRP_TAIL_CLOSED) z Hgrp eq_refl). }
  destruct (submit_pages _ _ _ _ _ _ _ _ _ _ _ _ m1)
    as [[[noio st2] m2]| | | |] eqn:Hpages; try discriminate.
  cbn [mbind outcome_bind] in Hrun.
  assert (Hr2 : forall z, refs m2 z = refs m1 z).
  { assert (Hsome1 : is_Some (grps m1 !! Z.pos g))
      by (apply (refs_is_Some m); [apply Hr1|eauto]).
    exact (submit_pages_refs _ _ _ _ _ _ _ _ _ _ Hsome1 Hpages). }
  destruct (submit_link clusterpages g noio (grp_next grp) ch m2)
    as [[ch3 m3]| | | |] eqn:Hlink; try discriminate.
  cbn [mbind outcome_bind] in Hrun.
  pose proof (submit_link_refs _ _ _ _ _ _ _ Hlink) as Hr3.
  destruct (decide _).
  - injection Hrun as <- <- <-. rewrite Hr3, Hr2. apply Hr1.
  - rewrite (IH _ _ _ _ _ _ _ Hrun y), Hr3, Hr2. apply Hr1.
Qed.

Lemma submit_all_refs fuel owned_head pool io0 io1 force_fg atomic last_index
    m r :
  submit_all fuel owned_head pool io0 io1 force_fg atomic last_index m = Ok r ->
  forall y, refs (r_mm r) y = refs m y.
Proof.
  unfold z_erofs_vle_submit_all. intros Hrun y.
  destruct (decide (owned_head = Z_EROFS_VLE_WORKGRP_TAIL)).
  { injection Hrun as <-. reflexivity. }
  assert (Hio1 : (if force_fg
                  then prepare_io_handler (Some io1) false
                  else prepare_io_handler None true)
                 = Ok (mk_io 0 Z_EROFS_VLE_WORKGRP_TAIL_CLOSED))
    by (destruct force_fg; reflexivity).
  rewrite Hio1 in Hrun.
  cbn [prepare_io_handler negb mbind outcome_bind io_head io_pending_bios]
    in Hrun.
  destruct (submit_all_loop _ _ _ _ _ _ _ _ _ _ _ _)
    as [[[ch st] m1]| | | |] eqn:Hloop; try discriminate.
  cbn [mbind outcome_bind] in Hrun.
  pose proof (submit_all_loop_refs _ _ _ _ _ _ _ _ Hloop) as Hr1.
  match type of Hrun with
  | context [mbind _ ?x] =>
      assert (Hclose : forall m2, x = Ok m2 -> forall z, refs m2 z = refs m1 z);
        [|destruct x as [m2| | | |]; try discriminate]
  end.
  { intros m2 Hx. destruct (c_lstgrp_noio ch =? 0); cbn [negb] in Hx.
    - injection Hx as <-. reflexivity.
    - exact (link_refs _ _ _ _ Hx). }
  cbn [mbind outcome_bind] in Hrun.
  specialize (Hclose m2 eq_refl).
  destruct (negb force_fg && _).
  - injection Hrun as <-. cbn. rewrite Hclose. apply Hr1.
  - destruct (Io.z_erofs_vle_unzip_kickoff _ _ _ _ _) as [pending kicks].
    injection Hrun as <-. cbn. rewrite Hclose. apply Hr1.
Qed.

(** *** The submission deals the chain out *)

Lemma submit_all_chains fuel owned_head pool io0 io1 force_fg atomic
    last_index m gs r :
  chain_seg m Z_EROFS_VLE_WORKGRP_TAIL owned_head gs ->
  owned_head <> Z_EROFS_VLE_WORKGRP_TAIL ->
  submit_all fuel owned_head pool io0 io1 force_fg atomic last_index m = Ok r ->
  r_ret r = true /\
  exists gs0 gs1,
    gs0 ++ gs1 ≡ₚ gs /\
    UnzipAll.owned_chain (r_mm r) (io_head (r_io0 r)) gs0 /\
    UnzipAll.owned_chain (r_mm r) (io_head (r_io1 r)) gs1 /\
    (forall y, y ∉ gs ->
       grp_next <$> grps (r_mm r) !! y = grp_next <$> grps m !! y).
Proof.
  intros Hchain Hopen Hrun.
  unfold z_erofs_vle_submit_all in Hrun.
  rewrite decide_False in Hrun by exact Hopen.
  assert (Hio1 : (if force_fg
                  then prepare_io_handler (Some io1) false
                  else prepare_io_handler None true)
                 = Ok (mk_io 0 Z_EROFS_VLE_WORKGRP_TAIL_CLOSED))
    by (destruct force_fg; reflexivity).
  rewrite Hio1 in Hrun.
  cbn [prepare_io_handler negb mbind outcome_bind io_head io_pending_bios]
    in Hrun.
  destruct (submit_all_loop _ _ _ _ _ _ _ _ _ _ _ _)
    as [[[ch st] m1]| | | |] eqn:Hloop; try discriminate.
  cbn [mbind outcome_bind] in Hrun.
  pose proof (SubmitAllFacts.chain_seg_NoDup _ _ _ Hchain) as Hnodup.
  destruct (SubmitAllFacts.submit_all_loop_chains clusterpages
              EROFS_UNALLOCATED_CACHED_PAGE tagptr_unfold_tags
              tagptr_unfold_ptr erofs_allocpage add_to_page_cache_lru
              bio_add_page erofs_allocpage_grps add_to_page_cache_lru_grps
              fuel gs [] [] owned_head
              (mk_chains Z_EROFS_VLE_WORKGRP_TAIL_CLOSED owned_head 0 0)
              (mk_submit None [] 0 false last_index pool) m
              ch st m1 Hchain)
    as (gs0 & gs1 & _ & _ & Hperm & Hseg1 & Hnoio & Hhead0 & Hframe);
    [constructor|reflexivity|left; split; reflexivity|exact Hnodup|exact Hloop|].
  cbn [app c_head0] in Hseg1, Hnoio, Hhead0, Hframe.
  assert (Hnd01 : NoDup (gs0 ++ gs1)) by (rewrite Hperm; exact Hnodup).
  apply NoDup_app in Hnd01 as (Hnd0 & Hdisj & _).
  assert (Hclose : exists m2,
    (if negb (c_lstgrp_noio ch =? 0)
     then l ← deref_grp m1 (c_lstgrp_noio ch);
          Ok (store_grp m1 (c_lstgrp_noio ch)
                (with_next l Z_EROFS_VLE_WORKGRP_TAIL_CLOSED))
     else Ok m1) = Ok m2 /\
    UnzipAll.owned_chain m2 (c_head0 ch) gs0 /\
    UnzipAll.owned_chain m2 (c_head1 ch) gs1 /\
    (forall y, y ∉ gs -> grp_next <$> grps m2 !! y = grp_next <$> grps m1 !! y)).
  { destruct Hnoio as [[-> Hnull]|(Q & p & -> & Hseg0 & Hl & [l Hsome])].
    - rewrite Hnull. cbn [Z.eqb negb]. exists m1. split; [reflexivity|].
      rewrite (Hhead0 eq_refl).
      split; [constructor|]. split; [|reflexivity].
      apply SubmitAllFacts.chain_seg_owned. exact Hseg1.
    - rewrite Hl. cbn [Z.eqb negb].
      rewrite (ReclaimFacts.deref_grp_Some _ _ _ Hsome).
      cbn [mbind outcome_bind]. eexists. split; [reflexivity|].
      apply NoDup_app in Hnd0 as (_ & HdisjQ & _).
      split; [|split].
      + apply SubmitAllFacts.chain_seg_owned.
        change Z_EROFS_VLE_WORKGRP_TAIL_CLOSED
          with (grp_next (with_next l Z_EROFS_VLE_WORKGRP_TAIL_CLOSED)).
        apply SubmitAllFacts.chain_seg_snoc; [|cbn; apply lookup_insert_eq].
        apply (SubmitAllFacts.chain_seg_frame m1); [exact Hseg0|].
        intros x Hx. rewrite SubmitAllFacts.nexts_store_next.
        destruct (decide (x = Z.pos p)) as [->|_]; [|reflexivity].
        destruct (HdisjQ _ Hx). apply list_elem_of_singleton. reflexivity.
      + apply SubmitAllFacts.chain_seg_owned.
        apply (SubmitAllFacts.chain_seg_frame m1); [exact Hseg1|].
        intros x Hx. rewrite SubmitAllFacts.nexts_store_next.
        destruct (decide (x = Z.pos p)) as [->|_]; [|reflexivity].
        destruct (Hdisj (Z.pos p)); [|exact Hx].
        apply elem_of_app. right. apply list_elem_of_singleton. reflexivity.
      + intros y Hy. rewrite SubmitAllFacts.nexts_store_next.
        destruct (decide (y = Z.pos p)) as [->|_]; [|reflexivity].
        destruct Hy. rewrite <- Hperm. apply elem_of_app. left.
        apply elem_of_app. right. apply list_elem_of_singleton. reflexivity. }
  destruct Hclose as (m2 & Heq & Hchain0 & Hchain1 & Hframe2).
  rewrite Heq in Hrun. cbn [mbind outcome_bind] in Hrun.
  assert (Hout : forall y, y ∉ gs ->
            grp_next <$> grps m2 !! y = grp_next <$> grps m !! y).
  { intros y Hy. rewrite (Hframe2 y Hy). apply Hframe. exact Hy. }
  destruct (negb force_fg && _).
  - injection Hrun as <-. cbn. split; [reflexivity|].
    exists gs0, gs1. auto 10.
  - destruct (Io.z_erofs_vle_unzip_kickoff _ _ _ _ _) as [pending kicks].
    injection Hrun as <-. cbn. split; [reflexivity|].
    exists gs0, gs1. auto 10.
Qed.

(** A foreground submission leaves the number of its bios in
    [pending_bios]. *)
Lemma submit_all_pending fuel owned_head pool io0 io1 atomic last_index m r :
  submit_all fuel owned_head pool io0 io1 true atomic last_index m = Ok r ->
  r_ret r = true ->
  let n := u32 (Z.of_nat (length (r_bios r))) in
  io_pending_bios (r_io1 r) = Io.s32 n /\
  r_kicks r = if Io.s32 n =? 0 then [Io.wake_up_locked] else [].
Proof.
  unfold z_erofs_vle_submit_all. intros Hrun Hret.
  destruct (decide (owned_head = Z_EROFS_VLE_WORKGRP_TAIL)).
  { injection Hrun as <-. discriminate Hret. }
  cbn [prepare_io_handler negb mbind outcome_bind io_head io_pending_bios
       andb] in Hrun.
  destruct (submit_all_loop _ _ _ _ _ _ _ _ _ _ _ _)
    as [[[ch st] m1]| | | |] eqn:Hloop; try discriminate.
  cbn [mbind outcome_bind] in Hrun.
  apply (SubmitBiosFacts.submit_all_loop_counted) in Hloop; [|reflexivity].
  apply SubmitBiosFacts.submit_bio_counted in Hloop.
  assert (Hnone : s_bio (submit_bio st) = None).
  { unfold submit_bio. destruct (s_bio st) eqn:Hb; [reflexivity|exact Hb]. }
  rewrite Hnone, Z.add_0_r in Hloop.
  match type of Hrun with
  | context [mbind _ ?x] => destruct x as [m2| | | |]; try discriminate
  end.
  cbn [mbind outcome_bind] in Hrun.
  unfold Io.z_erofs_vle_unzip_kickoff, Io.atomic_add_return in Hrun.
  cbn [negb] in Hrun. injection Hrun as <-.
  cbn [r_bios r_io1 r_kicks io_pending_bios]. cbn zeta.
  rewrite <- Hloop. cbn [Z.add]. split; reflexivity.
Qed.

(** *** Decompression of a chain *)

Lemma unzip_all_effect gs : forall fuel head pool m pool' m',
  UnzipAll.owned_chain m head gs ->
  unzip_all fuel head pool m = Ok (pool', m') ->
  (forall g, g ∈ gs ->
     exists grp grp',
       grps m !! g = Some grp /\ grps m' !! g = Some grp' /\
       grp_next grp' = Z_EROFS_VLE_WORKGRP_NIL /\
       work_lock (grp_work grp') = false /\
       grp_refcount grp' = grp_refcount grp - 1) /\
  (forall g, g ∉ gs -> grps m' !! g = grps m !! g).
Proof.
  induction gs as [|x gs IH]; intros fuel head pool m pool' m' Hchain Hrun.
  - inversion Hchain; subst. destruct fuel; cbn in Hrun;
      injection Hrun as <- <-; (split; [|reflexivity]);
      intros g Hg; apply elem_of_nil in Hg; destruct Hg.
  - pose proof Hchain as Hchain0.
    inversion Hchain as [|g grp gs0 Hgrp Hrest]; subst.
    apply UnzipAllFacts.owned_chain_head_once in Hchain0 as Honce.
    destruct fuel as [|fuel]; [discriminate|].
    cbn [UnzipAll.z_erofs_vle_unzip_all] in Hrun.
    rewrite (ReclaimFacts.deref_grp_Some _ _ _ Hgrp) in Hrun.
    cbn [mbind outcome_bind] in Hrun.
    destruct (Unzip.z_erofs_vle_unzip clusterpages true PAGE_SHIFT
                z_erofs_onlinepage_index z_erofs_onlinepage_index2 plain_copy
                unzip_fast_percpu unzip_vmap erofs_vmap erofs_allocpage
                m (Z.pos g) pool)
      as [[[err m1] pool1]| | | |] eqn:Hunzip; try discriminate.
    cbn [mbind outcome_bind] in Hrun.
    apply (UnzipAllFacts.unzip_effect clusterpages true PAGE_SHIFT
             z_erofs_onlinepage_index z_erofs_onlinepage_index2 plain_copy
             unzip_fast_percpu unzip_vmap erofs_vmap erofs_allocpage
             erofs_allocpage_grps) in Hunzip
      as (Hframe & grp0 & grp' & Hgrp0 & Hgrp' & Hnext & Hlock & Hcount).
    assert (Hchain1 : UnzipAll.owned_chain m1 (grp_next grp) gs).
    { apply (UnzipAllFacts.owned_chain_frame m); [exact Hrest|].
      intros y Hy. apply Hframe. intros ->. contradiction. }
    destruct (IH fuel (grp_next grp) pool1 m1 pool' m' Hchain1 Hrun)
      as [Hin Hout].
    split.
    + intros y Hy. apply elem_of_cons in Hy as [->|Hy].
      * exists grp0, grp'. split; [exact Hgrp0|].
        split; [rewrite (Hout _ Honce); exact Hgrp'|]. auto.
      * destruct (Hin y Hy) as (grp1 & grp1' & Hy1 & Hy1' & Hrest1).
        exists grp1, grp1'. split; [|split; [exact Hy1'|exact Hrest1]].
        rewrite <- Hframe; [exact Hy1|]. intros ->. contradiction.
    + intros y Hy. apply not_elem_of_cons in Hy as [Hne Hy].
      rewrite (Hout y Hy). apply Hframe. exact Hne.
Qed.

(** *** The end of the bios *)

Lemma read_endio_loop_grps err bvecs : forall mngda m m',
  Io.read_endio_loop true bvecs err mngda m = Ok m' -> grps m' = grps m.
Proof.
  induction bvecs as [|page bvecs IH]; intros mngda m m' Hrun;
    cbn [Io.read_endio_loop] in Hrun.
  - injection Hrun as <-. reflexivity.
  - destruct (deref_page m page) as [pg| | | |]; try discriminate.
    cbn [mbind outcome_bind] in Hrun.
    destruct (bool_decide (pg_mapping pg = MAPPING_NULL)); [discriminate|].
    match type of Hrun with
    | context [mbind _ ?x] => destruct x as [mngda'| | | |]; try discriminate
    end.
    cbn [mbind outcome_bind] in Hrun.
    apply IH in Hrun. exact Hrun.
Qed.

Local Abbreviation bios_end :=
  (SubmitUnzip.bios_end CONFIG_PREEMPT_COUNT bi_status).

Lemma bios_end_grps bios : forall pending m pending' kicks m',
  bios_end bios false pending m = Ok (pending', kicks, m') ->
  grps m' = grps m.
Proof.
  induction bios as [|b bios IH]; intros pending m pending' kicks m' Hrun;
    cbn [SubmitUnzip.bios_end] in Hrun.
  - injection Hrun as <- <- <-. reflexivity.
  - unfold Io.z_erofs_vle_read_endio in Hrun.
    destruct (Io.read_endio_loop true (bi_pages b) (bi_status b) MAPPING_NULL m)
      as [m1| | | |] eqn:Hloop; try discriminate.
    cbn [mbind outcome_bind] in Hrun.
    apply read_endio_loop_grps in Hloop.
    destruct (Io.z_erofs_vle_unzip_kickoff _ _ _ _ _) as [p1 k1].
    cbn [mbind outcome_bind] in Hrun.
    destruct (SubmitUnzip.bios_end _ _ bios false p1 m1)
      as [[[p2 k2] m2]| | | |] eqn:Hrest; try discriminate.
    cbn [mbind outcome_bind] in Hrun. injection Hrun as <- <- <-.
    apply IH in Hrest. congruence.
Qed.

(** With [n] bios in flight, the end of [k] of them leaves [n - k] in
    [pending_bios]; the wake-up is made by the end of the last one. *)
Lemma bios_end_pending bios : forall n m pending' kicks m',
  Z.of_nat (length bios) <= n < 2 ^ 32 ->
  bios_end bios false (Io.s32 n) m = Ok (pending', kicks, m') ->
  pending' = Io.s32 (n - Z.of_nat (length bios)) /\
  kicks = if bool_decide (bios <> [] /\ Z.of_nat (length bios) = n)
          then [Io.wake_up_locked] else [].
Proof.
  induction bios as [|b bios IH]; intros n m pending' kicks m' Hn Hrun;
    cbn [SubmitUnzip.bios_end] in Hrun.
  - injection Hrun as <- <- <-. cbn [length]. rewrite Z.sub_0_r.
    split; [reflexivity|].
    rewrite bool_decide_eq_false_2; [reflexivity|]. intros [Hc _]. congruence.
  - unfold Io.z_erofs_vle_read_endio in Hrun.
    destruct (Io.read_endio_loop true (bi_pages b) (bi_status b) MAPPING_NULL m)
      as [m1| | | |] eqn:Hloop; try discriminate.
    cbn [mbind outcome_bind] in Hrun.
    unfold Io.z_erofs_vle_unzip_kickoff, Io.atomic_add_return in Hrun.
    cbn [negb mbind outcome_bind] in Hrun.
    rewrite s32_add_l in Hrun.
    cbn [length] in Hn. rewrite Nat2Z.inj_succ in Hn.
    replace (n + -1) with (n - 1) in Hrun by lia.
    destruct (SubmitUnzip.bios_end _ _ bios false (Io.s32 (n - 1)) m1)
      as [[[p2 k2] m2]| | | |] eqn:Hrest; try discriminate.
    cbn [mbind outcome_bind] in Hrun. injection Hrun as <- <- <-.
    apply IH in Hrest as [-> ->]; [|lia].
    cbn [length]. rewrite Nat2Z.inj_succ.
    split; [f_equal; lia|].
    destruct (Z.eqb_spec (Io.s32 (n - 1)) 0) as [Hz|Hnz].
    + apply s32_zero in Hz; [|lia].
      assert (bios = []) as -> by (destruct bios; [reflexivity|cbn in Hn; lia]).
      rewrite bool_decide_eq_false_2 by (intros [Hc _]; congruence).
      rewrite bool_decide_eq_true_2; [reflexivity|].
      split; [discriminate|cbn; lia].
    + assert (Hn1 : n - 1 <> 0) by (intros Hc; rewrite Hc in Hnz; apply Hnz; reflexivity).
      cbn [app].
      destruct (decide (bios <> [] /\ Z.of_nat (length bios) = n - 1))
        as [[Hne Hlen]|Hno].
      * rewrite bool_decide_eq_true_2 by (split; assumption).
        rewrite bool_decide_eq_true_2; [reflexivity|].
        split; [discriminate|lia].
      * rewrite bool_decide_eq_false_2 by exact Hno.
        rewrite bool_decide_eq_false_2; [reflexivity|].
        intros [_ Hlen]. apply Hno. split; [|lia].
        intros ->. cbn in Hlen. lia.
Qed.

End WithSuperblock.
End SubmitUnzipFacts.

(** X26.  A foreground [z_erofs_submit_and_unzip] decompresses every
    workgroup of the owned chain, once, whether its compressed pages had to
    be read or not.  With the managed cache compiled in, helpers that leave
    the workgroups alone, no other thread at work, and the submitted bios
    ending while the caller waits: for an open chain, one that [next] links
    from [owned_head] up to TAIL, whenever the call returns, each workgroup
    of the chain has lost one reference and is idle, with [next] at NIL and
    its mutex free, and no other workgroup has got another [next] or
    reference count. *)
Theorem submit_and_unzip_decompresses_the_chain :
  forall (clusterpages : nat) (CONFIG_PREEMPT_COUNT : bool) (PAGE_SHIFT : Z)
         (z_erofs_onlinepage_index z_erofs_onlinepage_index2 : struct_page -> Z)
         (plain_copy : list Z -> list Z -> Z -> Z)
         (unzip_fast_percpu : list Z -> list Z -> Z -> Z -> Z)
         (unzip_vmap : list Z -> list Z -> Z -> Z -> bool -> Z)
         (erofs_vmap : list Z -> bool)
         (erofs_allocpage : list Z -> mm -> Z * list Z * mm)
         (EROFS_UNALLOCATED_CACHED_PAGE : Z)
         (tagptr_unfold_tags tagptr_unfold_ptr : Z -> Z)
         (add_to_page_cache_lru : Z -> Z -> mm -> Z * mm)
         (bio_add_page : list Z -> Z -> bool)
         (bi_status : SubmitAll.bio -> Z)
         (fuel : nat) (owned_head : z_erofs_vle_owned_workgrp_t)
         (pagepool : list Z) (io0 io1 : SubmitAll.z_erofs_vle_unzip_io)
         (atomic : bool) (last_index : Z) (m : mm) (gs : list Z)
         (pool' : list Z) (io_submitted : Z) (m' : mm),
    (forall pool m0, grps (erofs_allocpage pool m0).2 = grps m0) ->
    (forall p index m0, grps (add_to_page_cache_lru p index m0).2 = grps m0) ->
    SubmitAll.chain_seg m Z_EROFS_VLE_WORKGRP_TAIL owned_head gs ->
    owned_head <> Z_EROFS_VLE_WORKGRP_TAIL ->
    SubmitUnzip.z_erofs_submit_and_unzip clusterpages CONFIG_PREEMPT_COUNT
      PAGE_SHIFT z_erofs_onlinepage_index z_erofs_onlinepage_index2 plain_copy
      unzip_fast_percpu unzip_vmap erofs_vmap erofs_allocpage
      EROFS_UNALLOCATED_CACHED_PAGE tagptr_unfold_tags tagptr_unfold_ptr
      add_to_page_cache_lru bio_add_page bi_status fuel owned_head pagepool
      io0 io1 true atomic last_index m = Ok (pool', io_submitted, m') ->
    (forall g, g ∈ gs ->
       exists grp grp',
         grps m !! g = Some grp /\ grps m' !! g = Some grp' /\
         grp_next grp' = Z_EROFS_VLE_WORKGRP_NIL /\
         work_lock (grp_work grp') = false /\
         grp_refcount grp' = grp_refcount grp - 1) /\
    (forall y, y ∉ gs ->
       grp_next <$> grps m' !! y = grp_next <$> grps m !! y /\
       grp_refcount <$> grps m' !! y = grp_refcount <$> grps m !! y).
Proof.
  intros clusterpages PC PAGE_SHIFT idx idx2 plain fast vmapf vmap alloc unalloc
    tags ptr add bio_add status fuel owned_head pool io0 io1 atomic last_index
    m gs pool' io_submitted m' Halloc Hadd Hchain Hopen Hrun.
  unfold SubmitUnzip.z_erofs_submit_and_unzip in Hrun.
  destruct (SubmitAll.z_erofs_vle_submit_all _ _ _ _ _ _ _ _ _ _ _ _ _ _ _ _ _)
    as [r| | | |] eqn:Hsub; try discriminate.
  cbn [mbind outcome_bind] in Hrun.
  pose proof (SubmitUnzipFacts.submit_all_refs _ _ _ _ _ _ _ _ Halloc Hadd
                _ _ _ _ _ _ _ _ _ _ Hsub) as Hrefs.
  destruct (SubmitUnzipFacts.submit_all_chains _ _ _ _ _ _ _ _ Halloc Hadd
              _ _ _ _ _ _ _ _ _ _ _ Hchain Hopen Hsub)
    as (Hret & gs0 & gs1 & Hperm & Hc0 & Hc1 & Hnexts).
  rewrite Hret in Hrun. cbn [negb] in Hrun.
  assert (Hnd : NoDup (gs0 ++ gs1)).
  { rewrite Hperm. exact (SubmitAllFacts.chain_seg_NoDup _ _ _ Hchain). }
  apply NoDup_app in Hnd as (_ & Hdisj & _).
  (* the chain without io *)
  destruct (UnzipAll.z_erofs_vle_unzip_all _ _ _ _ _ _ _ _ _ _ _
              (SubmitAll.io_head (SubmitAll.r_io0 r)) _ _)
    as [[pool1 m1]| | | |] eqn:Hu0; try discriminate.
  cbn [mbind outcome_bind] in Hrun.
  destruct (SubmitUnzipFacts.unzip_all_effect _ _ _ _ _ _ _ _ _ Halloc
              _ _ _ _ _ _ _ Hc0 Hu0) as [Hin0 Hout0].
  (* the wait *)
  destruct (SubmitUnzip.bios_end _ _ _ _ _ _)
    as [[[pending kicks] m2]| | | |] eqn:Hend; try discriminate.
  cbn [mbind outcome_bind] in Hrun.
  apply SubmitUnzipFacts.bios_end_grps in Hend.
  destruct (negb (pending =? 0)); [discriminate|].
  (* the chain with io *)
  destruct (UnzipAll.z_erofs_vle_unzip_all _ _ _ _ _ _ _ _ _ _ _
              (SubmitAll.io_head (SubmitAll.r_io1 r)) _ _)
    as [[pool3 m3]| | | |] eqn:Hu1; try discriminate.
  cbn [mbind outcome_bind] in Hrun. injection Hrun as <- <- <-.
  assert (Hc1' : UnzipAll.owned_chain m2
                   (SubmitAll.io_head (SubmitAll.r_io1 r)) gs1).
  { apply (UnzipAllFacts.owned_chain_frame (SubmitAll.r_mm r)); [exact Hc1|].
    intros x Hx. rewrite Hend. apply Hout0.
    intros Hx0. exact (Hdisj x Hx0 Hx). }
  destruct (SubmitUnzipFacts.unzip_all_effect _ _ _ _ _ _ _ _ _ Halloc
              _ _ _ _ _ _ _ Hc1' Hu1) as [Hin1 Hout1].
  assert (Hstart : forall g grp1, SubmitAll.r_mm r = SubmitAll.r_mm r ->
            grps (SubmitAll.r_mm r) !! g = Some grp1 ->
            exists grp, grps m !! g = Some grp /\
                        grp_refcount grp = grp_refcount grp1).
  { intros g grp1 _ Hg1. pose proof (Hrefs g) as Hr. rewrite Hg1 in Hr.
    destruct (grps m !! g) as [grp|]; [|discriminate].
    exists grp. split; [reflexivity|]. cbn in Hr. congruence. }
  split.
  - intros g Hg. rewrite <- Hperm in Hg. apply elem_of_app in Hg as [Hg|Hg].
    + destruct (Hin0 g Hg) as (grp1 & grp' & Hg1 & Hg' & Hnext & Hlock & Hcount).
      destruct (Hstart g grp1 eq_refl Hg1) as (grp & Hgrp & Href).
      exists grp, grp'. split; [exact Hgrp|].
      split; [|split; [exact Hnext|split; [exact Hlock|lia]]].
      rewrite Hout1 by (intros Hg1'; exact (Hdisj g Hg Hg1')).
      rewrite Hend. exact Hg'.
    + destruct (Hin1 g Hg) as (grp1 & grp' & Hg1 & Hg' & Hnext & Hlock & Hcount).
      rewrite Hend, Hout0 in Hg1 by (intros Hg0; exact (Hdisj g Hg0 Hg)).
      destruct (Hstart g grp1 eq_refl Hg1) as (grp & Hgrp & Href).
      exists grp, grp'. split; [exact Hgrp|].
      split; [exact Hg'|split; [exact Hnext|split; [exact Hlock|lia]]].
  - intros y Hy.
    assert (Hy01 : (y ∉ gs0) /\ (y ∉ gs1)).
    { split; intros Hc; apply Hy; rewrite <- Hperm; apply elem_of_app; auto. }
    destruct Hy01 as [Hy0 Hy1].
    rewrite (Hout1 y Hy1), Hend, (Hout0 y Hy0).
    split; [apply Hnexts; exact Hy|apply Hrefs].
Qed.

Lemma submit_and_unzip_decompresses_the_chain_witness :
  exists pool' io_submitted m',
    demo_submit_and_unzip true demo_foreground_mm
    = Ok (pool', io_submitted, m') /\
    forall g, g ∈ [1000; 1100] ->
      exists grp grp',
        grps demo_foreground_mm !! g = Some grp /\ grps m' !! g = Some grp' /\
        grp_next grp' = Z_EROFS_VLE_WORKGRP_NIL /\
        work_lock (grp_work grp') = false /\
        grp_refcount grp' = grp_refcount grp - 1.
Proof.
  eexists _, _, _. split; [vm_compute; reflexivity|].
  edestruct (submit_and_unzip_decompresses_the_chain 1 true 12 pg_private
               pg_private (fun _ _ _ => 0) (fun _ _ _ _ => 0)
               (fun _ _ _ _ _ => 0) (fun _ => true) demo_allocpage
               0x5F0EF00D (fun v => Z.land v 1) (fun v => Z.land v (-2))
               (fun _ _ m => (- ENOMEM, m)) (fun _ _ => true) (fun _ => 0)
               2 (WORKGRP 1000) []
               (SubmitAll.mk_io 7 Z_EROFS_VLE_WORKGRP_NIL)
               (SubmitAll.mk_io 7 Z_EROFS_VLE_WORKGRP_NIL)
               false 0 demo_foreground_mm [1000; 1100])
    as [Hin _].
  - intros pool m0. unfold demo_allocpage.
    destruct (pages m0 !! 910); reflexivity.
  - reflexivity.
  - repeat (econstructor; try reflexivity).
  - discriminate.
  - vm_compute. reflexivity.
  - exact Hin.
Defined.

(** X27.  A foreground caller waits for exactly the bios it has submitted.
    With fewer than 2^32 bios submitted by [z_erofs_vle_submit_all], the
    [pending_bios] it leaves in [ios[1]] is zero, which is what
    [io_wait_event] in [z_erofs_submit_and_unzip] waits for, once all of the
    bios have ended and not before; and the one wake-up is made by the end
    of the last bio, or by the submission itself if it submitted none. *)
Theorem foreground_wait_ends_with_the_last_bio :
  forall (clusterpages : nat) (CONFIG_PREEMPT_COUNT : bool)
         (EROFS_UNALLOCATED_CACHED_PAGE : Z)
         (tagptr_unfold_tags tagptr_unfold_ptr : Z -> Z)
         (erofs_allocpage : list Z -> mm -> Z * list Z * mm)
         (add_to_page_cache_lru : Z -> Z -> mm -> Z * mm)
         (bio_add_page : list Z -> Z -> bool)
         (bi_status : SubmitAll.bio -> Z)
         (fuel : nat) (owned_head : z_erofs_vle_owned_workgrp_t)
         (pagepool : list Z) (io0 io1 : SubmitAll.z_erofs_vle_unzip_io)
         (atomic : bool) (last_index : Z) (m : mm) (r : SubmitAll.submitted)
         (k : nat) (m0 : mm) (pending : Z) (kicks : list Io.kick) (m1 : mm),
    SubmitAll.z_erofs_vle_submit_all clusterpages CONFIG_PREEMPT_COUNT
      EROFS_UNALLOCATED_CACHED_PAGE tagptr_unfold_tags tagptr_unfold_ptr
      erofs_allocpage add_to_page_cache_lru bio_add_page fuel owned_head
      pagepool io0 io1 true atomic last_index m = Ok r ->
    SubmitAll.r_ret r = true ->
    Z.of_nat (length (SubmitAll.r_bios r)) < 2 ^ 32 ->
    (k <= length (SubmitAll.r_bios r))%nat ->
    SubmitUnzip.bios_end CONFIG_PREEMPT_COUNT bi_status
      (take k (SubmitAll.r_bios r)) false
      (SubmitAll.io_pending_bios (SubmitAll.r_io1 r)) m0
    = Ok (pending, kicks, m1) ->
    (pending = 0 <-> k = length (SubmitAll.r_bios r)) /\
    SubmitAll.r_kicks r ++ kicks
    = if decide (k = length (SubmitAll.r_bios r))
      then [Io.wake_up_locked] else [].
Proof.
  intros clusterpages PC unalloc tags ptr alloc add bio_add status fuel
    owned_head pool io0 io1 atomic last_index m r k m0 pending kicks m1
    Hsub Hret Hlen Hk Hend.
  destruct (SubmitUnzipFacts.submit_all_pending _ _ _ _ _ _ _ _ _ _ _ _ _ _ _
              _ _ Hsub Hret) as [Hpending Hkicks].
  cbn zeta in Hpending, Hkicks.
  set (bios := SubmitAll.r_bios r) in *.
  assert (Hn : u32 (Z.of_nat (length bios)) = Z.of_nat (length bios))
    by (apply wrap_small; lia).
  rewrite Hn in Hpending, Hkicks. rewrite Hpending in Hend.
  assert (Htake : length (take k bios) = k) by (rewrite length_take; lia).
  apply SubmitUnzipFacts.bios_end_pending in Hend as [-> ->];
    [|rewrite Htake; lia].
  rewrite Htake, Hkicks.
  destruct (decide (k = length bios)) as [->|Hne].
  - split.
    { split; [reflexivity|]. intros _. rewrite Z.sub_diag. reflexivity. }
    rewrite firstn_all.
    destruct bios as [|b bios'].
    + reflexivity.
    + destruct (Z.eqb_spec (Io.s32 (Z.of_nat (length (b :: bios')))) 0)
        as [Hz|_].
      { apply SubmitUnzipFacts.s32_zero in Hz; [|lia]. cbn in Hz. lia. }
      rewrite bool_decide_eq_true_2; [reflexivity|].
      split; [discriminate|reflexivity].
  - split.
    { split; [|intros Hc; contradiction].
      intros Hz. apply SubmitUnzipFacts.s32_zero in Hz; lia. }
    destruct (Z.eqb_spec (Io.s32 (Z.of_nat (length bios))) 0) as [Hz|_].
    { apply SubmitUnzipFacts.s32_zero in Hz; lia. }
    rewrite bool_decide_eq_false_2; [reflexivity|].
    intros [_ Hc]. lia.
Qed.

Lemma foreground_wait_ends_with_the_last_bio_witness :
  exists r,
    demo_submit_all true demo_submit_mm = Ok r /\
    length (SubmitAll.r_bios r) = 1%nat /\
    exists pending kicks m1,
      SubmitUnzip.bios_end true (fun _ => 0) (take 1 (SubmitAll.r_bios r))
        false (SubmitAll.io_pending_bios (SubmitAll.r_io1 r))
        (SubmitAll.r_mm r)
      = Ok (pending, kicks, m1) /\
      (pending = 0 <-> 1%nat = length (SubmitAll.r_bios r)) /\
      SubmitAll.r_kicks r ++ kicks = [Io.wake_up_locked].
Proof.
  eexists. split; [vm_compute; reflexivity|].
  split; [reflexivity|].
  match goal with |- context [SubmitAll.r_mm ?r] => set (R := r) end.
  eexists _, _, _. split; [vm_compute; reflexivity|].
  edestruct (foreground_wait_ends_with_the_last_bio 1 true 0x5F0EF00D
               (fun v => Z.land v 1) (fun v => Z.land v (-2))
               demo_allocpage (fun _ _ m => (- ENOMEM, m)) (fun _ _ => true)
               (fun _ => 0) 2 (WORKGRP 1000) []
               (SubmitAll.mk_io 7 Z_EROFS_VLE_WORKGRP_NIL)
               (SubmitAll.mk_io 7 Z_EROFS_VLE_WORKGRP_NIL)
               false 0 demo_submit_mm R 1 (SubmitAll.r_mm R))
    as [Hzero Hkicks].
  - vm_compute. reflexivity.
  - reflexivity.
  - cbn. lia.
  - cbn. lia.
  - vm_compute. reflexivity.
  - split; [exact Hzero|exact Hkicks].
Defined.

(** ** Reading a list of pages ahead *)

Module ReadpagesFacts.
Import Readpages.

Lemma private_kept_refl m : private_kept m m.
Proof. intros p pg Hpg. eauto. Qed.

Lemma private_kept_trans m1 m2 m3 :
  private_kept m1 m2 -> private_kept m2 m3 -> private_kept m1 m3.
Proof.
  intros H12 H23 p pg Hpg.
  destruct (H12 p pg Hpg) as (pg2 & Hpg2 & Hp2).
  destruct (H23 p pg2 Hpg2) as (pg3 & Hpg3 & Hp3).
  exists pg3. split; [exact Hpg3|congruence].
Qed.

Lemma private_kept_emit m ev : private_kept m (emit m ev).
Proof. intros p pg Hpg. eauto. Qed.

Lemma private_kept_store m p pg pg' :
  pages m !! p = Some pg -> pg_private pg' = pg_private pg ->
  private_kept m (store_page m p pg').
Proof.
  intros Hpg Hsame q pgq Hq. cbn.
  destruct (decide (q = p)) as [->|Hne].
  - rewrite lookup_insert_eq. exists pg'. split; [reflexivity|congruence].
  - rewrite lookup_insert_ne by congruence. eauto.
Qed.

Lemma page_chain_frame m m' head l :
  page_chain m head l ->
  (forall p pg, p ∈ l -> pages m !! p = Some pg ->
     exists pg', pages m' !! p = Some pg' /\ pg_private pg' = pg_private pg) ->
  page_chain m' head l.
Proof.
  induction 1 as [|p pg l Hnz Hpg Hrest IH]; intros Hkept.
  - constructor.
  - destruct (Hkept p pg ltac:(apply elem_of_cons; auto) Hpg)
      as (pg' & Hpg' & Hsame).
    econstructor; [exact Hnz|exact Hpg'|]. rewrite Hsame. apply IH.
    intros q pgq Hq. apply Hkept, elem_of_cons. auto.
Qed.

Lemma page_chain_kept m m' head l :
  page_chain m head l -> private_kept m m' -> page_chain m' head l.
Proof.
  intros Hchain Hkept. apply (page_chain_frame m); [exact Hchain|].
  intros p pg _. apply Hkept.
Qed.

Lemma page_chain_head m head l :
  page_chain m head l -> (head =? 0) = bool_decide (l = []).
Proof.
  intros [|p pg l' Hnz _ _].
  - reflexivity.
  - apply Z.eqb_neq in Hnz. rewrite Hnz. reflexivity.
Qed.

Lemma page_chain_functional m head l1 :
  page_chain m head l1 -> forall l2, page_chain m head l2 -> l1 = l2.
Proof.
  induction 1 as [|p pg l Hnz Hpg Hrest IH]; intros l2 H2.
  - inversion H2; [reflexivity|congruence].
  - inversion H2 as [|p0 pg0 l0 Hnz0 Hpg0 Hrest0]; subst; [congruence|].
    f_equal. apply IH. congruence.
Qed.

(** The pages taken off a list by [nr] passes, in the order they are
    taken. *)
Local Abbreviation taken nr pages_ :=
  (rev (drop (length pages_ - nr) pages_)).

Lemma taken_snoc nr (init : list Z) page :
  taken (S nr) (init ++ [page]) = page :: taken nr init.
Proof.
  rewrite length_app. cbn [length].
  replace (length init + 1 - S nr)%nat with (length init - nr)%nat by lia.
  rewrite drop_app_le by lia. rewrite rev_app_distr. reflexivity.
Qed.

Section WithCache.

Variable PageReadahead : Z -> bool.
Variable add_to_page_cache_lru : Z -> address_space -> Z -> mm -> Z * mm.

Hypothesis add_to_page_cache_lru_kept : forall page mapping index m,
  private_kept m (add_to_page_cache_lru page mapping index m).2.

Local Abbreviation collect :=
  (readpages_collect PageReadahead add_to_page_cache_lru).

(** The pages that decide on [sync]: those taken up to the first one that
    is added to the page cache, that one included. *)
Local Abbreviation deciding head0 taken_ added failed pre :=
  (if (head0 : Z) =? 0 then
     match (added : list Z) with
     | [] => (pre : list Z) = taken_
     | p1 :: _ =>
         exists pre0, pre = pre0 ++ [p1] /\ pre `prefix_of` taken_ /\
                      Forall (fun x => x ∈ (failed : list Z)) pre0
     end
   else pre = []).

Lemma collect_S nr pages_ mapping sync head pool m :
  pages_ <> [] ->
  collect (S nr) pages_ mapping sync head pool m
  = (pg ← deref_page m (List.last pages_ 0);
     let sync1 := sync && negb (PageReadahead (List.last pages_ 0)
                                && (head =? 0)) in
     let '(err, m1) :=
       add_to_page_cache_lru (List.last pages_ 0) mapping (pg_index pg) m in
     if negb (err =? 0) then
       collect nr (removelast pages_) mapping sync1 head
         (List.last pages_ 0 :: pool) m1
     else
       pg1 ← deref_page m1 (List.last pages_ 0);
       if PG_private pg1 then Bug
       else
         collect nr (removelast pages_) mapping sync1 (List.last pages_ 0)
           pool
           (store_page m1 (List.last pages_ 0) (set_page_private pg1 head))).
Proof.
  intros Hne. destruct pages_ as [|p0 ps0]; [contradiction|]. reflexivity.
Qed.

Lemma taken_elem nr (l : list Z) x : x ∈ taken nr l -> x ∈ l.
Proof.
  intros Hx. apply list_elem_of_In, in_rev, list_elem_of_In in Hx.
  exact (elem_of_sublist _ _ _ Hx (sublist_drop _ _)).
Qed.

(** Whether a page goes to the pool: the [k]-th page taken does exactly if
    [add_to_page_cache_lru], called for it in the memory that the [k]
    passes before it have left, returns an error. *)
Local Abbreviation decided_by_add nr pages_ mapping sync head0 pool m failed :=
  (forall (k : nat) (p : Z),
     taken nr pages_ !! k = Some p ->
     exists sync_k head_k pool_k m_k pg,
       collect k pages_ mapping sync head0 pool m
       = Ok (sync_k, head_k, pool_k, m_k) /\
       pages m_k !! p = Some pg /\
       (p ∈ (failed : list Z) <->
        (add_to_page_cache_lru p mapping (pg_index pg) m_k).1 <> 0)).

Lemma collect_spec nr : forall pages_ mapping sync head0 pool m chain0
    sync' head' pool' m',
  NoDup pages_ -> 0 ∉ pages_ ->
  page_chain m head0 chain0 ->
  (forall x, x ∈ chain0 -> x ∉ pages_) ->
  collect nr pages_ mapping sync head0 pool m = Ok (sync', head', pool', m') ->
  exists added failed pre,
    added `sublist_of` taken nr pages_ /\
    failed `sublist_of` taken nr pages_ /\
    added ++ failed ≡ₚ taken nr pages_ /\
    page_chain m' head' (rev added ++ chain0) /\
    pool' = rev failed ++ pool /\
    sync' = sync && forallb (fun p => negb (PageReadahead p)) pre /\
    deciding head0 (taken nr pages_) added failed pre /\
    decided_by_add nr pages_ mapping sync head0 pool m failed.
Proof.
  induction nr as [|nr IH]; intros pages_ mapping sync head0 pool m chain0
    sync' head' pool' m' Hnodup Hnz Hchain Hfresh Hrun.
  - cbn [readpages_collect] in Hrun. injection Hrun as <- <- <- <-.
    rewrite Nat.sub_0_r, drop_all. cbn [rev].
    exists [], [], []. split; [reflexivity|]. split; [reflexivity|].
    split; [reflexivity|]. split; [exact Hchain|]. split; [reflexivity|].
    split; [cbn; rewrite andb_true_r; reflexivity|].
    split; [destruct (head0 =? 0); reflexivity|].
    intros k p Hk. destruct k; discriminate Hk.
  - assert (Hne : pages_ <> []).
    { intros ->. discriminate Hrun. }
    pose proof (collect_S nr pages_ mapping sync head0 pool m Hne) as Hunfold.
    assert (Hstep : forall k, collect (S k) pages_ mapping sync head0 pool m
              = collect (S k) pages_ mapping sync head0 pool m) by reflexivity.
    clear Hstep.
    rewrite Hunfold in Hrun.
    pose proof (app_removelast_last 0 Hne) as Hsplit.
    set (page := List.last pages_ 0) in *.
    set (init := removelast pages_) in *.
    assert (Htaken : taken (S nr) pages_ = page :: taken nr init).
    { rewrite Hsplit at 1 2. apply taken_snoc. }
    rewrite Htaken.
    rewrite Hsplit in Hnodup, Hnz, Hfresh.
    apply NoDup_app in Hnodup as (Hnd & Hdisj & _).
    assert (Hpage_init : page ∉ init).
    { intros Hin. apply (Hdisj _ Hin), list_elem_of_singleton. reflexivity. }
    assert (Hpage_nz : page <> 0).
    { intros Hz. apply Hnz. rewrite <- Hz. apply elem_of_app. right.
      apply list_elem_of_singleton. reflexivity. }
    assert (Hnz_init : 0 ∉ init).
    { intros Hin. apply Hnz, elem_of_app. auto. }
    assert (Hpage_chain : page ∉ chain0).
    { intros Hin. apply (Hfresh _ Hin), elem_of_app. right.
      apply list_elem_of_singleton. reflexivity. }
    assert (Hfresh_init : forall x, x ∈ chain0 -> x ∉ init).
    { intros x Hx Hin. apply (Hfresh _ Hx), elem_of_app. auto. }
    assert (Hpage_taken : page ∉ taken nr init).
    { intros Hin. apply Hpage_init. exact (taken_elem _ _ _ Hin). }
    pose proof (page_chain_head _ _ _ Hchain) as Hhead.
    destruct (deref_page m page) as [pg| | | |] eqn:Hderef; try discriminate.
    pose proof (UnzipFacts.deref_page_inv _ _ _ Hderef) as Hpg.
    cbn [mbind outcome_bind] in Hrun.
    pose proof (add_to_page_cache_lru_kept page mapping (pg_index pg) m) as Hkept.
    destruct (add_to_page_cache_lru page mapping (pg_index pg) m) as [err m1]
      eqn:Hadd.
    cbn [snd] in Hkept.
    pose proof (page_chain_kept _ _ _ _ Hchain Hkept) as Hchain1.
    (* what the pass before the [k] others does to a run of [S k] passes *)
    assert (Hfirst : forall k,
      collect (S k) pages_ mapping sync head0 pool m
      = if negb (err =? 0) then
          collect k init mapping
            (sync && negb (PageReadahead page && (head0 =? 0))) head0
            (page :: pool) m1
        else
          pg1 ← deref_page m1 page;
          if PG_private pg1 then Bug
          else
            collect k init mapping
              (sync && negb (PageReadahead page && (head0 =? 0))) page pool
              (store_page m1 page (set_page_private pg1 head0))).
    { intros k. rewrite (collect_S k pages_ mapping sync head0 pool m Hne).
      fold page init. rewrite Hderef. cbn [mbind outcome_bind].
      rewrite Hadd. reflexivity. }
    assert (Hzero : exists sync_k head_k pool_k m_k pg0,
      collect 0 pages_ mapping sync head0 pool m
      = Ok (sync_k, head_k, pool_k, m_k) /\
      pages m_k !! page = Some pg0 /\
      (add_to_page_cache_lru page mapping (pg_index pg0) m_k).1 = err).
    { exists sync, head0, pool, m, pg. split; [reflexivity|].
      split; [exact Hpg|]. rewrite Hadd. reflexivity. }
    destruct (Z.eqb_spec err 0) as [Herr|Herr]; cbn [negb] in Hrun, Hfirst.
    + (* the page is linked *)
      destruct (deref_page m1 page) as [pg1| | | |] eqn:Hderef1;
        try discriminate.
      pose proof (UnzipFacts.deref_page_inv _ _ _ Hderef1) as Hpg1.
      cbn [mbind outcome_bind] in Hrun, Hfirst.
      destruct (PG_private pg1); [discriminate|].
      set (m2 := store_page m1 page (set_page_private pg1 head0)) in *.
      assert (Hchain2 : page_chain m2 page (page :: chain0)).
      { econstructor; [exact Hpage_nz|apply lookup_insert_eq|].
        apply (page_chain_frame m1); [exact Hchain1|].
        intros q pgq Hq Hpgq. exists pgq. split; [|reflexivity].
        cbn. rewrite lookup_insert_ne; [exact Hpgq|].
        intros <-. contradiction. }
      assert (Hfresh2 : forall x, x ∈ page :: chain0 -> x ∉ init).
      { intros x Hx. apply elem_of_cons in Hx as [->|Hx]; auto. }
      destruct (IH init mapping _ page pool m2 (page :: chain0) sync' head'
                  pool' m' Hnd Hnz_init Hchain2 Hfresh2 Hrun)
        as (added & failed & pre & Hsub_a & Hsub_f & Hperm & Hchain' & Hpool
            & Hsync & Hpre & Htie).
      apply Z.eqb_neq in Hpage_nz as Hpage_nz'. rewrite Hpage_nz' in Hpre.
      subst pre.
      exists (page :: added), failed, (if head0 =? 0 then [page] else []).
      split; [apply sublist_skip; exact Hsub_a|].
      split; [apply sublist_cons; exact Hsub_f|].
      split; [cbn; rewrite Hperm; reflexivity|].
      split; [cbn [rev]; rewrite <- app_assoc; exact Hchain'|].
      split; [exact Hpool|].
      cbn in Hsync. rewrite andb_true_r in Hsync.
      split; [|split].
      * destruct (head0 =? 0).
        -- rewrite Hsync; cbn; rewrite !andb_true_r; reflexivity.
        -- rewrite Hsync. cbn. rewrite andb_false_r. cbn.
           rewrite !andb_true_r. reflexivity.
      * destruct (head0 =? 0); [|reflexivity].
        exists []. split; [reflexivity|].
        split; [apply prefix_cons, prefix_nil|constructor].
      * intros k p Hk. destruct k as [|k]; cbn in Hk.
        -- injection Hk as <-.
           destruct Hzero as (sync_k & head_k & pool_k & m_k & pg0 & Hrun0
                              & Hpg0 & Herr0).
           exists sync_k, head_k, pool_k, m_k, pg0.
           split; [exact Hrun0|]. split; [exact Hpg0|].
           rewrite Herr0. split; [|intros Hc; contradiction].
           intros Hin. exfalso. apply Hpage_taken.
           exact (elem_of_sublist _ _ _ Hin Hsub_f).
        -- destruct (Htie k p Hk) as (sync_k & head_k & pool_k & m_k & pg0
                                      & Hrun_k & Hpg_k & Hiff).
           exists sync_k, head_k, pool_k, m_k, pg0.
           split; [rewrite Hfirst; exact Hrun_k|].
           split; [exact Hpg_k|exact Hiff].
    + (* the page goes to the pool *)
      destruct (IH init mapping _ head0 (page :: pool) m1 chain0 sync' head'
                  pool' m' Hnd Hnz_init Hchain1 Hfresh_init Hrun)
        as (added & failed & pre & Hsub_a & Hsub_f & Hperm & Hchain' & Hpool
            & Hsync & Hpre & Htie).
      exists added, (page :: failed),
        (if head0 =? 0 then page :: pre else []).
      split; [apply sublist_cons; exact Hsub_a|].
      split; [apply sublist_skip; exact Hsub_f|].
      split; [rewrite <- Hperm; symmetry; apply Permutation_middle|].
      split; [exact Hchain'|].
      split; [rewrite Hpool; cbn [rev]; rewrite <- app_assoc; reflexivity|].
      split; [|split].
      * destruct (head0 =? 0).
        -- rewrite Hsync. cbn [forallb]. rewrite andb_true_r, andb_assoc.
           reflexivity.
        -- rewrite Hsync, Hpre. cbn. rewrite andb_false_r. cbn.
           rewrite !andb_true_r. reflexivity.
      * destruct (head0 =? 0); [|reflexivity].
        destruct added as [|p1 added].
        { rewrite Hpre. reflexivity. }
        destruct Hpre as (pre0 & -> & Hprefix & Hall).
        exists (page :: pre0). split; [reflexivity|].
        split; [apply prefix_cons; exact Hprefix|].
        apply Forall_cons. split; [apply elem_of_cons; auto|].
        eapply Forall_impl; [exact Hall|].
        intros x Hx. apply elem_of_cons. auto.
      * intros k p Hk. destruct k as [|k]; cbn in Hk.
        -- injection Hk as <-.
           destruct Hzero as (sync_k & head_k & pool_k & m_k & pg0 & Hrun0
                              & Hpg0 & Herr0).
           exists sync_k, head_k, pool_k, m_k, pg0.
           split; [exact Hrun0|]. split; [exact Hpg0|].
           rewrite Herr0. split; [intros _; exact Herr|].
           intros _. apply elem_of_cons. auto.
        -- destruct (Htie k p Hk) as (sync_k & head_k & pool_k & m_k & pg0
                                      & Hrun_k & Hpg_k & Hiff).
           exists sync_k, head_k, pool_k, m_k, pg0.
           split; [rewrite Hfirst; exact Hrun_k|].
           split; [exact Hpg_k|].
           rewrite <- Hiff. split.
           ++ intros Hin. apply elem_of_cons in Hin as [->|Hin]; [|exact Hin].
              exfalso. apply Hpage_taken.
              exact (list_elem_of_lookup_2 _ _ _ Hk).
           ++ intros Hin. apply elem_of_cons. auto.
Qed.

Lemma collect_log nr : forall pages_ mapping sync head0 pool m
    sync' head' pool' m',
  (forall page mapping index m0,
     log (add_to_page_cache_lru page mapping index m0).2 = log m0) ->
  collect nr pages_ mapping sync head0 pool m = Ok (sync', head', pool', m') ->
  log m' = log m.
Proof.
  induction nr as [|nr IH]; intros pages_ mapping sync head0 pool m
    sync' head' pool' m' Hlog Hrun; cbn [readpages_collect] in Hrun.
  - injection Hrun as <- <- <- <-. reflexivity.
  - destruct pages_ as [|p0 ps0]; [discriminate|].
    destruct (deref_page m _) as [pg| | | |]; try discriminate.
    cbn [mbind outcome_bind] in Hrun.
    match type of Hrun with
    | context [add_to_page_cache_lru ?a ?b ?c ?d] =>
        pose proof (Hlog a b c d) as Hl;
        destruct (add_to_page_cache_lru a b c d) as [err m1]
    end.
    cbn [snd] in Hl.
    destruct (negb (err =? 0)).
    + rewrite (IH _ _ _ _ _ _ _ _ _ _ Hlog Hrun). exact Hl.
    + destruct (deref_page m1 _) as [pg1| | | |]; try discriminate.
      cbn [mbind outcome_bind] in Hrun.
      destruct (PG_private pg1); [discriminate|].
      rewrite (IH _ _ _ _ _ _ _ _ _ _ Hlog Hrun). exact Hl.
Qed.

End WithCache.
Section WithBuilder.

Variable defs : erofs_defs.
Variable PAGE_SHIFT : Z.
Variable EROFS_FS_HAS_MANAGED_CACHE : bool.
Variable EROFS_FS_ZIP_CACHE_LVL : Z.
Variable erofs_map_blocks_iter :
  inode -> erofs_map_blocks -> option meta_page -> option Resolver.map_result.
Variable B : Type.
Variable VLE_WORK_BUILDER_INIT : B.
Variable builder_role : B -> z_erofs_vle_work_role.
Variable builder_work : B -> bool.
Variable z_erofs_vle_work_iter_end : B -> bool * B.
Variable z_erofs_vle_work_iter_begin :
  B -> erofs_map_blocks -> z_erofs_vle_owned_workgrp_t ->
  Z * B * z_erofs_vle_owned_workgrp_t.
Variable z_erofs_vle_scan_cachepages :
  B -> erofs_map_blocks -> bool -> list Z -> mm -> B * list Z * mm.
Variable z_erofs_vle_work_add_page : B -> Z -> z_erofs_page_type -> Z * B.
Variable work_max_nr_pages : B -> Z -> B.
Variable __stagingpage_alloc : list Z -> mm -> Z * list Z * mm.

(** The preloading of the compressed slots and the allocator of staging
    pages keep the pages there are and make no call of the helpers. *)
Hypothesis scan_cachepages_kept : forall b map c pool m,
  private_kept m (z_erofs_vle_scan_cachepages b map c pool m).2 /\
  log (z_erofs_vle_scan_cachepages b map c pool m).2 = log m.
Hypothesis stagingpage_alloc_kept : forall pool m,
  private_kept m (__stagingpage_alloc pool m).2 /\
  log (__stagingpage_alloc pool m).2 = log m.

Local Abbreviation do_read_page :=
  (Read.z_erofs_do_read_page defs PAGE_SHIFT EROFS_FS_HAS_MANAGED_CACHE
     EROFS_FS_ZIP_CACHE_LVL erofs_map_blocks_iter B builder_role builder_work
     z_erofs_vle_work_iter_end z_erofs_vle_work_iter_begin
     z_erofs_vle_scan_cachepages z_erofs_vle_work_add_page work_max_nr_pages
     __stagingpage_alloc).

(** What a part of [z_erofs_do_read_page] that works on [page] does to the
    memory. *)
Local Abbreviation works_on page m m' :=
  (private_kept m m' /\
   exists evs, log m' = log m ++ evs /\ Forall (about page) evs).

Lemma works_on_refl page m : works_on page m m.
Proof.
  split; [apply private_kept_refl|].
  exists []. split; [rewrite app_nil_r; reflexivity|constructor].
Qed.

Lemma works_on_trans page m1 m2 m3 :
  works_on page m1 m2 -> works_on page m2 m3 -> works_on page m1 m3.
Proof.
  intros [Hk12 (evs1 & Hl1 & Ha1)] [Hk23 (evs2 & Hl2 & Ha2)].
  split; [exact (private_kept_trans _ _ _ Hk12 Hk23)|].
  exists (evs1 ++ evs2). split.
  - rewrite Hl2, Hl1, app_assoc. reflexivity.
  - apply Forall_app. auto.
Qed.

Lemma works_on_quiet page m m' :
  private_kept m m' /\ log m' = log m -> works_on page m m'.
Proof.
  intros [Hk Hl]. split; [exact Hk|].
  exists []. split; [rewrite app_nil_r; exact Hl|constructor].
Qed.

Lemma works_on_emit page m ev : about page ev -> works_on page m (emit m ev).
Proof.
  intros Hev. split; [apply private_kept_emit|].
  exists [ev]. split; [reflexivity|]. constructor; [exact Hev|constructor].
Qed.

Lemma add_page_retry_kept fuel : forall b page type pool m err b' pool' m',
  Read.add_page_retry B z_erofs_vle_work_add_page __stagingpage_alloc
    fuel b page type pool m = Ok (err, b', pool', m') ->
  private_kept m m' /\ log m' = log m.
Proof.
  induction fuel as [|fuel IH]; intros b page type pool m err b' pool' m' Hrun;
    [discriminate|].
  cbn [Read.add_page_retry] in Hrun.
  destruct (z_erofs_vle_work_add_page b page type) as [err1 b1].
  destruct (err1 =? - EAGAIN).
  - pose proof (stagingpage_alloc_kept pool m) as [Hk Hl].
    destruct (__stagingpage_alloc pool m) as [[newpage pool1] m1].
    cbn [snd] in Hk, Hl.
    destruct (z_erofs_vle_work_add_page b1 newpage Z_EROFS_PAGE_TYPE_EXCLUSIVE)
      as [err2 b2].
    destruct (err2 =? 0).
    + apply IH in Hrun as [Hk' Hl'].
      split; [exact (private_kept_trans _ _ _ Hk Hk')|congruence].
    + injection Hrun as <- <- <- <-. auto.
  - injection Hrun as <- <- <- <-.
    split; [apply private_kept_refl|reflexivity].
Qed.

Lemma hitted_mapped_works fuel fe page index_ pool m tight spiltted cur
    exit_ fe' pool' m' tight' spiltted' :
  Read.hitted_mapped PAGE_SHIFT B builder_role z_erofs_vle_work_add_page
    work_max_nr_pages __stagingpage_alloc fuel fe page index_ pool m tight
    spiltted cur = Ok (exit_, fe', pool', m', tight', spiltted') ->
  works_on page m m'.
Proof.
  unfold Read.hitted_mapped. intros Hrun.
  destruct (Read.add_page_retry _ _ _ _ _ _ _ _ _)
    as [[[[err b] pool1] m1]| | | |] eqn:Hadd; try discriminate.
  cbn [mbind outcome_bind] in Hrun.
  apply add_page_retry_kept in Hadd.
  destruct (negb (err =? 0)).
  - injection Hrun as <- <- <- <- <- <-. apply works_on_quiet. exact Hadd.
  - destruct (2 <? u32 (spiltted + 1)); [discriminate|].
    injection Hrun as <- <- <- <- <- <-.
    apply (works_on_trans _ _ m1); [apply works_on_quiet; exact Hadd|].
    apply works_on_emit. reflexivity.
Qed.

Lemma do_read_page_loop_works fuel :
  forall fe page index_ pool m tight spiltted end_ exit_ fe' pool' m',
  Read.do_read_page_loop defs PAGE_SHIFT EROFS_FS_HAS_MANAGED_CACHE
    EROFS_FS_ZIP_CACHE_LVL erofs_map_blocks_iter B builder_role builder_work
    z_erofs_vle_work_iter_end z_erofs_vle_work_iter_begin
    z_erofs_vle_scan_cachepages z_erofs_vle_work_add_page work_max_nr_pages
    __stagingpage_alloc fuel fe page index_ pool m tight spiltted end_
  = Ok (exit_, fe', pool', m') ->
  works_on page m m'.
Proof.
  induction fuel as [|fuel IH];
    intros fe page index_ pool m tight spiltted end_ exit_ fe' pool' m' Hrun;
    [discriminate|].
  cbn [Read.do_read_page_loop] in Hrun.
  match type of Hrun with
  | mbind _ ?x = _ =>
      assert (Hbefore : forall r, x = Ok r ->
                private_kept m r.1.2 /\ log r.1.2 = log m);
        [|destruct x as [[[[[ex fe1] pool1] m1] tight1]| | | |] eqn:Hx;
          try discriminate]
  end.
  { intros r Hr.
    repeat match type of Hr with
    | context [z_erofs_vle_scan_cachepages ?b ?map ?c ?pl ?m0] =>
        pose proof (scan_cachepages_kept b map c pl m0);
        destruct (z_erofs_vle_scan_cachepages b map c pl m0) as [[? ?] ?]
    | context [match ?e with _ => _ end] =>
        lazymatch e with
        | context [match _ with _ => _ end] => fail
        | _ => destruct e
        end
    end;
    try discriminate; injection Hr as <-; cbn [fst snd] in *;
    first [assumption | split; [apply private_kept_refl|reflexivity]]. }
  specialize (Hbefore _ eq_refl). cbn [fst snd] in Hbefore.
  cbn [mbind outcome_bind] in Hrun.
  destruct ex as [|err].
  - match type of Hrun with
    | mbind _ ?y = _ =>
        assert (Hhit : forall r, y = Ok r -> works_on page m1 r.1.1.2);
          [|destruct y as [[[[[[ex2 fe2] pool2] m2] tight2] spiltted2]| | | |]
              eqn:Hy; try discriminate]
    end.
    { intros r Hr.
      match type of Hr with (if ?c then _ else _) = _ => destruct c end.
      - injection Hr as <-. cbn [fst snd]. apply works_on_emit. reflexivity.
      - destruct r as [[[[[ex2 fe2] pool2] m2] tight2] spiltted2].
        cbn [fst snd]. exact (hitted_mapped_works _ _ _ _ _ _ _ _ _ _ _ _ _ _ _ Hr). }
    specialize (Hhit _ eq_refl). cbn [fst snd] in Hhit.
    cbn [mbind outcome_bind] in Hrun.
    assert (Hm2 : works_on page m m2).
    { apply (works_on_trans _ _ m1); [apply works_on_quiet; exact Hbefore|].
      exact Hhit. }
    destruct ex2 as [|err2].
    + destruct (0 <? _).
      * apply IH in Hrun. exact (works_on_trans _ _ _ _ Hm2 Hrun).
      * injection Hrun as <- <- <- <-. exact Hm2.
    + injection Hrun as <- <- <- <-. exact Hm2.
  - injection Hrun as <- <- <- <-. apply works_on_quiet. exact Hbefore.
Qed.

(** A page is read between the calls that begin and end it, and all the
    calls in between are made for it. *)
Lemma do_read_page_works fuel fe page pool m err fe' pool' m' :
  do_read_page fuel fe page pool m = Ok (err, fe', pool', m') ->
  private_kept m m' /\
  exists mid,
    log m' = log m ++ z_erofs_onlinepage_init page :: mid
                   ++ [z_erofs_onlinepage_endio page] /\
    Forall (about page) mid.
Proof.
  unfold Read.z_erofs_do_read_page. intros Hrun.
  destruct (deref_page m page) as [pg| | | |]; try discriminate.
  cbn [mbind outcome_bind] in Hrun.
  destruct (Read.do_read_page_loop _ _ _ _ _ _ _ _ _ _ _ _ _ _ _ _ _ _ _ _ _ _)
    as [[[[exit_ f] pagepool] m1]| | | |] eqn:Hloop; try discriminate.
  cbn [mbind outcome_bind] in Hrun.
  apply do_read_page_loop_works in Hloop as [Hk (mid & Hl & Hmid)].
  cbn [log emit] in Hl.
  destruct exit_ as [|err1].
  - injection Hrun as <- <- <- <-.
    split; [exact Hk|]. exists mid. split; [|exact Hmid].
    cbn. rewrite Hl, <- !app_assoc. reflexivity.
  - destruct (deref_page m1 page) as [pg1| | | |] eqn:Hpg1; try discriminate.
    apply UnzipFacts.deref_page_inv in Hpg1.
    cbn [mbind outcome_bind] in Hrun. injection Hrun as <- <- <- <-.
    split.
    + apply (private_kept_trans _ m1); [exact Hk|].
      apply (private_kept_store _ _ pg1); [exact Hpg1|reflexivity].
    + exists mid. split; [|exact Hmid].
      cbn. rewrite Hl, <- !app_assoc. reflexivity.
Qed.

(** The calls made for a page that is read. *)
Local Abbreviation read_of p evs :=
  (exists mid, evs = z_erofs_onlinepage_init p :: mid
                       ++ [z_erofs_onlinepage_endio p] /\
               Forall (about p) mid).

Lemma readpages_read_spec fuel_page fuel :
  forall head f pool m chain f' pool' m',
  page_chain m head chain ->
  readpages_read defs PAGE_SHIFT EROFS_FS_HAS_MANAGED_CACHE
    EROFS_FS_ZIP_CACHE_LVL erofs_map_blocks_iter B builder_role builder_work
    z_erofs_vle_work_iter_end z_erofs_vle_work_iter_begin
    z_erofs_vle_scan_cachepages z_erofs_vle_work_add_page work_max_nr_pages
    __stagingpage_alloc fuel_page fuel head f pool m = Ok (f', pool', m') ->
  exists evss,
    log m' = log m ++ concat evss /\
    Forall2 (fun p evs => read_of p evs) chain evss.
Proof.
  induction fuel as [|fuel IH]; intros head f pool m chain f' pool' m'
    Hchain Hrun; cbn [readpages_read] in Hrun.
  - destruct Hchain as [|p pg l Hnz Hpg Hrest].
    + injection Hrun as <- <- <-. exists []. split; [|constructor].
      cbn. rewrite app_nil_r. reflexivity.
    + apply Z.eqb_neq in Hnz. rewrite Hnz in Hrun. discriminate.
  - destruct Hchain as [|p pg l Hnz Hpg Hrest].
    + injection Hrun as <- <- <-. exists []. split; [|constructor].
      cbn. rewrite app_nil_r. reflexivity.
    + pose proof Hnz as Hnz'. apply Z.eqb_neq in Hnz'. rewrite Hnz' in Hrun.
      rewrite (ReclaimFacts.deref_page_Some _ _ _ Hpg) in Hrun.
      cbn [mbind outcome_bind] in Hrun.
      destruct (do_read_page fuel_page f p pool m)
        as [[[[err f1] pool1] m1]| | | |] eqn:Hread; try discriminate.
      cbn [mbind outcome_bind] in Hrun.
      apply do_read_page_works in Hread as [Hk (mid & Hl & Hmid)].
      destruct (deref_page m1 p) as [pg1| | | |] eqn:Hpg1; try discriminate.
      apply UnzipFacts.deref_page_inv in Hpg1.
      cbn [mbind outcome_bind] in Hrun.
      assert (Hrest1 : page_chain (store_page m1 p (Builder.put_page pg1))
                         (pg_private pg) l).
      { apply (page_chain_kept m); [exact Hrest|].
        apply (private_kept_trans _ m1); [exact Hk|].
        apply (private_kept_store _ _ pg1); [exact Hpg1|reflexivity]. }
      destruct (IH _ _ _ _ _ _ _ _ Hrest1 Hrun) as (evss & Hl' & Hall).
      exists ((z_erofs_onlinepage_init p :: mid
               ++ [z_erofs_onlinepage_endio p]) :: evss).
      split.
      * rewrite Hl'. cbn [log store_page concat]. rewrite Hl.
        rewrite <- !app_assoc. reflexivity.
      * constructor; [|exact Hall]. exists mid. split; [reflexivity|exact Hmid].
Qed.

End WithBuilder.

End ReadpagesFacts.

(** X28.  The first loop of [z_erofs_vle_normalaccess_readpages] sorts the
    pages it takes off the list, [nr_pages] of them from the tail on, by
    what [add_to_page_cache_lru] returns for each.  For a list of distinct
    pages and an [add_to_page_cache_lru] that leaves [page_private] alone,
    whenever the loop is through: the [k]-th page taken is in the pool
    exactly if [add_to_page_cache_lru], called for it in the memory that
    the [k] passes before it have left, returned an error; every other page
    taken is on the chain that [page_private] links from [head] up to NULL,
    and no page is in both.  The chain holds its pages in the reverse of
    the order they were taken in, and the pool holds the others in front of
    what it held.  [sync] is kept only if none of the pages taken up to the
    first one that was added, that one included, is marked PG_readahead. *)
Theorem readpages_sorts_the_pages :
  forall (PageReadahead : Z -> bool)
         (add_to_page_cache_lru : Z -> address_space -> Z -> mm -> Z * mm)
         (nr_pages : nat) (pages_ : list Z) (mapping : address_space)
         (sync : bool) (pagepool : list Z) (m : mm)
         (sync' : bool) (head' : Z) (pool' : list Z) (m' : mm),
    (forall page mapping0 index m0,
       Readpages.private_kept m0
         (add_to_page_cache_lru page mapping0 index m0).2) ->
    NoDup pages_ -> 0 ∉ pages_ ->
    Readpages.readpages_collect PageReadahead add_to_page_cache_lru nr_pages
      pages_ mapping sync 0 pagepool m = Ok (sync', head', pool', m') ->
    let taken := rev (drop (length pages_ - nr_pages) pages_) in
    exists added failed pre,
      (forall (k : nat) (p : Z),
         taken !! k = Some p ->
         exists sync_k head_k pool_k m_k pg,
           Readpages.readpages_collect PageReadahead add_to_page_cache_lru k
             pages_ mapping sync 0 pagepool m
           = Ok (sync_k, head_k, pool_k, m_k) /\
           pages m_k !! p = Some pg /\
           (p ∈ failed <->
            (add_to_page_cache_lru p mapping (pg_index pg) m_k).1 <> 0)) /\
      added `sublist_of` taken /\ failed `sublist_of` taken /\
      added ++ failed ≡ₚ taken /\
      Readpages.page_chain m' head' (rev added) /\
      pool' = rev failed ++ pagepool /\
      sync' = sync && forallb (fun p => negb (PageReadahead p)) pre /\
      match added with
      | [] => pre = taken
      | p1 :: _ =>
          exists pre0, pre = pre0 ++ [p1] /\ pre `prefix_of` taken /\
                       Forall (fun x => x ∈ failed) pre0
      end.
Proof.
  intros RA add nr pages_ mapping sync pool m sync' head' pool' m'
    Hadd Hnodup Hnz Hrun. cbn zeta.
  destruct (ReadpagesFacts.collect_spec RA add Hadd nr pages_ mapping sync 0
              pool m [] sync' head' pool' m' Hnodup Hnz
              (Readpages.page_chain_null m))
    as (added & failed & pre & Hsub_a & Hsub_f & Hperm & Hchain & Hpool
        & Hsync & Hpre & Htie); [|exact Hrun|].
  { intros x Hx. apply elem_of_nil in Hx. destruct Hx. }
  rewrite app_nil_r in Hchain. cbn [Z.eqb] in Hpre.
  exists added, failed, pre. auto 10.
Qed.

Lemma demo_add_to_page_cache_lru_kept page mapping index m :
  Readpages.private_kept m (demo_add_to_page_cache_lru page mapping index m).2.
Proof.
  unfold demo_add_to_page_cache_lru.
  destruct (page =? 802); [apply ReadpagesFacts.private_kept_refl|].
  destruct (pages m !! page) as [pg|] eqn:Hpg;
    [|apply ReadpagesFacts.private_kept_refl].
  apply (ReadpagesFacts.private_kept_store _ _ pg); [exact Hpg|reflexivity].
Qed.

Lemma readpages_sorts_the_pages_witness :
  exists sync' head' pool' m',
    Readpages.readpages_collect (fun p => p =? 803) demo_add_to_page_cache_lru
      3 [803; 802; 801] (FILE_MAPPING 77) true 0 [] demo_readahead_mm
    = Ok (sync', head', pool', m') /\
    head' = 803 /\ pool' = [802] /\ sync' = true /\
    exists added failed,
      (802 ∈ failed /\ 801 ∉ failed /\ 803 ∉ failed) /\
      added ++ failed ≡ₚ [801; 802; 803] /\
      Readpages.page_chain m' 803 (rev added) /\
      [802] = rev failed ++ [].
Proof.
  eexists _, _, _, _. split; [vm_compute; reflexivity|].
  split; [reflexivity|]. split; [reflexivity|]. split; [reflexivity|].
  edestruct (readpages_sorts_the_pages (fun p => p =? 803)
               demo_add_to_page_cache_lru 3 [803; 802; 801] (FILE_MAPPING 77)
               true [] demo_readahead_mm)
    as (added & failed & pre & Htie & _ & _ & Hperm & Hchain & Hpool & _).
  - apply demo_add_to_page_cache_lru_kept.
  - repeat (apply NoDup_cons; split; [set_solver|]). apply NoDup_nil_2.
  - set_solver.
  - vm_compute. reflexivity.
  - exists added, failed. split; [|split; [exact Hperm|split; [exact Hchain|exact Hpool]]].
    split; [|split].
    + destruct (Htie 1%nat 802 eq_refl)
        as (sync_k & head_k & pool_k & m_k & pg & Hrun & Hpg & Hiff).
      apply Hiff. unfold demo_add_to_page_cache_lru. cbn. discriminate.
    + destruct (Htie 0%nat 801 eq_refl)
        as (sync_k & head_k & pool_k & m_k & pg & Hrun & Hpg & Hiff).
      intros Hin. apply Hiff in Hin. apply Hin.
      injection Hrun as <- <- <- <-. reflexivity.
    + destruct (Htie 2%nat 803 eq_refl)
        as (sync_k & head_k & pool_k & m_k & pg & Hrun & Hpg & Hiff).
      intros Hin. apply Hiff in Hin. apply Hin.
      vm_compute in Hrun. injection Hrun as <- <- <- <-. reflexivity.
Defined.

(** X29.  [z_erofs_vle_normalaccess_readpages] reads the pages it could add
    to the page cache, each once and one after the other, in the reverse of
    the order it took them off the list in, and then hands the chain of
    workgroups to one [z_erofs_submit_and_unzip]; it returns 0.  For a list
    of distinct pages and helpers that keep the pages there are and make no
    call of their own: whenever the call returns, what it has added to the
    calls made so far is, for each page of the chain its first loop has
    linked, from its head on, [z_erofs_onlinepage_init] for the page, calls
    made for that page, and [z_erofs_onlinepage_endio] for it; and after
    these the call of [z_erofs_submit_and_unzip] with the [sync] the first
    loop has left. *)
Theorem readpages_reads_in_reverse_order :
  forall (defs : erofs_defs) (PAGE_SHIFT : Z)
         (EROFS_FS_HAS_MANAGED_CACHE : bool) (EROFS_FS_ZIP_CACHE_LVL : Z)
         (erofs_map_blocks_iter :
            inode -> erofs_map_blocks -> option meta_page ->
            option Resolver.map_result)
         (B : Type) (VLE_WORK_BUILDER_INIT : B)
         (builder_role : B -> z_erofs_vle_work_role)
         (builder_work : B -> bool)
         (z_erofs_vle_work_iter_end : B -> bool * B)
         (z_erofs_vle_work_iter_begin :
            B -> erofs_map_blocks -> z_erofs_vle_owned_workgrp_t ->
            Z * B * z_erofs_vle_owned_workgrp_t)
         (z_erofs_vle_scan_cachepages :
            B -> erofs_map_blocks -> bool -> list Z -> mm -> B * list Z * mm)
         (z_erofs_vle_work_add_page : B -> Z -> z_erofs_page_type -> Z * B)
         (work_max_nr_pages : B -> Z -> B)
         (__stagingpage_alloc : list Z -> mm -> Z * list Z * mm)
         (submit_and_unzip_effect :
            B -> z_erofs_vle_owned_workgrp_t -> list Z -> bool -> mm ->
            B * list Z * mm)
         (__should_decompress_synchronously : nat -> bool)
         (PageReadahead : Z -> bool)
         (add_to_page_cache_lru : Z -> address_space -> Z -> mm -> Z * mm)
         (fuel : nat) (ino : inode) (mapping : address_space)
         (pages_ : list Z) (nr_pages : nat) (m : mm) (r : Z) (m' : mm),
    (forall b map c pool m0,
       Readpages.private_kept m0
         (z_erofs_vle_scan_cachepages b map c pool m0).2 /\
       log (z_erofs_vle_scan_cachepages b map c pool m0).2 = log m0) ->
    (forall pool m0,
       Readpages.private_kept m0 (__stagingpage_alloc pool m0).2 /\
       log (__stagingpage_alloc pool m0).2 = log m0) ->
    (forall page mapping0 index m0,
       Readpages.private_kept m0
         (add_to_page_cache_lru page mapping0 index m0).2 /\
       log (add_to_page_cache_lru page mapping0 index m0).2 = log m0) ->
    (forall b owned pool sync m0,
       exists evs,
         log (submit_and_unzip_effect b owned pool sync m0).2 = log m0 ++ evs) ->
    NoDup pages_ -> 0 ∉ pages_ ->
    Readpages.z_erofs_vle_normalaccess_readpages defs PAGE_SHIFT
      EROFS_FS_HAS_MANAGED_CACHE EROFS_FS_ZIP_CACHE_LVL erofs_map_blocks_iter
      B VLE_WORK_BUILDER_INIT builder_role builder_work
      z_erofs_vle_work_iter_end z_erofs_vle_work_iter_begin
      z_erofs_vle_scan_cachepages z_erofs_vle_work_add_page work_max_nr_pages
      __stagingpage_alloc submit_and_unzip_effect
      __should_decompress_synchronously PageReadahead add_to_page_cache_lru
      fuel ino mapping pages_ nr_pages m = Ok (r, m') ->
    r = 0 /\
    exists sync' head pool1 m1 added evss owned rest,
      Readpages.readpages_collect PageReadahead add_to_page_cache_lru nr_pages
        pages_ mapping (__should_decompress_synchronously nr_pages) 0 [] m
      = Ok (sync', head, pool1, m1) /\
      added `sublist_of` rev (drop (length pages_ - nr_pages) pages_) /\
      Readpages.page_chain m1 head (rev added) /\
      log m' = log m ++ concat evss
                     ++ z_erofs_submit_and_unzip owned sync' :: rest /\
      Forall2 (fun p evs =>
                 exists mid,
                   evs = z_erofs_onlinepage_init p :: mid
                         ++ [z_erofs_onlinepage_endio p] /\
                   Forall (Readpages.about p) mid)
        (rev added) evss.
Proof.
  intros defs PAGE_SHIFT MC LVL iter B init role work iter_end iter_begin scan
    add_page max_nr alloc effect should RA add fuel ino mapping pages_ nr m r m'
    Hscan Halloc Hadd Heffect Hnodup Hnz Hrun.
  unfold Readpages.z_erofs_vle_normalaccess_readpages in Hrun.
  match type of Hrun with
  | mbind _ ?x = _ => destruct x as [f0| | | |]; try discriminate
  end.
  cbn [mbind outcome_bind] in Hrun.
  destruct (Readpages.readpages_collect RA add nr pages_ mapping (should nr) 0
              [] m) as [[[[sync' head] pool1] m1]| | | |] eqn:Hcollect;
    try discriminate.
  cbn [mbind outcome_bind] in Hrun.
  pose proof (ReadpagesFacts.collect_log RA add nr _ _ _ _ _ _ _ _ _ _
                (fun p mp i m0 => proj2 (Hadd p mp i m0)) Hcollect) as Hlog1.
  destruct (ReadpagesFacts.collect_spec RA add
              (fun p mp i m0 => proj1 (Hadd p mp i m0)) nr pages_ mapping
              (should nr) 0 [] m [] sync' head pool1 m1 Hnodup Hnz
              (Readpages.page_chain_null m))
    as (added & failed & pre & Hsub_a & _ & _ & Hchain & _);
    [|exact Hcollect|].
  { intros x Hx. apply elem_of_nil in Hx. destruct Hx. }
  rewrite app_nil_r in Hchain.
  destruct (Readpages.readpages_read _ _ _ _ _ _ _ _ _ _ _ _ _ _ _ _ _ _ _ _)
    as [[[f1 pool2] m2]| | | |] eqn:Hread; try discriminate.
  cbn [mbind outcome_bind] in Hrun.
  destruct (ReadpagesFacts.readpages_read_spec defs PAGE_SHIFT MC LVL iter B
              role work iter_end iter_begin scan add_page max_nr alloc
              Hscan Halloc fuel fuel head f0 pool1 m1 (rev added)
              f1 pool2 m2 Hchain Hread)
    as (evss & Hlog2 & Hall).
  destruct (iter_end (Read.fe_builder f1)) as [ended b].
  set (m3 := emit m2 (z_erofs_submit_and_unzip (Read.fe_owned_head f1) sync'))
    in *.
  destruct (Heffect b (Read.fe_owned_head f1) pool2 sync' m3) as [rest Hlog4].
  destruct (effect b (Read.fe_owned_head f1) pool2 sync' m3)
    as [[b' pool4] m4].
  cbn [snd] in Hlog4.
  destruct (Read.put_pages_list pool4 m4) as [m5| | | |] eqn:Hput;
    try discriminate.
  cbn [mbind outcome_bind] in Hrun. injection Hrun as <- <-.
  apply ReadFacts.put_pages_list_frame in Hput as [Hlog5 _].
  split; [reflexivity|].
  exists sync', head, pool1, m1, added, evss, (Read.fe_owned_head f1), rest.
  split; [reflexivity|]. split; [exact Hsub_a|]. split; [exact Hchain|].
  split; [|exact Hall].
  rewrite Hlog5, Hlog4. unfold m3. cbn [log emit].
  rewrite Hlog2, Hlog1, <- !app_assoc. reflexivity.
Qed.

Lemma readpages_reads_in_reverse_order_witness :
  exists m',
    demo_readpages 2 [803; 802; 801] 3 demo_readahead_mm = Ok (0, m') /\
    log m' = [ z_erofs_onlinepage_init 803; zero_user_segment 803 0 4096;
               z_erofs_onlinepage_endio 803;
               z_erofs_onlinepage_init 801; zero_user_segment 801 0 4096;
               z_erofs_onlinepage_endio 801;
               z_erofs_submit_and_unzip Z_EROFS_VLE_WORKGRP_TAIL true ] /\
    exists head m1 added evss,
      Readpages.page_chain m1 head (rev added) /\
      Forall2 (fun p evs =>
                 exists mid,
                   evs = z_erofs_onlinepage_init p :: mid
                         ++ [z_erofs_onlinepage_endio p] /\
                   Forall (Readpages.about p) mid)
        (rev added) evss.
Proof.
  eexists. split; [vm_compute; reflexivity|]. split; [reflexivity|].
  edestruct (readpages_reads_in_reverse_order (demo_defs false) 12 false 0
               (Resolver.z_erofs_map_blocks_iter (demo_defs false) 12
                  (demo_get_meta_page demo_chain))
               unit tt (fun _ => Z_EROFS_VLE_WORK_PRIMARY_FOLLOWED)
               (fun _ => false) (fun b => (false, b))
               (fun b _ owned_head => (- ENOMEM, b, owned_head))
               (fun b _ _ pool m => (b, pool, m)) (fun b _ _ => (- ENOMEM, b))
               (fun b _ => b) (fun pool m => (0, pool, m))
               (fun b _ pool _ m => (b, pool, m))
               (fun nr => (nr <=? 3)%nat) (fun p => p =? 803)
               demo_add_to_page_cache_lru
               2 (demo_inode 10000) (FILE_MAPPING 77) [803; 802; 801] 3
               demo_readahead_mm)
    as (_ & sync' & head & pool1 & m1 & added & evss & owned & rest & _ & _
        & Hchain & _ & Hall).
  - intros b map c pool m0. split; [apply ReadpagesFacts.private_kept_refl|].
    reflexivity.
  - intros pool m0. split; [apply ReadpagesFacts.private_kept_refl|].
    reflexivity.
  - intros page mapping0 index m0.
    split; [apply demo_add_to_page_cache_lru_kept|].
    unfold demo_add_to_page_cache_lru. destruct (page =? 802); [reflexivity|].
    destruct (pages m0 !! page); reflexivity.
  - intros b owned pool sync m0. exists []. cbn. rewrite app_nil_r. reflexivity.
  - repeat (apply NoDup_cons; split; [set_solver|]). apply NoDup_nil_2.
  - set_solver.
  - vm_compute. reflexivity.
  - exists head, m1, added, evss. split; [exact Hchain|exact Hall].
Defined.

(** ** Bios in flight and the chain that waits for them *)

Module InFlightFacts.
Import Submit SubmitAll.

(** A bio has been grabbed: it is in hand or was submitted. *)
Local Abbreviation has_bio st := (is_Some (s_bio st) \/ s_submitted st <> []).

Lemma submit_bio_has_bio st : has_bio (submit_bio st) <-> has_bio st.
Proof.
  unfold submit_bio. destruct (s_bio st) as [b|] eqn:Hbio; cbn.
  - split; intros _; [left; eauto|right].
    intros Hc. apply app_eq_nil in Hc as [_ Hc]. discriminate.
  - rewrite Hbio. reflexivity.
Qed.

Lemma submit_bio_submitted st :
  s_submitted (submit_bio st) <> [] <-> has_bio st.
Proof.
  unfold submit_bio. destruct (s_bio st) as [b|] eqn:Hbio; cbn.
  - split; [intros _; left; eauto|].
    intros _ Hc. apply app_eq_nil in Hc as [_ Hc]. discriminate.
  - split; [auto|]. intros [[b Hb]|Hs]; [discriminate|exact Hs].
Qed.

Section WithSuperblock.

Variable clusterpages : nat.
Variable EROFS_UNALLOCATED_CACHED_PAGE : Z.
Variable tagptr_unfold_tags : Z -> Z.
Variable tagptr_unfold_ptr : Z -> Z.
Variable erofs_allocpage : list Z -> mm -> Z * list Z * mm.
Variable add_to_page_cache_lru : Z -> Z -> mm -> Z * mm.
Variable bio_add_page : list Z -> Z -> bool.

Hypothesis clusterpages_pos : (1 <= clusterpages)%nat.
Hypothesis clusterpages_u32 : Z.of_nat clusterpages < 2 ^ 32.

Lemma bio_add_has_bio fuel : forall first_index i page st st',
  bio_add bio_add_page fuel first_index i page st = Ok st' ->
  is_Some (s_bio st').
Proof.
  induction fuel as [|fuel IH]; intros first_index i page st st' Hrun;
    cbn [bio_add] in Hrun.
  - destruct (s_bio st) as [b|] eqn:Hbio; cbn [s_bio] in Hrun.
    + rewrite Hbio in Hrun. destruct (bio_add_page _ _); [|discriminate].
      injection Hrun as <-. cbn. eauto.
    + destruct (bio_add_page _ _); [|discriminate].
      injection Hrun as <-. cbn. eauto.
  - destruct (s_bio st) as [b|] eqn:Hbio; cbn [s_bio] in Hrun.
    + rewrite Hbio in Hrun. destruct (bio_add_page _ _).
      * injection Hrun as <-. cbn. eauto.
      * exact (IH _ _ _ _ _ Hrun).
    + destruct (bio_add_page _ _).
      * injection Hrun as <-. cbn. eauto.
      * exact (IH _ _ _ _ _ Hrun).
Qed.

(** The pages of a workgroup: [noio] counts those that need no read, and a
    bio is grabbed as soon as one does. *)
Lemma submit_pages_bios fuel todo :
  forall g first_index noio st m noio' st' m',
  0 <= noio -> noio + Z.of_nat (length todo) < 2 ^ 32 ->
  submit_pages EROFS_UNALLOCATED_CACHED_PAGE tagptr_unfold_tags
    tagptr_unfold_ptr erofs_allocpage add_to_page_cache_lru bio_add_page
    fuel todo g first_index noio st m = Ok (noio', st', m') ->
  exists k, (k <= length todo)%nat /\ noio' = noio + Z.of_nat k /\
            (has_bio st -> has_bio st') /\
            ((k < length todo)%nat -> has_bio st') /\
            (k = length todo -> has_bio st' -> has_bio st).
Proof.
  induction todo as [|i todo IH]; intros g first_index noio st m noio' st' m'
    Hlo Hhi Hrun; cbn [submit_pages] in Hrun.
  - injection Hrun as <- <- <-. exists 0%nat. cbn.
    split; [lia|]. split; [lia|]. split; [auto|]. split; [lia|auto].
  - cbn [length] in Hhi. rewrite Nat2Z.inj_succ in Hhi.
    destruct (z_erofs_workgrp_grab_page_for_submission _ _ _ _ _ _ _ _ _ _)
      as [[[page pool1] m1]| | | |]; try discriminate.
    cbn [mbind outcome_bind] in Hrun.
    destruct (page =? 0).
    + assert (Hnoio : u32 (noio + 1) = noio + 1) by (apply wrap_small; lia).
      rewrite Hnoio in Hrun.
      apply IH in Hrun as (k & Hk & -> & Hmono & Hlt & Heq); [|lia|lia].
      cbn [s_bio s_submitted] in Hmono, Hlt, Heq.
      exists (S k). cbn [length]. split; [lia|]. split; [lia|].
      split; [exact Hmono|]. split.
      * intros Hk'. apply Hlt. lia.
      * intros Hk'. apply Heq. lia.
    + destruct (bio_add _ _ _ _ _ _) as [st1| | | |] eqn:Hadd;
        try discriminate.
      cbn [mbind outcome_bind] in Hrun.
      apply bio_add_has_bio in Hadd.
      apply IH in Hrun as (k & Hk & -> & Hmono & Hlt & Heq); [|lia|lia].
      exists k. cbn [length]. split; [lia|]. split; [reflexivity|].
      split; [intros _; apply Hmono; left; exact Hadd|].
      split; [intros _; apply Hmono; left; exact Hadd|].
      intros Hk'. lia.
Qed.

(** What the end of a pass does to [ios[1]->head] and [lstgrp_io]. *)
Lemma submit_link_io g noio old ch m ch' m' :
  submit_link clusterpages g noio old ch m = Ok (ch', m') ->
  if noio <? Z.of_nat clusterpages
  then c_lstgrp_io ch' = Z.pos g /\ c_head1 ch' = c_head1 ch
  else c_lstgrp_io ch' = c_lstgrp_io ch /\
       c_head1 ch'
       = if c_lstgrp_io ch =? 0
         then (if decide (old = Z_EROFS_VLE_WORKGRP_TAIL)
               then Z_EROFS_VLE_WORKGRP_TAIL_CLOSED else old)
         else c_head1 ch.
Proof.
  unfold submit_link. intros Hrun.
  destruct (noio <? Z.of_nat clusterpages).
  { injection Hrun as <- <-. cbn. auto. }
  set (nxt := if decide (old = Z_EROFS_VLE_WORKGRP_TAIL)
              then Z_EROFS_VLE_WORKGRP_TAIL_CLOSED else old) in *.
  match type of Hrun with
  | mbind _ ?x = _ =>
      assert (H1 : forall ch1 m1, x = Ok (ch1, m1) ->
                c_lstgrp_io ch1 = c_lstgrp_io ch /\
                c_lstgrp_noio ch1 = c_lstgrp_noio ch /\
                c_head1 ch1 = if c_lstgrp_io ch =? 0 then nxt else c_head1 ch);
        [|destruct x as [[ch1 m1]| | | |]; try discriminate]
  end.
  { intros ch1 m1 Hx. destruct (c_lstgrp_io ch =? 0).
    - injection Hx as <- <-. cbn. auto.
    - destruct (deref_grp m (c_lstgrp_io ch)); try discriminate.
      cbn [mbind outcome_bind] in Hx. injection Hx as <- <-. auto. }
  destruct (H1 _ _ eq_refl) as (Hio1 & Hnoio1 & Hhead1).
  cbn [mbind outcome_bind] in Hrun.
  match type of Hrun with
  | mbind _ ?x = _ =>
      assert (H2 : forall ch2 m2, x = Ok (ch2, m2) ->
                c_lstgrp_io ch2 = c_lstgrp_io ch1 /\
                c_head1 ch2 = c_head1 ch1);
        [|destruct x as [[ch2 m2]| | | |]; try discriminate]
  end.
  { intros ch2 m2 Hx. destruct (c_lstgrp_noio ch1 =? 0).
    - injection Hx as <- <-. cbn. auto.
    - destruct (deref_grp m1 (c_lstgrp_noio ch1)); try discriminate.
      cbn [mbind outcome_bind] in Hx. injection Hx as <- <-. auto. }
  destruct (H2 _ _ eq_refl) as (Hio2 & Hhead2).
  cbn [mbind outcome_bind] in Hrun. injection Hrun as <- <-. cbn.
  split; congruence.
Qed.

(** Through the loop, a bio has been grabbed exactly if a workgroup is on
    the chain of [ios[1]]. *)
Lemma submit_all_loop_in_flight fuel : forall owned_head ch st m ch' st' m',
  (has_bio st <-> c_lstgrp_io ch <> 0) ->
  (c_lstgrp_io ch = 0 -> c_head1 ch = owned_head) ->
  (c_lstgrp_io ch <> 0 -> exists p, c_head1 ch = WORKGRP p) ->
  submit_all_loop clusterpages EROFS_UNALLOCATED_CACHED_PAGE tagptr_unfold_tags
    tagptr_unfold_ptr erofs_allocpage add_to_page_cache_lru bio_add_page
    fuel owned_head ch st m = Ok (ch', st', m') ->
  (has_bio st' <-> c_lstgrp_io ch' <> 0) /\
  (c_lstgrp_io ch' = 0 -> c_head1 ch' = Z_EROFS_VLE_WORKGRP_TAIL_CLOSED) /\
  (c_lstgrp_io ch' <> 0 -> exists p, c_head1 ch' = WORKGRP p).
Proof.
  induction fuel as [|fuel IH]; intros owned_head ch st m ch' st' m'
    Hbio Hnone Hsome Hrun; [discriminate|].
  cbn [submit_all_loop] in Hrun.
  destruct owned_head as [| | |g]; try discriminate.
  destruct (deref_grp m (Z.pos g)) as [grp| | | |]; try discriminate.
  cbn [mbind outcome_bind] in Hrun.
  destruct (submit_pages _ _ _ _ _ _ _ _ _ _ _ _ _)
    as [[[noio st2] m2]| | | |] eqn:Hpages; try discriminate.
  cbn [mbind outcome_bind] in Hrun.
  assert (Hlen : length (0%nat :: seq 1 (clusterpages - 1)) = clusterpages).
  { cbn [length]. rewrite length_seq. lia. }
  apply submit_pages_bios in Hpages as (k & Hk & Hnoio & Hmono & Hlt & Heq);
    [|lia|rewrite Hlen; lia].
  rewrite Hlen in Hk, Hlt, Heq. cbn [s_bio s_submitted] in Hmono, Heq.
  rewrite Z.add_0_l in Hnoio. subst noio.
  destruct (submit_link clusterpages g (Z.of_nat k) (grp_next grp) ch m2)
    as [[ch3 m3]| | | |] eqn:Hlink; try discriminate.
  cbn [mbind outcome_bind] in Hrun.
  apply submit_link_io in Hlink.
  assert (Hinv3 :
    (has_bio st2 <-> c_lstgrp_io ch3 <> 0) /\
    (c_lstgrp_io ch3 = 0 ->
     c_head1 ch3 = if decide (grp_next grp = Z_EROFS_VLE_WORKGRP_TAIL)
                   then Z_EROFS_VLE_WORKGRP_TAIL_CLOSED else grp_next grp) /\
    (c_lstgrp_io ch3 <> 0 -> exists p, c_head1 ch3 = WORKGRP p)).
  { destruct (Z.ltb_spec (Z.of_nat k) (Z.of_nat clusterpages)) as [Hsome_io|Hno_io].
    - destruct Hlink as [Hio Hhead]. rewrite Hio, Hhead.
      split; [split; [intros _; lia|intros _; apply Hlt; lia]|].
      split; [intros Hc; lia|]. intros _.
      destruct (decide (c_lstgrp_io ch = 0)) as [Hz|Hnz].
      + rewrite (Hnone Hz). eauto.
      + exact (Hsome Hnz).
    - destruct Hlink as [Hio Hhead]. rewrite Hio, Hhead.
      assert (Hkeq : k = clusterpages) by lia.
      split.
      { rewrite <- Hbio. split; [apply Heq; exact Hkeq|apply Hmono]. }
      split.
      + intros Hz. rewrite Hz. reflexivity.
      + intros Hnz. apply Z.eqb_neq in Hnz as Hnz'. rewrite Hnz'.
        exact (Hsome Hnz). }
  destruct Hinv3 as (Hbio3 & Hnone3 & Hsome3).
  destruct (decide (grp_next grp = Z_EROFS_VLE_WORKGRP_TAIL)) as [Htail|Hopen].
  - injection Hrun as <- <- <-. auto.
  - exact (IH _ _ _ _ _ _ _ Hbio3 Hnone3 Hsome3 Hrun).
Qed.

End WithSuperblock.
End InFlightFacts.

(** X30.  [z_erofs_vle_submit_all] leaves bios in flight exactly if it
    leaves workgroups on the chain of [ios[1]].  For clusters of at least
    one page, whenever the call returns true: it has submitted no bio if
    and only if [ios[1]->head] is TAIL_CLOSED.  So a workgroup that waits
    for its pages has a bio that will end, and [z_erofs_vle_unzip_wq], which
    the end of the last bio sets going, does not find the empty chain that
    its BUG_ON is there for: it decompresses the chain and puts the pages of
    its pool. *)
Theorem submit_all_bios_iff_io_chain :
  forall (clusterpages : nat) (CONFIG_PREEMPT_COUNT : bool)
         (EROFS_FS_HAS_MANAGED_CACHE : bool) (PAGE_SHIFT : Z)
         (z_erofs_onlinepage_index z_erofs_onlinepage_index2 : struct_page -> Z)
         (plain_copy : list Z -> list Z -> Z -> Z)
         (unzip_fast_percpu : list Z -> list Z -> Z -> Z -> Z)
         (unzip_vmap : list Z -> list Z -> Z -> Z -> bool -> Z)
         (erofs_vmap : list Z -> bool)
         (EROFS_UNALLOCATED_CACHED_PAGE : Z)
         (tagptr_unfold_tags tagptr_unfold_ptr : Z -> Z)
         (erofs_allocpage : list Z -> mm -> Z * list Z * mm)
         (add_to_page_cache_lru : Z -> Z -> mm -> Z * mm)
         (bio_add_page : list Z -> Z -> bool)
         (fuel : nat) (owned_head : z_erofs_vle_owned_workgrp_t)
         (pagepool : list Z) (fg_io0 fg_io1 : SubmitAll.z_erofs_vle_unzip_io)
         (force_fg atomic : bool) (last_index : Z) (m : mm)
         (r : SubmitAll.submitted),
    (1 <= clusterpages)%nat ->
    Z.of_nat clusterpages < 2 ^ 32 ->
    SubmitAll.z_erofs_vle_submit_all clusterpages CONFIG_PREEMPT_COUNT
      EROFS_UNALLOCATED_CACHED_PAGE tagptr_unfold_tags tagptr_unfold_ptr
      erofs_allocpage add_to_page_cache_lru bio_add_page fuel owned_head
      pagepool fg_io0 fg_io1 force_fg atomic last_index m = Ok r ->
    SubmitAll.r_ret r = true ->
    (SubmitAll.r_bios r = [] <->
     SubmitAll.io_head (SubmitAll.r_io1 r) = Z_EROFS_VLE_WORKGRP_TAIL_CLOSED) /\
    (SubmitAll.r_bios r <> [] ->
     forall fuel' m0,
       UnzipAll.z_erofs_vle_unzip_wq clusterpages EROFS_FS_HAS_MANAGED_CACHE
         PAGE_SHIFT z_erofs_onlinepage_index z_erofs_onlinepage_index2
         plain_copy unzip_fast_percpu unzip_vmap erofs_vmap erofs_allocpage
         fuel' (SubmitAll.io_head (SubmitAll.r_io1 r)) m0
       = '(page_pool, m1) ←
           UnzipAll.z_erofs_vle_unzip_all clusterpages
             EROFS_FS_HAS_MANAGED_CACHE PAGE_SHIFT z_erofs_onlinepage_index
             z_erofs_onlinepage_index2 plain_copy unzip_fast_percpu unzip_vmap
             erofs_vmap erofs_allocpage fuel'
             (SubmitAll.io_head (SubmitAll.r_io1 r)) [] m0;
         Read.put_pages_list page_pool m1).
Proof.
  intros clusterpages PC MC PAGE_SHIFT idx idx2 plain fast vmapf vmap unalloc
    tags ptr alloc add bio_add fuel owned_head pool fg_io0 fg_io1 force_fg
    atomic last_index m r Hpos Hu32 Hrun Hret.
  assert (Hiff : SubmitAll.r_bios r = [] <->
                 SubmitAll.io_head (SubmitAll.r_io1 r)
                 = Z_EROFS_VLE_WORKGRP_TAIL_CLOSED).
  { unfold SubmitAll.z_erofs_vle_submit_all in Hrun.
    destruct (decide (owned_head = Z_EROFS_VLE_WORKGRP_TAIL)) as [Htail|Hopen].
    { injection Hrun as <-. discriminate Hret. }
    assert (Hio1 : (if force_fg
                    then SubmitAll.prepare_io_handler (Some fg_io1) false
                    else SubmitAll.prepare_io_handler None true)
                   = Ok (SubmitAll.mk_io 0 Z_EROFS_VLE_WORKGRP_TAIL_CLOSED))
      by (destruct force_fg; reflexivity).
    rewrite Hio1 in Hrun.
    cbn [SubmitAll.prepare_io_handler negb mbind outcome_bind SubmitAll.io_head
         SubmitAll.io_pending_bios] in Hrun.
    destruct (SubmitAll.submit_all_loop _ _ _ _ _ _ _ _ _ _ _ _)
      as [[[ch st] m1]| | | |] eqn:Hloop; try discriminate.
    cbn [mbind outcome_bind] in Hrun.
    apply (InFlightFacts.submit_all_loop_in_flight clusterpages unalloc tags
             ptr alloc add bio_add Hpos Hu32) in Hloop
      as (Hbio & Hnone & Hsome).
    2:{ cbn. split; [intros [[b Hb]|Hs]; [discriminate|contradiction]|].
        intros Hc. contradiction. }
    2:{ intros _. reflexivity. }
    2:{ intros Hc. cbn in Hc. contradiction. }
    assert (Hhead : SubmitAll.s_submitted (SubmitAll.submit_bio st) = [] <->
                    SubmitAll.c_head1 ch = Z_EROFS_VLE_WORKGRP_TAIL_CLOSED).
    { pose proof (InFlightFacts.submit_bio_submitted st) as Hsub.
      destruct (decide (SubmitAll.c_lstgrp_io ch = 0)) as [Hz|Hnz].
      - split; [intros _; exact (Hnone Hz)|].
        intros _.
        destruct (SubmitAll.s_submitted (SubmitAll.submit_bio st)) as [|b l]
          eqn:Hs; [reflexivity|].
        exfalso. apply (proj1 Hbio); [|exact Hz].
        apply Hsub. discriminate.
      - destruct (Hsome Hnz) as [p Hp]. rewrite Hp.
        split; [|discriminate].
        intros Hs. exfalso.
        apply (proj2 Hsub); [apply Hbio; exact Hnz|exact Hs]. }
    match type of Hrun with
    | context [mbind _ ?x] => destruct x as [m2| | | |]; try discriminate
    end.
    cbn [mbind outcome_bind] in Hrun.
    destruct (negb force_fg && _).
    - injection Hrun as <-. cbn. exact Hhead.
    - destruct (Io.z_erofs_vle_unzip_kickoff _ _ _ _ _) as [pending kicks].
      injection Hrun as <-. cbn. exact Hhead. }
  split; [exact Hiff|].
  intros Hne fuel' m0. unfold UnzipAll.z_erofs_vle_unzip_wq.
  rewrite decide_False; [reflexivity|].
  intros Hc. apply Hne, Hiff. exact Hc.
Qed.

Lemma submit_all_bios_iff_io_chain_witness :
  exists r,
    demo_submit_all false demo_submit_mm = Ok r /\
    SubmitAll.r_bios r <> [] /\
    SubmitAll.io_head (SubmitAll.r_io1 r) <> Z_EROFS_VLE_WORKGRP_TAIL_CLOSED.
Proof.
  eexists. split; [vm_compute; reflexivity|].
  split; [discriminate|].
  edestruct (submit_all_bios_iff_io_chain 1 true true 12 pg_private pg_private
               (fun _ _ _ => 0) (fun _ _ _ _ => 0) (fun _ _ _ _ _ => 0)
               (fun _ => true) 0x5F0EF00D
               (fun v => Z.land v 1) (fun v => Z.land v (-2))
               demo_allocpage (fun _ _ m => (- ENOMEM, m)) (fun _ _ => true)
               2 (WORKGRP 1000) []
               (SubmitAll.mk_io 7 Z_EROFS_VLE_WORKGRP_NIL)
               (SubmitAll.mk_io 7 Z_EROFS_VLE_WORKGRP_NIL)
               false false 0 demo_submit_mm)
    as [Hiff _].
  - lia.
  - cbn. lia.
  - vm_compute. reflexivity.
  - reflexivity.
  - intros Hc. apply Hiff in Hc. discriminate Hc.
Defined.
